(** * AfterScan: frame alignment engine and batch pipeline controller

    A shallow embedding of the parts of [AfterScan.py] and
    [template_manager.py] that carry the alignment arithmetic, the frame
    transforms, the per-frame loop, the encoder orchestration and the job
    queue.

    Conventions of the embedding.
    - Python integers are [Z].  The floats that the template registry and
      [resize_image] multiply, divide and truncate are IEEE 754 binary64
      numbers, computed bit for bit ([Float64]).  Elsewhere a float is the
      exact rational [Q] it stands for; [round] is Python 3's
      round-half-to-even and [int] truncates toward zero.
    - A numpy image is a view onto a pixel buffer: basic slicing shares the
      buffer and moves the origin and the shape, as numpy does.
    - The module-level globals of [AfterScan.py] are the fields of one
      record; every function that reads or writes globals is a function on
      that record.  Log lines, dialogs, the status label, the files on disk
      and the callbacks registered with [win.after] are fields too.
    - Calls into OpenCV whose result is pixel data (template correlation,
      rotation, resizing) are taken from a record of functions. *)

From Stdlib Require Import ZArith QArith Qround List String Ascii Bool Lia Lqa
  Sorted SpecFloat.
Import ListNotations.
Local Open Scope Z_scope.

(** What a call gives: the value returned, or the name of the exception
    raised. *)
Inductive outcome (A : Type) :=
| Return (a : A)
| Raise (exn : string).
Arguments Return {A} a.
Arguments Raise {A} exn.

Definition and_then {A B} (r : outcome A) (k : A -> outcome B) : outcome B :=
  match r with
  | Return a => k a
  | Raise exn => Raise exn
  end.

(** ** Binary64 floats

    A C double as Python has it: sign, 53-bit significand and exponent, with
    signed zeros, infinities and NaN.  Every operation rounds to nearest,
    ties to even. *)

Module Float64.

Definition prec : Z := 53.
Definition emax : Z := 1024.

Definition float := spec_float.

Definition zero : float := S754_zero false.
Definition one : float := S754_finite false 4503599627370496 (-52).

Definition is_zero (x : float) : bool :=
  match x with
  | S754_zero _ => true
  | _ => false
  end.

Definition is_finite (x : float) : bool :=
  match x with
  | S754_zero _ | S754_finite _ _ _ => true
  | _ => false
  end.

Definition is_nan (x : float) : bool :=
  match x with
  | S754_nan => true
  | _ => false
  end.

(** The float nearest to an integer (an infinity beyond the largest
    float). *)
Definition of_Z (z : Z) : float := binary_normalize prec emax z 0 false.

(** The float nearest to the quotient of two integers. *)
Definition of_quotient (a b : Z) : float :=
  let exact z :=
    match z with
    | Z0 => S754_zero false
    | Zpos m => S754_finite false m 0
    | Zneg m => S754_finite true m 0
    end in
  SFdiv prec emax (exact a) (exact b).

Definition mul : float -> float -> float := SFmul prec emax.
Definition div : float -> float -> float := SFdiv prec emax.

(** The exact value of a finite float. *)
Definition to_Q (x : float) : Q :=
  match x with
  | S754_finite s m e =>
      ((if s then -1 else 1) * inject_Z (Zpos m) * (2 # 1) ^ e)%Q
  | _ => 0%Q
  end.

(** The integer part of a finite float. *)
Definition trunc (x : float) : option Z :=
  match x with
  | S754_zero _ => Some 0
  | S754_finite s m e =>
      let a :=
        match e with
        | Z0 => Zpos m
        | Zpos _ => Z.shiftl (Zpos m) e
        | Zneg _ => Z.shiftr (Zpos m) (- e)
        end in
      Some (if s then - a else a)
  | _ => None
  end.

End Float64.

(** ** Python arithmetic *)

Module Py.

(** [int(x)] on a float: truncation toward zero. *)
Definition int (x : Q) : Z :=
  if Qle_bool 0 x then Qfloor x else Qceiling x.

(** [round(x)] on a float: nearest integer, ties to the even neighbour. *)
Definition round (x : Q) : Z :=
  let f := Qfloor x in
  match Qcompare (x - inject_Z f) (1 # 2) with
  | Lt => f
  | Gt => f + 1
  | Eq => if Z.even f then f else f + 1
  end.

(** Bound of a slice [a[start:stop]] on an axis of length [n]: negative
    indices count from the end, and everything is clipped to [0, n]. *)
Definition slice_index (i n : Z) : Z :=
  if i <? 0 then Z.max (i + n) 0 else Z.min i n.

(** A number as the arithmetic operators see it: an [int] or a [float]. *)
Inductive number :=
| Int (z : Z)
| Float (x : Float64.float).

(** The conversion of an operand to a C double; an [int] beyond the range
    of a float raises. *)
Definition to_float (a : number) : outcome Float64.float :=
  match a with
  | Int z =>
      let x := Float64.of_Z z in
      if Float64.is_finite x then Return x else Raise "OverflowError"%string
  | Float x => Return x
  end.

(** [a * b]. *)
Definition mul (a b : number) : outcome number :=
  match a, b with
  | Int x, Int y => Return (Int (x * y))
  | _, _ =>
      match to_float a with
      | Raise exn => Raise exn
      | Return x =>
          match to_float b with
          | Raise exn => Raise exn
          | Return y => Return (Float (Float64.mul x y))
          end
      end
  end.

(** [a / b]. *)
Definition truediv (a b : number) : outcome number :=
  match a, b with
  | Int x, Int y =>
      if y =? 0 then Raise "ZeroDivisionError"%string
      else
        let q := Float64.of_quotient x y in
        if Float64.is_finite q then Return (Float q) else Raise "OverflowError"%string
  | _, _ =>
      match to_float a with
      | Raise exn => Raise exn
      | Return x =>
          match to_float b with
          | Raise exn => Raise exn
          | Return y =>
              if Float64.is_zero y then Raise "ZeroDivisionError"%string
              else Return (Float (Float64.div x y))
          end
      end
  end.

(** [int(a)]: truncation toward zero; an infinity or a NaN raises. *)
Definition int_of (a : number) : outcome Z :=
  match a with
  | Int z => Return z
  | Float x =>
      match Float64.trunc x with
      | Some z => Return z
      | None => Raise (if Float64.is_nan x then "ValueError"%string else "OverflowError"%string)
      end
  end.

(** [int(a * b)] and [int(a / b)]. *)
Definition int_mul (a b : number) : outcome Z :=
  match mul a b with
  | Return c => int_of c
  | Raise exn => Raise exn
  end.

Definition int_truediv (a b : number) : outcome Z :=
  match truediv a b with
  | Return c => int_of c
  | Raise exn => Raise exn
  end.

End Py.

(** ** Images *)

Definition pixel := Z.

Record ndarray := mk_ndarray {
  buffer : Z -> Z -> pixel;  (* storage, shared between an array and its views *)
  row0 : Z;                  (* buffer row of [a[0, 0]] *)
  col0 : Z;                  (* buffer column of [a[0, 0]] *)
  shape0 : Z;                (* [a.shape[0]], the height *)
  shape1 : Z                 (* [a.shape[1]], the width *)
}.

(** [a[r, c]] for an index inside the shape. *)
Definition at_ (a : ndarray) (r c : Z) : pixel :=
  buffer a (row0 a + r) (col0 a + c).

(** [a[r_start:r_stop, c_start:c_stop]]: a view, no pixel is copied. *)
Definition slice2 (a : ndarray) (r_start r_stop c_start c_stop : Z) : ndarray :=
  let rs := Py.slice_index r_start (shape0 a) in
  let re := Py.slice_index r_stop (shape0 a) in
  let cs := Py.slice_index c_start (shape1 a) in
  let ce := Py.slice_index c_stop (shape1 a) in
  {| buffer := buffer a;
     row0 := row0 a + rs;
     col0 := col0 a + cs;
     shape0 := Z.max 0 (re - rs);
     shape1 := Z.max 0 (ce - cs) |}.

(** Shapes that numpy can produce. *)
Definition valid_shape (a : ndarray) : Prop :=
  0 <= shape0 a /\ 0 <= shape1 a.

(** A freshly allocated array holding the pixels [f]. *)
Definition new_array (h w : Z) (f : Z -> Z -> pixel) : ndarray :=
  {| buffer := f; row0 := 0; col0 := 0; shape0 := h; shape1 := w |}.

(** ** Frame transform stage *)

Definition even_image (img : ndarray) : ndarray :=
  let width := shape1 img in
  let height := shape0 img in
  let X_end := if width mod 2 =? 1 then width - 1 else width in
  let Y_end := if height mod 2 =? 1 then height - 1 else height in
  if negb (X_end =? 0) || negb (Y_end =? 0)
  then slice2 img 0 Y_end 0 X_end
  else img.

Definition crop_image (img : ndarray) (top_left botton_right : Z * Z) : ndarray :=
  let width := shape1 img in
  let height := shape0 img in
  let Y_start := snd top_left in
  let Y_end := Z.min (snd botton_right) height in
  let X_start := fst top_left in
  let X_end := Z.min (fst botton_right) width in
  let X_end := if (X_end - X_start) mod 2 =? 1 then X_end - 1 else X_end in
  let Y_end := if (Y_end - Y_start) mod 2 =? 1 then Y_end - 1 else Y_end in
  slice2 img Y_start Y_end X_start X_end.

(** A crop rectangle as the selection tool commits it: corners inside the
    non-negative quadrant, bottom-right not before top-left. *)
Definition valid_rect (top_left botton_right : Z * Z) : Prop :=
  0 <= fst top_left <= fst botton_right /\
  0 <= snd top_left <= snd botton_right.

(** Sample images used in the examples. *)
Definition ramp (h w : Z) : ndarray := new_array h w (fun r c => 100 * r + c).

(** ** Values the program exchanges with its surroundings *)

Local Open Scope string_scope.
Local Open Scope Z_scope.

Inductive ffmpeg_state := Pending | Running | Completed.

(** An entry of [SourceDirFileList]: the number spelled by the digits of the
    file's basename, and what [cv2.imread] returns for the file. *)
Record source_file := mk_source_file {
  file_number : Z;
  file_image : option ndarray
}.

(** [os.path.join(dir, FrameFilenameOutputPattern % n)]. *)
Definition out_path := (string * Z)%type.

Definition out_path_eqb (a b : out_path) : bool :=
  String.eqb (fst a) (fst b) && (snd a =? snd b).

Inductive colour := red | green | black.

(** Texts written to [app_status_label]. *)
Inductive status :=
| NoStatus
| FrameGenerationOK                (* "Status: Frame generation OK" *)
| CancelledByUser                  (* "Status: Cancelled by user" *)
| FrameOddSize (frame : Z)         (* "Status: Frame %d - odd size" *)
| GeneratingFrames (percent : Q)   (* "Status: Generating frames %.1f%%" *)
| NoFramesToEncode                 (* "Status: No frames to encode" *)
| GeneratingVideo (percent : Q)    (* "Status: Generating video %.1f%%" *)
| FfmpegSyncLost                   (* "Error, ffmpeg sync lost" *)
| NoFeedbackFromFfmpeg             (* "No feedback from ffmpeg" *)
| GeneratingVideo100               (* "Status: Generating video 100%" *)
| VideoGeneratedOK                 (* "Status: Video generated OK" *)
| VideoGenerationFailed.           (* "Status: Video generation failed" *)

Inductive level := DEBUG | INFO | WARNING | ERROR.

(** The calls to [logging] made by the functions below, with their
    arguments ([%i] formats a float by truncating it). *)
Inductive message :=
| TemplateBiggerThanImage (w h image_w image_h : Z)
| HoleHeight (h : Z)
| HolePatternRatio (ratio : Py.number)
| FilmType_ (film : string) (hole_height : Z)
| FrameAlignTag (tag : string) (start frames : Z)
| FrameAlignTag2 (tag : string) (frame missing_rows move_y move_x : Z)
| FrameStabilizeTag (name : string) (frame w h move_x move_y : Z)
| ErrorReadingFrame (frame : Z)
| TargetSizeOneOddDimension
| ProcessingJob (entry : string) (current_frame : Z) (frames : string)
| CheckingFrameRange (first last found : Z)
| FirstFilenameInList (number : Z)
| GeneratedFfmpegCommand
| VideoGenerationTerminatedByUser
| VideoGeneratedOKMsg
| VideoGenerationFailedMsg
| FfmpegSyncLostMsg
| FfmpegLine
| CannotSuspend.

Definition log_record := (level * message)%type.

(** Message boxes, by kind and title. *)
Inductive dialog :=
| showwarning (title : string)
| showerror (title : string)
| showinfo (title : string)
| askyesno (title : string).

(** The functions handed to [win.after]. *)
Inductive callback :=
| cb_frame_generation_loop
| cb_video_generation_loop
| cb_job_processing_loop.

(** The command line given to [sp.Popen] by [call_ffmpeg]. *)
Record ffmpeg_cmd := mk_ffmpeg_cmd {
  cmd_start_number : Z;
  cmd_framerate : Z;
  cmd_input : string;               (* directory of the numbered frames *)
  cmd_frames : option Z;            (* -frames:v *)
  cmd_output : string * string      (* directory and name of the video *)
}.

(** A line of encoder output after [replace('=', ' ').split()]. *)
Inductive token := Number (n : Z) | Word.
Definition ffmpeg_line := list token.

(** OpenCV, as far as the pixels it computes are concerned.  Each function
    gives the content of the array the call returns; its shape is fixed by
    the caller ([dsize]). *)
Record cv2_api := mk_cv2_api {
  best_match : ndarray -> ndarray -> Z * Z;
    (* [max_loc] of [minMaxLoc(matchTemplate(GaussianBlur(cvtColor(img)),
       template, TM_CCOEFF_NORMED))], as (x, y) *)
  rotated : ndarray -> Q -> Z -> Z -> pixel;
    (* [warpAffine(img, getRotationMatrix2D(centre, angle, 1.0), (w, h))] *)
  translated : ndarray -> Q -> Q -> Z -> Z -> pixel;
    (* [warpAffine(img, [[1, 0, move_x], [0, 1, move_y]], (w, h))] *)
  resized : ndarray -> Z * Z -> Z -> Z -> pixel
    (* [resize(img, dsize)] *)
}.

(** The files the program sees.  Source directories are only read; the
    frames written to target directories and the videos are tracked. *)
Record filesystem := mk_filesystem {
  isdir : string -> bool;
  isfile : string -> bool;
  imread : string -> option ndarray;            (* template images, by path *)
  glob_source : string -> string -> list source_file;
                                 (* sorted(glob(join(SourceDir, pattern))) *)
  target_frames : list (out_path * ndarray);    (* picture_out-NNNNN.jpg *)
  video_files : list (string * string)
}.

Definition with_target_frames (v : list (out_path * ndarray)) (f : filesystem) : filesystem :=
  {| isdir := isdir f; isfile := isfile f; imread := imread f;
     glob_source := glob_source f; target_frames := v;
     video_files := video_files f |}.

Definition with_video_files (v : list (string * string)) (f : filesystem) : filesystem :=
  {| isdir := isdir f; isfile := isfile f; imread := imread f;
     glob_source := glob_source f; target_frames := target_frames f;
     video_files := v |}.

(** The keys of a project configuration that the pipeline reads. *)
Record project := mk_project {
  cfg_SourceDir : string;
  cfg_TargetDir : string;
  cfg_VideoTargetDir : string;
  cfg_FrameInputFilenamePattern : string;
  cfg_CurrentFrame : Z;
  cfg_EncodeAllFrames : bool;
  cfg_FrameFrom : Z;
  cfg_FrameTo : Z;
  cfg_FramesToEncode : string;
  cfg_FilmType : string;
  cfg_RotationAngle : Q;
  cfg_StabilizationThreshold : Q;
  cfg_CustomTemplateDefined : bool;
  cfg_CustomTemplateExpectedPos : Q * Q;
  cfg_CustomTemplateFilename : string;
  cfg_PerformCropping : bool;
  cfg_CropRectangle : (Z * Z) * (Z * Z);
  cfg_PerformStabilization : bool;
  cfg_PerformRotation : bool;
  cfg_HoleHeight : option Z;
  cfg_GenerateVideo : bool;
  cfg_VideoFilename : string;
  cfg_VideoFps : Z;
  cfg_skip_frame_regeneration : bool
}.

(** [project["FilmType"] = v] and [project["CurrentFrame"] = v]. *)
Definition with_FilmType (v : string) (p : project) : project :=
  {| cfg_SourceDir := cfg_SourceDir p; cfg_TargetDir := cfg_TargetDir p;
     cfg_VideoTargetDir := cfg_VideoTargetDir p;
     cfg_FrameInputFilenamePattern := cfg_FrameInputFilenamePattern p;
     cfg_CurrentFrame := cfg_CurrentFrame p;
     cfg_EncodeAllFrames := cfg_EncodeAllFrames p;
     cfg_FrameFrom := cfg_FrameFrom p; cfg_FrameTo := cfg_FrameTo p;
     cfg_FramesToEncode := cfg_FramesToEncode p;
     cfg_FilmType := v;
     cfg_RotationAngle := cfg_RotationAngle p;
     cfg_StabilizationThreshold := cfg_StabilizationThreshold p;
     cfg_CustomTemplateDefined := cfg_CustomTemplateDefined p;
     cfg_CustomTemplateExpectedPos := cfg_CustomTemplateExpectedPos p;
     cfg_CustomTemplateFilename := cfg_CustomTemplateFilename p;
     cfg_PerformCropping := cfg_PerformCropping p;
     cfg_CropRectangle := cfg_CropRectangle p;
     cfg_PerformStabilization := cfg_PerformStabilization p;
     cfg_PerformRotation := cfg_PerformRotation p;
     cfg_HoleHeight := cfg_HoleHeight p;
     cfg_GenerateVideo := cfg_GenerateVideo p;
     cfg_VideoFilename := cfg_VideoFilename p;
     cfg_VideoFps := cfg_VideoFps p;
     cfg_skip_frame_regeneration := cfg_skip_frame_regeneration p |}.

Definition with_CurrentFrame (v : Z) (p : project) : project :=
  {| cfg_SourceDir := cfg_SourceDir p; cfg_TargetDir := cfg_TargetDir p;
     cfg_VideoTargetDir := cfg_VideoTargetDir p;
     cfg_FrameInputFilenamePattern := cfg_FrameInputFilenamePattern p;
     cfg_CurrentFrame := v;
     cfg_EncodeAllFrames := cfg_EncodeAllFrames p;
     cfg_FrameFrom := cfg_FrameFrom p; cfg_FrameTo := cfg_FrameTo p;
     cfg_FramesToEncode := cfg_FramesToEncode p;
     cfg_FilmType := cfg_FilmType p;
     cfg_RotationAngle := cfg_RotationAngle p;
     cfg_StabilizationThreshold := cfg_StabilizationThreshold p;
     cfg_CustomTemplateDefined := cfg_CustomTemplateDefined p;
     cfg_CustomTemplateExpectedPos := cfg_CustomTemplateExpectedPos p;
     cfg_CustomTemplateFilename := cfg_CustomTemplateFilename p;
     cfg_PerformCropping := cfg_PerformCropping p;
     cfg_CropRectangle := cfg_CropRectangle p;
     cfg_PerformStabilization := cfg_PerformStabilization p;
     cfg_PerformRotation := cfg_PerformRotation p;
     cfg_HoleHeight := cfg_HoleHeight p;
     cfg_GenerateVideo := cfg_GenerateVideo p;
     cfg_VideoFilename := cfg_VideoFilename p;
     cfg_VideoFps := cfg_VideoFps p;
     cfg_skip_frame_regeneration := cfg_skip_frame_regeneration p |}.

(** A value of [job_list]: [{'project': ..., 'done': ...}]. *)
Record job := mk_job {
  job_project : project;
  done : bool
}.

(** ** The globals of [AfterScan.py] *)

(** Flow control and frame range. *)
Record Flow := mk_Flow {
  flow_ConvertLoopExitRequested : bool;
  flow_ConvertLoopRunning : bool;
  flow_BatchJobRunning : bool;
  flow_CurrentFrame : Z;
  flow_StartFrame : Z;
  flow_frames_to_encode : Z;
  flow_first_absolute_frame : Z;
  flow_ffmpeg_success : bool;
  flow_ffmpeg_encoding_status : ffmpeg_state
}.

(** Directories and file lists. *)
Record Files := mk_Files {
  files_SourceDir : string;
  files_TargetDir : string;
  files_VideoTargetDir : string;
  files_TargetVideoFilename : string;
  files_SourceDirFileList : list source_file;
  files_TargetDirFileList : list out_path;
  files_out_frame_width : Z;
  files_out_frame_height : Z
}.

(** Film hole search. *)
Record Hole := mk_Hole {
  hole_expected_pattern_pos : Q * Q;
  hole_expected_pattern_pos_custom : Q * Q;
  hole_pattern_filename : string;
  hole_pattern_filename_custom : string;
  hole_film_hole_template : option ndarray;
  hole_film_bw_template : option ndarray;
  hole_film_wb_template : option ndarray;
  hole_film_hole_height : Z;
  hole_HoleSearchTopLeft : Z * Z;
  hole_HoleSearchBottomRight : Z * Z;
  hole_CustomTemplateDefined : bool;
  hole_StabilizeAreaDefined : bool
}.

(** Values held by the widgets the pipeline reads. *)
Record Tk := mk_Tk {
  tk_perform_rotation : bool;
  tk_perform_stabilization : bool;
  tk_perform_cropping : bool;
  tk_generate_video : bool;
  tk_skip_frame_regeneration : bool;
  tk_encode_all_frames : bool;
  tk_frame_from_str : Z;
  tk_frame_to_str : Z;
  tk_film_type : string;
  tk_video_filename_name : string;
  tk_stabilization_bounds_alert : bool;
  tk_suspend_on_joblist_end : bool;
  tk_app_status_label : status * colour
}.

(** Project and platform values. *)
Record Proj := mk_Proj {
  proj_project_config : project;
  proj_project_config_from_file : bool;
  proj_project_name : string;
  proj_CropTopLeft : Z * Z;
  proj_CropBottomRight : Z * Z;
  proj_RotationAngle : Q;
  proj_StabilizationThreshold : Q;
  proj_ExpertMode : bool;
  proj_stabilization_bounds_alert_counter : Z;
  proj_VideoFps : Z;
  proj_job_list : list (string * job);
  proj_CurrentJobEntry : option string;
  proj_IsWindows : bool;
  proj_IsLinux : bool;
  proj_IsMac : bool
}.

(** What lies outside the program. *)
Record World := mk_World {
  world_log : list log_record;
  world_dialogs : list dialog;
  world_answers : list bool;
  world_scheduled : list callback;
  world_fs : filesystem;
  world_cv2 : cv2_api;
  world_spawned : list ffmpeg_cmd;
  world_ffmpeg_stdout : list ffmpeg_line;
  world_terminations : Z;
  world_bells : Z;
  world_suspends : Z;
  world_uncaught : list string;
  world_popen : list string -> bool
}.

Record globals := mk_globals {
  flow : Flow;
  files : Files;
  hole : Hole;
  tk : Tk;
  proj : Proj;
  world : World
}.

Definition upd_flow (f : Flow -> Flow) (g : globals) : globals :=
  {| flow := f (flow g); files := files g; hole := hole g; tk := tk g; proj := proj g; world := world g |}.

Definition upd_files (f : Files -> Files) (g : globals) : globals :=
  {| flow := flow g; files := f (files g); hole := hole g; tk := tk g; proj := proj g; world := world g |}.

Definition upd_hole (f : Hole -> Hole) (g : globals) : globals :=
  {| flow := flow g; files := files g; hole := f (hole g); tk := tk g; proj := proj g; world := world g |}.

Definition upd_tk (f : Tk -> Tk) (g : globals) : globals :=
  {| flow := flow g; files := files g; hole := hole g; tk := f (tk g); proj := proj g; world := world g |}.

Definition upd_proj (f : Proj -> Proj) (g : globals) : globals :=
  {| flow := flow g; files := files g; hole := hole g; tk := tk g; proj := f (proj g); world := world g |}.

Definition upd_world (f : World -> World) (g : globals) : globals :=
  {| flow := flow g; files := files g; hole := hole g; tk := tk g; proj := proj g; world := f (world g) |}.

(** Accessors and assignments: flow control and frame range. *)
Definition ConvertLoopExitRequested (g : globals) : bool := flow_ConvertLoopExitRequested (flow g).
Definition ConvertLoopRunning (g : globals) : bool := flow_ConvertLoopRunning (flow g).
Definition BatchJobRunning (g : globals) : bool := flow_BatchJobRunning (flow g).
Definition CurrentFrame (g : globals) : Z := flow_CurrentFrame (flow g).
Definition StartFrame (g : globals) : Z := flow_StartFrame (flow g).
Definition frames_to_encode (g : globals) : Z := flow_frames_to_encode (flow g).
Definition first_absolute_frame (g : globals) : Z := flow_first_absolute_frame (flow g).
Definition ffmpeg_success (g : globals) : bool := flow_ffmpeg_success (flow g).
Definition ffmpeg_encoding_status (g : globals) : ffmpeg_state := flow_ffmpeg_encoding_status (flow g).

Definition ConvertLoopExitRequested_set (v : bool) : globals -> globals :=
  upd_flow (fun x => {| flow_ConvertLoopExitRequested := v; flow_ConvertLoopRunning := flow_ConvertLoopRunning x; flow_BatchJobRunning := flow_BatchJobRunning x; flow_CurrentFrame := flow_CurrentFrame x; flow_StartFrame := flow_StartFrame x; flow_frames_to_encode := flow_frames_to_encode x; flow_first_absolute_frame := flow_first_absolute_frame x; flow_ffmpeg_success := flow_ffmpeg_success x; flow_ffmpeg_encoding_status := flow_ffmpeg_encoding_status x |}).
Definition ConvertLoopRunning_set (v : bool) : globals -> globals :=
  upd_flow (fun x => {| flow_ConvertLoopExitRequested := flow_ConvertLoopExitRequested x; flow_ConvertLoopRunning := v; flow_BatchJobRunning := flow_BatchJobRunning x; flow_CurrentFrame := flow_CurrentFrame x; flow_StartFrame := flow_StartFrame x; flow_frames_to_encode := flow_frames_to_encode x; flow_first_absolute_frame := flow_first_absolute_frame x; flow_ffmpeg_success := flow_ffmpeg_success x; flow_ffmpeg_encoding_status := flow_ffmpeg_encoding_status x |}).
Definition BatchJobRunning_set (v : bool) : globals -> globals :=
  upd_flow (fun x => {| flow_ConvertLoopExitRequested := flow_ConvertLoopExitRequested x; flow_ConvertLoopRunning := flow_ConvertLoopRunning x; flow_BatchJobRunning := v; flow_CurrentFrame := flow_CurrentFrame x; flow_StartFrame := flow_StartFrame x; flow_frames_to_encode := flow_frames_to_encode x; flow_first_absolute_frame := flow_first_absolute_frame x; flow_ffmpeg_success := flow_ffmpeg_success x; flow_ffmpeg_encoding_status := flow_ffmpeg_encoding_status x |}).
Definition CurrentFrame_set (v : Z) : globals -> globals :=
  upd_flow (fun x => {| flow_ConvertLoopExitRequested := flow_ConvertLoopExitRequested x; flow_ConvertLoopRunning := flow_ConvertLoopRunning x; flow_BatchJobRunning := flow_BatchJobRunning x; flow_CurrentFrame := v; flow_StartFrame := flow_StartFrame x; flow_frames_to_encode := flow_frames_to_encode x; flow_first_absolute_frame := flow_first_absolute_frame x; flow_ffmpeg_success := flow_ffmpeg_success x; flow_ffmpeg_encoding_status := flow_ffmpeg_encoding_status x |}).
Definition StartFrame_set (v : Z) : globals -> globals :=
  upd_flow (fun x => {| flow_ConvertLoopExitRequested := flow_ConvertLoopExitRequested x; flow_ConvertLoopRunning := flow_ConvertLoopRunning x; flow_BatchJobRunning := flow_BatchJobRunning x; flow_CurrentFrame := flow_CurrentFrame x; flow_StartFrame := v; flow_frames_to_encode := flow_frames_to_encode x; flow_first_absolute_frame := flow_first_absolute_frame x; flow_ffmpeg_success := flow_ffmpeg_success x; flow_ffmpeg_encoding_status := flow_ffmpeg_encoding_status x |}).
Definition frames_to_encode_set (v : Z) : globals -> globals :=
  upd_flow (fun x => {| flow_ConvertLoopExitRequested := flow_ConvertLoopExitRequested x; flow_ConvertLoopRunning := flow_ConvertLoopRunning x; flow_BatchJobRunning := flow_BatchJobRunning x; flow_CurrentFrame := flow_CurrentFrame x; flow_StartFrame := flow_StartFrame x; flow_frames_to_encode := v; flow_first_absolute_frame := flow_first_absolute_frame x; flow_ffmpeg_success := flow_ffmpeg_success x; flow_ffmpeg_encoding_status := flow_ffmpeg_encoding_status x |}).
Definition first_absolute_frame_set (v : Z) : globals -> globals :=
  upd_flow (fun x => {| flow_ConvertLoopExitRequested := flow_ConvertLoopExitRequested x; flow_ConvertLoopRunning := flow_ConvertLoopRunning x; flow_BatchJobRunning := flow_BatchJobRunning x; flow_CurrentFrame := flow_CurrentFrame x; flow_StartFrame := flow_StartFrame x; flow_frames_to_encode := flow_frames_to_encode x; flow_first_absolute_frame := v; flow_ffmpeg_success := flow_ffmpeg_success x; flow_ffmpeg_encoding_status := flow_ffmpeg_encoding_status x |}).
Definition ffmpeg_success_set (v : bool) : globals -> globals :=
  upd_flow (fun x => {| flow_ConvertLoopExitRequested := flow_ConvertLoopExitRequested x; flow_ConvertLoopRunning := flow_ConvertLoopRunning x; flow_BatchJobRunning := flow_BatchJobRunning x; flow_CurrentFrame := flow_CurrentFrame x; flow_StartFrame := flow_StartFrame x; flow_frames_to_encode := flow_frames_to_encode x; flow_first_absolute_frame := flow_first_absolute_frame x; flow_ffmpeg_success := v; flow_ffmpeg_encoding_status := flow_ffmpeg_encoding_status x |}).
Definition ffmpeg_encoding_status_set (v : ffmpeg_state) : globals -> globals :=
  upd_flow (fun x => {| flow_ConvertLoopExitRequested := flow_ConvertLoopExitRequested x; flow_ConvertLoopRunning := flow_ConvertLoopRunning x; flow_BatchJobRunning := flow_BatchJobRunning x; flow_CurrentFrame := flow_CurrentFrame x; flow_StartFrame := flow_StartFrame x; flow_frames_to_encode := flow_frames_to_encode x; flow_first_absolute_frame := flow_first_absolute_frame x; flow_ffmpeg_success := flow_ffmpeg_success x; flow_ffmpeg_encoding_status := v |}).

(** Accessors and assignments: directories and file lists. *)
Definition SourceDir (g : globals) : string := files_SourceDir (files g).
Definition TargetDir (g : globals) : string := files_TargetDir (files g).
Definition VideoTargetDir (g : globals) : string := files_VideoTargetDir (files g).
Definition TargetVideoFilename (g : globals) : string := files_TargetVideoFilename (files g).
Definition SourceDirFileList (g : globals) : list source_file := files_SourceDirFileList (files g).
Definition TargetDirFileList (g : globals) : list out_path := files_TargetDirFileList (files g).
Definition out_frame_width (g : globals) : Z := files_out_frame_width (files g).
Definition out_frame_height (g : globals) : Z := files_out_frame_height (files g).

Definition SourceDir_set (v : string) : globals -> globals :=
  upd_files (fun x => {| files_SourceDir := v; files_TargetDir := files_TargetDir x; files_VideoTargetDir := files_VideoTargetDir x; files_TargetVideoFilename := files_TargetVideoFilename x; files_SourceDirFileList := files_SourceDirFileList x; files_TargetDirFileList := files_TargetDirFileList x; files_out_frame_width := files_out_frame_width x; files_out_frame_height := files_out_frame_height x |}).
Definition TargetDir_set (v : string) : globals -> globals :=
  upd_files (fun x => {| files_SourceDir := files_SourceDir x; files_TargetDir := v; files_VideoTargetDir := files_VideoTargetDir x; files_TargetVideoFilename := files_TargetVideoFilename x; files_SourceDirFileList := files_SourceDirFileList x; files_TargetDirFileList := files_TargetDirFileList x; files_out_frame_width := files_out_frame_width x; files_out_frame_height := files_out_frame_height x |}).
Definition VideoTargetDir_set (v : string) : globals -> globals :=
  upd_files (fun x => {| files_SourceDir := files_SourceDir x; files_TargetDir := files_TargetDir x; files_VideoTargetDir := v; files_TargetVideoFilename := files_TargetVideoFilename x; files_SourceDirFileList := files_SourceDirFileList x; files_TargetDirFileList := files_TargetDirFileList x; files_out_frame_width := files_out_frame_width x; files_out_frame_height := files_out_frame_height x |}).
Definition TargetVideoFilename_set (v : string) : globals -> globals :=
  upd_files (fun x => {| files_SourceDir := files_SourceDir x; files_TargetDir := files_TargetDir x; files_VideoTargetDir := files_VideoTargetDir x; files_TargetVideoFilename := v; files_SourceDirFileList := files_SourceDirFileList x; files_TargetDirFileList := files_TargetDirFileList x; files_out_frame_width := files_out_frame_width x; files_out_frame_height := files_out_frame_height x |}).
Definition SourceDirFileList_set (v : list source_file) : globals -> globals :=
  upd_files (fun x => {| files_SourceDir := files_SourceDir x; files_TargetDir := files_TargetDir x; files_VideoTargetDir := files_VideoTargetDir x; files_TargetVideoFilename := files_TargetVideoFilename x; files_SourceDirFileList := v; files_TargetDirFileList := files_TargetDirFileList x; files_out_frame_width := files_out_frame_width x; files_out_frame_height := files_out_frame_height x |}).
Definition TargetDirFileList_set (v : list out_path) : globals -> globals :=
  upd_files (fun x => {| files_SourceDir := files_SourceDir x; files_TargetDir := files_TargetDir x; files_VideoTargetDir := files_VideoTargetDir x; files_TargetVideoFilename := files_TargetVideoFilename x; files_SourceDirFileList := files_SourceDirFileList x; files_TargetDirFileList := v; files_out_frame_width := files_out_frame_width x; files_out_frame_height := files_out_frame_height x |}).
Definition out_frame_width_set (v : Z) : globals -> globals :=
  upd_files (fun x => {| files_SourceDir := files_SourceDir x; files_TargetDir := files_TargetDir x; files_VideoTargetDir := files_VideoTargetDir x; files_TargetVideoFilename := files_TargetVideoFilename x; files_SourceDirFileList := files_SourceDirFileList x; files_TargetDirFileList := files_TargetDirFileList x; files_out_frame_width := v; files_out_frame_height := files_out_frame_height x |}).
Definition out_frame_height_set (v : Z) : globals -> globals :=
  upd_files (fun x => {| files_SourceDir := files_SourceDir x; files_TargetDir := files_TargetDir x; files_VideoTargetDir := files_VideoTargetDir x; files_TargetVideoFilename := files_TargetVideoFilename x; files_SourceDirFileList := files_SourceDirFileList x; files_TargetDirFileList := files_TargetDirFileList x; files_out_frame_width := files_out_frame_width x; files_out_frame_height := v |}).

(** Accessors and assignments: film hole search. *)
Definition expected_pattern_pos (g : globals) : Q * Q := hole_expected_pattern_pos (hole g).
Definition expected_pattern_pos_custom (g : globals) : Q * Q := hole_expected_pattern_pos_custom (hole g).
Definition pattern_filename (g : globals) : string := hole_pattern_filename (hole g).
Definition pattern_filename_custom (g : globals) : string := hole_pattern_filename_custom (hole g).
Definition film_hole_template (g : globals) : option ndarray := hole_film_hole_template (hole g).
Definition film_bw_template (g : globals) : option ndarray := hole_film_bw_template (hole g).
Definition film_wb_template (g : globals) : option ndarray := hole_film_wb_template (hole g).
Definition film_hole_height (g : globals) : Z := hole_film_hole_height (hole g).
Definition HoleSearchTopLeft (g : globals) : Z * Z := hole_HoleSearchTopLeft (hole g).
Definition HoleSearchBottomRight (g : globals) : Z * Z := hole_HoleSearchBottomRight (hole g).
Definition CustomTemplateDefined (g : globals) : bool := hole_CustomTemplateDefined (hole g).
Definition StabilizeAreaDefined (g : globals) : bool := hole_StabilizeAreaDefined (hole g).

Definition expected_pattern_pos_set (v : Q * Q) : globals -> globals :=
  upd_hole (fun x => {| hole_expected_pattern_pos := v; hole_expected_pattern_pos_custom := hole_expected_pattern_pos_custom x; hole_pattern_filename := hole_pattern_filename x; hole_pattern_filename_custom := hole_pattern_filename_custom x; hole_film_hole_template := hole_film_hole_template x; hole_film_bw_template := hole_film_bw_template x; hole_film_wb_template := hole_film_wb_template x; hole_film_hole_height := hole_film_hole_height x; hole_HoleSearchTopLeft := hole_HoleSearchTopLeft x; hole_HoleSearchBottomRight := hole_HoleSearchBottomRight x; hole_CustomTemplateDefined := hole_CustomTemplateDefined x; hole_StabilizeAreaDefined := hole_StabilizeAreaDefined x |}).
Definition expected_pattern_pos_custom_set (v : Q * Q) : globals -> globals :=
  upd_hole (fun x => {| hole_expected_pattern_pos := hole_expected_pattern_pos x; hole_expected_pattern_pos_custom := v; hole_pattern_filename := hole_pattern_filename x; hole_pattern_filename_custom := hole_pattern_filename_custom x; hole_film_hole_template := hole_film_hole_template x; hole_film_bw_template := hole_film_bw_template x; hole_film_wb_template := hole_film_wb_template x; hole_film_hole_height := hole_film_hole_height x; hole_HoleSearchTopLeft := hole_HoleSearchTopLeft x; hole_HoleSearchBottomRight := hole_HoleSearchBottomRight x; hole_CustomTemplateDefined := hole_CustomTemplateDefined x; hole_StabilizeAreaDefined := hole_StabilizeAreaDefined x |}).
Definition pattern_filename_set (v : string) : globals -> globals :=
  upd_hole (fun x => {| hole_expected_pattern_pos := hole_expected_pattern_pos x; hole_expected_pattern_pos_custom := hole_expected_pattern_pos_custom x; hole_pattern_filename := v; hole_pattern_filename_custom := hole_pattern_filename_custom x; hole_film_hole_template := hole_film_hole_template x; hole_film_bw_template := hole_film_bw_template x; hole_film_wb_template := hole_film_wb_template x; hole_film_hole_height := hole_film_hole_height x; hole_HoleSearchTopLeft := hole_HoleSearchTopLeft x; hole_HoleSearchBottomRight := hole_HoleSearchBottomRight x; hole_CustomTemplateDefined := hole_CustomTemplateDefined x; hole_StabilizeAreaDefined := hole_StabilizeAreaDefined x |}).
Definition pattern_filename_custom_set (v : string) : globals -> globals :=
  upd_hole (fun x => {| hole_expected_pattern_pos := hole_expected_pattern_pos x; hole_expected_pattern_pos_custom := hole_expected_pattern_pos_custom x; hole_pattern_filename := hole_pattern_filename x; hole_pattern_filename_custom := v; hole_film_hole_template := hole_film_hole_template x; hole_film_bw_template := hole_film_bw_template x; hole_film_wb_template := hole_film_wb_template x; hole_film_hole_height := hole_film_hole_height x; hole_HoleSearchTopLeft := hole_HoleSearchTopLeft x; hole_HoleSearchBottomRight := hole_HoleSearchBottomRight x; hole_CustomTemplateDefined := hole_CustomTemplateDefined x; hole_StabilizeAreaDefined := hole_StabilizeAreaDefined x |}).
Definition film_hole_template_set (v : option ndarray) : globals -> globals :=
  upd_hole (fun x => {| hole_expected_pattern_pos := hole_expected_pattern_pos x; hole_expected_pattern_pos_custom := hole_expected_pattern_pos_custom x; hole_pattern_filename := hole_pattern_filename x; hole_pattern_filename_custom := hole_pattern_filename_custom x; hole_film_hole_template := v; hole_film_bw_template := hole_film_bw_template x; hole_film_wb_template := hole_film_wb_template x; hole_film_hole_height := hole_film_hole_height x; hole_HoleSearchTopLeft := hole_HoleSearchTopLeft x; hole_HoleSearchBottomRight := hole_HoleSearchBottomRight x; hole_CustomTemplateDefined := hole_CustomTemplateDefined x; hole_StabilizeAreaDefined := hole_StabilizeAreaDefined x |}).
Definition film_bw_template_set (v : option ndarray) : globals -> globals :=
  upd_hole (fun x => {| hole_expected_pattern_pos := hole_expected_pattern_pos x; hole_expected_pattern_pos_custom := hole_expected_pattern_pos_custom x; hole_pattern_filename := hole_pattern_filename x; hole_pattern_filename_custom := hole_pattern_filename_custom x; hole_film_hole_template := hole_film_hole_template x; hole_film_bw_template := v; hole_film_wb_template := hole_film_wb_template x; hole_film_hole_height := hole_film_hole_height x; hole_HoleSearchTopLeft := hole_HoleSearchTopLeft x; hole_HoleSearchBottomRight := hole_HoleSearchBottomRight x; hole_CustomTemplateDefined := hole_CustomTemplateDefined x; hole_StabilizeAreaDefined := hole_StabilizeAreaDefined x |}).
Definition film_wb_template_set (v : option ndarray) : globals -> globals :=
  upd_hole (fun x => {| hole_expected_pattern_pos := hole_expected_pattern_pos x; hole_expected_pattern_pos_custom := hole_expected_pattern_pos_custom x; hole_pattern_filename := hole_pattern_filename x; hole_pattern_filename_custom := hole_pattern_filename_custom x; hole_film_hole_template := hole_film_hole_template x; hole_film_bw_template := hole_film_bw_template x; hole_film_wb_template := v; hole_film_hole_height := hole_film_hole_height x; hole_HoleSearchTopLeft := hole_HoleSearchTopLeft x; hole_HoleSearchBottomRight := hole_HoleSearchBottomRight x; hole_CustomTemplateDefined := hole_CustomTemplateDefined x; hole_StabilizeAreaDefined := hole_StabilizeAreaDefined x |}).
Definition film_hole_height_set (v : Z) : globals -> globals :=
  upd_hole (fun x => {| hole_expected_pattern_pos := hole_expected_pattern_pos x; hole_expected_pattern_pos_custom := hole_expected_pattern_pos_custom x; hole_pattern_filename := hole_pattern_filename x; hole_pattern_filename_custom := hole_pattern_filename_custom x; hole_film_hole_template := hole_film_hole_template x; hole_film_bw_template := hole_film_bw_template x; hole_film_wb_template := hole_film_wb_template x; hole_film_hole_height := v; hole_HoleSearchTopLeft := hole_HoleSearchTopLeft x; hole_HoleSearchBottomRight := hole_HoleSearchBottomRight x; hole_CustomTemplateDefined := hole_CustomTemplateDefined x; hole_StabilizeAreaDefined := hole_StabilizeAreaDefined x |}).
Definition HoleSearchTopLeft_set (v : Z * Z) : globals -> globals :=
  upd_hole (fun x => {| hole_expected_pattern_pos := hole_expected_pattern_pos x; hole_expected_pattern_pos_custom := hole_expected_pattern_pos_custom x; hole_pattern_filename := hole_pattern_filename x; hole_pattern_filename_custom := hole_pattern_filename_custom x; hole_film_hole_template := hole_film_hole_template x; hole_film_bw_template := hole_film_bw_template x; hole_film_wb_template := hole_film_wb_template x; hole_film_hole_height := hole_film_hole_height x; hole_HoleSearchTopLeft := v; hole_HoleSearchBottomRight := hole_HoleSearchBottomRight x; hole_CustomTemplateDefined := hole_CustomTemplateDefined x; hole_StabilizeAreaDefined := hole_StabilizeAreaDefined x |}).
Definition HoleSearchBottomRight_set (v : Z * Z) : globals -> globals :=
  upd_hole (fun x => {| hole_expected_pattern_pos := hole_expected_pattern_pos x; hole_expected_pattern_pos_custom := hole_expected_pattern_pos_custom x; hole_pattern_filename := hole_pattern_filename x; hole_pattern_filename_custom := hole_pattern_filename_custom x; hole_film_hole_template := hole_film_hole_template x; hole_film_bw_template := hole_film_bw_template x; hole_film_wb_template := hole_film_wb_template x; hole_film_hole_height := hole_film_hole_height x; hole_HoleSearchTopLeft := hole_HoleSearchTopLeft x; hole_HoleSearchBottomRight := v; hole_CustomTemplateDefined := hole_CustomTemplateDefined x; hole_StabilizeAreaDefined := hole_StabilizeAreaDefined x |}).
Definition CustomTemplateDefined_set (v : bool) : globals -> globals :=
  upd_hole (fun x => {| hole_expected_pattern_pos := hole_expected_pattern_pos x; hole_expected_pattern_pos_custom := hole_expected_pattern_pos_custom x; hole_pattern_filename := hole_pattern_filename x; hole_pattern_filename_custom := hole_pattern_filename_custom x; hole_film_hole_template := hole_film_hole_template x; hole_film_bw_template := hole_film_bw_template x; hole_film_wb_template := hole_film_wb_template x; hole_film_hole_height := hole_film_hole_height x; hole_HoleSearchTopLeft := hole_HoleSearchTopLeft x; hole_HoleSearchBottomRight := hole_HoleSearchBottomRight x; hole_CustomTemplateDefined := v; hole_StabilizeAreaDefined := hole_StabilizeAreaDefined x |}).
Definition StabilizeAreaDefined_set (v : bool) : globals -> globals :=
  upd_hole (fun x => {| hole_expected_pattern_pos := hole_expected_pattern_pos x; hole_expected_pattern_pos_custom := hole_expected_pattern_pos_custom x; hole_pattern_filename := hole_pattern_filename x; hole_pattern_filename_custom := hole_pattern_filename_custom x; hole_film_hole_template := hole_film_hole_template x; hole_film_bw_template := hole_film_bw_template x; hole_film_wb_template := hole_film_wb_template x; hole_film_hole_height := hole_film_hole_height x; hole_HoleSearchTopLeft := hole_HoleSearchTopLeft x; hole_HoleSearchBottomRight := hole_HoleSearchBottomRight x; hole_CustomTemplateDefined := hole_CustomTemplateDefined x; hole_StabilizeAreaDefined := v |}).

(** Accessors and assignments: values held by the widgets the pipeline reads. *)
Definition perform_rotation (g : globals) : bool := tk_perform_rotation (tk g).
Definition perform_stabilization (g : globals) : bool := tk_perform_stabilization (tk g).
Definition perform_cropping (g : globals) : bool := tk_perform_cropping (tk g).
Definition generate_video (g : globals) : bool := tk_generate_video (tk g).
Definition skip_frame_regeneration (g : globals) : bool := tk_skip_frame_regeneration (tk g).
Definition encode_all_frames (g : globals) : bool := tk_encode_all_frames (tk g).
Definition frame_from_str (g : globals) : Z := tk_frame_from_str (tk g).
Definition frame_to_str (g : globals) : Z := tk_frame_to_str (tk g).
Definition film_type (g : globals) : string := tk_film_type (tk g).
Definition video_filename_name (g : globals) : string := tk_video_filename_name (tk g).
Definition stabilization_bounds_alert (g : globals) : bool := tk_stabilization_bounds_alert (tk g).
Definition suspend_on_joblist_end (g : globals) : bool := tk_suspend_on_joblist_end (tk g).
Definition app_status_label (g : globals) : status * colour := tk_app_status_label (tk g).

Definition perform_rotation_set (v : bool) : globals -> globals :=
  upd_tk (fun x => {| tk_perform_rotation := v; tk_perform_stabilization := tk_perform_stabilization x; tk_perform_cropping := tk_perform_cropping x; tk_generate_video := tk_generate_video x; tk_skip_frame_regeneration := tk_skip_frame_regeneration x; tk_encode_all_frames := tk_encode_all_frames x; tk_frame_from_str := tk_frame_from_str x; tk_frame_to_str := tk_frame_to_str x; tk_film_type := tk_film_type x; tk_video_filename_name := tk_video_filename_name x; tk_stabilization_bounds_alert := tk_stabilization_bounds_alert x; tk_suspend_on_joblist_end := tk_suspend_on_joblist_end x; tk_app_status_label := tk_app_status_label x |}).
Definition perform_stabilization_set (v : bool) : globals -> globals :=
  upd_tk (fun x => {| tk_perform_rotation := tk_perform_rotation x; tk_perform_stabilization := v; tk_perform_cropping := tk_perform_cropping x; tk_generate_video := tk_generate_video x; tk_skip_frame_regeneration := tk_skip_frame_regeneration x; tk_encode_all_frames := tk_encode_all_frames x; tk_frame_from_str := tk_frame_from_str x; tk_frame_to_str := tk_frame_to_str x; tk_film_type := tk_film_type x; tk_video_filename_name := tk_video_filename_name x; tk_stabilization_bounds_alert := tk_stabilization_bounds_alert x; tk_suspend_on_joblist_end := tk_suspend_on_joblist_end x; tk_app_status_label := tk_app_status_label x |}).
Definition perform_cropping_set (v : bool) : globals -> globals :=
  upd_tk (fun x => {| tk_perform_rotation := tk_perform_rotation x; tk_perform_stabilization := tk_perform_stabilization x; tk_perform_cropping := v; tk_generate_video := tk_generate_video x; tk_skip_frame_regeneration := tk_skip_frame_regeneration x; tk_encode_all_frames := tk_encode_all_frames x; tk_frame_from_str := tk_frame_from_str x; tk_frame_to_str := tk_frame_to_str x; tk_film_type := tk_film_type x; tk_video_filename_name := tk_video_filename_name x; tk_stabilization_bounds_alert := tk_stabilization_bounds_alert x; tk_suspend_on_joblist_end := tk_suspend_on_joblist_end x; tk_app_status_label := tk_app_status_label x |}).
Definition generate_video_set (v : bool) : globals -> globals :=
  upd_tk (fun x => {| tk_perform_rotation := tk_perform_rotation x; tk_perform_stabilization := tk_perform_stabilization x; tk_perform_cropping := tk_perform_cropping x; tk_generate_video := v; tk_skip_frame_regeneration := tk_skip_frame_regeneration x; tk_encode_all_frames := tk_encode_all_frames x; tk_frame_from_str := tk_frame_from_str x; tk_frame_to_str := tk_frame_to_str x; tk_film_type := tk_film_type x; tk_video_filename_name := tk_video_filename_name x; tk_stabilization_bounds_alert := tk_stabilization_bounds_alert x; tk_suspend_on_joblist_end := tk_suspend_on_joblist_end x; tk_app_status_label := tk_app_status_label x |}).
Definition skip_frame_regeneration_set (v : bool) : globals -> globals :=
  upd_tk (fun x => {| tk_perform_rotation := tk_perform_rotation x; tk_perform_stabilization := tk_perform_stabilization x; tk_perform_cropping := tk_perform_cropping x; tk_generate_video := tk_generate_video x; tk_skip_frame_regeneration := v; tk_encode_all_frames := tk_encode_all_frames x; tk_frame_from_str := tk_frame_from_str x; tk_frame_to_str := tk_frame_to_str x; tk_film_type := tk_film_type x; tk_video_filename_name := tk_video_filename_name x; tk_stabilization_bounds_alert := tk_stabilization_bounds_alert x; tk_suspend_on_joblist_end := tk_suspend_on_joblist_end x; tk_app_status_label := tk_app_status_label x |}).
Definition encode_all_frames_set (v : bool) : globals -> globals :=
  upd_tk (fun x => {| tk_perform_rotation := tk_perform_rotation x; tk_perform_stabilization := tk_perform_stabilization x; tk_perform_cropping := tk_perform_cropping x; tk_generate_video := tk_generate_video x; tk_skip_frame_regeneration := tk_skip_frame_regeneration x; tk_encode_all_frames := v; tk_frame_from_str := tk_frame_from_str x; tk_frame_to_str := tk_frame_to_str x; tk_film_type := tk_film_type x; tk_video_filename_name := tk_video_filename_name x; tk_stabilization_bounds_alert := tk_stabilization_bounds_alert x; tk_suspend_on_joblist_end := tk_suspend_on_joblist_end x; tk_app_status_label := tk_app_status_label x |}).
Definition frame_from_str_set (v : Z) : globals -> globals :=
  upd_tk (fun x => {| tk_perform_rotation := tk_perform_rotation x; tk_perform_stabilization := tk_perform_stabilization x; tk_perform_cropping := tk_perform_cropping x; tk_generate_video := tk_generate_video x; tk_skip_frame_regeneration := tk_skip_frame_regeneration x; tk_encode_all_frames := tk_encode_all_frames x; tk_frame_from_str := v; tk_frame_to_str := tk_frame_to_str x; tk_film_type := tk_film_type x; tk_video_filename_name := tk_video_filename_name x; tk_stabilization_bounds_alert := tk_stabilization_bounds_alert x; tk_suspend_on_joblist_end := tk_suspend_on_joblist_end x; tk_app_status_label := tk_app_status_label x |}).
Definition frame_to_str_set (v : Z) : globals -> globals :=
  upd_tk (fun x => {| tk_perform_rotation := tk_perform_rotation x; tk_perform_stabilization := tk_perform_stabilization x; tk_perform_cropping := tk_perform_cropping x; tk_generate_video := tk_generate_video x; tk_skip_frame_regeneration := tk_skip_frame_regeneration x; tk_encode_all_frames := tk_encode_all_frames x; tk_frame_from_str := tk_frame_from_str x; tk_frame_to_str := v; tk_film_type := tk_film_type x; tk_video_filename_name := tk_video_filename_name x; tk_stabilization_bounds_alert := tk_stabilization_bounds_alert x; tk_suspend_on_joblist_end := tk_suspend_on_joblist_end x; tk_app_status_label := tk_app_status_label x |}).
Definition film_type_set (v : string) : globals -> globals :=
  upd_tk (fun x => {| tk_perform_rotation := tk_perform_rotation x; tk_perform_stabilization := tk_perform_stabilization x; tk_perform_cropping := tk_perform_cropping x; tk_generate_video := tk_generate_video x; tk_skip_frame_regeneration := tk_skip_frame_regeneration x; tk_encode_all_frames := tk_encode_all_frames x; tk_frame_from_str := tk_frame_from_str x; tk_frame_to_str := tk_frame_to_str x; tk_film_type := v; tk_video_filename_name := tk_video_filename_name x; tk_stabilization_bounds_alert := tk_stabilization_bounds_alert x; tk_suspend_on_joblist_end := tk_suspend_on_joblist_end x; tk_app_status_label := tk_app_status_label x |}).
Definition video_filename_name_set (v : string) : globals -> globals :=
  upd_tk (fun x => {| tk_perform_rotation := tk_perform_rotation x; tk_perform_stabilization := tk_perform_stabilization x; tk_perform_cropping := tk_perform_cropping x; tk_generate_video := tk_generate_video x; tk_skip_frame_regeneration := tk_skip_frame_regeneration x; tk_encode_all_frames := tk_encode_all_frames x; tk_frame_from_str := tk_frame_from_str x; tk_frame_to_str := tk_frame_to_str x; tk_film_type := tk_film_type x; tk_video_filename_name := v; tk_stabilization_bounds_alert := tk_stabilization_bounds_alert x; tk_suspend_on_joblist_end := tk_suspend_on_joblist_end x; tk_app_status_label := tk_app_status_label x |}).
Definition stabilization_bounds_alert_set (v : bool) : globals -> globals :=
  upd_tk (fun x => {| tk_perform_rotation := tk_perform_rotation x; tk_perform_stabilization := tk_perform_stabilization x; tk_perform_cropping := tk_perform_cropping x; tk_generate_video := tk_generate_video x; tk_skip_frame_regeneration := tk_skip_frame_regeneration x; tk_encode_all_frames := tk_encode_all_frames x; tk_frame_from_str := tk_frame_from_str x; tk_frame_to_str := tk_frame_to_str x; tk_film_type := tk_film_type x; tk_video_filename_name := tk_video_filename_name x; tk_stabilization_bounds_alert := v; tk_suspend_on_joblist_end := tk_suspend_on_joblist_end x; tk_app_status_label := tk_app_status_label x |}).
Definition suspend_on_joblist_end_set (v : bool) : globals -> globals :=
  upd_tk (fun x => {| tk_perform_rotation := tk_perform_rotation x; tk_perform_stabilization := tk_perform_stabilization x; tk_perform_cropping := tk_perform_cropping x; tk_generate_video := tk_generate_video x; tk_skip_frame_regeneration := tk_skip_frame_regeneration x; tk_encode_all_frames := tk_encode_all_frames x; tk_frame_from_str := tk_frame_from_str x; tk_frame_to_str := tk_frame_to_str x; tk_film_type := tk_film_type x; tk_video_filename_name := tk_video_filename_name x; tk_stabilization_bounds_alert := tk_stabilization_bounds_alert x; tk_suspend_on_joblist_end := v; tk_app_status_label := tk_app_status_label x |}).
Definition app_status_label_set (v : status * colour) : globals -> globals :=
  upd_tk (fun x => {| tk_perform_rotation := tk_perform_rotation x; tk_perform_stabilization := tk_perform_stabilization x; tk_perform_cropping := tk_perform_cropping x; tk_generate_video := tk_generate_video x; tk_skip_frame_regeneration := tk_skip_frame_regeneration x; tk_encode_all_frames := tk_encode_all_frames x; tk_frame_from_str := tk_frame_from_str x; tk_frame_to_str := tk_frame_to_str x; tk_film_type := tk_film_type x; tk_video_filename_name := tk_video_filename_name x; tk_stabilization_bounds_alert := tk_stabilization_bounds_alert x; tk_suspend_on_joblist_end := tk_suspend_on_joblist_end x; tk_app_status_label := v |}).

(** Accessors and assignments: project and platform values. *)
Definition project_config (g : globals) : project := proj_project_config (proj g).
Definition project_config_from_file (g : globals) : bool := proj_project_config_from_file (proj g).
Definition project_name (g : globals) : string := proj_project_name (proj g).
Definition CropTopLeft (g : globals) : Z * Z := proj_CropTopLeft (proj g).
Definition CropBottomRight (g : globals) : Z * Z := proj_CropBottomRight (proj g).
Definition RotationAngle (g : globals) : Q := proj_RotationAngle (proj g).
Definition StabilizationThreshold (g : globals) : Q := proj_StabilizationThreshold (proj g).
Definition ExpertMode (g : globals) : bool := proj_ExpertMode (proj g).
Definition stabilization_bounds_alert_counter (g : globals) : Z := proj_stabilization_bounds_alert_counter (proj g).
Definition VideoFps (g : globals) : Z := proj_VideoFps (proj g).
Definition job_list (g : globals) : list (string * job) := proj_job_list (proj g).
Definition CurrentJobEntry (g : globals) : option string := proj_CurrentJobEntry (proj g).
Definition IsWindows (g : globals) : bool := proj_IsWindows (proj g).
Definition IsLinux (g : globals) : bool := proj_IsLinux (proj g).
Definition IsMac (g : globals) : bool := proj_IsMac (proj g).

Definition project_config_set (v : project) : globals -> globals :=
  upd_proj (fun x => {| proj_project_config := v; proj_project_config_from_file := proj_project_config_from_file x; proj_project_name := proj_project_name x; proj_CropTopLeft := proj_CropTopLeft x; proj_CropBottomRight := proj_CropBottomRight x; proj_RotationAngle := proj_RotationAngle x; proj_StabilizationThreshold := proj_StabilizationThreshold x; proj_ExpertMode := proj_ExpertMode x; proj_stabilization_bounds_alert_counter := proj_stabilization_bounds_alert_counter x; proj_VideoFps := proj_VideoFps x; proj_job_list := proj_job_list x; proj_CurrentJobEntry := proj_CurrentJobEntry x; proj_IsWindows := proj_IsWindows x; proj_IsLinux := proj_IsLinux x; proj_IsMac := proj_IsMac x |}).
Definition project_config_from_file_set (v : bool) : globals -> globals :=
  upd_proj (fun x => {| proj_project_config := proj_project_config x; proj_project_config_from_file := v; proj_project_name := proj_project_name x; proj_CropTopLeft := proj_CropTopLeft x; proj_CropBottomRight := proj_CropBottomRight x; proj_RotationAngle := proj_RotationAngle x; proj_StabilizationThreshold := proj_StabilizationThreshold x; proj_ExpertMode := proj_ExpertMode x; proj_stabilization_bounds_alert_counter := proj_stabilization_bounds_alert_counter x; proj_VideoFps := proj_VideoFps x; proj_job_list := proj_job_list x; proj_CurrentJobEntry := proj_CurrentJobEntry x; proj_IsWindows := proj_IsWindows x; proj_IsLinux := proj_IsLinux x; proj_IsMac := proj_IsMac x |}).
Definition project_name_set (v : string) : globals -> globals :=
  upd_proj (fun x => {| proj_project_config := proj_project_config x; proj_project_config_from_file := proj_project_config_from_file x; proj_project_name := v; proj_CropTopLeft := proj_CropTopLeft x; proj_CropBottomRight := proj_CropBottomRight x; proj_RotationAngle := proj_RotationAngle x; proj_StabilizationThreshold := proj_StabilizationThreshold x; proj_ExpertMode := proj_ExpertMode x; proj_stabilization_bounds_alert_counter := proj_stabilization_bounds_alert_counter x; proj_VideoFps := proj_VideoFps x; proj_job_list := proj_job_list x; proj_CurrentJobEntry := proj_CurrentJobEntry x; proj_IsWindows := proj_IsWindows x; proj_IsLinux := proj_IsLinux x; proj_IsMac := proj_IsMac x |}).
Definition CropTopLeft_set (v : Z * Z) : globals -> globals :=
  upd_proj (fun x => {| proj_project_config := proj_project_config x; proj_project_config_from_file := proj_project_config_from_file x; proj_project_name := proj_project_name x; proj_CropTopLeft := v; proj_CropBottomRight := proj_CropBottomRight x; proj_RotationAngle := proj_RotationAngle x; proj_StabilizationThreshold := proj_StabilizationThreshold x; proj_ExpertMode := proj_ExpertMode x; proj_stabilization_bounds_alert_counter := proj_stabilization_bounds_alert_counter x; proj_VideoFps := proj_VideoFps x; proj_job_list := proj_job_list x; proj_CurrentJobEntry := proj_CurrentJobEntry x; proj_IsWindows := proj_IsWindows x; proj_IsLinux := proj_IsLinux x; proj_IsMac := proj_IsMac x |}).
Definition CropBottomRight_set (v : Z * Z) : globals -> globals :=
  upd_proj (fun x => {| proj_project_config := proj_project_config x; proj_project_config_from_file := proj_project_config_from_file x; proj_project_name := proj_project_name x; proj_CropTopLeft := proj_CropTopLeft x; proj_CropBottomRight := v; proj_RotationAngle := proj_RotationAngle x; proj_StabilizationThreshold := proj_StabilizationThreshold x; proj_ExpertMode := proj_ExpertMode x; proj_stabilization_bounds_alert_counter := proj_stabilization_bounds_alert_counter x; proj_VideoFps := proj_VideoFps x; proj_job_list := proj_job_list x; proj_CurrentJobEntry := proj_CurrentJobEntry x; proj_IsWindows := proj_IsWindows x; proj_IsLinux := proj_IsLinux x; proj_IsMac := proj_IsMac x |}).
Definition RotationAngle_set (v : Q) : globals -> globals :=
  upd_proj (fun x => {| proj_project_config := proj_project_config x; proj_project_config_from_file := proj_project_config_from_file x; proj_project_name := proj_project_name x; proj_CropTopLeft := proj_CropTopLeft x; proj_CropBottomRight := proj_CropBottomRight x; proj_RotationAngle := v; proj_StabilizationThreshold := proj_StabilizationThreshold x; proj_ExpertMode := proj_ExpertMode x; proj_stabilization_bounds_alert_counter := proj_stabilization_bounds_alert_counter x; proj_VideoFps := proj_VideoFps x; proj_job_list := proj_job_list x; proj_CurrentJobEntry := proj_CurrentJobEntry x; proj_IsWindows := proj_IsWindows x; proj_IsLinux := proj_IsLinux x; proj_IsMac := proj_IsMac x |}).
Definition StabilizationThreshold_set (v : Q) : globals -> globals :=
  upd_proj (fun x => {| proj_project_config := proj_project_config x; proj_project_config_from_file := proj_project_config_from_file x; proj_project_name := proj_project_name x; proj_CropTopLeft := proj_CropTopLeft x; proj_CropBottomRight := proj_CropBottomRight x; proj_RotationAngle := proj_RotationAngle x; proj_StabilizationThreshold := v; proj_ExpertMode := proj_ExpertMode x; proj_stabilization_bounds_alert_counter := proj_stabilization_bounds_alert_counter x; proj_VideoFps := proj_VideoFps x; proj_job_list := proj_job_list x; proj_CurrentJobEntry := proj_CurrentJobEntry x; proj_IsWindows := proj_IsWindows x; proj_IsLinux := proj_IsLinux x; proj_IsMac := proj_IsMac x |}).
Definition ExpertMode_set (v : bool) : globals -> globals :=
  upd_proj (fun x => {| proj_project_config := proj_project_config x; proj_project_config_from_file := proj_project_config_from_file x; proj_project_name := proj_project_name x; proj_CropTopLeft := proj_CropTopLeft x; proj_CropBottomRight := proj_CropBottomRight x; proj_RotationAngle := proj_RotationAngle x; proj_StabilizationThreshold := proj_StabilizationThreshold x; proj_ExpertMode := v; proj_stabilization_bounds_alert_counter := proj_stabilization_bounds_alert_counter x; proj_VideoFps := proj_VideoFps x; proj_job_list := proj_job_list x; proj_CurrentJobEntry := proj_CurrentJobEntry x; proj_IsWindows := proj_IsWindows x; proj_IsLinux := proj_IsLinux x; proj_IsMac := proj_IsMac x |}).
Definition stabilization_bounds_alert_counter_set (v : Z) : globals -> globals :=
  upd_proj (fun x => {| proj_project_config := proj_project_config x; proj_project_config_from_file := proj_project_config_from_file x; proj_project_name := proj_project_name x; proj_CropTopLeft := proj_CropTopLeft x; proj_CropBottomRight := proj_CropBottomRight x; proj_RotationAngle := proj_RotationAngle x; proj_StabilizationThreshold := proj_StabilizationThreshold x; proj_ExpertMode := proj_ExpertMode x; proj_stabilization_bounds_alert_counter := v; proj_VideoFps := proj_VideoFps x; proj_job_list := proj_job_list x; proj_CurrentJobEntry := proj_CurrentJobEntry x; proj_IsWindows := proj_IsWindows x; proj_IsLinux := proj_IsLinux x; proj_IsMac := proj_IsMac x |}).
Definition VideoFps_set (v : Z) : globals -> globals :=
  upd_proj (fun x => {| proj_project_config := proj_project_config x; proj_project_config_from_file := proj_project_config_from_file x; proj_project_name := proj_project_name x; proj_CropTopLeft := proj_CropTopLeft x; proj_CropBottomRight := proj_CropBottomRight x; proj_RotationAngle := proj_RotationAngle x; proj_StabilizationThreshold := proj_StabilizationThreshold x; proj_ExpertMode := proj_ExpertMode x; proj_stabilization_bounds_alert_counter := proj_stabilization_bounds_alert_counter x; proj_VideoFps := v; proj_job_list := proj_job_list x; proj_CurrentJobEntry := proj_CurrentJobEntry x; proj_IsWindows := proj_IsWindows x; proj_IsLinux := proj_IsLinux x; proj_IsMac := proj_IsMac x |}).
Definition job_list_set (v : list (string * job)) : globals -> globals :=
  upd_proj (fun x => {| proj_project_config := proj_project_config x; proj_project_config_from_file := proj_project_config_from_file x; proj_project_name := proj_project_name x; proj_CropTopLeft := proj_CropTopLeft x; proj_CropBottomRight := proj_CropBottomRight x; proj_RotationAngle := proj_RotationAngle x; proj_StabilizationThreshold := proj_StabilizationThreshold x; proj_ExpertMode := proj_ExpertMode x; proj_stabilization_bounds_alert_counter := proj_stabilization_bounds_alert_counter x; proj_VideoFps := proj_VideoFps x; proj_job_list := v; proj_CurrentJobEntry := proj_CurrentJobEntry x; proj_IsWindows := proj_IsWindows x; proj_IsLinux := proj_IsLinux x; proj_IsMac := proj_IsMac x |}).
Definition CurrentJobEntry_set (v : option string) : globals -> globals :=
  upd_proj (fun x => {| proj_project_config := proj_project_config x; proj_project_config_from_file := proj_project_config_from_file x; proj_project_name := proj_project_name x; proj_CropTopLeft := proj_CropTopLeft x; proj_CropBottomRight := proj_CropBottomRight x; proj_RotationAngle := proj_RotationAngle x; proj_StabilizationThreshold := proj_StabilizationThreshold x; proj_ExpertMode := proj_ExpertMode x; proj_stabilization_bounds_alert_counter := proj_stabilization_bounds_alert_counter x; proj_VideoFps := proj_VideoFps x; proj_job_list := proj_job_list x; proj_CurrentJobEntry := v; proj_IsWindows := proj_IsWindows x; proj_IsLinux := proj_IsLinux x; proj_IsMac := proj_IsMac x |}).
Definition IsWindows_set (v : bool) : globals -> globals :=
  upd_proj (fun x => {| proj_project_config := proj_project_config x; proj_project_config_from_file := proj_project_config_from_file x; proj_project_name := proj_project_name x; proj_CropTopLeft := proj_CropTopLeft x; proj_CropBottomRight := proj_CropBottomRight x; proj_RotationAngle := proj_RotationAngle x; proj_StabilizationThreshold := proj_StabilizationThreshold x; proj_ExpertMode := proj_ExpertMode x; proj_stabilization_bounds_alert_counter := proj_stabilization_bounds_alert_counter x; proj_VideoFps := proj_VideoFps x; proj_job_list := proj_job_list x; proj_CurrentJobEntry := proj_CurrentJobEntry x; proj_IsWindows := v; proj_IsLinux := proj_IsLinux x; proj_IsMac := proj_IsMac x |}).
Definition IsLinux_set (v : bool) : globals -> globals :=
  upd_proj (fun x => {| proj_project_config := proj_project_config x; proj_project_config_from_file := proj_project_config_from_file x; proj_project_name := proj_project_name x; proj_CropTopLeft := proj_CropTopLeft x; proj_CropBottomRight := proj_CropBottomRight x; proj_RotationAngle := proj_RotationAngle x; proj_StabilizationThreshold := proj_StabilizationThreshold x; proj_ExpertMode := proj_ExpertMode x; proj_stabilization_bounds_alert_counter := proj_stabilization_bounds_alert_counter x; proj_VideoFps := proj_VideoFps x; proj_job_list := proj_job_list x; proj_CurrentJobEntry := proj_CurrentJobEntry x; proj_IsWindows := proj_IsWindows x; proj_IsLinux := v; proj_IsMac := proj_IsMac x |}).
Definition IsMac_set (v : bool) : globals -> globals :=
  upd_proj (fun x => {| proj_project_config := proj_project_config x; proj_project_config_from_file := proj_project_config_from_file x; proj_project_name := proj_project_name x; proj_CropTopLeft := proj_CropTopLeft x; proj_CropBottomRight := proj_CropBottomRight x; proj_RotationAngle := proj_RotationAngle x; proj_StabilizationThreshold := proj_StabilizationThreshold x; proj_ExpertMode := proj_ExpertMode x; proj_stabilization_bounds_alert_counter := proj_stabilization_bounds_alert_counter x; proj_VideoFps := proj_VideoFps x; proj_job_list := proj_job_list x; proj_CurrentJobEntry := proj_CurrentJobEntry x; proj_IsWindows := proj_IsWindows x; proj_IsLinux := proj_IsLinux x; proj_IsMac := v |}).

(** Accessors and assignments: what lies outside the program. *)
Definition log (g : globals) : list log_record := world_log (world g).
Definition dialogs (g : globals) : list dialog := world_dialogs (world g).
Definition answers (g : globals) : list bool := world_answers (world g).
Definition scheduled (g : globals) : list callback := world_scheduled (world g).
Definition fs (g : globals) : filesystem := world_fs (world g).
Definition cv2 (g : globals) : cv2_api := world_cv2 (world g).
Definition spawned (g : globals) : list ffmpeg_cmd := world_spawned (world g).
Definition ffmpeg_stdout (g : globals) : list ffmpeg_line := world_ffmpeg_stdout (world g).
Definition terminations (g : globals) : Z := world_terminations (world g).
Definition bells (g : globals) : Z := world_bells (world g).
Definition suspends (g : globals) : Z := world_suspends (world g).
Definition uncaught (g : globals) : list string := world_uncaught (world g).
Definition popen (g : globals) : list string -> bool := world_popen (world g).

Definition log_set (v : list log_record) : globals -> globals :=
  upd_world (fun x => {| world_log := v; world_dialogs := world_dialogs x; world_answers := world_answers x; world_scheduled := world_scheduled x; world_fs := world_fs x; world_cv2 := world_cv2 x; world_spawned := world_spawned x; world_ffmpeg_stdout := world_ffmpeg_stdout x; world_terminations := world_terminations x; world_bells := world_bells x; world_suspends := world_suspends x; world_uncaught := world_uncaught x; world_popen := world_popen x |}).
Definition dialogs_set (v : list dialog) : globals -> globals :=
  upd_world (fun x => {| world_log := world_log x; world_dialogs := v; world_answers := world_answers x; world_scheduled := world_scheduled x; world_fs := world_fs x; world_cv2 := world_cv2 x; world_spawned := world_spawned x; world_ffmpeg_stdout := world_ffmpeg_stdout x; world_terminations := world_terminations x; world_bells := world_bells x; world_suspends := world_suspends x; world_uncaught := world_uncaught x; world_popen := world_popen x |}).
Definition answers_set (v : list bool) : globals -> globals :=
  upd_world (fun x => {| world_log := world_log x; world_dialogs := world_dialogs x; world_answers := v; world_scheduled := world_scheduled x; world_fs := world_fs x; world_cv2 := world_cv2 x; world_spawned := world_spawned x; world_ffmpeg_stdout := world_ffmpeg_stdout x; world_terminations := world_terminations x; world_bells := world_bells x; world_suspends := world_suspends x; world_uncaught := world_uncaught x; world_popen := world_popen x |}).
Definition scheduled_set (v : list callback) : globals -> globals :=
  upd_world (fun x => {| world_log := world_log x; world_dialogs := world_dialogs x; world_answers := world_answers x; world_scheduled := v; world_fs := world_fs x; world_cv2 := world_cv2 x; world_spawned := world_spawned x; world_ffmpeg_stdout := world_ffmpeg_stdout x; world_terminations := world_terminations x; world_bells := world_bells x; world_suspends := world_suspends x; world_uncaught := world_uncaught x; world_popen := world_popen x |}).
Definition fs_set (v : filesystem) : globals -> globals :=
  upd_world (fun x => {| world_log := world_log x; world_dialogs := world_dialogs x; world_answers := world_answers x; world_scheduled := world_scheduled x; world_fs := v; world_cv2 := world_cv2 x; world_spawned := world_spawned x; world_ffmpeg_stdout := world_ffmpeg_stdout x; world_terminations := world_terminations x; world_bells := world_bells x; world_suspends := world_suspends x; world_uncaught := world_uncaught x; world_popen := world_popen x |}).
Definition cv2_set (v : cv2_api) : globals -> globals :=
  upd_world (fun x => {| world_log := world_log x; world_dialogs := world_dialogs x; world_answers := world_answers x; world_scheduled := world_scheduled x; world_fs := world_fs x; world_cv2 := v; world_spawned := world_spawned x; world_ffmpeg_stdout := world_ffmpeg_stdout x; world_terminations := world_terminations x; world_bells := world_bells x; world_suspends := world_suspends x; world_uncaught := world_uncaught x; world_popen := world_popen x |}).
Definition spawned_set (v : list ffmpeg_cmd) : globals -> globals :=
  upd_world (fun x => {| world_log := world_log x; world_dialogs := world_dialogs x; world_answers := world_answers x; world_scheduled := world_scheduled x; world_fs := world_fs x; world_cv2 := world_cv2 x; world_spawned := v; world_ffmpeg_stdout := world_ffmpeg_stdout x; world_terminations := world_terminations x; world_bells := world_bells x; world_suspends := world_suspends x; world_uncaught := world_uncaught x; world_popen := world_popen x |}).
Definition ffmpeg_stdout_set (v : list ffmpeg_line) : globals -> globals :=
  upd_world (fun x => {| world_log := world_log x; world_dialogs := world_dialogs x; world_answers := world_answers x; world_scheduled := world_scheduled x; world_fs := world_fs x; world_cv2 := world_cv2 x; world_spawned := world_spawned x; world_ffmpeg_stdout := v; world_terminations := world_terminations x; world_bells := world_bells x; world_suspends := world_suspends x; world_uncaught := world_uncaught x; world_popen := world_popen x |}).
Definition terminations_set (v : Z) : globals -> globals :=
  upd_world (fun x => {| world_log := world_log x; world_dialogs := world_dialogs x; world_answers := world_answers x; world_scheduled := world_scheduled x; world_fs := world_fs x; world_cv2 := world_cv2 x; world_spawned := world_spawned x; world_ffmpeg_stdout := world_ffmpeg_stdout x; world_terminations := v; world_bells := world_bells x; world_suspends := world_suspends x; world_uncaught := world_uncaught x; world_popen := world_popen x |}).
Definition bells_set (v : Z) : globals -> globals :=
  upd_world (fun x => {| world_log := world_log x; world_dialogs := world_dialogs x; world_answers := world_answers x; world_scheduled := world_scheduled x; world_fs := world_fs x; world_cv2 := world_cv2 x; world_spawned := world_spawned x; world_ffmpeg_stdout := world_ffmpeg_stdout x; world_terminations := world_terminations x; world_bells := v; world_suspends := world_suspends x; world_uncaught := world_uncaught x; world_popen := world_popen x |}).
Definition suspends_set (v : Z) : globals -> globals :=
  upd_world (fun x => {| world_log := world_log x; world_dialogs := world_dialogs x; world_answers := world_answers x; world_scheduled := world_scheduled x; world_fs := world_fs x; world_cv2 := world_cv2 x; world_spawned := world_spawned x; world_ffmpeg_stdout := world_ffmpeg_stdout x; world_terminations := world_terminations x; world_bells := world_bells x; world_suspends := v; world_uncaught := world_uncaught x; world_popen := world_popen x |}).
Definition uncaught_set (v : list string) : globals -> globals :=
  upd_world (fun x => {| world_log := world_log x; world_dialogs := world_dialogs x; world_answers := world_answers x; world_scheduled := world_scheduled x; world_fs := world_fs x; world_cv2 := world_cv2 x; world_spawned := world_spawned x; world_ffmpeg_stdout := world_ffmpeg_stdout x; world_terminations := world_terminations x; world_bells := world_bells x; world_suspends := world_suspends x; world_uncaught := v; world_popen := world_popen x |}).
Definition popen_set (v : list string -> bool) : globals -> globals :=
  upd_world (fun x => {| world_log := world_log x; world_dialogs := world_dialogs x; world_answers := world_answers x; world_scheduled := world_scheduled x; world_fs := world_fs x; world_cv2 := world_cv2 x; world_spawned := world_spawned x; world_ffmpeg_stdout := world_ffmpeg_stdout x; world_terminations := world_terminations x; world_bells := world_bells x; world_suspends := world_suspends x; world_uncaught := world_uncaught x; world_popen := v |}).

(** ** Statements

    A function of [AfterScan.py] is a state transformer over the globals
    that either returns a value or raises.  What was assigned before an
    exception is raised stays assigned. *)

Definition M (A : Type) : Type := globals -> outcome A * globals.

Definition ret {A} (a : A) : M A := fun g => (Return a, g).

Definition bind {A B} (m : M A) (k : A -> M B) : M B :=
  fun g =>
    match m g with
    | (Return a, g') => k a g'
    | (Raise e, g') => (Raise e, g')
    end.

Definition raise {A} (exn : string) : M A := fun g => (Raise exn, g).

(** A computation that reads and writes no global. *)
Definition lift {A} (r : outcome A) : M A := fun g => (r, g).

(** [try: m except: handler], the handler catching every exception. *)
Definition try_except {A} (m handler : M A) : M A :=
  fun g =>
    match m g with
    | (Return a, g') => (Return a, g')
    | (Raise _, g') => handler g'
    end.

Definition get {A} (f : globals -> A) : M A := fun g => (Return (f g), g).

Definition assign (f : globals -> globals) : M unit := fun g => (Return tt, f g).

Declare Scope stmt_scope.
Delimit Scope stmt_scope with stmt.
Notation "x <- m ;; k" := (bind m (fun x => k))
  (at level 61, m at next level, right associativity) : stmt_scope.
Notation "m ;; k" := (bind m (fun _ => k))
  (at level 61, right associativity) : stmt_scope.
Notation "'pass'" := (ret tt) : stmt_scope.
Local Open Scope stmt_scope.

(** The state a statement leaves behind, and what it returned. *)
Definition exec {A} (m : M A) (g : globals) : globals := snd (m g).
Definition result {A} (m : M A) (g : globals) : outcome A := fst (m g).

(** *** Library calls *)

Definition logging (lvl : level) (msg : message) : M unit :=
  assign (fun g => log_set (log g ++ [(lvl, msg)]) g).

Definition messagebox (d : dialog) : M unit :=
  assign (fun g => dialogs_set (dialogs g ++ [d]) g).

(** [tk.messagebox.askyesno]: the dialog is shown and the user's next
    answer is consumed. *)
Definition messagebox_askyesno (title : string) : M bool :=
  messagebox (askyesno title) ;;
  a <- get answers ;;
  match a with
  | [] => ret false
  | yes :: rest => assign (answers_set rest) ;; ret yes
  end.

Definition win_after (f : callback) : M unit :=
  assign (fun g => scheduled_set (scheduled g ++ [f]) g).

Definition app_status_label_config (text : status) (fg : colour) : M unit :=
  assign (app_status_label_set (text, fg)).

Definition os_path_isdir (d : string) : M bool :=
  f <- get fs ;; ret (isdir f d).

Definition os_path_isfile (p : string) : M bool :=
  f <- get fs ;; ret (isfile f p).

(** [l[i]] on a Python list. *)
Definition py_index {A} (l : list A) (i : Z) : option A :=
  let n := Z.of_nat (List.length l) in
  if (0 <=? i) && (i <? n) then nth_error l (Z.to_nat i)
  else if (- n <=? i) && (i <? 0) then nth_error l (Z.to_nat (i + n))
  else None.

Definition index {A} (l : list A) (i : Z) : M A :=
  match py_index l i with
  | Some a => ret a
  | None => raise "IndexError"
  end.

(** [x.shape] and the like on a value that may be [None]. *)
Definition not_none {A} (x : option A) : M A :=
  match x with
  | Some a => ret a
  | None => raise "AttributeError"
  end.

(** [s.replace(',', ';')]. *)
Fixpoint replace_commas (s : string) : string :=
  match s with
  | EmptyString => EmptyString
  | String c rest =>
      String (if Ascii.eqb c ","%char then ";"%char else c) (replace_commas rest)
  end.

Definition ltb (x y : Q) : bool := negb (Qle_bool y x).

(** ** Alignment engine *)

Definition pattern_filename_s8 : string := "Pattern.S8.jpg".
Definition pattern_filename_r8 : string := "Pattern.R8.jpg".
Definition expected_pattern_pos_s8 : Q * Q := (13 # 2, 34)%Q.  (* (6.5, 34) *)
Definition expected_pattern_pos_r8 : Q * Q := (4, 11)%Q.
Definition default_hole_height_s8 : Z := 344.
Definition default_interhole_height_r8 : Z := 808.

(** [int(side * percent / 100)]. *)
Definition resized_side (side : Z) (percent : Py.number) : outcome Z :=
  and_then (Py.mul (Py.Int side) percent)
    (fun product => Py.int_truediv product (Py.Int 100)).

Definition resize_image (img : ndarray) (percent : Py.number) : M ndarray :=
  width <- lift (resized_side (shape1 img) percent) ;;
  height <- lift (resized_side (shape0 img) percent) ;;
  let dsize := (width, height) in
  cv <- get cv2 ;;
  ret (new_array height width (resized cv img dsize)).

Definition get_image_left_stripe (img : ndarray) : M ndarray :=
  top_left <- get HoleSearchTopLeft ;;
  bottom_right <- get HoleSearchBottomRight ;;
  let horizontal_range := (fst top_left, fst bottom_right) in
  let vertical_range := (snd top_left, snd bottom_right) in
  ret (slice2 img (fst vertical_range) (snd vertical_range)
                  (fst horizontal_range) (snd horizontal_range)).

Definition match_template (template img : ndarray) (thres : Q) : M (Z * Z) :=
  let w := shape1 template in
  let h := shape0 template in
  if (w >=? shape1 img) || (h >=? shape0 img) then
    logging ERROR (TemplateBiggerThanImage w h (shape1 img) (shape0 img)) ;;
    ret (0, 0)
  else
    cv <- get cv2 ;;
    let top_left := best_match cv img template in
    ret top_left.

Definition validate_template_size : M bool :=
  top_left <- get HoleSearchTopLeft ;;
  bottom_right <- get HoleSearchBottomRight ;;
  template <- get film_hole_template ;;
  template <- not_none template ;;
  let template_width := shape1 template in
  let template_height := shape0 template in
  let image_width := fst bottom_right - fst top_left in
  let image_height := snd bottom_right - snd top_left in
  if (template_width >=? image_width) || (template_height >=? image_height) then
    logging ERROR (TemplateBiggerThanImage template_width template_height
                                           image_width image_height) ;;
    ret false
  else
    ret true.

Definition rotate_image (img : ndarray) : M ndarray :=
  let h := shape0 img in
  let w := shape1 img in
  angle <- get RotationAngle ;;
  cv <- get cv2 ;;
  let rotated_ := new_array h w (rotated cv img angle) in
  ret rotated_.

(** The shift computed by [stabilize_image] from the absolute position
    [top_left] of the match. *)
Definition shift (custom : bool) (expected : Q * Q) (width height : Z)
    (top_left : Z * Z) : Q * Q :=
  if custom then
    (fst expected - inject_Z (fst top_left),
     snd expected - inject_Z (snd top_left))%Q
  else
    (inject_Z (Py.round (fst expected * inject_Z width / 100)) - inject_Z (fst top_left),
     inject_Z (Py.round (snd expected * inject_Z height / 100)) - inject_Z (snd top_left))%Q.

Definition stabilize_image (img : ndarray) : M ndarray :=
  let width := shape1 img in
  let height := shape0 img in
  crop_top_left <- get CropTopLeft ;;
  crop_bottom_right <- get CropBottomRight ;;
  left_stripe_image <- get_image_left_stripe img ;;
  template <- get film_hole_template ;;
  template <- not_none template ;;
  thres <- get StabilizationThreshold ;;
  top_left <- match_template template left_stripe_image thres ;;
  search_top_left <- get HoleSearchTopLeft ;;
  let top_left := (fst top_left + fst search_top_left,
                   snd top_left + snd search_top_left) in
  custom <- get CustomTemplateDefined ;;
  expected <- get expected_pattern_pos ;;
  let move := shift custom expected width height top_left in
  let move_x := fst move in
  let move_y := snd move in
  let missing_bottom := (inject_Z height - inject_Z (snd crop_bottom_right) + move_y)%Q in
  let missing_top := (inject_Z (snd crop_top_left) - move_y)%Q in
  running <- get ConvertLoopRunning ;;
  (if running && (ltb missing_bottom 0 || ltb missing_top 0) then
     expert <- get ExpertMode ;;
     (if expert then
        counter <- get stabilization_bounds_alert_counter ;;
        assign (stabilization_bounds_alert_counter_set (counter + 1)) ;;
        alert <- get stabilization_bounds_alert ;;
        if alert then
          n <- get bells ;; assign (bells_set (n + 1))
        else pass
      else pass) ;;
     let missing_rows :=
       if ltb missing_top 0 then missing_top else (- missing_bottom)%Q in
     name <- get project_name ;;
     video <- get video_filename_name ;;
     let project_name_tag := replace_commas (name ++ "(" ++ video ++ ")") in
     frame <- get CurrentFrame ;;
     logging WARNING (FrameAlignTag2 project_name_tag frame (Py.int missing_rows)
                                     (Py.int move_y) (Py.int move_x))
   else pass) ;;
  cv <- get cv2 ;;
  let translated_image := new_array height width (translated cv img move_x move_y) in
  (if running then
     name <- get project_name ;;
     frame <- get CurrentFrame ;;
     logging DEBUG (FrameStabilizeTag name frame (shape1 img) (shape0 img)
                                      (Py.int move_x) (Py.int move_y))
   else pass) ;;
  ret translated_image.

Definition adjust_hole_pattern_size : M unit :=
  hole_height <- get film_hole_height ;;
  custom <- get CustomTemplateDefined ;;
  if (hole_height <=? 0) || custom then pass
  else
    config <- get project_config ;;
    ratio <-
      (if String.eqb (cfg_FilmType config) "S8" then
         lift (Py.truediv (Py.Int hole_height) (Py.Int default_hole_height_s8))
       else if String.eqb (cfg_FilmType config) "R8" then
         lift (Py.truediv (Py.Int hole_height) (Py.Int default_interhole_height_r8))
       else ret (Py.Int 1)) ;;
    logging DEBUG (HolePatternRatio ratio) ;;
    template <- get film_hole_template ;;
    percent <- lift (Py.mul ratio (Py.Int 100)) ;;
    template <- not_none template ;;
    resized_ <- resize_image template percent ;;
    assign (film_hole_template_set (Some resized_)).

Definition set_film_type : M unit :=
  custom <- get CustomTemplateDefined ;;
  (if custom then
     custom_file <- get pattern_filename_custom ;;
     present <- os_path_isfile custom_file ;;
     if present then
       assign (pattern_filename_set custom_file) ;;
       custom_pos <- get expected_pattern_pos_custom ;;
       assign (expected_pattern_pos_set custom_pos)
     else
       assign (CustomTemplateDefined_set false)
   else pass) ;;
  custom <- get CustomTemplateDefined ;;
  film <- get film_type ;;
  (if negb custom then
     if String.eqb film "S8" then
       assign (pattern_filename_set pattern_filename_s8) ;;
       assign (expected_pattern_pos_set expected_pattern_pos_s8)
     else if String.eqb film "R8" then
       assign (pattern_filename_set pattern_filename_r8) ;;
       assign (expected_pattern_pos_set expected_pattern_pos_r8)
     else pass
   else pass) ;;
  config <- get project_config ;;
  assign (project_config_set (with_FilmType film config)) ;;
  file <- get pattern_filename ;;
  files <- get fs ;;
  assign (film_hole_template_set (imread files file)) ;;
  adjust_hole_pattern_size ;;
  hole_height <- get film_hole_height ;;
  logging DEBUG (FilmType_ film hole_height).

Definition determine_hole_height (img : ndarray) : M Z :=
  config <- get project_config ;;
  bw <- get film_bw_template ;;
  wb <- get film_wb_template ;;
  let '(template_1, template_2, other_film_type) :=
    if String.eqb (cfg_FilmType config) "R8"
    then (wb, bw, "S8") else (bw, wb, "R8") in
  search_img <- get_image_left_stripe img ;;
  template_1 <- not_none template_1 ;;
  top_left_1 <- match_template template_1 search_img 230 ;;
  template_2 <- not_none template_2 ;;
  top_left_2 <- match_template template_2 search_img 230 ;;
  tops <-
    (if snd top_left_1 >? snd top_left_2 then
       batch <- get BatchJobRunning ;;
       if negb batch then
         yes <- messagebox_askyesno "Wrong film type detected" ;;
         if yes then
           assign (film_type_set other_film_type) ;;
           config <- get project_config ;;
           assign (project_config_set (with_FilmType other_film_type config)) ;;
           set_film_type ;;
           ret (top_left_2, top_left_1)
         else ret (top_left_1, top_left_2)
       else ret (top_left_1, top_left_2)
     else ret (top_left_1, top_left_2)) ;;
  let '(top_left_1, top_left_2) := tops in
  logging DEBUG (HoleHeight (snd top_left_2 - snd top_left_1)) ;;
  ret (snd top_left_2 - snd top_left_1).

Definition select_hole_height (work_image : ndarray) : M unit :=
  height <- determine_hole_height work_image ;;
  assign (film_hole_height_set height) ;;
  if height <? 0 then
    assign (film_hole_height_set 0) ;;
    assign (StabilizeAreaDefined_set false) ;;
    assign (perform_stabilization_set false)
  else
    assign (StabilizeAreaDefined_set true) ;;
    adjust_hole_pattern_size.

Definition set_hole_search_area (img : ndarray) : M unit :=
  let width := shape1 img in
  let height := shape0 img in
  assign (HoleSearchTopLeft_set (0, 0)) ;;
  assign (HoleSearchBottomRight_set (Py.round (inject_Z width * (1 # 5))%Q, height)).

(** ** Files *)

(** The decimal digits of a natural number, most significant first. *)
Definition digit (d : Z) : ascii := ascii_of_nat (48 + Z.to_nat d).

Fixpoint decimal (fuel : nat) (n : Z) (acc : string) : string :=
  match fuel with
  | O => acc
  | S fuel =>
      let acc := String (digit (n mod 10)) acc in
      if n <? 10 then acc else decimal fuel (n / 10) acc
  end.

Definition str (n : Z) : string := decimal (S (Z.to_nat (Z.log2 n))) n "".

Fixpoint zeros (n : nat) : string :=
  match n with
  | O => ""
  | S n => String "0" (zeros n)
  end.

(** ["%05d" % n]: the sign, then the digits padded with zeros to a width of
    five characters in all. *)
Definition format_05d (n : Z) : string :=
  let sign := if n <? 0 then "-" else "" in
  let digits := str (Z.abs n) in
  sign ++ zeros (5 - String.length sign - String.length digits) ++ digits.

(** [FrameFilenameOutputPattern % n]. *)
Definition frame_filename (n : Z) : string :=
  "picture_out-" ++ format_05d n ++ ".jpg".

(** [os.path.join(dir, name)] for a relative [name] (POSIX). *)
Definition os_path_join (dir name : string) : string :=
  if String.eqb dir "" then name
  else if String.eqb (substring (String.length dir - 1) 1 dir) "/" then dir ++ name
  else dir ++ "/" ++ name.

(** The path string an output frame stands for. *)
Definition out_path_str (p : out_path) : string :=
  os_path_join (fst p) (frame_filename (snd p)).

(** [sorted] on output frame paths: the order of the path strings, in
    which "picture_out-100000.jpg" comes before "picture_out-99999.jpg". *)
Fixpoint insert_sorted (p : out_path) (l : list out_path) : list out_path :=
  match l with
  | [] => [p]
  | q :: rest =>
      if String.leb (out_path_str p) (out_path_str q) then p :: l
      else q :: insert_sorted p rest
  end.

Definition sorted (l : list out_path) : list out_path :=
  fold_right insert_sorted [] l.

(** [sorted(list(glob(os.path.join(dir, FrameCheckFilenameOutputPattern))))]. *)
Definition glob_target (f : filesystem) (dir : string) : list out_path :=
  sorted (map fst (filter (fun e => String.eqb (fst (fst e)) dir) (target_frames f))).

(** [cv2.imwrite(path, img)]. *)
Fixpoint write_frame (p : out_path) (img : ndarray) (l : list (out_path * ndarray))
    : list (out_path * ndarray) :=
  match l with
  | [] => [(p, img)]
  | e :: rest =>
      if out_path_eqb (fst e) p then (p, img) :: rest
      else e :: write_frame p img rest
  end.

Definition cv2_imwrite (p : out_path) (img : ndarray) : M unit :=
  f <- get fs ;;
  assign (fs_set (with_target_frames (write_frame p img (target_frames f)) f)).

Definition video_eqb (a b : string * string) : bool :=
  String.eqb (fst a) (fst b) && String.eqb (snd a) (snd b).

Definition video_exists (f : filesystem) (p : string * string) : bool :=
  existsb (video_eqb p) (video_files f).

(** [os.remove] of a video file. *)
Definition os_remove (p : string * string) : M unit :=
  f <- get fs ;;
  if video_exists f p then
    assign (fs_set (with_video_files
                      (filter (fun q => negb (video_eqb p q)) (video_files f)) f))
  else raise "FileNotFoundError".

(** The extension [os.path.splitext] gives for a file name. *)
Fixpoint last_dot_suffix (s : string) : option string :=
  match s with
  | EmptyString => None
  | String c rest =>
      match last_dot_suffix rest with
      | Some e => Some e
      | None => if Ascii.eqb c "."%char then Some s else None
      end
  end.

Fixpoint only_dots (n : nat) (s : string) : bool :=
  match n, s with
  | O, _ => true
  | S m, String c rest => Ascii.eqb c "."%char && only_dots m rest
  | S _, EmptyString => true
  end.

Definition splitext_ext (s : string) : string :=
  match last_dot_suffix s with
  | Some e => if only_dots (String.length s - String.length e) s then "" else e
  | None => ""
  end.

Definition get_target_dir_file_list : M unit :=
  dir <- get TargetDir ;;
  present <- os_path_isdir dir ;;
  if negb present then pass
  else
    f <- get fs ;;
    assign (TargetDirFileList_set (glob_target f dir)) ;;
    listing <- get TargetDirFileList ;;
    match listing with
    | first :: _ =>
        match find (fun e => out_path_eqb (fst e) first) (target_frames f) with
        | Some (_, img) =>
            assign (out_frame_width_set (shape1 img)) ;;
            assign (out_frame_height_set (shape0 img))
        | None => raise "AttributeError"
        end
    | [] =>
        assign (out_frame_width_set 0) ;;
        assign (out_frame_height_set 0)
    end.

Definition valid_generated_frame_range : M bool :=
  start <- get StartFrame ;;
  count <- get frames_to_encode ;;
  first <- get first_absolute_frame ;;
  dir <- get TargetDir ;;
  listing <- get TargetDirFileList ;;
  let file_count :=
    fold_left
      (fun file_count i =>
         let file_to_check := (dir, first + start + Z.of_nat i) in
         if existsb (out_path_eqb file_to_check) listing
         then file_count + 1 else file_count)
      (seq 0 (Z.to_nat count)) 0 in
  logging DEBUG (CheckingFrameRange (first + start) (first + start + count) file_count) ;;
  ret (file_count =? count).

(** ** Batch pipeline controller

    Widget states, the preview canvas and the persistence of settings to
    disk are left out; everything else follows the source statement by
    statement. *)

(** [job_list[key]['done'] = True]. *)
Fixpoint flag_done (key : string) (l : list (string * job)) : option (list (string * job)) :=
  match l with
  | [] => None
  | (k, j) :: rest =>
      if String.eqb k key
      then Some ((k, {| job_project := job_project j; done := true |}) :: rest)
      else option_map (cons (k, j)) (flag_done key rest)
  end.

Definition generation_exit : M unit :=
  assign (ConvertLoopRunning_set false) ;;
  batch <- get BatchJobRunning ;;
  (if batch then
     exit_requested <- get ConvertLoopExitRequested ;;
     entry <- get CurrentJobEntry ;;
     match exit_requested, entry with
     | false, Some key =>
         jobs <- get job_list ;;
         match flag_done key jobs with
         | Some jobs' =>
             assign (job_list_set jobs') ;;
             win_after cb_job_processing_loop
         | None => raise "KeyError"
         end
     | _, _ => assign (BatchJobRunning_set false)
     end
   else pass) ;;
  assign (ConvertLoopExitRequested_set false).

Definition start_convert : M unit :=
  running <- get ConvertLoopRunning ;;
  if running then assign (ConvertLoopExitRequested_set true)
  else
    assign (stabilization_bounds_alert_counter_set 0) ;;
    all_frames <- get encode_all_frames ;;
    files <- get SourceDirFileList ;;
    let len := Z.of_nat (List.length files) in
    (if all_frames then
       assign (StartFrame_set 0) ;;
       assign (frames_to_encode_set len)
     else
       frame_from <- get frame_from_str ;;
       frame_to <- get frame_to_str ;;
       assign (StartFrame_set frame_from) ;;
       assign (frames_to_encode_set (frame_to - frame_from + 1)) ;;
       if frame_from + (frame_to - frame_from + 1) >? len
       then assign (frames_to_encode_set (len - frame_from))
       else pass) ;;
    start <- get StartFrame ;;
    assign (CurrentFrame_set start) ;;
    count <- get frames_to_encode ;;
    if count =? 0 then messagebox (showwarning "No frames match range")
    else
      config <- get project_config ;;
      proceed <-
        (if cfg_GenerateVideo config then
           name <- get video_filename_name ;;
           assign (TargetVideoFilename_set name) ;;
           let ext := splitext_ext name in
           if String.eqb name "" then
             assign (TargetVideoFilename_set "AfterScan-now.mp4") ;;
             assign (video_filename_name_set "AfterScan-now.mp4") ;;
             ret true
           else if negb (existsb (String.eqb ext) [".mp4"; ".MP4"; ".mkv"; ".MKV"]) then
             assign (TargetVideoFilename_set (name ++ ".mp4")) ;;
             assign (video_filename_name_set (name ++ ".mp4")) ;;
             ret true
           else
             dir <- get VideoTargetDir ;;
             f <- get fs ;;
             batch <- get BatchJobRunning ;;
             if video_exists f (dir, name) && negb batch then
               yes <- messagebox_askyesno "Error!" ;;
               if negb yes then generation_exit ;; ret false else ret true
             else ret true
         else ret true) ;;
      if negb proceed then pass
      else
        assign (ConvertLoopRunning_set true) ;;
        video <- get generate_video ;;
        skip <- get skip_frame_regeneration ;;
        if negb video || negb skip then
          valid <- validate_template_size ;;
          (if negb valid then
             messagebox (showerror "Error!") ;;
             assign (ConvertLoopExitRequested_set true)
           else
             name <- get project_name ;;
             video_name <- get video_filename_name ;;
             let project_name_tag := replace_commas (name ++ "(" ++ video_name ++ ")") in
             logging WARNING (FrameAlignTag project_name_tag start count)) ;;
          win_after cb_frame_generation_loop
        else if video then
          assign (ffmpeg_success_set false) ;;
          assign (ffmpeg_encoding_status_set Pending) ;;
          win_after cb_video_generation_loop
        else pass.

Definition decode_project_config : M unit :=
  config <- get project_config ;;
  assign (SourceDir_set (cfg_SourceDir config)) ;;
  present <- os_path_isdir (cfg_SourceDir config) ;;
  (if negb present then
     assign (SourceDir_set "") ;;
     assign (project_name_set "No Project")
   else pass) ;;
  assign (TargetDir_set (cfg_TargetDir config)) ;;
  present <- os_path_isdir (cfg_TargetDir config) ;;
  (if negb present then assign (TargetDir_set "")
   else get_target_dir_file_list) ;;
  assign (VideoTargetDir_set (cfg_VideoTargetDir config)) ;;
  present <- os_path_isdir (cfg_VideoTargetDir config) ;;
  (if negb present then
     target <- get TargetDir ;; assign (VideoTargetDir_set target)
   else pass) ;;
  assign (CurrentFrame_set (Z.max (cfg_CurrentFrame config) 0)) ;;
  assign (encode_all_frames_set (cfg_EncodeAllFrames config)) ;;
  assign (frame_from_str_set (cfg_FrameFrom config)) ;;
  assign (frame_to_str_set (cfg_FrameTo config)) ;;
  assign (frames_to_encode_set (cfg_FrameTo config - cfg_FrameFrom config + 1)) ;;
  assign (film_type_set (cfg_FilmType config)) ;;
  set_film_type ;;
  assign (RotationAngle_set (cfg_RotationAngle config)) ;;
  assign (StabilizationThreshold_set (cfg_StabilizationThreshold config)) ;;
  assign (expected_pattern_pos_custom_set (cfg_CustomTemplateExpectedPos config)) ;;
  assign (CustomTemplateDefined_set (cfg_CustomTemplateDefined config)) ;;
  (if cfg_CustomTemplateDefined config then
     assign (pattern_filename_custom_set (cfg_CustomTemplateFilename config)) ;;
     assign (pattern_filename_set (cfg_CustomTemplateFilename config)) ;;
     assign (expected_pattern_pos_set (cfg_CustomTemplateExpectedPos config)) ;;
     set_film_type
   else pass) ;;
  assign (perform_cropping_set (cfg_PerformCropping config)) ;;
  assign (CropBottomRight_set (snd (cfg_CropRectangle config))) ;;
  assign (CropTopLeft_set (fst (cfg_CropRectangle config))) ;;
  assign (generate_video_set (cfg_GenerateVideo config)) ;;
  assign (video_filename_name_set (cfg_VideoFilename config)) ;;
  assign (skip_frame_regeneration_set (cfg_skip_frame_regeneration config)) ;;
  (match cfg_HoleHeight config with
   | Some height =>
       assign (film_hole_height_set height) ;;
       assign (StabilizeAreaDefined_set true)
   | None =>
       assign (film_hole_height_set 0) ;;
       assign (StabilizeAreaDefined_set false)
   end) ;;
  assign (perform_stabilization_set (cfg_PerformStabilization config)) ;;
  assign (perform_rotation_set (cfg_PerformRotation config)) ;;
  assign (VideoFps_set (cfg_VideoFps config)).

Definition get_source_dir_file_list : M unit :=
  dir <- get SourceDir ;;
  present <- os_path_isdir dir ;;
  if negb present then pass
  else
    config <- get project_config ;;
    f <- get fs ;;
    assign (SourceDirFileList_set (glob_source f dir (cfg_FrameInputFilenamePattern config))) ;;
    files <- get SourceDirFileList ;;
    let len := Z.of_nat (List.length files) in
    if len =? 0 then messagebox (showerror "Error!")
    else
      frame <- get CurrentFrame ;;
      (if frame >=? len then assign (CurrentFrame_set 0) else pass) ;;
      first <- index files 0 ;;
      assign (first_absolute_frame_set (file_number first)) ;;
      frame <- get CurrentFrame ;;
      let sample_frame := frame + Py.int (inject_Z (len - frame) * (1 # 10))%Q in
      sample <- index files sample_frame ;;
      work_image <- not_none (file_image sample) ;;
      set_hole_search_area work_image ;;
      select_hole_height work_image ;;
      set_film_type.

(** [sp.Popen(cmd, ...)] for the suspend command: a process is started, or
    the call raises. *)
Definition sp_Popen (cmd : list string) : M unit :=
  can_start <- get popen ;;
  if can_start cmd then
    n <- get suspends ;; assign (suspends_set (n + 1))
  else raise "OSError".

(** Without a platform flag [cmd_suspend] is not bound when [sp.Popen] is
    called. *)
Definition system_suspend : M unit :=
  linux <- get IsLinux ;;
  windows <- get IsWindows ;;
  mac <- get IsMac ;;
  let cmd_suspend :=
    if linux then Some ["systemctl"; "suspend"]
    else if windows then
      Some ["rundll32.exe"; "powrprof.dll,SetSuspendState"; "0,1,0"]
    else if mac then Some ["pmset"; "sleepnow"]
    else None in
  try_except
    (match cmd_suspend with
     | Some cmd => sp_Popen cmd
     | None => raise "UnboundLocalError"
     end)
    (logging ERROR CannotSuspend).

(** The body of [for entry in job_list] up to its [break]. *)
Fixpoint job_processing_for (entries : list (string * job)) : M bool :=
  match entries with
  | [] => ret false
  | (entry, j) :: rest =>
      if negb (done j) then
        assign (CurrentJobEntry_set (Some entry)) ;;
        logging INFO (ProcessingJob entry (cfg_CurrentFrame (job_project j))
                                    (cfg_FramesToEncode (job_project j))) ;;
        assign (project_config_from_file_set false) ;;
        assign (project_config_set (job_project j)) ;;
        decode_project_config ;;
        get_source_dir_file_list ;;
        get_target_dir_file_list ;;
        start_convert ;;
        ret true
      else job_processing_for rest
  end.

Definition job_processing_loop : M unit :=
  jobs <- get job_list ;;
  job_started <- job_processing_for jobs ;;
  if negb job_started then
    assign (CurrentJobEntry_set None) ;;
    generation_exit ;;
    suspend <- get suspend_on_joblist_end ;;
    if suspend then system_suspend else pass
  else pass.

Definition start_processing_job_list : M unit :=
  assign (BatchJobRunning_set true) ;;
  job_processing_loop.

Definition odd_size (img : ndarray) : bool :=
  (shape1 img mod 2 =? 1) || (shape0 img mod 2 =? 1).

Definition frame_generation_loop : M unit :=
  frame <- get CurrentFrame ;;
  start <- get StartFrame ;;
  count <- get frames_to_encode ;;
  if frame >=? start + count then
    app_status_label_config FrameGenerationOK green ;;
    dir <- get TargetDir ;;
    f <- get fs ;;
    assign (TargetDirFileList_set (glob_target f dir)) ;;
    video <- get generate_video ;;
    (if video then
       assign (ffmpeg_success_set false) ;;
       assign (ffmpeg_encoding_status_set Pending) ;;
       win_after cb_video_generation_loop
     else generation_exit) ;;
    assign (CurrentFrame_set (frame - 1))
  else
    exit_requested <- get ConvertLoopExitRequested ;;
    if exit_requested then
      app_status_label_config CancelledByUser red ;;
      generation_exit
    else
      files <- get SourceDirFileList ;;
      file <- index files frame ;;
      (match file_image file with
       | None => logging ERROR (ErrorReadingFrame frame)
       | Some img =>
           rotation <- get perform_rotation ;;
           img <- (if rotation then rotate_image img else ret img) ;;
           stabilization <- get perform_stabilization ;;
           img <- (if stabilization then stabilize_image img else ret img) ;;
           cropping <- get perform_cropping ;;
           top_left <- get CropTopLeft ;;
           bottom_right <- get CropBottomRight ;;
           let img := if cropping then crop_image img top_left bottom_right
                      else even_image img in
           (if odd_size img then
              logging ERROR TargetSizeOneOddDimension ;;
              app_status_label_config (FrameOddSize frame) red ;;
              assign (CurrentFrame_set (start + count - 1))
            else pass) ;;
           dir <- get TargetDir ;;
           present <- os_path_isdir dir ;;
           first <- get first_absolute_frame ;;
           frame <- get CurrentFrame ;;
           (if present then cv2_imwrite (dir, first + frame) img else pass) ;;
           app_status_label_config
             (GeneratingFrames (inject_Z ((frame - start) * 100) / inject_Z count)%Q) black
       end) ;;
      frame <- get CurrentFrame ;;
      assign (CurrentFrame_set (frame + 1)) ;;
      config <- get project_config ;;
      assign (project_config_set (with_CurrentFrame (frame + 1) config)) ;;
      win_after cb_frame_generation_loop.

(** ** Encoder orchestrator

    [call_ffmpeg] runs in a thread of its own: it spawns the encoder, waits
    for it and records the exit code.  The spawn is the first half, the
    end of the wait is an event of its own.  Output scaling and border
    filters are left out of the command line. *)

Definition call_ffmpeg_spawn : M unit :=
  start <- get StartFrame ;;
  first <- get first_absolute_frame ;;
  count <- get frames_to_encode ;;
  fps <- get VideoFps ;;
  dir <- get TargetDir ;;
  video_dir <- get VideoTargetDir ;;
  name <- get TargetVideoFilename ;;
  let cmd_ffmpeg :=
    {| cmd_start_number := start + first;
       cmd_framerate := fps;
       cmd_input := dir;
       cmd_frames := if count >? 0 then Some count else None;
       cmd_output := (video_dir, name) |} in
  logging INFO GeneratedFfmpegCommand ;;
  processes <- get spawned ;;
  assign (spawned_set (processes ++ [cmd_ffmpeg])) ;;
  f <- get fs ;;
  if video_exists f (video_dir, name) then pass
  else assign (fs_set (with_video_files (video_files f ++ [(video_dir, name)]) f)).

Definition call_ffmpeg_wait (exit_code : Z) : M unit :=
  assign (ffmpeg_success_set (exit_code =? 0)) ;;
  assign (ffmpeg_encoding_status_set Completed).

Definition readline : M ffmpeg_line :=
  lines <- get ffmpeg_stdout ;;
  match lines with
  | [] => ret []
  | line :: rest => assign (ffmpeg_stdout_set rest) ;; ret line
  end.

Definition video_generation_loop : M unit :=
  state <- get ffmpeg_encoding_status ;;
  match state with
  | Pending =>
      count <- get frames_to_encode ;;
      if count =? 0 then
        app_status_label_config NoFramesToEncode red ;;
        messagebox (showwarning "No frames match range to generate video") ;;
        generation_exit
      else
        valid <- valid_generated_frame_range ;;
        if negb valid then
          app_status_label_config NoFramesToEncode red ;;
          messagebox (showwarning "Frames missing") ;;
          generation_exit
        else
          files <- get SourceDirFileList ;;
          first_file <- index files 0 ;;
          first <- get first_absolute_frame ;;
          logging DEBUG (FirstFilenameInList first) ;;
          assign (ffmpeg_success_set false) ;;
          call_ffmpeg_spawn ;;
          assign (ffmpeg_encoding_status_set Running) ;;
          win_after cb_video_generation_loop
  | Running =>
      exit_requested <- get ConvertLoopExitRequested ;;
      if exit_requested then
        n <- get terminations ;;
        assign (terminations_set (n + 1)) ;;
        logging WARNING VideoGenerationTerminatedByUser ;;
        app_status_label_config CancelledByUser red ;;
        messagebox (showinfo "FFMPEG encoding interrupted by user") ;;
        generation_exit ;;
        video_dir <- get VideoTargetDir ;;
        name <- get TargetVideoFilename ;;
        os_remove (video_dir, name)
      else
        line <- readline ;;
        logging DEBUG FfmpegLine ;;
        (match line with
         | [] => app_status_label_config NoFeedbackFromFfmpeg red
         | [_] => raise "IndexError"
         | _ :: Number encoded_frame :: _ =>
             count <- get frames_to_encode ;;
             app_status_label_config
               (GeneratingVideo (inject_Z (encoded_frame * 100) / inject_Z count)%Q) black
         | _ :: Word :: _ =>
             app_status_label_config FfmpegSyncLost red ;;
             logging ERROR FfmpegSyncLostMsg
         end) ;;
        win_after cb_video_generation_loop
  | Completed =>
      app_status_label_config GeneratingVideo100 black ;;
      success <- get ffmpeg_success ;;
      batch <- get BatchJobRunning ;;
      (if success then
         logging INFO VideoGeneratedOKMsg ;;
         app_status_label_config VideoGeneratedOK green ;;
         if negb batch
         then messagebox (showinfo "Video generation by ffmpeg has ended")
         else pass
       else
         logging ERROR VideoGenerationFailedMsg ;;
         app_status_label_config VideoGenerationFailed red ;;
         if negb batch
         then messagebox (showinfo "FFMPEG encoding failed")
         else pass) ;;
      generation_exit
  end.

(** ** The event loop *)

Definition run_callback (f : callback) : M unit :=
  match f with
  | cb_frame_generation_loop => frame_generation_loop
  | cb_video_generation_loop => video_generation_loop
  | cb_job_processing_loop => job_processing_loop
  end.

(** An exception that leaves a callback is reported by Tk and the loop
    goes on. *)
Definition handle (m : M unit) (g : globals) : globals :=
  match m g with
  | (Return _, g') => g'
  | (Raise exn, g') => uncaught_set (uncaught g' ++ [exn]) g'
  end.

(** What can happen next: the oldest pending callback runs, or the encoder
    process ends with an exit code. *)
Inductive event :=
| timer
| encoder_exit (exit_code : Z).

Definition step (e : event) (g : globals) : globals :=
  match e with
  | timer =>
      match scheduled g with
      | [] => g
      | f :: rest => handle (run_callback f) (scheduled_set rest g)
      end
  | encoder_exit code => handle (call_ffmpeg_wait code) g
  end.

Definition run (events : list event) (g : globals) : globals :=
  fold_left (fun g e => step e g) events g.

(** Timer events until nothing is pending, at most [fuel] of them. *)
Fixpoint mainloop (fuel : nat) (g : globals) : globals :=
  match fuel with
  | O => g
  | S n =>
      match scheduled g with
      | [] => g
      | _ => mainloop n (step timer g)
      end
  end.

(** The preview of the current frame, with the frame it hands to the
    canvas.  The transforms are those of the conversion loop, but
    [ConvertLoopRunning] is false here. *)
Definition scale_display_update : M (option ndarray) :=
  frame <- get CurrentFrame ;;
  files <- get SourceDirFileList ;;
  if frame >=? Z.of_nat (List.length files) then ret None
  else
    file <- index files frame ;;
    match file_image file with
    | None => logging ERROR (ErrorReadingFrame frame) ;; ret None
    | Some img =>
        rotation <- get perform_rotation ;;
        img <- (if rotation then rotate_image img else ret img) ;;
        stabilization <- get perform_stabilization ;;
        img <- (if stabilization then stabilize_image img else ret img) ;;
        cropping <- get perform_cropping ;;
        top_left <- get CropTopLeft ;;
        bottom_right <- get CropBottomRight ;;
        let img := if cropping then crop_image img top_left bottom_right
                   else even_image img in
        ret (Some img)
    end.

(** ** Template registry ([template_manager.py]) *)

Module TemplateManager.

Record Template := mk_Template {
  name : string;
  filename : string;
  type : string;
  position : Z * Z;
  scale : Float64.float;
  size : Z * Z;
  scaled_position : Z * Z;
  scaled_size : Z * Z;
  wb_proportion : Q;
  template : option ndarray;
  scaled_template : option ndarray;
  white_pixel_count : Z
}.

(** [cv2.countNonZero]. *)
Definition countNonZero (a : ndarray) : Z :=
  let rows := map Z.of_nat (seq 0 (Z.to_nat (shape0 a))) in
  let cols := map Z.of_nat (seq 0 (Z.to_nat (shape1 a))) in
  Z.of_nat (List.length
    (filter (fun rc => negb (at_ a (fst rc) (snd rc) =? 0)) (list_prod rows cols))).

(** [int(x * scale)] for an integer [x] and a float [scale].  The sizes,
    positions and widths of the registry are taken within the range of a
    float (about 1.8e308); beyond it Python raises OverflowError, and the
    value here is 0. *)
Definition int_times (x : Z) (scale : Float64.float) : Z :=
  match Py.int_mul (Py.Int x) (Py.Float scale) with
  | Return z => z
  | Raise _ => 0
  end.

Definition _resize_image (cv : cv2_api) (img : ndarray) (ratio : Float64.float)
    : ndarray :=
  let width := int_times (shape1 img) ratio in
  let height := int_times (shape0 img) ratio in
  let dsize := (width, height) in
  new_array height width (resized cv img dsize).

(** The assignments to the dependent properties shared by [create] and
    [refresh], for a template whose image [img] is loaded. *)
Definition update_dependent (cv : cv2_api) (self : Template)
    (new_scale : Float64.float) (img : ndarray) : Template :=
  let scaled := _resize_image cv img new_scale in
  let white := countNonZero scaled in
  let total_pixels := shape0 scaled * shape1 scaled in
  let size_ := (shape1 img, shape0 img) in
  {| name := name self;
     filename := filename self;
     type := type self;
     position := position self;
     scale := new_scale;
     size := size_;
     scaled_position :=
       (int_times (fst (position self)) new_scale,
        int_times (snd (position self)) new_scale);
     scaled_size :=
       (int_times (fst size_) new_scale,
        int_times (snd size_) new_scale);
     wb_proportion :=
       if total_pixels >? 0 then (inject_Z white / inject_Z total_pixels)%Q
       else (1 # 2)%Q;
     template := Some img;
     scaled_template := Some scaled;
     white_pixel_count := white |}.

(** [1.0 if type == 'custom' else width / 2028].  The quotient of a
    width beyond the range of a float, where Python raises OverflowError,
    is an infinity here. *)
Definition scale_for (type_ : string) (width : Z) : Float64.float :=
  if String.eqb type_ "custom" then Float64.one
  else Float64.of_quotient width 2028.

(** [Template.create]; an existing file that does not decode makes
    [cv2.countNonZero] raise. *)
Definition create (cv : cv2_api) (files : filesystem)
    (name_ filename_ type_ : string) (position_ : Z * Z) (width : Z)
    : outcome Template :=
  let scale_ := scale_for type_ width in
  let instance :=
    {| name := name_; filename := filename_; type := type_;
       position := position_; scale := scale_;
       size := (0, 0); scaled_position := (0, 0); scaled_size := (0, 0);
       wb_proportion := (1 # 2)%Q;
       template := None; scaled_template := None; white_pixel_count := 0 |} in
  if isfile files filename_ then
    match imread files filename_ with
    | Some img => Return (update_dependent cv instance scale_ img)
    | None => Raise "cv2.error"
    end
  else Return instance.

Definition refresh (cv : cv2_api) (files : filesystem) (self : Template)
    (width : Z) : Template :=
  let new_scale := scale_for (type self) width in
  let loaded :=
    match template self with
    | Some img => Some img
    | None => imread files (filename self)
    end in
  match loaded with
  | None => self
  | Some img => update_dependent cv self new_scale img
  end.

End TemplateManager.

(** ** Template registry: the list and its facade ([template_manager.py])

    A [Template] object enters the registry through [add] and stays in the
    dictionary under its key (the [remove] methods are not part of this
    embedding), so an object is identified by its key: [active_template]
    holds the key of the object it refers to, and a change made through
    one name is seen through the other.  Log lines are left out. *)

Module TemplateList.

Record TemplateList := mk_TemplateList {
  templates : list (string * TemplateManager.Template);  (* in insertion order *)
  active_template : option string;
  img_width : Z;
  img_height : Z
}.

(** [TemplateList()], the dataclass defaults. *)
Definition empty : TemplateList :=
  {| templates := []; active_template := None; img_width := 2028; img_height := 1520 |}.

(** [f"{type}:{name}"]. *)
Definition key_of (type_ name_ : string) : string := type_ ++ ":" ++ name_.

(** [d.get(key)]. *)
Fixpoint dict_get {A} (d : list (string * A)) (key : string) : option A :=
  match d with
  | [] => None
  | (k, v) :: rest => if String.eqb k key then Some v else dict_get rest key
  end.

(** [d[key] = v]: an existing key keeps its place, a new one goes last. *)
Fixpoint dict_set {A} (d : list (string * A)) (key : string) (v : A)
    : list (string * A) :=
  match d with
  | [] => [(key, v)]
  | (k, v0) :: rest =>
      if String.eqb k key then (k, v) :: rest else (k, v0) :: dict_set rest key v
  end.

Definition with_templates (d : list (string * TemplateManager.Template))
    (self : TemplateList) : TemplateList :=
  {| templates := d; active_template := active_template self;
     img_width := img_width self; img_height := img_height self |}.

Definition with_active_template (a : option string) (self : TemplateList)
    : TemplateList :=
  {| templates := templates self; active_template := a;
     img_width := img_width self; img_height := img_height self |}.

(** [target.filename = filename; target.position = position]. *)
Definition with_filename_position (filename_ : string) (position_ : Z * Z)
    (t : TemplateManager.Template) : TemplateManager.Template :=
  {| TemplateManager.name := TemplateManager.name t;
     TemplateManager.filename := filename_;
     TemplateManager.type := TemplateManager.type t;
     TemplateManager.position := position_;
     TemplateManager.scale := TemplateManager.scale t;
     TemplateManager.size := TemplateManager.size t;
     TemplateManager.scaled_position := TemplateManager.scaled_position t;
     TemplateManager.scaled_size := TemplateManager.scaled_size t;
     TemplateManager.wb_proportion := TemplateManager.wb_proportion t;
     TemplateManager.template := TemplateManager.template t;
     TemplateManager.scaled_template := TemplateManager.scaled_template t;
     TemplateManager.white_pixel_count := TemplateManager.white_pixel_count t |}.

(** [TemplateList.add]; the result is the key of the object returned. *)
Definition add (cv : cv2_api) (files : filesystem)
    (name_ filename_ type_ : string) (position_ : Z * Z) (self : TemplateList)
    : outcome string * TemplateList :=
  let key := key_of type_ name_ in
  match dict_get (templates self) key with
  | Some target =>
      let target := with_filename_position filename_ position_ target in
      let target := TemplateManager.refresh cv files target (img_width self) in
      (Return key,
       with_active_template (Some key)
         (with_templates (dict_set (templates self) key target) self))
  | None =>
      match TemplateManager.create cv files name_ filename_ type_ position_
              (img_width self) with
      | Return target =>
          (Return key,
           with_active_template (Some key)
             (with_templates (dict_set (templates self) key target) self))
      | Raise exn => (Raise exn, self)
      end
  end.

Definition get_template_by_key (type_ name_ : string) (self : TemplateList)
    : option TemplateManager.Template :=
  dict_get (templates self) (key_of type_ name_).

End TemplateList.

(** The facade class [TemplateManager]; its only field is the list. *)
Module Facade.

(** [TemplateManager.initialize()]. *)
Definition initialize : TemplateList.TemplateList := TemplateList.empty.

Definition add := TemplateList.add.

Definition set_active_template (type_ name_ : string)
    (self : TemplateList.TemplateList) : bool * TemplateList.TemplateList :=
  match TemplateList.get_template_by_key type_ name_ self with
  | Some _ =>
      (true,
       TemplateList.with_active_template (Some (TemplateList.key_of type_ name_)) self)
  | None => (false, self)
  end.

Definition get_all_templates (self : TemplateList.TemplateList)
    : list TemplateManager.Template :=
  map snd (TemplateList.templates self).

Definition get_template_by_key := TemplateList.get_template_by_key.

Definition get_template_image_by_key (type_ name_ : string)
    (self : TemplateList.TemplateList) : option ndarray :=
  match get_template_by_key type_ name_ self with
  | Some t => TemplateManager.scaled_template t
  | None => None
  end.

(** The property [active_template]: the object the list refers to. *)
Definition active_template (self : TemplateList.TemplateList)
    : option TemplateManager.Template :=
  match TemplateList.active_template self with
  | Some key => TemplateList.dict_get (TemplateList.templates self) key
  | None => None
  end.

Definition get_active_template_image (self : TemplateList.TemplateList)
    : option ndarray :=
  match active_template self with
  | Some t => TemplateManager.scaled_template t
  | None => None
  end.

Definition get_active_name (self : TemplateList.TemplateList) : option string :=
  option_map TemplateManager.name (active_template self).

Definition get_active_filename (self : TemplateList.TemplateList) : option string :=
  option_map TemplateManager.filename (active_template self).

Definition get_active_type (self : TemplateList.TemplateList) : option string :=
  option_map TemplateManager.type (active_template self).

Definition get_active_size (self : TemplateList.TemplateList) : option (Z * Z) :=
  option_map TemplateManager.scaled_size (active_template self).

Definition get_active_scale (self : TemplateList.TemplateList)
    : option Float64.float :=
  option_map TemplateManager.scale (active_template self).

Definition get_active_position (self : TemplateList.TemplateList) : option (Z * Z) :=
  option_map TemplateManager.scaled_position (active_template self).

Definition with_scaled_position (p : Z * Z) (t : TemplateManager.Template)
    : TemplateManager.Template :=
  {| TemplateManager.name := TemplateManager.name t;
     TemplateManager.filename := TemplateManager.filename t;
     TemplateManager.type := TemplateManager.type t;
     TemplateManager.position := TemplateManager.position t;
     TemplateManager.scale := TemplateManager.scale t;
     TemplateManager.size := TemplateManager.size t;
     TemplateManager.scaled_position := p;
     TemplateManager.scaled_size := TemplateManager.scaled_size t;
     TemplateManager.wb_proportion := TemplateManager.wb_proportion t;
     TemplateManager.template := TemplateManager.template t;
     TemplateManager.scaled_template := TemplateManager.scaled_template t;
     TemplateManager.white_pixel_count := TemplateManager.white_pixel_count t |}.

Definition with_position (p : Z * Z) (t : TemplateManager.Template)
    : TemplateManager.Template :=
  TemplateList.with_filename_position (TemplateManager.filename t) p t.

(** [set_active_position]: the scaled position is stored first, then the
    two components of the position are computed from it, and the position
    is stored if neither raised; dividing by a scale of 0.0 raises. *)
Definition set_active_position (scaled_position_ : Z * Z)
    (self : TemplateList.TemplateList) : outcome unit * TemplateList.TemplateList :=
  match TemplateList.active_template self, active_template self with
  | Some key, Some t =>
      let t := with_scaled_position scaled_position_ t in
      let stored :=
        TemplateList.with_templates
          (TemplateList.dict_set (TemplateList.templates self) key t) self in
      match Py.int_truediv (Py.Int (fst (TemplateManager.scaled_position t)))
              (Py.Float (TemplateManager.scale t)) with
      | Raise exn => (Raise exn, stored)
      | Return x =>
          match Py.int_truediv (Py.Int (snd (TemplateManager.scaled_position t)))
                  (Py.Float (TemplateManager.scale t)) with
          | Raise exn => (Raise exn, stored)
          | Return y =>
              let t := with_position (x, y) t in
              (Return tt,
               TemplateList.with_templates
                 (TemplateList.dict_set (TemplateList.templates self) key t) self)
          end
      end
  | _, _ => (Return tt, self)
  end.

(** [set_scale_and_refresh_all]; an image has two dimensions at least. *)
Definition set_scale_and_refresh_all (cv : cv2_api) (files : filesystem)
    (sample_img : option ndarray) (self : TemplateList.TemplateList)
    : TemplateList.TemplateList :=
  match TemplateList.templates self, sample_img with
  | _ :: _, Some img =>
      let width := shape1 img in
      {| TemplateList.templates :=
           map (fun kt => (fst kt, TemplateManager.refresh cv files (snd kt) width))
               (TemplateList.templates self);
         TemplateList.active_template := TemplateList.active_template self;
         TemplateList.img_width := width;
         TemplateList.img_height := shape0 img |}
  | _, _ => self
  end.

End Facade.

(** ** The state after start-up, and sample data *)

Definition default_project_config : project :=
  {| cfg_SourceDir := ""; cfg_TargetDir := ""; cfg_VideoTargetDir := "";
     cfg_FrameInputFilenamePattern := "picture-*.jpg";
     cfg_CurrentFrame := 0;
     cfg_EncodeAllFrames := true;
     cfg_FrameFrom := 0; cfg_FrameTo := 0;
     cfg_FramesToEncode := "All";
     cfg_FilmType := "S8";
     cfg_RotationAngle := 0%Q;
     cfg_StabilizationThreshold := 240%Q;
     cfg_CustomTemplateDefined := false;
     cfg_CustomTemplateExpectedPos := (0, 0)%Q;
     cfg_CustomTemplateFilename := "Pattern.custom.jpg";
     cfg_PerformCropping := false;
     cfg_CropRectangle := ((0, 0), (0, 0));
     cfg_PerformStabilization := false;
     cfg_PerformRotation := false;
     cfg_HoleHeight := None;
     cfg_GenerateVideo := false;
     cfg_VideoFilename := "";
     cfg_VideoFps := 18;
     cfg_skip_frame_regeneration := false |}.

(** The module-level assignments of [AfterScan.py] followed by the loading
    of the three hole templates in [main], on a Linux machine where
    [sp.Popen] starts every command it is given. *)
Definition startup (files : filesystem) (cv : cv2_api) : globals :=
  {| flow :=
       {| flow_ConvertLoopExitRequested := false;
          flow_ConvertLoopRunning := false;
          flow_BatchJobRunning := false;
          flow_CurrentFrame := 0;
          flow_StartFrame := 0;
          flow_frames_to_encode := 0;
          flow_first_absolute_frame := 0;
          flow_ffmpeg_success := false;
          flow_ffmpeg_encoding_status := Pending |};
     files :=
       {| files_SourceDir := ""; files_TargetDir := ""; files_VideoTargetDir := "";
          files_TargetVideoFilename := "";
          files_SourceDirFileList := []; files_TargetDirFileList := [];
          files_out_frame_width := 0; files_out_frame_height := 0 |};
     hole :=
       {| hole_expected_pattern_pos := expected_pattern_pos_s8;
          hole_expected_pattern_pos_custom := (0, 0)%Q;
          hole_pattern_filename := pattern_filename_s8;
          hole_pattern_filename_custom := "Pattern.custom.jpg";
          hole_film_hole_template := imread files pattern_filename_s8;
          hole_film_bw_template := imread files "Pattern_BW.jpg";
          hole_film_wb_template := imread files "Pattern_WB.jpg";
          hole_film_hole_height := 0;
          hole_HoleSearchTopLeft := (0, 0);
          hole_HoleSearchBottomRight := (0, 0);
          hole_CustomTemplateDefined := false;
          hole_StabilizeAreaDefined := false |};
     tk :=
       {| tk_perform_rotation := false; tk_perform_stabilization := false;
          tk_perform_cropping := false; tk_generate_video := false;
          tk_skip_frame_regeneration := false; tk_encode_all_frames := false;
          tk_frame_from_str := 0; tk_frame_to_str := 0;
          tk_film_type := "S8"; tk_video_filename_name := "";
          tk_stabilization_bounds_alert := false;
          tk_suspend_on_joblist_end := false;
          tk_app_status_label := (NoStatus, black) |};
     proj :=
       {| proj_project_config := default_project_config;
          proj_project_config_from_file := true;
          proj_project_name := "No Project";
          proj_CropTopLeft := (0, 0); proj_CropBottomRight := (0, 0);
          proj_RotationAngle := 0%Q; proj_StabilizationThreshold := 240%Q;
          proj_ExpertMode := false;
          proj_stabilization_bounds_alert_counter := 0;
          proj_VideoFps := 18;
          proj_job_list := []; proj_CurrentJobEntry := None;
          proj_IsWindows := false; proj_IsLinux := true; proj_IsMac := false |};
     world :=
       {| world_log := []; world_dialogs := []; world_answers := [];
          world_scheduled := []; world_fs := files; world_cv2 := cv;
          world_spawned := []; world_ffmpeg_stdout := [];
          world_terminations := 0; world_bells := 0; world_suspends := 0;
          world_uncaught := []; world_popen := fun _ => true |} |}.

(** A stand-in for OpenCV: the matcher reads the position of the match from
    the first two pixels of the searched image; rotation and resizing keep
    the pixels where they are; translation moves them by whole pixels. *)
Definition sample_cv : cv2_api :=
  {| best_match := fun img template => (at_ img 0 0, at_ img 0 1);
     rotated := fun img angle r c => at_ img r c;
     translated := fun img move_x move_y r c =>
                     at_ img (r - Py.int move_y) (c - Py.int move_x);
     resized := fun img dsize r c => at_ img r c |}.

(** A second stand-in, whose matcher reads the row of the match from the
    first pixel of the template. *)
Definition template_cv : cv2_api :=
  {| best_match := fun img template => (0, at_ template 0 0);
     rotated := fun img angle r c => at_ img r c;
     translated := fun img move_x move_y r c =>
                     at_ img (r - Py.int move_y) (c - Py.int move_x);
     resized := fun img dsize r c => at_ img r c |}.

(** A frame of the given size on which [sample_cv] finds the hole at
    stripe position (x, y). *)
Definition frame_with_hole (h w x y : Z) : ndarray :=
  new_array h w (fun r c =>
    if (r =? 0) && (c =? 0) then x
    else if (r =? 0) && (c =? 1) then y
    else 7).

Definition numbered (first : Z) (images : list (option ndarray)) : list source_file :=
  map (fun ni => {| file_number := first + Z.of_nat (fst ni); file_image := snd ni |})
      (combine (seq 0 (List.length images)) images).

(** Film folders and one output folder per film; the templates are 2x2
    images.  The second frame of "/tiny" is a single pixel. *)
Definition sample_files : filesystem :=
  {| isdir := fun d =>
       existsb (String.eqb d) ["/film1"; "/film2"; "/film3"; "/tiny";
                               "/out1"; "/out2"; "/out3"; "/out4"];
     isfile := fun p =>
       existsb (String.eqb p) ["Pattern.S8.jpg"; "Pattern.R8.jpg";
                               "Pattern_BW.jpg"; "Pattern_WB.jpg"];
     imread := fun p =>
       if existsb (String.eqb p) ["Pattern.S8.jpg"; "Pattern.R8.jpg"]
       then Some (ramp 2 2)
       else if String.eqb p "Pattern_BW.jpg" then Some (new_array 2 2 (fun _ _ => 9))
       else if String.eqb p "Pattern_WB.jpg" then Some (new_array 2 2 (fun _ _ => 4))
       else None;
     glob_source := fun d pattern =>
       if String.eqb d "/film1" then
         numbered 100 [Some (frame_with_hole 20 40 3 5); Some (frame_with_hole 20 40 3 6)]
       else if String.eqb d "/film2" then
         numbered 200 [Some (frame_with_hole 20 40 2 5)]
       else if String.eqb d "/tiny" then
         numbered 400 [Some (ramp 20 40); Some (ramp 1 1); Some (ramp 20 40)]
       else if String.eqb d "/film3" then
         numbered 300 [Some (frame_with_hole 21 41 3 5); Some (frame_with_hole 21 41 3 5);
                       Some (frame_with_hole 21 41 4 4)]
       else [];
     target_frames := [];
     video_files := [] |}.

Definition sample_project (source target : string) : project :=
  {| cfg_SourceDir := source; cfg_TargetDir := target; cfg_VideoTargetDir := target;
     cfg_FrameInputFilenamePattern := "picture-*.jpg";
     cfg_CurrentFrame := 0;
     cfg_EncodeAllFrames := true;
     cfg_FrameFrom := 0; cfg_FrameTo := 0;
     cfg_FramesToEncode := "All";
     cfg_FilmType := "S8";
     cfg_RotationAngle := 0%Q;
     cfg_StabilizationThreshold := 240%Q;
     cfg_CustomTemplateDefined := false;
     cfg_CustomTemplateExpectedPos := (0, 0)%Q;
     cfg_CustomTemplateFilename := "Pattern.custom.jpg";
     cfg_PerformCropping := false;
     cfg_CropRectangle := ((0, 0), (0, 0));
     cfg_PerformStabilization := true;
     cfg_PerformRotation := false;
     cfg_HoleHeight := Some 2;
     cfg_GenerateVideo := false;
     cfg_VideoFilename := "";
     cfg_VideoFps := 18;
     cfg_skip_frame_regeneration := false |}.

Definition pending_job (source target : string) : job :=
  {| job_project := sample_project source target; done := false |}.

Definition finished_job (source target : string) : job :=
  {| job_project := sample_project source target; done := true |}.

(** Three jobs, the second one done already. *)
Definition three_jobs : list (string * job) :=
  [("film1", pending_job "/film1" "/out1");
   ("film2", finished_job "/film2" "/out2");
   ("film3", pending_job "/film3" "/out3")].

(** The jobs whose start has been logged, oldest first. *)
Fixpoint started (l : list log_record) : list string :=
  match l with
  | [] => []
  | (_, ProcessingJob entry _ _) :: rest => entry :: started rest
  | _ :: rest => started rest
  end.

(** The keys of the jobs still to be done, in insertion order. *)
Definition pending (jobs : list (string * job)) : list string :=
  map fst (filter (fun kj => negb (done (snd kj))) jobs).

(** The S8 template at position (1, 1), as [create] builds it for frames
    2028 pixels wide. *)
Definition s8_template : TemplateManager.Template :=
  TemplateManager.update_dependent sample_cv
    {| TemplateManager.name := "S8";
       TemplateManager.filename := "Pattern.S8.jpg";
       TemplateManager.type := "S8";
       TemplateManager.position := (1, 1);
       TemplateManager.scale := Float64.one;
       TemplateManager.size := (0, 0);
       TemplateManager.scaled_position := (0, 0);
       TemplateManager.scaled_size := (0, 0);
       TemplateManager.wb_proportion := (1 # 2)%Q;
       TemplateManager.template := None;
       TemplateManager.scaled_template := None;
       TemplateManager.white_pixel_count := 0 |}
    Float64.one (ramp 2 2).

(** The frame shown in the preview of film 1, stabilization on. *)
Definition preview_state : globals :=
  SourceDirFileList_set (numbered 100 [Some (frame_with_hole 20 40 3 5)])
    (perform_stabilization_set true
       (HoleSearchBottomRight_set (8, 20) (startup sample_files sample_cv))).

(** The same frame in the conversion loop, with a target folder that does
    not exist. *)
Definition lost_target_state : globals :=
  ConvertLoopRunning_set true
    (frames_to_encode_set 1 (TargetDir_set "/nowhere" preview_state)).

(** The same frame in the conversion loop, with its target folder. *)
Definition conversion_state : globals :=
  ConvertLoopRunning_set true
    (frames_to_encode_set 1 (TargetDir_set "/out1" preview_state)).

(** A job without stabilization whose second frame is a single pixel,
    followed by a job on film 1. *)
Definition tiny_job : job :=
  {| job_project :=
       {| cfg_SourceDir := "/tiny"; cfg_TargetDir := "/out4";
          cfg_VideoTargetDir := "/out4";
          cfg_FrameInputFilenamePattern := "picture-*.jpg";
          cfg_CurrentFrame := 0;
          cfg_EncodeAllFrames := true;
          cfg_FrameFrom := 0; cfg_FrameTo := 0;
          cfg_FramesToEncode := "All";
          cfg_FilmType := "S8";
          cfg_RotationAngle := 0%Q;
          cfg_StabilizationThreshold := 240%Q;
          cfg_CustomTemplateDefined := false;
          cfg_CustomTemplateExpectedPos := (0, 0)%Q;
          cfg_CustomTemplateFilename := "Pattern.custom.jpg";
          cfg_PerformCropping := false;
          cfg_CropRectangle := ((0, 0), (0, 0));
          cfg_PerformStabilization := false;
          cfg_PerformRotation := false;
          cfg_HoleHeight := None;
          cfg_GenerateVideo := false;
          cfg_VideoFilename := "";
          cfg_VideoFps := 18;
          cfg_skip_frame_regeneration := false |};
     done := false |}.

Definition odd_frame_batch : globals :=
  job_list_set [("tiny", tiny_job); ("film1", pending_job "/film1" "/out1")]
    (startup sample_files sample_cv).

(** The batch of three jobs, before "Start batch" is pressed. *)
Definition three_job_batch : globals :=
  job_list_set three_jobs (startup sample_files sample_cv).

(** Two frames of film 1 are to be encoded; the target folder lists both
    of them, or only the first. *)
Definition encode_state (listing : list out_path) : globals :=
  TargetDirFileList_set listing
    (TargetVideoFilename_set "film1.mp4"
       (VideoTargetDir_set "/out1"
          (TargetDir_set "/out1"
             (first_absolute_frame_set 100
                (frames_to_encode_set 2
                   (SourceDirFileList_set
                      (numbered 100 [Some (frame_with_hole 20 40 3 5);
                                     Some (frame_with_hole 20 40 3 6)])
                      (startup sample_files sample_cv))))))).

Definition frames_listed : globals := encode_state [("/out1", 100); ("/out1", 101)].
Definition frame_missing : globals := encode_state [("/out1", 100)].

(** ** Further examples *)

(** A batch job with stabilization requested, probing a frame on which
    [template_cv] finds the black-on-white pattern at row 9 and the
    white-on-black one at row 4. *)
Definition batch_probe_state : globals :=
  BatchJobRunning_set true
    (perform_stabilization_set true
       (HoleSearchBottomRight_set (8, 20) (startup sample_files template_cv))).

(** The first job of the batch of three, its encoder ended with a non-zero
    exit code. *)
Definition failed_encoding_state : globals :=
  ffmpeg_encoding_status_set Completed
    (ffmpeg_success_set false
       (BatchJobRunning_set true
          (CurrentJobEntry_set (Some "film1") three_job_batch))).

(** A registry holding the S8 template of the examples. *)
Definition sample_registry : TemplateList.TemplateList :=
  snd (TemplateList.add sample_cv sample_files "S8" "Pattern.S8.jpg" "S8" (1, 1)
         TemplateList.empty).

(** Two frames to convert without stabilization into "/out1", the loop
    pending. *)
Definition two_frame_conversion : globals :=
  scheduled_set [cb_frame_generation_loop]
    (frames_to_encode_set 2
       (SourceDirFileList_set
          (numbered 100 [Some (ramp 20 40); Some (ramp 21 41)])
          (TargetDir_set "/out1" (startup sample_files sample_cv)))).

(** ** Vocabulary of the statements *)

(** The search region handed to the matcher for a frame. *)
Definition left_stripe (g : globals) (img : ndarray) : ndarray :=
  slice2 img (snd (HoleSearchTopLeft g)) (snd (HoleSearchBottomRight g))
             (fst (HoleSearchTopLeft g)) (fst (HoleSearchBottomRight g)).

(** The template does not fit strictly inside the search region. *)
Definition too_large (template img : ndarray) : bool :=
  (shape1 template >=? shape1 img) || (shape0 template >=? shape0 img).

(** What is not touched by the transforms of a frame. *)
Definition frame_view (g : globals) :=
  (flow g, files g, hole g, tk g, fs g, cv2 g, scheduled g,
   (project_config g, project_name g, CropTopLeft g, CropBottomRight g,
    job_list g, CurrentJobEntry g)).

(** What the job queue runner works with. *)
Definition queue_view (g : globals) :=
  (job_list g, CurrentJobEntry g, BatchJobRunning g, scheduled g, started (log g)).

(** A statement leaves [view] of the globals as it found it, whether it
    returns or raises. *)
Definition preserves {A V} (view : globals -> V) (m : M A) : Prop :=
  forall g, view (snd (m g)) = view g.

(** Log messages other than the start of a job. *)
Definition quiet (msg : message) : Prop :=
  match msg with
  | ProcessingJob _ _ _ => False
  | _ => True
  end.

(** The log lines of a call to [match_template]. *)
Definition match_template_log (template img : ndarray) : list log_record :=
  if too_large template img
  then [(ERROR, TemplateBiggerThanImage (shape1 template) (shape0 template)
                                        (shape1 img) (shape0 img))]
  else [].

(** What [match_template] returns: the origin when the template does not
    fit, the best match otherwise. *)
Definition locate (g : globals) (template img : ndarray) : Z * Z :=
  if too_large template img then (0, 0) else best_match (cv2 g) img template.

(** The match in the left stripe of a frame, in frame coordinates. *)
Definition matched_position (g : globals) (template img : ndarray) : Z * Z :=
  let top_left := locate g template (left_stripe g img) in
  (fst top_left + fst (HoleSearchTopLeft g),
   snd top_left + snd (HoleSearchTopLeft g)).

(** The film type and the template in force. *)
Definition film_setup (g : globals) :=
  (cfg_FilmType (project_config g), film_type g, film_hole_template g,
   pattern_filename g, expected_pattern_pos g, CustomTemplateDefined g).

(** The shift as the specification words it: expected position minus
    matched position, the expected position being absolute for a custom
    template and a percentage of the frame size otherwise. *)
Definition expected_minus_matched (g : globals) (img : ndarray) (matched : Z * Z)
    : Q * Q :=
  let expected := expected_pattern_pos g in
  if CustomTemplateDefined g then
    (fst expected - inject_Z (fst matched),
     snd expected - inject_Z (snd matched))%Q
  else
    (inject_Z (Py.round (fst expected * inject_Z (shape1 img) / 100)) - inject_Z (fst matched),
     inject_Z (Py.round (snd expected * inject_Z (shape0 img) / 100)) - inject_Z (snd matched))%Q.

(** The overflow estimates of [stabilize_image] for a vertical shift. *)
Definition missing_bottom (g : globals) (img : ndarray) (move_y : Q) : Q :=
  (inject_Z (shape0 img) - inject_Z (snd (CropBottomRight g)) + move_y)%Q.

Definition missing_top (g : globals) (move_y : Q) : Q :=
  (inject_Z (snd (CropTopLeft g)) - move_y)%Q.

Definition out_of_bounds (g : globals) (img : ndarray) (move_y : Q) : bool :=
  ltb (missing_bottom g img move_y) 0 || ltb (missing_top g move_y) 0.

(** The signed row count written to the alignment log. *)
Definition missing_rows (g : globals) (img : ndarray) (move_y : Q) : Q :=
  if ltb (missing_top g move_y) 0 then missing_top g move_y
  else (- missing_bottom g img move_y)%Q.

Definition project_name_tag (g : globals) : string :=
  replace_commas (project_name g ++ "(" ++ video_filename_name g ++ ")").

(** The frame handed to [stabilize_image] by the conversion loop. *)
Definition rotated_frame (g : globals) (img : ndarray) : ndarray :=
  if perform_rotation g
  then new_array (shape0 img) (shape1 img) (rotated (cv2 g) img (RotationAngle g))
  else img.

(** The frame the conversion loop produces from a source frame when
    stabilization is on and [template] is the active template. *)
Definition output_frame (g : globals) (template img : ndarray) : ndarray :=
  let frame := rotated_frame g img in
  let move := expected_minus_matched g frame (matched_position g template frame) in
  let stabilized :=
    new_array (shape0 frame) (shape1 frame)
              (translated (cv2 g) frame (fst move) (snd move)) in
  if perform_cropping g
  then crop_image stabilized (CropTopLeft g) (CropBottomRight g)
  else even_image stabilized.

(** The number under which the conversion loop files a frame. *)
Definition output_number (g : globals) (out : ndarray) : Z :=
  first_absolute_frame g +
  (if odd_size out then StartFrame g + frames_to_encode g - 1 else CurrentFrame g).

(** Output frames on disk, as (path, height, width). *)
Definition frames_on_disk (g : globals) : list (out_path * Z * Z) :=
  map (fun e => (fst e, shape0 (snd e), shape1 (snd e))) (target_frames (fs g)).

Definition done_flags (g : globals) : list (string * bool) :=
  map (fun kj => (fst kj, done (snd kj))) (job_list g).

(** What [generation_exit] never touches. *)
Definition exit_view (g : globals) :=
  (files g, hole g, tk g,
   (CurrentFrame g, StartFrame g, frames_to_encode g, first_absolute_frame g,
    ffmpeg_success g, ffmpeg_encoding_status g),
   (log g, dialogs g, answers g, fs g, cv2 g, spawned g, ffmpeg_stdout g),
   (project_config g, CurrentJobEntry g)).

(** The expected output frame [i] is in the listing of the target folder. *)
Definition listed (g : globals) (i : Z) : bool :=
  existsb (out_path_eqb (TargetDir g, i)) (TargetDirFileList g).

(** The two preconditions of the encoder: a frame range that is not empty,
    all of whose frames are listed. *)
Definition frames_ready (g : globals) : Prop :=
  0 < frames_to_encode g /\
  forall i, first_absolute_frame g + StartFrame g <= i
            < first_absolute_frame g + StartFrame g + frames_to_encode g ->
            listed g i = true.

(** The job list with the jobs named in [keys] flagged done. *)
Definition mark_done (keys : list string) (jobs : list (string * job))
    : list (string * job) :=
  map (fun kj =>
         if existsb (String.eqb (fst kj)) keys
         then (fst kj, {| job_project := job_project (snd kj); done := true |})
         else kj)
      jobs.

(** What a callback of the pipeline may do to the queue: nothing, apart
    from registering one pipeline callback, or flag the current job done
    and register the queue runner. *)
Definition pipeline_step (g g' : globals) : Prop :=
  started (log g') = started (log g) /\
  CurrentJobEntry g' = CurrentJobEntry g /\
  ((job_list g' = job_list g /\
    (scheduled g' = scheduled g \/
     scheduled g' = (scheduled g ++ [cb_frame_generation_loop])%list \/
     scheduled g' = (scheduled g ++ [cb_video_generation_loop])%list)) \/
   (exists key,
      CurrentJobEntry g = Some key /\
      flag_done key (job_list g) = Some (job_list g') /\
      scheduled g' = (scheduled g ++ [cb_job_processing_loop])%list)).

(** The state of the queue while a batch runs, for the job list [jobs0] and
    the log [started0] the batch began with: [n] of the pending jobs have
    been started, in insertion order, and the first [m] of them are flagged
    done, where [m] is [n], or [n - 1] while the last one is being
    processed. *)
Definition runner_inv (jobs0 : list (string * job)) (started0 : list string)
    (g : globals) : Prop :=
  let todo := pending jobs0 in
  exists n m : nat,
    started (log g) = (started0 ++ firstn n todo)%list /\
    (n <= List.length todo)%nat /\
    (todo <> [] -> (1 <= n)%nat) /\
    job_list g = mark_done (firstn m todo) jobs0 /\
    ((m = n /\
      (scheduled g = [] \/ scheduled g = [cb_job_processing_loop]) /\
      (CurrentJobEntry g = None -> n = List.length todo)) \/
     (n = S m /\
      CurrentJobEntry g = Some (nth m todo "") /\
      (scheduled g = [] \/ scheduled g = [cb_frame_generation_loop] \/
       scheduled g = [cb_video_generation_loop]))).

(** A statement that, run in any state where the queue looks as it does in
    [g0], takes a pipeline step from [g0]. *)
Definition steps_from {A} (g0 : globals) (m : M A) : Prop :=
  forall g, queue_view g = queue_view g0 -> pipeline_step g0 (snd (m g)).

(** A statement that either leaves the queue as it is in [g0] and returns
    a value that does not satisfy [stop], or takes a pipeline step from
    [g0] and returns one that does. *)
Definition steps_or_stops {A} (g0 : globals) (stop : A -> bool) (m : M A)
    : Prop :=
  forall g, queue_view g = queue_view g0 ->
    match m g with
    | (Return a, g1) =>
        if stop a then pipeline_step g0 g1 else queue_view g1 = queue_view g0
    | (Raise _, g1) => pipeline_step g0 g1
    end.

(** ** Vocabulary of the further properties *)

(** Whether and how frames are stabilized, and what the user was asked. *)
Definition stabilization_view (g : globals) :=
  (film_hole_height g, StabilizeAreaDefined g, perform_stabilization g, dialogs g).

(** The two probes of [determine_hole_height] for the configured film
    type: the pattern expected higher up, and the one expected below it. *)
Definition probe_templates (g : globals) : option ndarray * option ndarray :=
  if String.eqb (cfg_FilmType (project_config g)) "R8"
  then (film_wb_template g, film_bw_template g)
  else (film_bw_template g, film_wb_template g).

(** The frame range of a run and the position in it. *)
Definition range_view (g : globals) :=
  (StartFrame g, frames_to_encode g, CurrentFrame g).

(** Where a project reads and writes, and where it stands. *)
Definition project_view (g : globals) :=
  (SourceDir g, TargetDir g, VideoTargetDir g, project_name g,
   CurrentFrame g, frames_to_encode g, fs g).

(** The last transform of the conversion loop, applied to a frame that has
    been rotated and stabilized as requested. *)
Definition normalised (g : globals) (stabilized : ndarray) : ndarray :=
  if perform_cropping g
  then crop_image stabilized (CropTopLeft g) (CropBottomRight g)
  else even_image stabilized.

(** What a tick of the conversion loop that produces the frame [out], of
    even size, does to the globals other than the log and the
    out-of-bounds alert. *)
Definition frame_written (out : ndarray) (g : globals) : globals :=
  let frame := CurrentFrame g in
  let written :=
    if isdir (fs g) (TargetDir g)
    then fs_set (with_target_frames
                   (write_frame (TargetDir g, first_absolute_frame g + frame) out
                      (target_frames (fs g)))
                   (fs g)) g
    else g in
  scheduled_set (scheduled g ++ [cb_frame_generation_loop])
    (project_config_set (with_CurrentFrame (frame + 1) (project_config g))
       (CurrentFrame_set (frame + 1)
          (app_status_label_set
             (GeneratingFrames
                (inject_Z ((frame - StartFrame g) * 100)
                 / inject_Z (frames_to_encode g))%Q, black)
             written))).

(** The conversion of the frame range of [g0], [k] frames on: the loop is
    pending with its counter [k] frames past the start, nothing it
    depends on has changed, and the first [k] frames of the range are on
    disk under their numbers, with even sizes. *)
Definition converting (g0 : globals) (k : nat) (g : globals) : Prop :=
  ConvertLoopExitRequested g = false /\
  CurrentFrame g = StartFrame g0 + Z.of_nat k /\
  StartFrame g = StartFrame g0 /\
  frames_to_encode g = frames_to_encode g0 /\
  first_absolute_frame g = first_absolute_frame g0 /\
  files g = files g0 /\ hole g = hole g0 /\
  perform_stabilization g = perform_stabilization g0 /\
  perform_cropping g = perform_cropping g0 /\
  generate_video g = generate_video g0 /\
  CropTopLeft g = CropTopLeft g0 /\ CropBottomRight g = CropBottomRight g0 /\
  isdir (fs g) = isdir (fs g0) /\
  scheduled g = [cb_frame_generation_loop] /\
  forall i, (i < k)%nat ->
    exists out,
      Z.even (shape1 out) = true /\ Z.even (shape0 out) = true /\
      In ((TargetDir g0, first_absolute_frame g0 + StartFrame g0 + Z.of_nat i), out)
         (target_frames (fs g)).

(** The source frames and the position among them. *)
Definition source_view (g : globals) :=
  (SourceDirFileList g, CurrentFrame g, first_absolute_frame g).

(** The order [sorted] puts output frame paths in: that of their path
    strings. *)
Definition path_le (a b : out_path) : Prop :=
  String.leb (out_path_str a) (out_path_str b) = true.

(** What [set_film_type] has settled before it adjusts the template. *)
Definition film_view (g : globals) :=
  (CustomTemplateDefined g, project_config g, pattern_filename g,
   expected_pattern_pos g).

(** The directories a job works in, and the files. *)
Definition dirs_view (g : globals) :=
  (SourceDir g, TargetDir g, VideoTargetDir g, fs g).

(** The state in which the queue runner hands the job [j] under the key
    [k] to the pipeline: the entry is the current one, its start is
    logged, and its project is the project in use. *)
Definition job_loaded (k : string) (j : job) (g : globals) : globals :=
  project_config_set (job_project j)
    (project_config_from_file_set false
       (log_set (log g ++ [(INFO, ProcessingJob k (cfg_CurrentFrame (job_project j))
                                    (cfg_FramesToEncode (job_project j)))])
          (CurrentJobEntry_set (Some k) g))).
(** *** Reading the globals after an assignment *)

Ltac unfold_globals :=
  unfold ConvertLoopExitRequested, ConvertLoopRunning, BatchJobRunning,
         CurrentFrame, StartFrame, frames_to_encode, first_absolute_frame,
         ffmpeg_success, ffmpeg_encoding_status, SourceDir, TargetDir,
         VideoTargetDir, TargetVideoFilename, SourceDirFileList,
         TargetDirFileList, out_frame_width, out_frame_height,
         expected_pattern_pos, expected_pattern_pos_custom, pattern_filename,
         pattern_filename_custom, film_hole_template, film_bw_template,
         film_wb_template, film_hole_height, HoleSearchTopLeft,
         HoleSearchBottomRight, CustomTemplateDefined, StabilizeAreaDefined,
         perform_rotation, perform_stabilization, perform_cropping,
         generate_video, skip_frame_regeneration, encode_all_frames,
         frame_from_str, frame_to_str, film_type, video_filename_name,
         stabilization_bounds_alert, suspend_on_joblist_end, app_status_label,
         project_config, project_config_from_file, project_name, CropTopLeft,
         CropBottomRight, RotationAngle, StabilizationThreshold, ExpertMode,
         stabilization_bounds_alert_counter, VideoFps, job_list,
         CurrentJobEntry, IsWindows, IsLinux, IsMac, log, dialogs, answers,
         scheduled, fs, cv2, spawned, ffmpeg_stdout, terminations, bells,
         suspends, uncaught, popen
    in *.

Ltac fold_globals :=
  repeat match goal with
  | |- context [flow_ConvertLoopExitRequested (flow ?g)] => change (flow_ConvertLoopExitRequested (flow g)) with (ConvertLoopExitRequested g)
  | H : context [flow_ConvertLoopExitRequested (flow ?g)] |- _ => change (flow_ConvertLoopExitRequested (flow g)) with (ConvertLoopExitRequested g) in H
  | |- context [flow_ConvertLoopRunning (flow ?g)] => change (flow_ConvertLoopRunning (flow g)) with (ConvertLoopRunning g)
  | H : context [flow_ConvertLoopRunning (flow ?g)] |- _ => change (flow_ConvertLoopRunning (flow g)) with (ConvertLoopRunning g) in H
  | |- context [flow_BatchJobRunning (flow ?g)] => change (flow_BatchJobRunning (flow g)) with (BatchJobRunning g)
  | H : context [flow_BatchJobRunning (flow ?g)] |- _ => change (flow_BatchJobRunning (flow g)) with (BatchJobRunning g) in H
  | |- context [flow_CurrentFrame (flow ?g)] => change (flow_CurrentFrame (flow g)) with (CurrentFrame g)
  | H : context [flow_CurrentFrame (flow ?g)] |- _ => change (flow_CurrentFrame (flow g)) with (CurrentFrame g) in H
  | |- context [flow_StartFrame (flow ?g)] => change (flow_StartFrame (flow g)) with (StartFrame g)
  | H : context [flow_StartFrame (flow ?g)] |- _ => change (flow_StartFrame (flow g)) with (StartFrame g) in H
  | |- context [flow_frames_to_encode (flow ?g)] => change (flow_frames_to_encode (flow g)) with (frames_to_encode g)
  | H : context [flow_frames_to_encode (flow ?g)] |- _ => change (flow_frames_to_encode (flow g)) with (frames_to_encode g) in H
  | |- context [flow_first_absolute_frame (flow ?g)] => change (flow_first_absolute_frame (flow g)) with (first_absolute_frame g)
  | H : context [flow_first_absolute_frame (flow ?g)] |- _ => change (flow_first_absolute_frame (flow g)) with (first_absolute_frame g) in H
  | |- context [flow_ffmpeg_success (flow ?g)] => change (flow_ffmpeg_success (flow g)) with (ffmpeg_success g)
  | H : context [flow_ffmpeg_success (flow ?g)] |- _ => change (flow_ffmpeg_success (flow g)) with (ffmpeg_success g) in H
  | |- context [flow_ffmpeg_encoding_status (flow ?g)] => change (flow_ffmpeg_encoding_status (flow g)) with (ffmpeg_encoding_status g)
  | H : context [flow_ffmpeg_encoding_status (flow ?g)] |- _ => change (flow_ffmpeg_encoding_status (flow g)) with (ffmpeg_encoding_status g) in H
  | |- context [files_SourceDir (files ?g)] => change (files_SourceDir (files g)) with (SourceDir g)
  | H : context [files_SourceDir (files ?g)] |- _ => change (files_SourceDir (files g)) with (SourceDir g) in H
  | |- context [files_TargetDir (files ?g)] => change (files_TargetDir (files g)) with (TargetDir g)
  | H : context [files_TargetDir (files ?g)] |- _ => change (files_TargetDir (files g)) with (TargetDir g) in H
  | |- context [files_VideoTargetDir (files ?g)] => change (files_VideoTargetDir (files g)) with (VideoTargetDir g)
  | H : context [files_VideoTargetDir (files ?g)] |- _ => change (files_VideoTargetDir (files g)) with (VideoTargetDir g) in H
  | |- context [files_TargetVideoFilename (files ?g)] => change (files_TargetVideoFilename (files g)) with (TargetVideoFilename g)
  | H : context [files_TargetVideoFilename (files ?g)] |- _ => change (files_TargetVideoFilename (files g)) with (TargetVideoFilename g) in H
  | |- context [files_SourceDirFileList (files ?g)] => change (files_SourceDirFileList (files g)) with (SourceDirFileList g)
  | H : context [files_SourceDirFileList (files ?g)] |- _ => change (files_SourceDirFileList (files g)) with (SourceDirFileList g) in H
  | |- context [files_TargetDirFileList (files ?g)] => change (files_TargetDirFileList (files g)) with (TargetDirFileList g)
  | H : context [files_TargetDirFileList (files ?g)] |- _ => change (files_TargetDirFileList (files g)) with (TargetDirFileList g) in H
  | |- context [files_out_frame_width (files ?g)] => change (files_out_frame_width (files g)) with (out_frame_width g)
  | H : context [files_out_frame_width (files ?g)] |- _ => change (files_out_frame_width (files g)) with (out_frame_width g) in H
  | |- context [files_out_frame_height (files ?g)] => change (files_out_frame_height (files g)) with (out_frame_height g)
  | H : context [files_out_frame_height (files ?g)] |- _ => change (files_out_frame_height (files g)) with (out_frame_height g) in H
  | |- context [hole_expected_pattern_pos (hole ?g)] => change (hole_expected_pattern_pos (hole g)) with (expected_pattern_pos g)
  | H : context [hole_expected_pattern_pos (hole ?g)] |- _ => change (hole_expected_pattern_pos (hole g)) with (expected_pattern_pos g) in H
  | |- context [hole_expected_pattern_pos_custom (hole ?g)] => change (hole_expected_pattern_pos_custom (hole g)) with (expected_pattern_pos_custom g)
  | H : context [hole_expected_pattern_pos_custom (hole ?g)] |- _ => change (hole_expected_pattern_pos_custom (hole g)) with (expected_pattern_pos_custom g) in H
  | |- context [hole_pattern_filename (hole ?g)] => change (hole_pattern_filename (hole g)) with (pattern_filename g)
  | H : context [hole_pattern_filename (hole ?g)] |- _ => change (hole_pattern_filename (hole g)) with (pattern_filename g) in H
  | |- context [hole_pattern_filename_custom (hole ?g)] => change (hole_pattern_filename_custom (hole g)) with (pattern_filename_custom g)
  | H : context [hole_pattern_filename_custom (hole ?g)] |- _ => change (hole_pattern_filename_custom (hole g)) with (pattern_filename_custom g) in H
  | |- context [hole_film_hole_template (hole ?g)] => change (hole_film_hole_template (hole g)) with (film_hole_template g)
  | H : context [hole_film_hole_template (hole ?g)] |- _ => change (hole_film_hole_template (hole g)) with (film_hole_template g) in H
  | |- context [hole_film_bw_template (hole ?g)] => change (hole_film_bw_template (hole g)) with (film_bw_template g)
  | H : context [hole_film_bw_template (hole ?g)] |- _ => change (hole_film_bw_template (hole g)) with (film_bw_template g) in H
  | |- context [hole_film_wb_template (hole ?g)] => change (hole_film_wb_template (hole g)) with (film_wb_template g)
  | H : context [hole_film_wb_template (hole ?g)] |- _ => change (hole_film_wb_template (hole g)) with (film_wb_template g) in H
  | |- context [hole_film_hole_height (hole ?g)] => change (hole_film_hole_height (hole g)) with (film_hole_height g)
  | H : context [hole_film_hole_height (hole ?g)] |- _ => change (hole_film_hole_height (hole g)) with (film_hole_height g) in H
  | |- context [hole_HoleSearchTopLeft (hole ?g)] => change (hole_HoleSearchTopLeft (hole g)) with (HoleSearchTopLeft g)
  | H : context [hole_HoleSearchTopLeft (hole ?g)] |- _ => change (hole_HoleSearchTopLeft (hole g)) with (HoleSearchTopLeft g) in H
  | |- context [hole_HoleSearchBottomRight (hole ?g)] => change (hole_HoleSearchBottomRight (hole g)) with (HoleSearchBottomRight g)
  | H : context [hole_HoleSearchBottomRight (hole ?g)] |- _ => change (hole_HoleSearchBottomRight (hole g)) with (HoleSearchBottomRight g) in H
  | |- context [hole_CustomTemplateDefined (hole ?g)] => change (hole_CustomTemplateDefined (hole g)) with (CustomTemplateDefined g)
  | H : context [hole_CustomTemplateDefined (hole ?g)] |- _ => change (hole_CustomTemplateDefined (hole g)) with (CustomTemplateDefined g) in H
  | |- context [hole_StabilizeAreaDefined (hole ?g)] => change (hole_StabilizeAreaDefined (hole g)) with (StabilizeAreaDefined g)
  | H : context [hole_StabilizeAreaDefined (hole ?g)] |- _ => change (hole_StabilizeAreaDefined (hole g)) with (StabilizeAreaDefined g) in H
  | |- context [tk_perform_rotation (tk ?g)] => change (tk_perform_rotation (tk g)) with (perform_rotation g)
  | H : context [tk_perform_rotation (tk ?g)] |- _ => change (tk_perform_rotation (tk g)) with (perform_rotation g) in H
  | |- context [tk_perform_stabilization (tk ?g)] => change (tk_perform_stabilization (tk g)) with (perform_stabilization g)
  | H : context [tk_perform_stabilization (tk ?g)] |- _ => change (tk_perform_stabilization (tk g)) with (perform_stabilization g) in H
  | |- context [tk_perform_cropping (tk ?g)] => change (tk_perform_cropping (tk g)) with (perform_cropping g)
  | H : context [tk_perform_cropping (tk ?g)] |- _ => change (tk_perform_cropping (tk g)) with (perform_cropping g) in H
  | |- context [tk_generate_video (tk ?g)] => change (tk_generate_video (tk g)) with (generate_video g)
  | H : context [tk_generate_video (tk ?g)] |- _ => change (tk_generate_video (tk g)) with (generate_video g) in H
  | |- context [tk_skip_frame_regeneration (tk ?g)] => change (tk_skip_frame_regeneration (tk g)) with (skip_frame_regeneration g)
  | H : context [tk_skip_frame_regeneration (tk ?g)] |- _ => change (tk_skip_frame_regeneration (tk g)) with (skip_frame_regeneration g) in H
  | |- context [tk_encode_all_frames (tk ?g)] => change (tk_encode_all_frames (tk g)) with (encode_all_frames g)
  | H : context [tk_encode_all_frames (tk ?g)] |- _ => change (tk_encode_all_frames (tk g)) with (encode_all_frames g) in H
  | |- context [tk_frame_from_str (tk ?g)] => change (tk_frame_from_str (tk g)) with (frame_from_str g)
  | H : context [tk_frame_from_str (tk ?g)] |- _ => change (tk_frame_from_str (tk g)) with (frame_from_str g) in H
  | |- context [tk_frame_to_str (tk ?g)] => change (tk_frame_to_str (tk g)) with (frame_to_str g)
  | H : context [tk_frame_to_str (tk ?g)] |- _ => change (tk_frame_to_str (tk g)) with (frame_to_str g) in H
  | |- context [tk_film_type (tk ?g)] => change (tk_film_type (tk g)) with (film_type g)
  | H : context [tk_film_type (tk ?g)] |- _ => change (tk_film_type (tk g)) with (film_type g) in H
  | |- context [tk_video_filename_name (tk ?g)] => change (tk_video_filename_name (tk g)) with (video_filename_name g)
  | H : context [tk_video_filename_name (tk ?g)] |- _ => change (tk_video_filename_name (tk g)) with (video_filename_name g) in H
  | |- context [tk_stabilization_bounds_alert (tk ?g)] => change (tk_stabilization_bounds_alert (tk g)) with (stabilization_bounds_alert g)
  | H : context [tk_stabilization_bounds_alert (tk ?g)] |- _ => change (tk_stabilization_bounds_alert (tk g)) with (stabilization_bounds_alert g) in H
  | |- context [tk_suspend_on_joblist_end (tk ?g)] => change (tk_suspend_on_joblist_end (tk g)) with (suspend_on_joblist_end g)
  | H : context [tk_suspend_on_joblist_end (tk ?g)] |- _ => change (tk_suspend_on_joblist_end (tk g)) with (suspend_on_joblist_end g) in H
  | |- context [tk_app_status_label (tk ?g)] => change (tk_app_status_label (tk g)) with (app_status_label g)
  | H : context [tk_app_status_label (tk ?g)] |- _ => change (tk_app_status_label (tk g)) with (app_status_label g) in H
  | |- context [proj_project_config (proj ?g)] => change (proj_project_config (proj g)) with (project_config g)
  | H : context [proj_project_config (proj ?g)] |- _ => change (proj_project_config (proj g)) with (project_config g) in H
  | |- context [proj_project_config_from_file (proj ?g)] => change (proj_project_config_from_file (proj g)) with (project_config_from_file g)
  | H : context [proj_project_config_from_file (proj ?g)] |- _ => change (proj_project_config_from_file (proj g)) with (project_config_from_file g) in H
  | |- context [proj_project_name (proj ?g)] => change (proj_project_name (proj g)) with (project_name g)
  | H : context [proj_project_name (proj ?g)] |- _ => change (proj_project_name (proj g)) with (project_name g) in H
  | |- context [proj_CropTopLeft (proj ?g)] => change (proj_CropTopLeft (proj g)) with (CropTopLeft g)
  | H : context [proj_CropTopLeft (proj ?g)] |- _ => change (proj_CropTopLeft (proj g)) with (CropTopLeft g) in H
  | |- context [proj_CropBottomRight (proj ?g)] => change (proj_CropBottomRight (proj g)) with (CropBottomRight g)
  | H : context [proj_CropBottomRight (proj ?g)] |- _ => change (proj_CropBottomRight (proj g)) with (CropBottomRight g) in H
  | |- context [proj_RotationAngle (proj ?g)] => change (proj_RotationAngle (proj g)) with (RotationAngle g)
  | H : context [proj_RotationAngle (proj ?g)] |- _ => change (proj_RotationAngle (proj g)) with (RotationAngle g) in H
  | |- context [proj_StabilizationThreshold (proj ?g)] => change (proj_StabilizationThreshold (proj g)) with (StabilizationThreshold g)
  | H : context [proj_StabilizationThreshold (proj ?g)] |- _ => change (proj_StabilizationThreshold (proj g)) with (StabilizationThreshold g) in H
  | |- context [proj_ExpertMode (proj ?g)] => change (proj_ExpertMode (proj g)) with (ExpertMode g)
  | H : context [proj_ExpertMode (proj ?g)] |- _ => change (proj_ExpertMode (proj g)) with (ExpertMode g) in H
  | |- context [proj_stabilization_bounds_alert_counter (proj ?g)] => change (proj_stabilization_bounds_alert_counter (proj g)) with (stabilization_bounds_alert_counter g)
  | H : context [proj_stabilization_bounds_alert_counter (proj ?g)] |- _ => change (proj_stabilization_bounds_alert_counter (proj g)) with (stabilization_bounds_alert_counter g) in H
  | |- context [proj_VideoFps (proj ?g)] => change (proj_VideoFps (proj g)) with (VideoFps g)
  | H : context [proj_VideoFps (proj ?g)] |- _ => change (proj_VideoFps (proj g)) with (VideoFps g) in H
  | |- context [proj_job_list (proj ?g)] => change (proj_job_list (proj g)) with (job_list g)
  | H : context [proj_job_list (proj ?g)] |- _ => change (proj_job_list (proj g)) with (job_list g) in H
  | |- context [proj_CurrentJobEntry (proj ?g)] => change (proj_CurrentJobEntry (proj g)) with (CurrentJobEntry g)
  | H : context [proj_CurrentJobEntry (proj ?g)] |- _ => change (proj_CurrentJobEntry (proj g)) with (CurrentJobEntry g) in H
  | |- context [world_log (world ?g)] => change (world_log (world g)) with (log g)
  | H : context [world_log (world ?g)] |- _ => change (world_log (world g)) with (log g) in H
  | |- context [world_dialogs (world ?g)] => change (world_dialogs (world g)) with (dialogs g)
  | H : context [world_dialogs (world ?g)] |- _ => change (world_dialogs (world g)) with (dialogs g) in H
  | |- context [world_answers (world ?g)] => change (world_answers (world g)) with (answers g)
  | H : context [world_answers (world ?g)] |- _ => change (world_answers (world g)) with (answers g) in H
  | |- context [world_scheduled (world ?g)] => change (world_scheduled (world g)) with (scheduled g)
  | H : context [world_scheduled (world ?g)] |- _ => change (world_scheduled (world g)) with (scheduled g) in H
  | |- context [world_fs (world ?g)] => change (world_fs (world g)) with (fs g)
  | H : context [world_fs (world ?g)] |- _ => change (world_fs (world g)) with (fs g) in H
  | |- context [world_cv2 (world ?g)] => change (world_cv2 (world g)) with (cv2 g)
  | H : context [world_cv2 (world ?g)] |- _ => change (world_cv2 (world g)) with (cv2 g) in H
  | |- context [world_spawned (world ?g)] => change (world_spawned (world g)) with (spawned g)
  | H : context [world_spawned (world ?g)] |- _ => change (world_spawned (world g)) with (spawned g) in H
  | |- context [world_ffmpeg_stdout (world ?g)] => change (world_ffmpeg_stdout (world g)) with (ffmpeg_stdout g)
  | H : context [world_ffmpeg_stdout (world ?g)] |- _ => change (world_ffmpeg_stdout (world g)) with (ffmpeg_stdout g) in H
  | |- context [world_terminations (world ?g)] => change (world_terminations (world g)) with (terminations g)
  | H : context [world_terminations (world ?g)] |- _ => change (world_terminations (world g)) with (terminations g) in H
  | |- context [world_bells (world ?g)] => change (world_bells (world g)) with (bells g)
  | H : context [world_bells (world ?g)] |- _ => change (world_bells (world g)) with (bells g) in H
  | |- context [world_suspends (world ?g)] => change (world_suspends (world g)) with (suspends g)
  | H : context [world_suspends (world ?g)] |- _ => change (world_suspends (world g)) with (suspends g) in H
  | |- context [world_uncaught (world ?g)] => change (world_uncaught (world g)) with (uncaught g)
  | H : context [world_uncaught (world ?g)] |- _ => change (world_uncaught (world g)) with (uncaught g) in H
  | |- context [proj_IsWindows (proj ?g)] => change (proj_IsWindows (proj g)) with (IsWindows g)
  | H : context [proj_IsWindows (proj ?g)] |- _ => change (proj_IsWindows (proj g)) with (IsWindows g) in H
  | |- context [proj_IsLinux (proj ?g)] => change (proj_IsLinux (proj g)) with (IsLinux g)
  | H : context [proj_IsLinux (proj ?g)] |- _ => change (proj_IsLinux (proj g)) with (IsLinux g) in H
  | |- context [proj_IsMac (proj ?g)] => change (proj_IsMac (proj g)) with (IsMac g)
  | H : context [proj_IsMac (proj ?g)] |- _ => change (proj_IsMac (proj g)) with (IsMac g) in H
  | |- context [world_popen (world ?g)] => change (world_popen (world g)) with (popen g)
  | H : context [world_popen (world ?g)] |- _ => change (world_popen (world g)) with (popen g) in H
  end.

Ltac simpl_state :=
  unfold_globals;
  cbn [ConvertLoopExitRequested_set ConvertLoopRunning_set
       BatchJobRunning_set CurrentFrame_set StartFrame_set
       frames_to_encode_set first_absolute_frame_set ffmpeg_success_set
       ffmpeg_encoding_status_set SourceDir_set TargetDir_set
       VideoTargetDir_set TargetVideoFilename_set SourceDirFileList_set
       TargetDirFileList_set out_frame_width_set out_frame_height_set
       expected_pattern_pos_set expected_pattern_pos_custom_set
       pattern_filename_set pattern_filename_custom_set
       film_hole_template_set film_bw_template_set film_wb_template_set
       film_hole_height_set HoleSearchTopLeft_set HoleSearchBottomRight_set
       CustomTemplateDefined_set StabilizeAreaDefined_set
       perform_rotation_set perform_stabilization_set perform_cropping_set
       generate_video_set skip_frame_regeneration_set encode_all_frames_set
       frame_from_str_set frame_to_str_set film_type_set
       video_filename_name_set stabilization_bounds_alert_set
       suspend_on_joblist_end_set app_status_label_set project_config_set
       project_config_from_file_set project_name_set CropTopLeft_set
       CropBottomRight_set RotationAngle_set StabilizationThreshold_set
       ExpertMode_set stabilization_bounds_alert_counter_set VideoFps_set
       job_list_set CurrentJobEntry_set log_set dialogs_set answers_set
       scheduled_set fs_set cv2_set spawned_set ffmpeg_stdout_set
       terminations_set bells_set suspends_set uncaught_set
       IsWindows_set IsLinux_set IsMac_set popen_set upd_flow
       upd_files upd_hole upd_tk upd_proj upd_world
       flow_ConvertLoopExitRequested flow_ConvertLoopRunning
       flow_BatchJobRunning flow_CurrentFrame flow_StartFrame
       flow_frames_to_encode flow_first_absolute_frame flow_ffmpeg_success
       flow_ffmpeg_encoding_status files_SourceDir files_TargetDir
       files_VideoTargetDir files_TargetVideoFilename files_SourceDirFileList
       files_TargetDirFileList files_out_frame_width files_out_frame_height
       hole_expected_pattern_pos hole_expected_pattern_pos_custom
       hole_pattern_filename hole_pattern_filename_custom
       hole_film_hole_template hole_film_bw_template hole_film_wb_template
       hole_film_hole_height hole_HoleSearchTopLeft
       hole_HoleSearchBottomRight hole_CustomTemplateDefined
       hole_StabilizeAreaDefined tk_perform_rotation tk_perform_stabilization
       tk_perform_cropping tk_generate_video tk_skip_frame_regeneration
       tk_encode_all_frames tk_frame_from_str tk_frame_to_str tk_film_type
       tk_video_filename_name tk_stabilization_bounds_alert
       tk_suspend_on_joblist_end tk_app_status_label proj_project_config
       proj_project_config_from_file proj_project_name proj_CropTopLeft
       proj_CropBottomRight proj_RotationAngle proj_StabilizationThreshold
       proj_ExpertMode proj_stabilization_bounds_alert_counter proj_VideoFps
       proj_job_list proj_CurrentJobEntry proj_IsWindows proj_IsLinux
       proj_IsMac world_popen world_log world_dialogs
       world_answers world_scheduled world_fs world_cv2 world_spawned
       world_ffmpeg_stdout world_terminations world_bells world_suspends
       world_uncaught flow files hole tk proj world] in *;
  fold_globals.

Ltac unfold_stmt :=
  cbv beta iota zeta delta
    [bind ret get assign raise logging messagebox win_after not_none
     app_status_label_config os_path_isdir os_path_isfile exec result].

Ltac case_if :=
  match goal with
  | |- context [if ?b then _ else _] => destruct b eqn:?
  end.

(** *** Frame rules *)

Section Preserves.
Context {V : Type} (view : globals -> V).

Lemma preserves_ret {A} (a : A) : preserves view (ret a).
Proof. intros g. reflexivity. Qed.

Lemma preserves_raise {A} exn : preserves view (@raise A exn).
Proof. intros g. reflexivity. Qed.

Lemma preserves_get {A} (f : globals -> A) : preserves view (get f).
Proof. intros g. reflexivity. Qed.

Lemma preserves_assign (f : globals -> globals) :
  (forall g, view (f g) = view g) -> preserves view (assign f).
Proof. intros H g. apply H. Qed.

Lemma preserves_bind {A B} (m : M A) (k : A -> M B) :
  preserves view m -> (forall a, preserves view (k a)) ->
  preserves view (bind m k).
Proof.
  intros Hm Hk g. unfold bind. specialize (Hm g).
  destruct (m g) as [[a|exn] g1]; cbn [snd] in *.
  - now rewrite Hk.
  - exact Hm.
Qed.

Lemma preserves_not_none {A} (x : option A) : preserves view (not_none x).
Proof. destruct x; intros g; reflexivity. Qed.

Lemma preserves_index {A} (l : list A) i : preserves view (index l i).
Proof. unfold index. destruct (py_index l i); intros g; reflexivity. Qed.

Lemma preserves_lift {A} (r : outcome A) : preserves view (lift r).
Proof. intros g. reflexivity. Qed.

Lemma preserves_try_except {A} (m handler : M A) :
  preserves view m -> preserves view handler -> preserves view (try_except m handler).
Proof.
  intros Hm Hh g. unfold try_except. specialize (Hm g).
  destruct (m g) as [[a|exn] g1]; cbn [snd] in *; [exact Hm|].
  now rewrite Hh.
Qed.

End Preserves.

Lemma started_app l1 l2 : started (l1 ++ l2) = (started l1 ++ started l2)%list.
Proof.
  induction l1 as [|[lvl msg] l1 IH]; cbn [started app]; [reflexivity|].
  destruct msg; cbn [app]; now rewrite ?IH.
Qed.

Lemma started_quiet lvl msg : quiet msg -> started [(lvl, msg)] = [].
Proof. destruct msg; cbn; intros H; now try destruct H. Qed.

Lemma frame_view_logging lvl msg : preserves frame_view (logging lvl msg).
Proof. intros g. reflexivity. Qed.

Lemma queue_view_logging lvl msg :
  quiet msg -> preserves queue_view (logging lvl msg).
Proof.
  intros Hq g. unfold queue_view, logging, assign; cbn [snd]. simpl_state.
  now rewrite started_app, (started_quiet _ _ Hq), app_nil_r.
Qed.

Lemma frame_view_messagebox d : preserves frame_view (messagebox d).
Proof. intros g. reflexivity. Qed.

Lemma queue_view_messagebox d : preserves queue_view (messagebox d).
Proof. intros g. reflexivity. Qed.

Create HintDb frame.
#[local] Hint Resolve frame_view_logging queue_view_logging frame_view_messagebox
  queue_view_messagebox : frame.
#[local] Hint Extern 1 (quiet _) => exact I : frame.

(** Follows the structure of a statement; assignments must leave the view
    alone by computation, calls are looked up among the hints. *)
Ltac frame_step :=
  match goal with
  | |- preserves _ (bind _ _) => apply preserves_bind; [|intros ?]
  | |- preserves _ (ret _) => apply preserves_ret
  | |- preserves _ (raise _) => apply preserves_raise
  | |- preserves _ (get _) => apply preserves_get
  | |- preserves _ (not_none _) => apply preserves_not_none
  | |- preserves _ (index _ _) => apply preserves_index
  | |- preserves _ (lift _) => apply preserves_lift
  | |- preserves _ (try_except _ _) => apply preserves_try_except
  | |- preserves _ (assign _) => apply preserves_assign; intros ?; reflexivity
  | |- preserves _ (if ?b then _ else _) => destruct b
  | |- preserves _ (match ?x with _ => _ end) => destruct x
  | |- preserves _ (let '(_, _) := ?x in _) => destruct x
  | |- preserves _ (logging _ _) =>
      first [solve [auto with frame]
            | unfold logging; apply preserves_assign; intros ?; reflexivity]
  | |- preserves _ (messagebox _) =>
      first [solve [auto with frame]
            | unfold messagebox; apply preserves_assign; intros ?; reflexivity]
  | |- preserves _ (win_after _) =>
      unfold win_after; apply preserves_assign; intros ?; reflexivity
  | |- preserves _ (app_status_label_config _ _) => unfold app_status_label_config
  | |- preserves _ (os_path_isdir _) => unfold os_path_isdir
  | |- preserves _ (os_path_isfile _) => unfold os_path_isfile
  | |- preserves _ _ => solve [auto with frame]
  end.

Ltac frame := repeat frame_step.

(** *** Running a statement step by step *)

Lemma bind_returns {A B} (m : M A) (k : A -> M B) g a g1 :
  m g = (Return a, g1) -> bind m k g = k a g1.
Proof. intros H. unfold bind. now rewrite H. Qed.

Lemma bind_raises {A B} (m : M A) (k : A -> M B) g exn g1 :
  m g = (Raise exn, g1) -> bind m k g = (Raise exn, g1).
Proof. intros H. unfold bind. now rewrite H. Qed.

Lemma bind_assoc {A B C} (m : M A) (k : A -> M B) (h : B -> M C) g :
  bind (bind m k) h g = bind m (fun a => bind (k a) h) g.
Proof. unfold bind. destruct (m g) as [[a|exn] g1]; reflexivity. Qed.

Ltac step :=
  match goal with
  | |- context [bind (bind ?m ?k) ?h ?g] => rewrite (bind_assoc m k h g)
  | |- context [bind (get ?f) ?k ?g] =>
      change (bind (get f) k g) with (k (f g) g); cbv beta
  | |- context [bind (assign ?f) ?k ?g] =>
      change (bind (assign f) k g) with (k tt (f g)); cbv beta
  | |- context [bind (ret ?a) ?k ?g] =>
      change (bind (ret a) k g) with (k a g); cbv beta
  | |- context [bind (raise ?e) ?k ?g] =>
      change (bind (raise e) k g) with (@raise _ e g)
  | |- context [bind (lift (Return ?a)) ?k ?g] =>
      change (bind (lift (Return a)) k g) with (k a g); cbv beta
  | |- context [bind (@lift ?A (Raise ?e)) ?k ?g] =>
      change (bind (@lift A (Raise e)) k g) with (@raise _ e g)
  | |- context [bind (logging ?l ?m) ?k ?g] =>
      change (bind (logging l m) k g)
        with (k tt (log_set (log g ++ [(l, m)]) g)); cbv beta
  | |- context [bind (messagebox ?d) ?k ?g] =>
      change (bind (messagebox d) k g)
        with (k tt (dialogs_set (dialogs g ++ [d]) g)); cbv beta
  | |- context [bind (win_after ?f) ?k ?g] =>
      change (bind (win_after f) k g)
        with (k tt (scheduled_set (scheduled g ++ [f]) g)); cbv beta
  | |- context [bind (app_status_label_config ?t ?c) ?k ?g] =>
      change (bind (app_status_label_config t c) k g)
        with (k tt (app_status_label_set (t, c) g)); cbv beta
  | |- context [bind (os_path_isdir ?d) ?k ?g] =>
      change (bind (os_path_isdir d) k g) with (k (isdir (fs g) d) g); cbv beta
  | |- context [bind (os_path_isfile ?d) ?k ?g] =>
      change (bind (os_path_isfile d) k g) with (k (isfile (fs g) d) g); cbv beta
  | |- context [get ?f ?g] => change (get f g) with (Return (f g), g)
  | |- context [assign ?f ?g] => change (assign f g) with (Return tt, f g)
  | |- context [@ret ?A ?a ?g] => change (@ret A a g) with (Return a, g)
  | |- context [@raise ?A ?e ?g] => change (@raise A e g) with (@Raise A e, g)
  | |- context [logging ?l ?m ?g] =>
      change (logging l m g) with (Return tt, log_set (log g ++ [(l, m)]) g)
  | |- context [messagebox ?d ?g] =>
      change (messagebox d g) with (Return tt, dialogs_set (dialogs g ++ [d]) g)
  | |- context [win_after ?f ?g] =>
      change (win_after f g) with (Return tt, scheduled_set (scheduled g ++ [f]) g)
  | |- context [app_status_label_config ?t ?c ?g] =>
      change (app_status_label_config t c g)
        with (Return tt, app_status_label_set (t, c) g)
  end.

Ltac steps := repeat (step; simpl_state).

(** Case analysis on the test of the statement that runs next. *)
Ltac branch :=
  match goal with
  | |- context [bind (if ?b then _ else _) _ _] => destruct b eqn:?
  | |- context [(if ?b then _ else _) ?g] =>
      match type of g with globals => destruct b eqn:? end
  end.

Ltac run := repeat (first [rewrite bind_assoc | step]); simpl_state.

(* ------------------------------------------------------------------ *)
(** * Properties *)

Ltac unfold_slices :=
  unfold even_image, crop_image, slice2, Py.slice_index, valid_shape, valid_rect in *;
  cbn [shape0 shape1 row0 col0 buffer fst snd] in *.

Ltac case_tests :=
  repeat match goal with
  | |- context [if ?b then _ else _] => destruct b eqn:?
  | H : context [if ?b then _ else _] |- _ => destruct b eqn:?
  end.

Ltac to_lia :=
  repeat match goal with
  | H : (_ =? _) = true |- _ => apply Z.eqb_eq in H
  | H : (_ =? _) = false |- _ => apply Z.eqb_neq in H
  | H : (_ <? _) = true |- _ => apply Z.ltb_lt in H
  | H : (_ <? _) = false |- _ => apply Z.ltb_ge in H
  | H : (_ <=? _) = true |- _ => apply Z.leb_le in H
  | H : (_ <=? _) = false |- _ => apply Z.leb_gt in H
  | H : (_ || _) = true |- _ => apply orb_true_iff in H; destruct H
  | H : (_ || _) = false |- _ => apply orb_false_iff in H; destruct H
  | H : negb _ = true |- _ => apply negb_true_iff in H
  | H : negb _ = false |- _ => apply negb_false_iff in H
  end.

Ltac zsolve := to_lia; Z.to_euclidean_division_equations; lia.

Lemma even_mod2 (x : Z) : Z.even x = true <-> x mod 2 = 0.
Proof.
  rewrite Zeven_mod. split; intro H.
  - now apply Z.eqb_eq in H.
  - now apply Z.eqb_eq.
Qed.

(** *** One axis at a time *)

Lemma slice_index_inside i n : 0 <= i <= n -> Py.slice_index i n = i.
Proof. unfold Py.slice_index. intros H. case_tests; zsolve. Qed.

Lemma slice_index_range i n : 0 <= n -> 0 <= Py.slice_index i n <= n.
Proof. unfold Py.slice_index. intros H. case_tests; zsolve. Qed.

(** The end coordinate after the parity correction of [even_image]. *)
Lemma even_end_spec w :
  0 <= w ->
  let e := if w mod 2 =? 1 then w - 1 else w in
  e = w - w mod 2 /\ 0 <= e <= w /\ e mod 2 = 0.
Proof. intros Hw e. subst e. case_tests; zsolve. Qed.

(** The extent of one axis of [crop_image]. *)
Lemma crop_axis_even lo hi n :
  0 <= n -> 0 <= lo <= hi ->
  let e := Z.min hi n in
  let e' := if (e - lo) mod 2 =? 1 then e - 1 else e in
  (Z.max 0 (Py.slice_index e' n - Py.slice_index lo n)) mod 2 = 0.
Proof.
  intros Hn Hlo e e'. subst e e'. unfold Py.slice_index.
  case_tests; zsolve.
Qed.

Lemma slice2_all a :
  valid_shape a -> slice2 a 0 (shape0 a) 0 (shape1 a) = a.
Proof.
  intros [H0 H1]. destruct a as [b r c h w]. unfold slice2.
  cbn [shape0 shape1 row0 col0 buffer] in *.
  rewrite !slice_index_inside by lia.
  apply f_equal4; lia.
Qed.

(** *** [crop_image] and [even_image] *)

Lemma crop_image_even img top_left botton_right :
  valid_shape img -> valid_rect top_left botton_right ->
  Z.even (shape1 (crop_image img top_left botton_right)) = true /\
  Z.even (shape0 (crop_image img top_left botton_right)) = true.
Proof.
  intros [H0 H1] [Hx Hy]. rewrite !even_mod2.
  unfold crop_image, slice2; cbn [shape0 shape1].
  split; apply crop_axis_even; assumption.
Qed.

(** What [even_image] returns, by cases on its guard. *)
Lemma even_image_cases img :
  valid_shape img ->
  (shape1 img <= 1 /\ shape0 img <= 1 /\ even_image img = img) \/
  ((1 < shape1 img \/ 1 < shape0 img) /\
   even_image img =
     mk_ndarray (buffer img) (row0 img) (col0 img)
       (shape0 img - shape0 img mod 2) (shape1 img - shape1 img mod 2)).
Proof.
  intros [H0 H1]. unfold even_image.
  pose proof (even_end_spec (shape1 img) H1) as (Ex & Rx & Px).
  pose proof (even_end_spec (shape0 img) H0) as (Ey & Ry & Py).
  cbv zeta in Ex, Rx, Px, Ey, Ry, Py.
  set (X_end := if shape1 img mod 2 =? 1 then _ else _) in *.
  set (Y_end := if shape0 img mod 2 =? 1 then _ else _) in *.
  destruct (negb (X_end =? 0) || negb (Y_end =? 0)) eqn:G.
  - right. split; [to_lia; Z.to_euclidean_division_equations; lia|].
    unfold slice2. rewrite !slice_index_inside by lia.
    rewrite <- Ex, <- Ey. apply f_equal4; lia.
  - left. repeat split; zsolve.
Qed.

Lemma even_image_valid_shape img :
  valid_shape img -> valid_shape (even_image img).
Proof.
  intros Hs. destruct (even_image_cases img Hs) as [(_ & _ & ->)|(_ & ->)];
    [assumption|].
  destruct Hs as [H0 H1]. split; cbn [shape0 shape1];
    Z.to_euclidean_division_equations; lia.
Qed.

Lemma even_image_even img :
  valid_shape img -> 1 < shape1 img \/ 1 < shape0 img ->
  Z.even (shape1 (even_image img)) = true /\
  Z.even (shape0 (even_image img)) = true.
Proof.
  intros Hs Hbig. rewrite !even_mod2.
  destruct (even_image_cases img Hs) as [(? & ? & _)|(_ & ->)]; [lia|].
  destruct Hs. cbn [shape0 shape1].
  split; Z.to_euclidean_division_equations; lia.
Qed.

Lemma even_image_idempotent img :
  valid_shape img -> even_image (even_image img) = even_image img.
Proof.
  intros Hs.
  pose proof (even_image_valid_shape img Hs) as Hs'.
  destruct (even_image_cases img Hs) as [(_ & _ & E)|(_ & E)].
  - now rewrite !E.
  - destruct (even_image_cases _ Hs') as [(_ & _ & E')|(_ & E')]; [exact E'|].
    rewrite E'. rewrite E at 5. rewrite E; cbn [buffer row0 col0 shape0 shape1].
    destruct Hs. apply f_equal4; try reflexivity;
      Z.to_euclidean_division_equations; lia.
Qed.

Lemma crop_image_idempotent_origin img botton_right :
  valid_shape img -> 0 <= fst botton_right -> 0 <= snd botton_right ->
  crop_image (crop_image img (0, 0) botton_right) (0, 0) botton_right =
  crop_image img (0, 0) botton_right.
Proof.
  intros [H0 H1] Hx Hy. destruct img as [b r c h w], botton_right as [x1 y1].
  cbn [fst snd shape0 shape1] in *.
  assert (A : forall hi n, 0 <= n -> 0 <= hi ->
    let e := if (Z.min hi n - 0) mod 2 =? 1 then Z.min hi n - 1 else Z.min hi n in
    0 <= e <= n /\ e <= hi /\ (e - 0) mod 2 = 0).
  { intros hi n Hn Hhi e. subst e. case_tests; zsolve. }
  pose proof (A x1 w H1 Hx) as (Ax1 & Ax2 & Ax3).
  pose proof (A y1 h H0 Hy) as (Ay1 & Ay2 & Ay3). cbv zeta in *.
  unfold crop_image at 2. cbn [fst snd shape0 shape1].
  set (ex := if (Z.min x1 w - 0) mod 2 =? 1 then _ else _) in *.
  set (ey := if (Z.min y1 h - 0) mod 2 =? 1 then _ else _) in *.
  unfold slice2; cbn [shape0 shape1 row0 col0 buffer].
  rewrite !slice_index_inside by lia.
  replace (Z.max 0 (ey - 0)) with ey by lia.
  replace (Z.max 0 (ex - 0)) with ex by lia.
  unfold crop_image; cbn [fst snd shape0 shape1 row0 col0 buffer].
  rewrite (Z.min_r x1 ex), (Z.min_r y1 ey) by lia.
  replace ((ex - 0) mod 2 =? 1) with false by (symmetry; apply Z.eqb_neq; lia).
  replace ((ey - 0) mod 2 =? 1) with false by (symmetry; apply Z.eqb_neq; lia).
  unfold slice2; cbn [shape0 shape1 row0 col0 buffer].
  rewrite !slice_index_inside by lia.
  apply f_equal4; lia.
Qed.

Lemma even_image_pixels img r c :
  valid_shape img ->
  buffer (even_image img) = buffer img /\
  row0 (even_image img) = row0 img /\
  col0 (even_image img) = col0 img /\
  at_ (even_image img) r c = at_ img r c.
Proof.
  intros Hs. unfold at_.
  destruct (even_image_cases img Hs) as [(_ & _ & ->)|(_ & ->)];
    cbn [buffer row0 col0]; auto.
Qed.

(** C4, as amended.  For a valid crop rectangle the output of [crop_image]
    has even width and even height; [even_image] gives even width and even
    height for every frame with more than one row or more than one column
    (a frame of at most one row and one column is returned as it is);
    [even_image] is idempotent; [crop_image] is idempotent when the
    rectangle starts at the origin. *)
Theorem crop_and_even_image_normalise img top_left botton_right :
  valid_shape img -> valid_rect top_left botton_right ->
  (Z.even (shape1 (crop_image img top_left botton_right)) = true /\
   Z.even (shape0 (crop_image img top_left botton_right)) = true) /\
  (1 < shape1 img \/ 1 < shape0 img ->
   Z.even (shape1 (even_image img)) = true /\
   Z.even (shape0 (even_image img)) = true) /\
  even_image (even_image img) = even_image img /\
  (top_left = (0, 0) ->
   crop_image (crop_image img top_left botton_right) top_left botton_right =
   crop_image img top_left botton_right).
Proof.
  intros Hs Hr. repeat split.
  - now apply crop_image_even.
  - now apply crop_image_even.
  - now apply even_image_even.
  - now apply even_image_even.
  - now apply even_image_idempotent.
  - intros ->. destruct Hr as [Hx Hy]; cbn [fst snd] in *.
    apply crop_image_idempotent_origin; [assumption|lia|lia].
Qed.

Lemma crop_and_even_image_normalise_witness :
  (Z.even (shape1 (crop_image (ramp 11 9) (0, 0) (7, 20))) = true /\
   Z.even (shape0 (crop_image (ramp 11 9) (0, 0) (7, 20))) = true) /\
  (Z.even (shape1 (even_image (ramp 11 9))) = true /\
   Z.even (shape0 (even_image (ramp 11 9))) = true) /\
  even_image (even_image (ramp 11 9)) = even_image (ramp 11 9) /\
  crop_image (crop_image (ramp 11 9) (0, 0) (7, 20)) (0, 0) (7, 20) =
  crop_image (ramp 11 9) (0, 0) (7, 20).
Proof.
  assert (Hs : valid_shape (ramp 11 9)) by (split; cbn; lia).
  assert (Hr : valid_rect (0, 0) (7, 20)) by (split; cbn; lia).
  destruct (crop_and_even_image_normalise (ramp 11 9) (0, 0) (7, 20) Hs Hr)
    as (Hc & He & Hi & Ho).
  split; [exact Hc|]. split; [apply He; left; cbn; lia|].
  split; [exact Hi|]. apply Ho; reflexivity.
Defined.

(** C4 as stated fails: cropping a 10x10 frame twice with the rectangle
    (2, 2)-(8, 8) leaves a 4x4 frame where one crop leaves 6x6, and
    [even_image] hands back a 1x1 frame with its odd width. *)
Lemma crop_image_twice_differs :
  valid_shape (ramp 10 10) /\ valid_rect (2, 2) (8, 8) /\
  crop_image (crop_image (ramp 10 10) (2, 2) (8, 8)) (2, 2) (8, 8) <>
  crop_image (ramp 10 10) (2, 2) (8, 8) /\
  shape1 (crop_image (ramp 10 10) (2, 2) (8, 8)) = 6 /\
  shape1 (crop_image (crop_image (ramp 10 10) (2, 2) (8, 8)) (2, 2) (8, 8)) = 4 /\
  Z.even (shape1 (even_image (ramp 1 1))) = false.
Proof.
  repeat split; try (cbn; lia); try reflexivity.
  intros H. apply (f_equal shape1) in H. vm_compute in H. discriminate.
Qed.

(** C10, as amended.  For every non-empty image other than a 1x1 image,
    [even_image] returns the view anchored at the top-left corner whose
    width is the input width minus (width mod 2) and whose height is the
    input height minus (height mod 2); a 1x1 image is returned whole.  In
    both cases the result shares the pixel buffer of the input, which is
    not written, every retained pixel is the input pixel at the same
    position, and at most one row and one column are dropped. *)
Theorem even_image_top_left_view img :
  valid_shape img -> 0 < shape1 img -> 0 < shape0 img ->
  let out := even_image img in
  (if (shape1 img =? 1) && (shape0 img =? 1)
   then out = img
   else shape1 out = shape1 img - shape1 img mod 2 /\
        shape0 out = shape0 img - shape0 img mod 2) /\
  buffer out = buffer img /\ row0 out = row0 img /\ col0 out = col0 img /\
  (forall r c, 0 <= r < shape0 out -> 0 <= c < shape1 out ->
               at_ out r c = at_ img r c) /\
  shape1 img - 1 <= shape1 out <= shape1 img /\
  shape0 img - 1 <= shape0 out <= shape0 img.
Proof.
  intros Hs Hw Hh out. subst out.
  pose proof (even_image_pixels img 0 0 Hs) as (Hb & Hr & Hc & _).
  repeat split; try assumption.
  - destruct (even_image_cases img Hs) as [(? & ? & E)|(Hbig & E)].
    + replace ((shape1 img =? 1) && (shape0 img =? 1)) with true
        by (symmetry; apply andb_true_iff; split; apply Z.eqb_eq; lia).
      exact E.
    + replace ((shape1 img =? 1) && (shape0 img =? 1)) with false
        by (symmetry; apply andb_false_iff;
            destruct Hbig; [left|right]; apply Z.eqb_neq; lia).
      rewrite E; cbn [shape0 shape1]. split; reflexivity.
  - intros r c _ _. now apply even_image_pixels.
  - destruct (even_image_cases img Hs) as [(_ & _ & ->)|(_ & ->)];
      cbn [shape1]; Z.to_euclidean_division_equations; lia.
  - destruct (even_image_cases img Hs) as [(_ & _ & ->)|(_ & ->)];
      cbn [shape1]; Z.to_euclidean_division_equations; lia.
  - destruct (even_image_cases img Hs) as [(_ & _ & ->)|(_ & ->)];
      cbn [shape0]; Z.to_euclidean_division_equations; lia.
  - destruct (even_image_cases img Hs) as [(_ & _ & ->)|(_ & ->)];
      cbn [shape0]; Z.to_euclidean_division_equations; lia.
Qed.

Lemma even_image_top_left_view_witness :
  shape1 (even_image (ramp 5 8)) = 8 /\
  shape0 (even_image (ramp 5 8)) = 4 /\
  buffer (even_image (ramp 5 8)) = buffer (ramp 5 8) /\
  at_ (even_image (ramp 5 8)) 3 7 = at_ (ramp 5 8) 3 7.
Proof.
  assert (Hs : valid_shape (ramp 5 8)) by (split; cbn; lia).
  assert (Hw : 0 < shape1 (ramp 5 8)) by (cbn; lia).
  assert (Hh : 0 < shape0 (ramp 5 8)) by (cbn; lia).
  destruct (even_image_top_left_view (ramp 5 8) Hs Hw Hh)
    as (Hd & Hb & _ & _ & Hp & _).
  change (shape1 (even_image (ramp 5 8)) = 8 /\
          shape0 (even_image (ramp 5 8)) = 4) in Hd.
  destruct Hd as [H1 H0].
  split; [exact H1|]. split; [exact H0|]. split; [exact Hb|].
  apply Hp; rewrite ?H0, ?H1; lia.
Defined.

(** C10 as stated fails: a 1x1 image comes back 1x1, not 0x0. *)
Lemma even_image_keeps_single_pixel :
  0 < shape1 (ramp 1 1) /\ 0 < shape0 (ramp 1 1) /\
  shape1 (even_image (ramp 1 1)) = 1 /\
  shape1 (even_image (ramp 1 1)) <> shape1 (ramp 1 1) - shape1 (ramp 1 1) mod 2 /\
  shape0 (even_image (ramp 1 1)) <> shape0 (ramp 1 1) - shape0 (ramp 1 1) mod 2.
Proof. repeat split; cbn; lia. Qed.
(** *** Template registry *)



(** *** Template matching *)

Lemma log_set_nil g : log_set (log g ++ []) g = g.
Proof.
  destruct g as [f1 f2 h t p w]. destruct w.
  unfold log_set, upd_world, log; cbn. now rewrite app_nil_r.
Qed.

Lemma match_template_run template img thres g :
  match_template template img thres g =
  (Return (locate g template img),
   log_set (log g ++ match_template_log template img) g).
Proof.
  unfold match_template, locate, match_template_log, too_large.
  destruct ((shape1 template >=? shape1 img) || (shape0 template >=? shape0 img)).
  - reflexivity.
  - rewrite log_set_nil. reflexivity.
Qed.

Lemma get_image_left_stripe_run img g :
  get_image_left_stripe img g = (Return (left_stripe g img), g).
Proof. reflexivity. Qed.

Lemma left_stripe_shape g img :
  0 <= fst (HoleSearchTopLeft g) <= fst (HoleSearchBottomRight g) ->
  fst (HoleSearchBottomRight g) <= shape1 img ->
  0 <= snd (HoleSearchTopLeft g) <= snd (HoleSearchBottomRight g) ->
  snd (HoleSearchBottomRight g) <= shape0 img ->
  shape1 (left_stripe g img) =
    fst (HoleSearchBottomRight g) - fst (HoleSearchTopLeft g) /\
  shape0 (left_stripe g img) =
    snd (HoleSearchBottomRight g) - snd (HoleSearchTopLeft g).
Proof.
  intros Hx Hx' Hy Hy'. unfold left_stripe, slice2; cbn [shape0 shape1].
  rewrite !slice_index_inside by lia. lia.
Qed.

Lemma validate_template_size_run g template :
  film_hole_template g = Some template ->
  let too_big :=
    (shape1 template >=? fst (HoleSearchBottomRight g) - fst (HoleSearchTopLeft g))
    || (shape0 template >=? snd (HoleSearchBottomRight g) - snd (HoleSearchTopLeft g)) in
  validate_template_size g =
  (Return (negb too_big),
   log_set (log g ++
     if too_big
     then [(ERROR, TemplateBiggerThanImage (shape1 template) (shape0 template)
              (fst (HoleSearchBottomRight g) - fst (HoleSearchTopLeft g))
              (snd (HoleSearchBottomRight g) - snd (HoleSearchTopLeft g)))]
     else []) g).
Proof.
  intros Ht too_big. subst too_big. unfold validate_template_size.
  step. step. step. rewrite Ht. cbn [not_none]. step.
  destruct (_ || _).
  - reflexivity.
  - rewrite log_set_nil. reflexivity.
Qed.

(** C8, as amended.  When the template is at least as wide or at least as
    high as the search region, [match_template] logs an error and returns
    the coordinate (0, 0) without raising; [validate_template_size] makes
    the same comparison between the active template and the configured
    search rectangle, so for every frame that contains the rectangle it
    returns False exactly when [match_template] would give up on the left
    stripe of that frame. *)
Theorem match_template_template_too_large g template img thres frame :
  film_hole_template g = Some template ->
  too_large template img = true ->
  0 <= fst (HoleSearchTopLeft g) <= fst (HoleSearchBottomRight g) ->
  fst (HoleSearchBottomRight g) <= shape1 frame ->
  0 <= snd (HoleSearchTopLeft g) <= snd (HoleSearchBottomRight g) ->
  snd (HoleSearchBottomRight g) <= shape0 frame ->
  match_template template img thres g =
    (Return (0, 0),
     log_set (log g ++ [(ERROR, TemplateBiggerThanImage (shape1 template)
                           (shape0 template) (shape1 img) (shape0 img))]) g) /\
  result validate_template_size g =
    Return (negb (too_large template (left_stripe g frame))).
Proof.
  intros Ht Hbig Hx Hx' Hy Hy'.
  destruct (left_stripe_shape g frame Hx Hx' Hy Hy') as [E1 E0]. split.
  - rewrite match_template_run. unfold locate, match_template_log.
    now rewrite Hbig.
  - unfold result. rewrite (validate_template_size_run g template Ht).
    cbn [fst]. unfold too_large. now rewrite E1, E0.
Qed.

Lemma match_template_template_too_large_witness :
  let g := HoleSearchBottomRight_set (2, 20) (startup sample_files sample_cv) in
  let frame := frame_with_hole 20 40 3 5 in
  film_hole_template g = Some (ramp 2 2) /\
  too_large (ramp 2 2) (left_stripe g frame) = true /\
  result (match_template (ramp 2 2) (left_stripe g frame) 240) g = Return (0, 0) /\
  log (exec (match_template (ramp 2 2) (left_stripe g frame) 240) g) =
    [(ERROR, TemplateBiggerThanImage 2 2 2 20)] /\
  result validate_template_size g = Return false.
Proof.
  intros g frame.
  assert (Ht : film_hole_template g = Some (ramp 2 2)) by reflexivity.
  assert (Hbig : too_large (ramp 2 2) (left_stripe g frame) = true) by reflexivity.
  destruct (match_template_template_too_large g (ramp 2 2) (left_stripe g frame)
              240 frame Ht Hbig) as [Hm Hv]; [cbn; lia|cbn; lia|cbn; lia|cbn; lia|].
  split; [exact Ht|]. split; [exact Hbig|]. split.
  - unfold result. now rewrite Hm.
  - split.
    + unfold exec. now rewrite Hm.
    + rewrite Hv. now rewrite Hbig.
Defined.

(** A template that does not fit and one that matches at the origin give
    the same coordinate. *)
Lemma match_template_origin_is_a_match :
  let g := startup sample_files sample_cv in
  let img := frame_with_hole 20 40 0 0 in
  too_large (ramp 30 50) img = true /\
  too_large (ramp 2 2) img = false /\
  result (match_template (ramp 30 50) img 240) g = Return (0, 0) /\
  result (match_template (ramp 2 2) img 240) g = Return (0, 0).
Proof. repeat split. Qed.

(** *** Stabilization *)

Lemma stabilize_image_run img g template :
  film_hole_template g = Some template ->
  let move := expected_minus_matched g img (matched_position g template img) in
  exists g1,
    stabilize_image img g =
      (Return (new_array (shape0 img) (shape1 img)
                 (translated (cv2 g) img (fst move) (snd move))), g1) /\
    frame_view g1 = frame_view g /\
    log g1 = (log g ++ match_template_log template (left_stripe g img) ++
      (if ConvertLoopRunning g && out_of_bounds g img (snd move)
       then [(WARNING, FrameAlignTag2 (project_name_tag g) (CurrentFrame g)
                (Py.int (missing_rows g img (snd move)))
                (Py.int (snd move)) (Py.int (fst move)))]
       else []) ++
      (if ConvertLoopRunning g
       then [(DEBUG, FrameStabilizeTag (project_name g) (CurrentFrame g)
                (shape1 img) (shape0 img) (Py.int (fst move)) (Py.int (snd move)))]
       else []))%list.
Proof.
  intros Ht move.
  unfold stabilize_image. step. step.
  rewrite (bind_returns _ _ _ _ _ (get_image_left_stripe_run img g)).
  step. rewrite Ht. cbn [not_none]. step. step.
  rewrite (bind_returns _ _ _ _ _ (match_template_run _ _ _ _)).
  generalize (match_template_log template (left_stripe g img)) as pre. intros pre.
  do 4 step.
  change (shift (CustomTemplateDefined (log_set (log g ++ pre) g))
                (expected_pattern_pos (log_set (log g ++ pre) g))
                (shape1 img) (shape0 img)
                (fst (locate g template (left_stripe g img)) +
                   fst (HoleSearchTopLeft (log_set (log g ++ pre) g)),
                 snd (locate g template (left_stripe g img)) +
                   snd (HoleSearchTopLeft (log_set (log g ++ pre) g))))
    with move.
  change (ConvertLoopRunning (log_set (log g ++ pre) g)) with (ConvertLoopRunning g).
  generalize dependent move. intros move.
  unfold out_of_bounds, missing_rows, missing_bottom, missing_top, project_name_tag.
  repeat (first [branch | step]);
    (eexists; split; [reflexivity|]; split; [reflexivity|]);
    unfold log_set, upd_world, log; cbn;
    rewrite <- ?app_assoc; cbn [app]; rewrite ?app_nil_r; reflexivity.
Qed.

Lemma ltb_lt (x y : Q) : ltb x y = true <-> (x < y)%Q.
Proof.
  unfold ltb. rewrite negb_true_iff. split; intros H.
  - apply Qnot_le_lt. intros Hle. apply Qle_bool_iff in Hle. congruence.
  - destruct (Qle_bool y x) eqn:E; [|reflexivity].
    apply Qle_bool_iff in E. exfalso. exact (Qlt_not_le _ _ H E).
Qed.

(** C1.  For a frame stabilized with a custom template the shift is the
    expected position minus the matched position, and with a default
    template it is the rounded percentage of the frame width (height) minus
    the matched position, the matched position being the result of
    [match_template] on the left stripe moved by the origin of the search
    area.  The shift is the translation applied to the frame, and the one
    logged while the conversion loop runs. *)
Theorem stabilize_image_shift img g template :
  film_hole_template g = Some template ->
  exists top_left,
    result (match_template template (left_stripe g img) (StabilizationThreshold g)) g
      = Return top_left /\
    let matched_x := fst top_left + fst (HoleSearchTopLeft g) in
    let matched_y := snd top_left + snd (HoleSearchTopLeft g) in
    let expected_x := fst (expected_pattern_pos g) in
    let expected_y := snd (expected_pattern_pos g) in
    let width := shape1 img in
    let height := shape0 img in
    let move_x :=
      if CustomTemplateDefined g then (expected_x - inject_Z matched_x)%Q
      else (inject_Z (Py.round (expected_x * inject_Z width / 100)) - inject_Z matched_x)%Q in
    let move_y :=
      if CustomTemplateDefined g then (expected_y - inject_Z matched_y)%Q
      else (inject_Z (Py.round (expected_y * inject_Z height / 100)) - inject_Z matched_y)%Q in
    result (stabilize_image img) g =
      Return (new_array height width (translated (cv2 g) img move_x move_y)) /\
    (ConvertLoopRunning g = true ->
     In (DEBUG, FrameStabilizeTag (project_name g) (CurrentFrame g) width height
                  (Py.int move_x) (Py.int move_y))
        (log (exec (stabilize_image img) g))).
Proof.
  intros Ht. exists (locate g template (left_stripe g img)). split.
  - unfold result. now rewrite match_template_run.
  - cbv zeta.
    destruct (stabilize_image_run img g template Ht) as (g1 & Hrun & _ & Hlog).
    unfold result, exec. rewrite Hrun. cbn [fst snd].
    unfold expected_minus_matched, matched_position in Hlog |- *.
    cbv zeta in Hlog. split.
    + destruct (CustomTemplateDefined g); reflexivity.
    + intros Hr. rewrite Hlog, Hr.
      apply in_or_app; right. apply in_or_app; right. apply in_or_app; right.
      left. destruct (CustomTemplateDefined g); reflexivity.
Qed.

(** A frame of film 1 with the S8 template, as the conversion loop sees it. *)
Lemma stabilize_image_shift_witness :
  let g := HoleSearchBottomRight_set (8, 20)
             (ConvertLoopRunning_set true (startup sample_files sample_cv)) in
  let img := frame_with_hole 20 40 3 5 in
  result (match_template (ramp 2 2) (left_stripe g img) 240) g = Return (3, 5) /\
  result (stabilize_image img) g =
    Return (new_array 20 40 (translated sample_cv img (3 - 3) (7 - 5))) /\
  In (DEBUG, FrameStabilizeTag "No Project" 0 40 20 0 2)
     (log (exec (stabilize_image img) g)).
Proof.
  intros g img.
  destruct (stabilize_image_shift img g (ramp 2 2) eq_refl)
    as (top_left & Hm & Hs & Hl).
  assert (E : top_left = (3, 5)) by (vm_compute in Hm; congruence).
  subst top_left. split; [exact Hm|]. split.
  - exact Hs.
  - exact (Hl eq_refl).
Defined.

(** *** The hole-height probe *)

Lemma dialogs_set_film_type : preserves dialogs set_film_type.
Proof.
  unfold set_film_type, adjust_hole_pattern_size, resize_image. frame.
Qed.

Lemma messagebox_askyesno_run title g :
  messagebox_askyesno title g =
  (Return (hd false (answers g)),
   answers_set (tl (answers g)) (dialogs_set (dialogs g ++ [askyesno title]) g)).
Proof.
  unfold messagebox_askyesno. step. step. simpl_state.
  destruct (answers g) as [|a rest] eqn:E.
  - cbn [hd tl]. unfold ret.
    destruct g as [f1 f2 h t p w]; destruct w. cbn in *. subst. reflexivity.
  - reflexivity.
Qed.

Lemma hd_true (l : list bool) : hd false l = true -> exists rest, l = true :: rest.
Proof. destruct l as [|[] rest]; cbn; intros H; try discriminate. now exists rest. Qed.

(** The end of a run: the statement has been executed down to its
    outcome. *)
Ltac finished :=
  let H := fresh "Hend" in
  intros H; injection H as <- <-.

Lemma determine_hole_height_cases img g r g' :
  determine_hole_height img g = (r, g') ->
  (film_setup g' = film_setup g /\ dialogs g' = dialogs g) \/
  (BatchJobRunning g = false /\ film_setup g' = film_setup g /\
   dialogs g' = (dialogs g ++ [askyesno "Wrong film type detected"])%list) \/
  (BatchJobRunning g = false /\
   exists rest, answers g = true :: rest /\
     dialogs g' = (dialogs g ++ [askyesno "Wrong film type detected"])%list).
Proof.
  unfold determine_hole_height.
  do 3 step.
  destruct (String.eqb (cfg_FilmType (project_config g)) "R8");
    rewrite (bind_returns _ _ _ _ _ (get_image_left_stripe_run img g)).
  all: match goal with |- context [not_none ?x] =>
         destruct x as [t1|]; [|finished; left; split; reflexivity] end.
  all: cbn [not_none]; step;
    rewrite (bind_returns _ _ _ _ _ (match_template_run _ _ _ _)).
  all: match goal with |- context [not_none ?x] =>
         destruct x as [t2|]; [|finished; left; split; reflexivity] end.
  all: cbn [not_none]; step;
    rewrite (bind_returns _ _ _ _ _ (match_template_run _ _ _ _)).
  all: match goal with |- context [bind _ _ ?s] =>
         set (g0 := s);
         assert (Hsetup : film_setup g0 = film_setup g) by reflexivity;
         assert (Hdialogs : dialogs g0 = dialogs g) by reflexivity;
         assert (Hanswers : answers g0 = answers g) by reflexivity;
         assert (Hbatch : BatchJobRunning g0 = BatchJobRunning g) by reflexivity;
         clearbody g0
       end.
  all: match goal with |- context [?a >? ?b] => destruct (a >? b) end.
  all: repeat step.
  all: try (finished; left; split; [exact Hsetup|exact Hdialogs]).
  all: rewrite Hbatch; destruct (BatchJobRunning g); cbn [negb]; repeat step.
  all: try (finished; left; split; [exact Hsetup|exact Hdialogs]).
  all: rewrite (bind_returns _ _ _ _ _ (messagebox_askyesno_run _ _)).
  all: destruct (hd false (answers g0)) eqn:Hyes; repeat step.
  all: try (finished; right; left; split; [reflexivity|];
            split; [exact Hsetup|simpl_state; now rewrite Hdialogs]).
  all: rewrite Hanswers in Hyes; apply hd_true in Hyes; destruct Hyes as [rest Hrest].
  all: match goal with |- context [bind set_film_type ?k ?s] =>
         pose proof (dialogs_set_film_type s) as Hd;
         change (bind set_film_type k s)
           with (match set_film_type s with
                 | (Return a, s') => k a s'
                 | (Raise e, s') => (Raise e, s')
                 end);
         destruct (set_film_type s) as [[[]|exn] s1]; cbn [snd] in Hd
       end.
  all: repeat step.
  all: finished; right; right; split; [reflexivity|]; exists rest; split; [exact Hrest|].
  all: simpl_state; rewrite Hd; simpl_state; now rewrite Hdialogs.
Qed.

(** C9.  While a batch job runs, [determine_hole_height] leaves the film
    type, the template and its expected position as they are and asks
    nothing, whichever pattern matched higher up; outside batch mode they
    change only if the question was put to the user and answered yes. *)
Theorem determine_hole_height_film_type img g :
  let g' := exec (determine_hole_height img) g in
  (BatchJobRunning g = true ->
   film_setup g' = film_setup g /\ dialogs g' = dialogs g) /\
  (BatchJobRunning g = false -> film_setup g' <> film_setup g ->
   exists rest, answers g = true :: rest /\
     dialogs g' = (dialogs g ++ [askyesno "Wrong film type detected"])%list).
Proof.
  intros g'. subst g'. unfold exec.
  destruct (determine_hole_height img g) as [r g'] eqn:E.
  apply determine_hole_height_cases in E. cbn [snd].
  destruct E as [[Hs Hd]|[(Hb & Hs & Hd)|(Hb & rest & Ha & Hd)]].
  - split; [intros _; now split|]. intros _ Hne. now contradiction Hne.
  - split; [intros Hb'; congruence|]. intros _ Hne. now contradiction Hne.
  - split; [intros Hb'; congruence|]. intros _ _. now exists rest.
Qed.

(** The probe on a frame where the pattern of the other film type matches
    higher up: in a batch nothing changes; outside a batch the film type
    becomes R8 once the user has agreed. *)
Lemma determine_hole_height_film_type_witness :
  let probe := HoleSearchBottomRight_set (8, 20) (startup sample_files template_cv) in
  let img := frame_with_hole 20 40 3 5 in
  (film_setup (exec (determine_hole_height img) (BatchJobRunning_set true probe))
     = film_setup probe /\
   dialogs (exec (determine_hole_height img) (BatchJobRunning_set true probe)) = []) /\
  (cfg_FilmType (project_config
     (exec (determine_hole_height img) (answers_set [true] probe))) = "R8" /\
   exists rest, answers (answers_set [true] probe) = true :: rest /\
     dialogs (exec (determine_hole_height img) (answers_set [true] probe))
       = [askyesno "Wrong film type detected"]).
Proof.
  intros probe img. split.
  - exact (proj1 (determine_hole_height_film_type img (BatchJobRunning_set true probe))
                 eq_refl).
  - split; [reflexivity|].
    apply (proj2 (determine_hole_height_film_type img (answers_set [true] probe)));
      [reflexivity|].
    intros H. apply (f_equal (fun s => fst (fst (fst (fst (fst s)))))) in H.
    vm_compute in H. discriminate.
Defined.

(** *** The conversion loop *)

Lemma frame_view_fields g1 g :
  frame_view g1 = frame_view g ->
  flow g1 = flow g /\ files g1 = files g /\ hole g1 = hole g /\ tk g1 = tk g /\
  fs g1 = fs g /\ cv2 g1 = cv2 g /\ scheduled g1 = scheduled g /\
  project_config g1 = project_config g /\ project_name g1 = project_name g /\
  CropTopLeft g1 = CropTopLeft g /\ CropBottomRight g1 = CropBottomRight g /\
  job_list g1 = job_list g /\ CurrentJobEntry g1 = CurrentJobEntry g.
Proof. unfold frame_view. intros H. injection H. intros. repeat split; assumption. Qed.

Lemma rotate_image_run img g :
  rotate_image img g =
  (Return (new_array (shape0 img) (shape1 img) (rotated (cv2 g) img (RotationAngle g))), g).
Proof. reflexivity. Qed.

Lemma in_write_frame p img l : In (p, img) (write_frame p img l).
Proof.
  induction l as [|e l IH]; cbn [write_frame]; [now left|].
  destruct (out_path_eqb (fst e) p); [now left|now right].
Qed.

Lemma frame_generation_loop_frame g file img template r g' :
  CurrentFrame g < StartFrame g + frames_to_encode g ->
  ConvertLoopExitRequested g = false ->
  py_index (SourceDirFileList g) (CurrentFrame g) = Some file ->
  file_image file = Some img ->
  perform_stabilization g = true ->
  film_hole_template g = Some template ->
  frame_generation_loop g = (r, g') ->
  let frame := rotated_frame g img in
  let move := expected_minus_matched g frame (matched_position g template frame) in
  let out := output_frame g template img in
  r = Return tt /\
  (ConvertLoopRunning g = true -> out_of_bounds g frame (snd move) = true ->
   In (WARNING, FrameAlignTag2 (project_name_tag g) (CurrentFrame g)
                  (Py.int (missing_rows g frame (snd move)))
                  (Py.int (snd move)) (Py.int (fst move)))
      (log g')) /\
  (isdir (fs g) (TargetDir g) = true ->
   In ((TargetDir g, output_number g out), out) (target_frames (fs g'))) /\
  (isdir (fs g) (TargetDir g) = false -> target_frames (fs g') = target_frames (fs g)).
Proof.
  intros Hlt Hexit Hfile Himg Hstab Ht.
  unfold frame_generation_loop. do 3 step.
  replace (CurrentFrame g >=? StartFrame g + frames_to_encode g) with false
    by (symmetry; rewrite Z.geb_leb; apply Z.leb_gt; lia).
  step. rewrite Hexit. step. unfold index. rewrite Hfile. step. rewrite Himg.
  cbv zeta. unfold output_frame, output_number. cbv zeta.
  rewrite bind_assoc. step.
  assert (Hrot : (if perform_rotation g then rotate_image img else ret img) g
                 = (Return (rotated_frame g img), g)).
  { unfold rotated_frame. destruct (perform_rotation g); reflexivity. }
  rewrite bind_assoc, (bind_returns _ _ _ _ _ Hrot).
  generalize (rotated_frame g img) as frame. intros frame.
  rewrite bind_assoc. step. rewrite Hstab.
  destruct (stabilize_image_run frame g template Ht) as (g1 & Hrun & Hview & Hlog).
  rewrite bind_assoc, (bind_returns _ _ _ _ _ Hrun).
  generalize dependent (expected_minus_matched g frame (matched_position g template frame)).
  intros move _ Hlog.
  apply frame_view_fields in Hview.
  destruct Hview as (Hflow & Hfiles & Hhole & Htk & Hfs & Hcv & Hsch & Hcfg & Hname
                     & Hctl & Hcbr & Hjobs & Hcur).
  generalize dependent (new_array (shape0 frame) (shape1 frame)
                          (translated (cv2 g) frame (fst move) (snd move))).
  intros stabilized.
  do 3 (rewrite bind_assoc; step).
  assert (Hout : (if perform_cropping g1
                  then crop_image stabilized (CropTopLeft g1) (CropBottomRight g1)
                  else even_image stabilized)
                 = (if perform_cropping g
                    then crop_image stabilized (CropTopLeft g) (CropBottomRight g)
                    else even_image stabilized)).
  { rewrite Hctl, Hcbr. unfold perform_cropping. now rewrite Htk. }
  rewrite Hout. clear Hout.
  generalize (if perform_cropping g
              then crop_image stabilized (CropTopLeft g) (CropBottomRight g)
              else even_image stabilized) as out. intros out.
  assert (Hdir : isdir (fs g1) (TargetDir g1) = isdir (fs g) (TargetDir g)).
  { rewrite Hfs. unfold TargetDir. now rewrite Hfiles. }
  assert (Hwarn : ConvertLoopRunning g = true -> out_of_bounds g frame (snd move) = true ->
            In (WARNING, FrameAlignTag2 (project_name_tag g) (CurrentFrame g)
                  (Py.int (missing_rows g frame (snd move)))
                  (Py.int (snd move)) (Py.int (fst move))) (log g1)).
  { intros Hr Ho. rewrite Hlog, Hr, Ho. cbn [andb].
    apply in_or_app; right. apply in_or_app; right. now left. }
  clear Hlog.
  rewrite bind_assoc.
  destruct (odd_size out) eqn:Hodd; repeat (first [rewrite bind_assoc | step]).
  all: simpl_state; rewrite Hdir.
  all: destruct (isdir (fs g) (TargetDir g)) eqn:Hpresent; unfold cv2_imwrite;
    repeat (first [rewrite bind_assoc | step]).
  all: finished; simpl_state; cbn [target_frames with_target_frames].
  all: split; [reflexivity|]; split; [|split]; try discriminate.
  all: try (intros Hr Ho; specialize (Hwarn Hr Ho));
       try (apply in_or_app; left); try exact Hwarn.
  all: try (intros _; unfold TargetDir, first_absolute_frame, CurrentFrame;
            rewrite <- ?Hfiles, <- ?Hflow; apply in_write_frame).
  all: intros _; now rewrite Hfs.
Qed.




(** C5: the code at a queue whose first job has a single-pixel second
    frame.  The frame comes out 1x1, the loop logs the error and clamps the
    frame counter, the 1x1 frame is filed under the number of the last
    frame, and the next tick ends the run with "Frame generation OK" in
    green and the job flagged done; the queue goes on to the next job. *)
Theorem odd_frame_reported_as_success :
  let after_first_frame := mainloop 1 (handle start_processing_job_list odd_frame_batch) in
  let after_odd_frame := mainloop 2 (handle start_processing_job_list odd_frame_batch) in
  let after_run := mainloop 3 (handle start_processing_job_list odd_frame_batch) in
  CurrentFrame after_first_frame = 1 /\
  In (ERROR, TargetSizeOneOddDimension) (log after_odd_frame) /\
  CurrentFrame after_odd_frame = StartFrame after_odd_frame + frames_to_encode after_odd_frame /\
  frames_on_disk after_odd_frame = [(("/out4", 400), 20, 40); (("/out4", 402), 1, 1)] /\
  app_status_label after_odd_frame = (GeneratingFrames (200 # 3), black) /\
  app_status_label after_run = (FrameGenerationOK, green) /\
  done_flags after_run = [("tiny", true); ("film1", false)] /\
  BatchJobRunning after_run = true /\
  scheduled after_run = [cb_job_processing_loop] /\
  started (log (mainloop 4 (handle start_processing_job_list odd_frame_batch)))
    = ["tiny"; "film1"].
Proof.
  vm_compute. repeat split.
  repeat (first [left; reflexivity | right]).
Qed.

(** *** End of a run *)

Lemma generation_exit_run g r g' :
  generation_exit g = (r, g') ->
  exit_view g' = exit_view g /\ ConvertLoopRunning g' = false /\
  ((job_list g' = job_list g /\ scheduled g' = scheduled g) \/
   (exists key, BatchJobRunning g = true /\ BatchJobRunning g' = true /\
      ConvertLoopExitRequested g = false /\
      CurrentJobEntry g = Some key /\
      flag_done key (job_list g) = Some (job_list g') /\
      scheduled g' = (scheduled g ++ [cb_job_processing_loop])%list)).
Proof.
  unfold generation_exit. run.
  destruct (BatchJobRunning g) eqn:Hb; run.
  - destruct (ConvertLoopExitRequested g) eqn:Hx; run.
    + finished. repeat split; try reflexivity. now left.
    + destruct (CurrentJobEntry g) as [key|] eqn:Hk; run.
      * destruct (flag_done key (job_list g)) as [jobs'|] eqn:Hf; run.
        -- finished.
           split; [|split]; [unfold exit_view; simpl_state; now rewrite Hk
                            |reflexivity|].
           right. exists key. simpl_state. repeat split; try assumption; reflexivity.
        -- finished.
           split; [|split]; [unfold exit_view; simpl_state; now rewrite Hk
                            |reflexivity|now left].
      * finished.
        split; [|split]; [unfold exit_view; simpl_state; now rewrite Hk
                         |reflexivity|now left].
  - finished. repeat split; try reflexivity. now left.
Qed.

(** *** The frame range check *)

Lemma count_listed_le (P : nat -> bool) l c :
  fold_left (fun file_count i => if P i then file_count + 1 else file_count) l c
  <= c + Z.of_nat (List.length l).
Proof.
  revert c. induction l as [|i l IH]; intros c; cbn [fold_left List.length].
  - lia.
  - specialize (IH (if P i then c + 1 else c)). destruct (P i); lia.
Qed.

Lemma count_listed_ge (P : nat -> bool) l c :
  c <= fold_left (fun file_count i => if P i then file_count + 1 else file_count) l c.
Proof.
  revert c. induction l as [|i l IH]; intros c; cbn [fold_left]; [lia|].
  specialize (IH (if P i then c + 1 else c)). destruct (P i); lia.
Qed.

Lemma count_listed_all (P : nat -> bool) l c :
  fold_left (fun file_count i => if P i then file_count + 1 else file_count) l c
  = c + Z.of_nat (List.length l) <-> Forall (fun i => P i = true) l.
Proof.
  revert c. induction l as [|i l IH]; intros c; cbn [fold_left List.length].
  - split; [constructor|lia].
  - destruct (P i) eqn:E.
    + rewrite Forall_cons_iff, <- (IH (c + 1)). split.
      * intros H. split; [exact E|lia].
      * intros [_ H]. lia.
    + split.
      * intros H. pose proof (count_listed_le P l c). lia.
      * intros H. apply Forall_cons_iff in H. destruct H; congruence.
Qed.

Lemma valid_generated_frame_range_run g :
  exists (found : bool) (file_count : Z),
    valid_generated_frame_range g =
      (Return found,
       log_set (log g ++ [(DEBUG, CheckingFrameRange
                             (first_absolute_frame g + StartFrame g)
                             (first_absolute_frame g + StartFrame g + frames_to_encode g)
                             file_count)]) g) /\
    (found = true <-> frames_to_encode g = 0 \/ frames_ready g).
Proof.
  set (P := fun i => listed g (first_absolute_frame g + StartFrame g + Z.of_nat i)).
  set (file_count := fold_left (fun c i => if P i then c + 1 else c)
                               (seq 0 (Z.to_nat (frames_to_encode g))) 0).
  exists (file_count =? frames_to_encode g), file_count. split.
  - reflexivity.
  - rewrite Z.eqb_eq. unfold frames_ready.
    pose proof (count_listed_le P (seq 0 (Z.to_nat (frames_to_encode g))) 0) as Hle.
    pose proof (count_listed_all P (seq 0 (Z.to_nat (frames_to_encode g))) 0) as Hall.
    fold file_count in Hle, Hall. rewrite length_seq in Hle, Hall.
    rewrite Forall_forall in Hall. split.
    + intros Heq.
      destruct (Z.eq_dec (frames_to_encode g) 0) as [|Hnz]; [now left|right].
      pose proof (count_listed_ge P (seq 0 (Z.to_nat (frames_to_encode g))) 0) as Hge.
      fold file_count in Hge.
      assert (Hpos : 0 < frames_to_encode g) by lia. split; [exact Hpos|].
      intros i Hi.
      assert (Hin : In (Z.to_nat (i - (first_absolute_frame g + StartFrame g)))
                       (seq 0 (Z.to_nat (frames_to_encode g)))).
      { apply in_seq. lia. }
      destruct Hall as [Hall _].
      assert (Hcount : file_count = 0 + Z.of_nat (Z.to_nat (frames_to_encode g)))
        by (rewrite Heq; lia).
      specialize (Hall Hcount _ Hin).
      unfold P in Hall.
      replace (first_absolute_frame g + StartFrame g +
               Z.of_nat (Z.to_nat (i - (first_absolute_frame g + StartFrame g))))
        with i in Hall by lia.
      exact Hall.
    + intros [H0|[Hpos Hready]].
      * unfold file_count. rewrite H0. reflexivity.
      * destruct Hall as [_ Hall]. rewrite Hall; [lia|].
        intros n Hn. apply in_seq in Hn. unfold P. apply Hready. lia.
Qed.

(** *** Before the encoder is spawned *)

Lemma exit_view_fields g1 g :
  exit_view g1 = exit_view g ->
  tk g1 = tk g /\ fs g1 = fs g /\ spawned g1 = spawned g /\
  dialogs g1 = dialogs g /\ log g1 = log g /\
  ffmpeg_success g1 = ffmpeg_success g /\
  ffmpeg_encoding_status g1 = ffmpeg_encoding_status g /\
  CurrentJobEntry g1 = CurrentJobEntry g.
Proof. unfold exit_view. intros H. injection H. intros. repeat split; assumption. Qed.

Lemma video_generation_loop_refuses g r g' :
  ffmpeg_encoding_status g = Pending ->
  ~ frames_ready g ->
  video_generation_loop g = (r, g') ->
  spawned g' = spawned g /\ fs g' = fs g /\
  app_status_label g' = (NoFramesToEncode, red) /\
  (exists title, dialogs g' = (dialogs g ++ [showwarning title])%list) /\
  ffmpeg_encoding_status g' = Pending /\
  ffmpeg_success g' = ffmpeg_success g /\
  ConvertLoopRunning g' = false /\
  (scheduled g' = scheduled g \/
   scheduled g' = (scheduled g ++ [cb_job_processing_loop])%list).
Proof.
  intros Hp Hnot. unfold video_generation_loop. step. rewrite Hp. step.
  destruct (frames_to_encode g =? 0) eqn:H0.
  - run. intros Hexit. apply generation_exit_run in Hexit.
    destruct Hexit as (Hview & Hrun & Hsched).
    apply exit_view_fields in Hview.
    destruct Hview as (Htk & Hfs & Hsp & Hd & Hl & Hok & Hst & Hcur).
    simpl_state.
    split; [exact Hsp|]. split; [exact Hfs|].
    split; [unfold app_status_label; now rewrite Htk|].
    split; [eexists; exact Hd|]. split; [congruence|]. split; [exact Hok|].
    split; [exact Hrun|].
    destruct Hsched as [[_ Hs]|(key & _ & _ & _ & _ & _ & Hs)]; [now left|now right].
  - destruct (valid_generated_frame_range_run g) as (found & n & Hvalid & Hiff).
    rewrite (bind_returns _ _ _ _ _ Hvalid).
    destruct found.
    + exfalso. destruct Hiff as [Hiff _]. destruct (Hiff eq_refl) as [Hz|Hready].
      * apply Z.eqb_neq in H0. contradiction.
      * contradiction.
    + run. intros Hexit. apply generation_exit_run in Hexit.
      destruct Hexit as (Hview & Hrun & Hsched).
      apply exit_view_fields in Hview.
      destruct Hview as (Htk & Hfs & Hsp & Hd & Hl & Hok & Hst & Hcur).
      simpl_state.
      split; [exact Hsp|]. split; [exact Hfs|].
      split; [unfold app_status_label; now rewrite Htk|].
      split; [eexists; exact Hd|]. split; [congruence|]. split; [exact Hok|].
      split; [exact Hrun|].
      destruct Hsched as [[_ Hs]|(key & _ & _ & _ & _ & _ & Hs)]; [now left|now right].
Qed.

Lemma py_index_head {A} (a : A) l : py_index (a :: l) 0 = Some a.
Proof.
  unfold py_index. cbn [List.length].
  replace (0 <? Z.of_nat (S (List.length l))) with true
    by (symmetry; apply Z.ltb_lt; lia).
  reflexivity.
Qed.

Lemma video_generation_loop_spawns g r g' :
  ffmpeg_encoding_status g = Pending ->
  frames_ready g ->
  SourceDirFileList g <> [] ->
  video_generation_loop g = (r, g') ->
  r = Return tt /\
  spawned g' =
    (spawned g ++
     [{| cmd_start_number := StartFrame g + first_absolute_frame g;
         cmd_framerate := VideoFps g;
         cmd_input := TargetDir g;
         cmd_frames := Some (frames_to_encode g);
         cmd_output := (VideoTargetDir g, TargetVideoFilename g) |}])%list /\
  ffmpeg_encoding_status g' = Running /\
  scheduled g' = (scheduled g ++ [cb_video_generation_loop])%list.
Proof.
  intros Hp Hready Hfiles. unfold video_generation_loop. step. rewrite Hp. step.
  assert (Hpos : 0 < frames_to_encode g) by apply Hready.
  replace (frames_to_encode g =? 0) with false by (symmetry; apply Z.eqb_neq; lia).
  destruct (valid_generated_frame_range_run g) as (found & n & Hvalid & Hiff).
  rewrite (bind_returns _ _ _ _ _ Hvalid).
  replace found with true by (symmetry; apply Hiff; now right).
  cbn [negb]. step. simpl_state. unfold index.
  destruct (SourceDirFileList g) as [|first rest] eqn:Hl; [contradiction|].
  rewrite py_index_head.
  run. unfold call_ffmpeg_spawn. run.
  replace (frames_to_encode g >? 0) with true by (symmetry; apply Z.gtb_lt; lia).
  destruct (video_exists (fs g) (VideoTargetDir g, TargetVideoFilename g)); run;
    finished; repeat split; reflexivity.
Qed.

(** C6, as amended.  When the encoder is pending, [video_generation_loop]
    spawns it only if the frame range is not empty and every expected
    numbered output frame is in the listing of the target directory.  If
    either fails, the status reads "No frames to encode" in red, a warning
    dialog is shown, the run is ended by [generation_exit], no process is
    spawned and no file is created or removed; the encoder state stays
    [Pending] and the polling callback is not scheduled again.  If both
    hold, the encoder is spawned with the start number, the frame rate, the
    input folder, the frame count and the output path, and the state
    becomes [Running]. *)
Theorem video_generation_loop_preconditions g :
  ffmpeg_encoding_status g = Pending ->
  let g' := exec video_generation_loop g in
  (~ frames_ready g ->
   spawned g' = spawned g /\ fs g' = fs g /\
   app_status_label g' = (NoFramesToEncode, red) /\
   (exists title, dialogs g' = (dialogs g ++ [showwarning title])%list) /\
   ffmpeg_encoding_status g' = Pending /\
   ffmpeg_success g' = ffmpeg_success g /\
   ConvertLoopRunning g' = false /\
   (scheduled g' = scheduled g \/
    scheduled g' = (scheduled g ++ [cb_job_processing_loop])%list)) /\
  (frames_ready g -> SourceDirFileList g <> [] ->
   spawned g' =
     (spawned g ++
      [{| cmd_start_number := StartFrame g + first_absolute_frame g;
          cmd_framerate := VideoFps g;
          cmd_input := TargetDir g;
          cmd_frames := Some (frames_to_encode g);
          cmd_output := (VideoTargetDir g, TargetVideoFilename g) |}])%list /\
   ffmpeg_encoding_status g' = Running /\
   scheduled g' = (scheduled g ++ [cb_video_generation_loop])%list).
Proof.
  intros Hp g'. subst g'. unfold exec.
  destruct (video_generation_loop g) as [r g'] eqn:E. cbn [snd]. split.
  - intros Hnot. exact (video_generation_loop_refuses g r g' Hp Hnot E).
  - intros Hready Hfiles.
    destruct (video_generation_loop_spawns g r g' Hp Hready Hfiles E)
      as (_ & Hs & Hst & Hsch).
    now repeat split.
Qed.

(** With frame 101 missing from the listing nothing is spawned; with both
    frames listed the encoder is started on frames 100 and 101. *)
Lemma video_generation_loop_preconditions_witness :
  (spawned (exec video_generation_loop frame_missing) = [] /\
   video_files (fs (exec video_generation_loop frame_missing)) = [] /\
   app_status_label (exec video_generation_loop frame_missing)
     = (NoFramesToEncode, red) /\
   ffmpeg_encoding_status (exec video_generation_loop frame_missing) = Pending) /\
  (spawned (exec video_generation_loop frames_listed) =
     [{| cmd_start_number := 100; cmd_framerate := 18; cmd_input := "/out1";
         cmd_frames := Some 2; cmd_output := ("/out1", "film1.mp4") |}] /\
   ffmpeg_encoding_status (exec video_generation_loop frames_listed) = Running).
Proof.
  assert (Hmissing : ~ frames_ready frame_missing).
  { intros [_ H]. specialize (H 101 ltac:(cbn; lia)). vm_compute in H. discriminate. }
  assert (Hlisted : frames_ready frames_listed).
  { split; [cbn; lia|]. intros i Hi.
    assert (Hcases : i = 100 \/ i = 101) by (cbn in Hi; lia).
    destruct Hcases as [-> | ->]; vm_compute; reflexivity. }
  split.
  - destruct (proj1 (video_generation_loop_preconditions frame_missing eq_refl) Hmissing)
      as (Hs & Hf & Hl & _ & Hst & _).
    split; [exact Hs|]. split; [now rewrite Hf|]. split; [exact Hl|exact Hst].
  - destruct (proj2 (video_generation_loop_preconditions frames_listed eq_refl) Hlisted)
      as (Hs & Hst & _); [discriminate|].
    split; [exact Hs|exact Hst].
Defined.

(** C6 as stated fails in one respect: after a refusal the encoder state is
    still [Pending], not [Completed]. *)
Lemma refused_encoder_stays_pending :
  let g' := exec video_generation_loop (startup sample_files sample_cv) in
  frames_to_encode (startup sample_files sample_cv) = 0 /\
  ffmpeg_encoding_status (startup sample_files sample_cv) = Pending /\
  spawned g' = [] /\
  ffmpeg_encoding_status g' = Pending /\
  ffmpeg_encoding_status g' <> Completed.
Proof. vm_compute. repeat split. discriminate. Qed.

(** *** What leaves the job queue alone *)

Lemma queue_view_resize_image img p : preserves queue_view (resize_image img p).
Proof. unfold resize_image. frame. Qed.
#[local] Hint Resolve queue_view_resize_image : frame.

Lemma queue_view_match_template t img thr : preserves queue_view (match_template t img thr).
Proof. unfold match_template. frame. Qed.
#[local] Hint Resolve queue_view_match_template : frame.

Lemma queue_view_get_image_left_stripe img : preserves queue_view (get_image_left_stripe img).
Proof. unfold get_image_left_stripe. frame. Qed.
#[local] Hint Resolve queue_view_get_image_left_stripe : frame.

Lemma queue_view_validate_template_size : preserves queue_view validate_template_size.
Proof. unfold validate_template_size. frame. Qed.
#[local] Hint Resolve queue_view_validate_template_size : frame.

Lemma queue_view_rotate_image img : preserves queue_view (rotate_image img).
Proof. unfold rotate_image. frame. Qed.
#[local] Hint Resolve queue_view_rotate_image : frame.

Lemma queue_view_stabilize_image img : preserves queue_view (stabilize_image img).
Proof. unfold stabilize_image. frame. Qed.
#[local] Hint Resolve queue_view_stabilize_image : frame.

Lemma queue_view_adjust_hole_pattern_size : preserves queue_view adjust_hole_pattern_size.
Proof. unfold adjust_hole_pattern_size. frame. Qed.
#[local] Hint Resolve queue_view_adjust_hole_pattern_size : frame.

Lemma queue_view_set_film_type : preserves queue_view set_film_type.
Proof. unfold set_film_type. frame. Qed.
#[local] Hint Resolve queue_view_set_film_type : frame.

Lemma queue_view_messagebox_askyesno t : preserves queue_view (messagebox_askyesno t).
Proof. unfold messagebox_askyesno. frame. Qed.
#[local] Hint Resolve queue_view_messagebox_askyesno : frame.

Lemma queue_view_determine_hole_height img : preserves queue_view (determine_hole_height img).
Proof. unfold determine_hole_height. frame. Qed.
#[local] Hint Resolve queue_view_determine_hole_height : frame.

Lemma queue_view_select_hole_height img : preserves queue_view (select_hole_height img).
Proof. unfold select_hole_height. frame. Qed.
#[local] Hint Resolve queue_view_select_hole_height : frame.

Lemma queue_view_set_hole_search_area img : preserves queue_view (set_hole_search_area img).
Proof. unfold set_hole_search_area. frame. Qed.
#[local] Hint Resolve queue_view_set_hole_search_area : frame.

Lemma queue_view_get_target_dir_file_list : preserves queue_view get_target_dir_file_list.
Proof. unfold get_target_dir_file_list. frame. Qed.
#[local] Hint Resolve queue_view_get_target_dir_file_list : frame.

Lemma queue_view_valid_generated_frame_range : preserves queue_view valid_generated_frame_range.
Proof. unfold valid_generated_frame_range. frame. Qed.
#[local] Hint Resolve queue_view_valid_generated_frame_range : frame.

Lemma queue_view_decode_project_config : preserves queue_view decode_project_config.
Proof. unfold decode_project_config. frame. Qed.
#[local] Hint Resolve queue_view_decode_project_config : frame.

Lemma queue_view_get_source_dir_file_list : preserves queue_view get_source_dir_file_list.
Proof. unfold get_source_dir_file_list. frame. Qed.
#[local] Hint Resolve queue_view_get_source_dir_file_list : frame.

Lemma queue_view_system_suspend : preserves queue_view system_suspend.
Proof. unfold system_suspend, sp_Popen. frame. Qed.
#[local] Hint Resolve queue_view_system_suspend : frame.

Lemma queue_view_cv2_imwrite p img : preserves queue_view (cv2_imwrite p img).
Proof. unfold cv2_imwrite. frame. Qed.
#[local] Hint Resolve queue_view_cv2_imwrite : frame.

Lemma queue_view_os_remove p : preserves queue_view (os_remove p).
Proof. unfold os_remove. frame. Qed.
#[local] Hint Resolve queue_view_os_remove : frame.

Lemma queue_view_call_ffmpeg_spawn : preserves queue_view call_ffmpeg_spawn.
Proof. unfold call_ffmpeg_spawn. frame. Qed.
#[local] Hint Resolve queue_view_call_ffmpeg_spawn : frame.

Lemma queue_view_call_ffmpeg_wait code : preserves queue_view (call_ffmpeg_wait code).
Proof. unfold call_ffmpeg_wait. frame. Qed.
#[local] Hint Resolve queue_view_call_ffmpeg_wait : frame.

Lemma queue_view_readline : preserves queue_view readline.
Proof. unfold readline. frame. Qed.
#[local] Hint Resolve queue_view_readline : frame.


(** *** Callbacks of the pipeline and the queue *)

Lemma queue_view_fields g1 g :
  queue_view g1 = queue_view g ->
  job_list g1 = job_list g /\ CurrentJobEntry g1 = CurrentJobEntry g /\
  BatchJobRunning g1 = BatchJobRunning g /\ scheduled g1 = scheduled g /\
  started (log g1) = started (log g).
Proof. unfold queue_view. intros H. injection H. intros. repeat split; assumption. Qed.

Lemma pipeline_step_refl g g' :
  queue_view g' = queue_view g -> pipeline_step g g'.
Proof.
  intros H. apply queue_view_fields in H. destruct H as (Hj & Hc & _ & Hs & Hl).
  split; [exact Hl|]. split; [exact Hc|]. left. split; [exact Hj|now left].
Qed.

Lemma pipeline_step_after g g1 g' :
  queue_view g1 = queue_view g -> pipeline_step g1 g' -> pipeline_step g g'.
Proof.
  intros H. apply queue_view_fields in H. destruct H as (Hj & Hc & _ & Hs & Hl).
  unfold pipeline_step. now rewrite Hj, Hc, Hs, Hl.
Qed.

Lemma generation_exit_step g r g' :
  generation_exit g = (r, g') -> pipeline_step g g'.
Proof.
  intros H. apply generation_exit_run in H. destruct H as (Hview & _ & Hcases).
  apply exit_view_fields in Hview.
  destruct Hview as (_ & _ & _ & _ & Hl & _ & _ & Hcur).
  split; [now rewrite Hl|]. split; [exact Hcur|].
  destruct Hcases as [[Hj Hs]|(key & _ & _ & _ & Hk & Hf & Hs)].
  - left. split; [exact Hj|now left].
  - right. now exists key.
Qed.

(** Calls whose effect on the queue is known. *)
Ltac call_preserved H :=
  match goal with
  | |- context [bind ?f ?k ?s] =>
      let Hq := fresh "Hq" in
      let E := fresh "E" in
      pose proof (H s) as Hq;
      destruct (f s) as [[?|?] ?] eqn:E; cbn [snd] in Hq;
      [rewrite (bind_returns _ _ _ _ _ E) | rewrite (bind_raises _ _ _ _ _ E)];
      clear E
  end.

Lemma pipeline_step_before g g1 g' :
  queue_view g' = queue_view g1 -> pipeline_step g g1 -> pipeline_step g g'.
Proof.
  intros H. apply queue_view_fields in H. destruct H as (Hj & Hc & _ & Hs & Hl).
  unfold pipeline_step. now rewrite Hj, Hc, Hs, Hl.
Qed.

Section StepsFrom.
Variable g0 : globals.

Lemma steps_quiet {A} (m : M A) : preserves queue_view m -> steps_from g0 m.
Proof.
  intros Hm g Hq. apply pipeline_step_refl. now rewrite Hm.
Qed.

Lemma steps_bind_quiet_first {A B} (m : M A) (k : A -> M B) :
  preserves queue_view m -> (forall a, steps_from g0 (k a)) ->
  steps_from g0 (bind m k).
Proof.
  intros Hm Hk g Hq. unfold bind. specialize (Hm g).
  destruct (m g) as [[a|exn] g1]; cbn [snd] in *.
  - apply Hk. congruence.
  - apply pipeline_step_refl. congruence.
Qed.

Lemma steps_bind_quiet_last {A B} (m : M A) (k : A -> M B) :
  steps_from g0 m -> (forall a, preserves queue_view (k a)) ->
  steps_from g0 (bind m k).
Proof.
  intros Hm Hk g Hq. unfold bind. specialize (Hm g Hq).
  destruct (m g) as [[a|exn] g1]; cbn [snd] in *.
  - apply (pipeline_step_before g0 g1); [apply Hk|exact Hm].
  - exact Hm.
Qed.

Lemma steps_generation_exit : steps_from g0 generation_exit.
Proof.
  intros g Hq. destruct (generation_exit g) as [r g'] eqn:E. cbn [snd].
  apply (pipeline_step_after g0 g g'); [now symmetry|].
  exact (generation_exit_step g r g' E).
Qed.

Lemma steps_win_after_frame : steps_from g0 (win_after cb_frame_generation_loop).
Proof.
  intros g Hq. apply queue_view_fields in Hq. destruct Hq as (Hj & Hc & _ & Hs & Hl).
  unfold win_after, assign; cbn [snd]. unfold pipeline_step. simpl_state.
  rewrite Hl, Hc, Hj, Hs. split; [reflexivity|]. split; [reflexivity|].
  left. split; [reflexivity|]. right. now left.
Qed.

Lemma steps_win_after_video : steps_from g0 (win_after cb_video_generation_loop).
Proof.
  intros g Hq. apply queue_view_fields in Hq. destruct Hq as (Hj & Hc & _ & Hs & Hl).
  unfold win_after, assign; cbn [snd]. unfold pipeline_step. simpl_state.
  rewrite Hl, Hc, Hj, Hs. split; [reflexivity|]. split; [reflexivity|].
  left. split; [reflexivity|]. right. now right.
Qed.

End StepsFrom.

Ltac queue_step :=
  match goal with
  | |- steps_from _ generation_exit => apply steps_generation_exit
  | |- steps_from _ (win_after cb_frame_generation_loop) => apply steps_win_after_frame
  | |- steps_from _ (win_after cb_video_generation_loop) => apply steps_win_after_video
  | |- steps_from _ (if ?b then _ else _) => destruct b
  | |- steps_from _ (match ?x with _ => _ end) => destruct x
  | |- steps_from _ _ => apply steps_quiet; solve [frame]
  | |- steps_from _ (bind _ _) =>
      first [ apply steps_bind_quiet_first; [solve [frame]|intros ?]
            | apply steps_bind_quiet_last; [|intros ?; solve [frame]] ]
  end.

Lemma steps_frame_generation_loop g0 : steps_from g0 frame_generation_loop.
Proof. unfold frame_generation_loop. repeat queue_step. Qed.

Lemma steps_video_generation_loop g0 : steps_from g0 video_generation_loop.
Proof. unfold video_generation_loop. repeat queue_step. Qed.

Section StepsOrStops.
Variable g0 : globals.

Lemma stops_bind {A B} (stop : A -> bool) (m : M A) (k : A -> M B) :
  steps_or_stops g0 stop m ->
  (forall a, stop a = true -> preserves queue_view (k a)) ->
  (forall a, stop a = false -> steps_from g0 (k a)) ->
  steps_from g0 (bind m k).
Proof.
  intros Hm Hstop Hgo g Hq. unfold bind. specialize (Hm g Hq).
  destruct (m g) as [[a|exn] g1]; cbn [snd] in *; [|exact Hm].
  destruct (stop a) eqn:Ha.
  - apply (pipeline_step_before g0 g1); [now apply Hstop|exact Hm].
  - now apply Hgo.
Qed.

Lemma stops_quiet_first {A B} (stop : B -> bool) (m : M A) (k : A -> M B) :
  preserves queue_view m -> (forall a, steps_or_stops g0 stop (k a)) ->
  steps_or_stops g0 stop (bind m k).
Proof.
  intros Hm Hk g Hq. unfold bind. specialize (Hm g).
  destruct (m g) as [[a|exn] g1] eqn:E; cbn [snd] in *.
  - apply Hk. congruence.
  - apply pipeline_step_refl. congruence.
Qed.

Lemma stops_ret {A} (stop : A -> bool) a :
  stop a = false -> steps_or_stops g0 stop (ret a).
Proof. intros Ha g Hq. unfold ret. now rewrite Ha. Qed.

Lemma stops_generation_exit {A} (stop : A -> bool) a :
  stop a = true -> steps_or_stops g0 stop (generation_exit ;; ret a).
Proof.
  intros Ha g Hq. pose proof (steps_generation_exit g0 g Hq) as H.
  unfold bind. destruct (generation_exit g) as [[u|exn] g1]; cbn [snd] in *.
  - unfold ret. now rewrite Ha.
  - exact H.
Qed.

End StepsOrStops.

Ltac stops_step :=
  match goal with
  | |- steps_or_stops _ _ (ret _) => apply stops_ret; reflexivity
  | |- steps_or_stops _ _ (bind generation_exit _) =>
      apply stops_generation_exit; reflexivity
  | |- steps_or_stops _ _ (if ?b then _ else _) => destruct b
  | |- steps_or_stops _ _ (bind _ _) =>
      apply stops_quiet_first; [solve [frame]|intros ?]
  end.

Lemma steps_start_convert g0 : steps_from g0 start_convert.
Proof.
  unfold start_convert. repeat queue_step.
  apply (stops_bind g0 negb).
  - repeat stops_step.
  - intros [|]; [discriminate|]. intros _. cbn [negb]. frame.
  - intros [|]; [|discriminate]. intros _. cbn [negb]. repeat queue_step.
Qed.

(** *** The job list *)

Lemma pending_mark_done keys jobs :
  pending (mark_done keys jobs) =
  filter (fun k => negb (existsb (String.eqb k) keys)) (pending jobs).
Proof.
  unfold pending, mark_done. induction jobs as [|[k j] rest IH]; [reflexivity|].
  cbn [map filter fst snd].
  destruct (existsb (String.eqb k) keys) eqn:Hk; cbn [snd done negb].
  - destruct (negb (done j)); cbn [map fst filter]; [rewrite Hk|]; exact IH.
  - destruct (negb (done j)); cbn [map fst filter]; [rewrite Hk; cbn [negb]; f_equal|];
      exact IH.
Qed.

Lemma existsb_eqb_In k keys :
  existsb (String.eqb k) keys = true <-> In k keys.
Proof.
  rewrite existsb_exists. split.
  - intros (x & Hx & Hk). apply String.eqb_eq in Hk. now subst.
  - intros H. exists k. split; [exact H|apply String.eqb_refl].
Qed.

Lemma filter_not_in_firstn (n : nat) (l : list string) :
  NoDup l ->
  filter (fun k => negb (existsb (String.eqb k) (firstn n l))) l = skipn n l.
Proof.
  revert n. induction l as [|x l IH]; intros n Hl.
  - now destruct n.
  - destruct n as [|n].
    + cbn [firstn existsb negb skipn]. clear. induction (x :: l) as [|y r IHr];
        [reflexivity|cbn; now rewrite IHr].
    + inversion Hl as [|? ? Hx Hl']; subst.
      cbn [firstn skipn filter existsb]. rewrite String.eqb_refl. cbn [orb negb].
      rewrite <- (IH n Hl'). apply filter_ext_in. intros k Hk.
      destruct (String.eqb k x) eqn:E; [|reflexivity].
      apply String.eqb_eq in E. subst. contradiction.
Qed.

Lemma NoDup_pending jobs : NoDup (map fst jobs) -> NoDup (pending jobs).
Proof.
  unfold pending. induction jobs as [|[k j] rest IH]; intros H; [constructor|].
  cbn [map fst] in H. inversion H as [|? ? Hk Hrest]; subst.
  cbn [filter snd]. destruct (negb (done j)); [|now apply IH].
  cbn [map fst]. constructor; [|now apply IH].
  intros Hin. apply Hk. apply in_map_iff in Hin. destruct Hin as (x & Hx & Hin).
  apply filter_In in Hin. apply in_map_iff. exists x. tauto.
Qed.

Lemma pending_incl jobs k : In k (pending jobs) -> In k (map fst jobs).
Proof.
  unfold pending. intros H. apply in_map_iff in H. destruct H as (x & Hx & Hin).
  apply filter_In in Hin. apply in_map_iff. exists x. tauto.
Qed.

Lemma pending_after (n : nat) jobs :
  NoDup (map fst jobs) ->
  pending (mark_done (firstn n (pending jobs)) jobs) = skipn n (pending jobs).
Proof.
  intros H. rewrite pending_mark_done. apply filter_not_in_firstn.
  now apply NoDup_pending.
Qed.

Lemma mark_done_absent keys k jobs :
  ~ In k (map fst jobs) -> mark_done (keys ++ [k]) jobs = mark_done keys jobs.
Proof.
  unfold mark_done. intros H. apply map_ext_in. intros [k' j] Hin. cbn [fst snd].
  rewrite existsb_app. cbn [existsb]. rewrite orb_false_r.
  destruct (String.eqb k' k) eqn:E; [|now rewrite orb_false_r].
  apply String.eqb_eq in E. subst. exfalso. apply H. apply in_map_iff.
  now exists (k, j).
Qed.

Lemma flag_done_mark_done keys k jobs :
  NoDup (map fst jobs) -> In k (map fst jobs) ->
  flag_done k (mark_done keys jobs) = Some (mark_done (keys ++ [k]) jobs).
Proof.
  induction jobs as [|[k' j] rest IH]; intros Hnd Hin; [contradiction|].
  cbn [map fst] in Hnd, Hin. inversion Hnd as [|? ? Hk Hrest]; subst.
  change (mark_done keys ((k', j) :: rest))
    with ((if existsb (String.eqb k') keys
           then (k', {| job_project := job_project j; done := true |})
           else (k', j)) :: mark_done keys rest).
  change (mark_done (keys ++ [k]) ((k', j) :: rest))
    with ((if existsb (String.eqb k') (keys ++ [k])
           then (k', {| job_project := job_project j; done := true |})
           else (k', j)) :: mark_done (keys ++ [k]) rest).
  rewrite existsb_app. cbn [existsb]. rewrite orb_false_r.
  destruct (String.eqb k' k) eqn:E.
  - apply String.eqb_eq in E. subst k'. rewrite orb_true_r.
    rewrite (mark_done_absent keys k rest Hk).
    destruct (existsb (String.eqb k) keys); cbn [flag_done];
      rewrite String.eqb_refl; reflexivity.
  - rewrite orb_false_r. destruct Hin as [->|Hin]; [now rewrite String.eqb_refl in E|].
    destruct (existsb (String.eqb k') keys); cbn [flag_done]; rewrite E;
      rewrite (IH Hrest Hin); reflexivity.
Qed.

Lemma firstn_succ (n : nat) (l : list string) :
  (n < List.length l)%nat -> (firstn n l ++ [nth n l ""])%list = firstn (S n) l.
Proof.
  revert n. induction l as [|x l IH]; intros n H; cbn [List.length] in H; [lia|].
  destruct n as [|n]; [reflexivity|].
  change (firstn (S (S n)) (x :: l)) with (x :: firstn (S n) l).
  rewrite <- (IH n) by lia. reflexivity.
Qed.

Lemma skipn_nth (n : nat) (l : list string) k ks :
  skipn n l = k :: ks -> (n < List.length l)%nat /\ nth n l "" = k.
Proof.
  revert n. induction l as [|x l IH]; intros n H.
  - destruct n; discriminate.
  - destruct n as [|n]; cbn [skipn] in H.
    + injection H as -> ->. cbn. split; [lia|reflexivity].
    + apply IH in H. cbn [List.length nth]. split; [lia|tauto].
Qed.

Lemma skipn_nil_length (n : nat) (l : list string) :
  (n <= List.length l)%nat -> skipn n l = [] -> n = List.length l.
Proof.
  intros Hn H. apply (f_equal (@List.length string)) in H.
  rewrite length_skipn in H. cbn in H. lia.
Qed.

(** *** The queue runner *)

Lemma job_processing_for_none entries :
  pending entries = [] -> job_processing_for entries = ret false.
Proof.
  unfold pending. induction entries as [|[k j] rest IH]; intros H; [reflexivity|].
  cbn [filter snd] in H. cbn [job_processing_for].
  destruct (negb (done j)); [discriminate|now apply IH].
Qed.

Lemma job_processing_for_first entries k ks :
  pending entries = k :: ks ->
  exists j,
    job_processing_for entries =
    (assign (CurrentJobEntry_set (Some k)) ;;
     logging INFO (ProcessingJob k (cfg_CurrentFrame (job_project j))
                                 (cfg_FramesToEncode (job_project j))) ;;
     assign (project_config_from_file_set false) ;;
     assign (project_config_set (job_project j)) ;;
     decode_project_config ;;
     get_source_dir_file_list ;;
     get_target_dir_file_list ;;
     start_convert ;;
     ret true).
Proof.
  unfold pending. induction entries as [|[k' j] rest IH]; intros H; [discriminate|].
  cbn [filter snd] in H. cbn [job_processing_for].
  destruct (negb (done j)); [|now apply IH].
  cbn [map fst] in H. injection H as -> _. now exists j.
Qed.

Lemma bind_ends_true {A} (m : M A) (k : A -> M bool) :
  (forall a g, match k a g with (Return b, _) => b = true | _ => True end) ->
  forall g, match bind m k g with (Return b, _) => b = true | _ => True end.
Proof.
  intros Hk g. unfold bind. destruct (m g) as [[a|exn] g1]; [apply Hk|exact I].
Qed.

Lemma bind_snd_true {B} (m : M bool) (k : M B) (h : M B) g :
  match m g with (Return b, _) => b = true | _ => True end ->
  preserves queue_view h ->
  queue_view (snd (bind m (fun b => if negb b then k else h) g)) =
  queue_view (snd (m g)).
Proof.
  intros Hm Hh. unfold bind. destruct (m g) as [[b|exn] g1]; [|reflexivity].
  subst b. cbn [negb snd]. apply Hh.
Qed.

Lemma handle_view m g : queue_view (handle m g) = queue_view (snd (m g)).
Proof. unfold handle. destruct (m g) as [[u|exn] g1]; reflexivity. Qed.

Lemma bind_snd_quiet {A B} (m : M A) (k : A -> M B) g :
  (forall a, preserves queue_view (k a)) ->
  queue_view (snd (bind m k g)) = queue_view (snd (m g)).
Proof.
  intros Hk. unfold bind. destruct (m g) as [[a|exn] g1]; [apply Hk|reflexivity].
Qed.

Lemma generation_exit_idle g :
  CurrentJobEntry g = None ->
  job_list (snd (generation_exit g)) = job_list g /\
  scheduled (snd (generation_exit g)) = scheduled g /\
  CurrentJobEntry (snd (generation_exit g)) = None /\
  log (snd (generation_exit g)) = log g.
Proof.
  intros Hc. destruct (generation_exit g) as [r g'] eqn:E. cbn [snd].
  apply generation_exit_run in E. destruct E as (Hview & _ & Hcases).
  apply exit_view_fields in Hview.
  destruct Hview as (_ & _ & _ & _ & Hl & _ & _ & Hcur).
  destruct Hcases as [[Hj Hs]|(key & _ & _ & _ & Hk & _)]; [|congruence].
  repeat split; congruence.
Qed.

Lemma steps_start_job g0 (p : project) :
  steps_from g0
    (assign (project_config_from_file_set false) ;;
     assign (project_config_set p) ;;
     decode_project_config ;;
     get_source_dir_file_list ;;
     get_target_dir_file_list ;;
     start_convert ;;
     ret true).
Proof.
  repeat (apply steps_bind_quiet_first; [solve [frame]|intros ?]).
  apply steps_bind_quiet_last; [apply steps_start_convert|intros ?; frame].
Qed.

Section Runner.
Variable jobs0 : list (string * job).
Variable started0 : list string.
Hypothesis keys_unique : NoDup (map fst jobs0).

Lemma runner_inv_view g g' :
  queue_view g' = queue_view g ->
  runner_inv jobs0 started0 g -> runner_inv jobs0 started0 g'.
Proof.
  intros H. apply queue_view_fields in H. destruct H as (Hj & Hc & _ & Hs & Hl).
  unfold runner_inv. now rewrite Hj, Hc, Hs, Hl.
Qed.

(** A job has been started and the callbacks of the pipeline work on it. *)
Lemma runner_inv_processing (n : nat) g g' :
  started (log g) = (started0 ++ firstn (S n) (pending jobs0))%list ->
  (S n <= List.length (pending jobs0))%nat ->
  job_list g = mark_done (firstn n (pending jobs0)) jobs0 ->
  CurrentJobEntry g = Some (nth n (pending jobs0) "") ->
  scheduled g = [] ->
  pipeline_step g g' -> runner_inv jobs0 started0 g'.
Proof.
  intros Hl Hn Hj Hc Hs (Hl' & Hc' & Hstep).
  destruct Hstep as [[Hj' Hs']|(key & Hkey & Hflag & Hs')].
  - exists (S n), n. rewrite Hl', Hl, Hj', Hj, Hc', Hc.
    repeat split; try assumption; try lia.
    right. repeat split. rewrite Hs in Hs'. cbn [app] in Hs'. tauto.
  - exists (S n), (S n). rewrite Hl', Hl, Hc', Hc.
    repeat split; try assumption; try lia.
    + rewrite Hc in Hkey. injection Hkey as <-. rewrite Hj in Hflag.
      rewrite flag_done_mark_done in Hflag.
      * rewrite firstn_succ in Hflag by lia. now injection Hflag as <-.
      * exact keys_unique.
      * apply pending_incl. apply nth_In. lia.
    + left. repeat split.
      * right. rewrite Hs' , Hs. reflexivity.
      * discriminate.
Qed.

Lemma runner_inv_job_processing_loop (n : nat) g :
  started (log g) = (started0 ++ firstn n (pending jobs0))%list ->
  (n <= List.length (pending jobs0))%nat ->
  job_list g = mark_done (firstn n (pending jobs0)) jobs0 ->
  scheduled g = [] ->
  runner_inv jobs0 started0 (snd (job_processing_loop g)).
Proof.
  intros Hl Hn Hj Hs. unfold job_processing_loop.
  change (bind (get job_list) ?k g) with (k (job_list g) g). cbv beta.
  rewrite Hj.
  destruct (skipn n (pending jobs0)) as [|k ks] eqn:Htodo.
  - rewrite job_processing_for_none by (now rewrite pending_after).
    apply skipn_nil_length in Htodo; [|exact Hn].
    change (bind (ret false) ?k g) with (k false g). cbv beta. cbn [negb].
    change (bind (assign ?f) ?k g) with (k tt (f g)). cbv beta.
    set (g1 := CurrentJobEntry_set None g).
    match goal with
    | |- runner_inv _ _ (snd (bind ?m _ ?s)) =>
        apply (runner_inv_view (snd (m s))); [apply bind_snd_quiet; intros _; frame|]
    end.
    destruct (generation_exit_idle g1 eq_refl) as (Hj' & Hs' & Hc' & Hl').
    exists n, n. rewrite Hj', Hs', Hc', Hl'. subst g1. simpl_state.
    repeat split; try assumption; try lia.
    + intros Hne. destruct (pending jobs0); [now contradiction Hne|cbn in *; lia].
    + left. repeat split; tauto.
  - destruct (job_processing_for_first
                (mark_done (firstn n (pending jobs0)) jobs0) k ks) as (j & ->);
      [now rewrite pending_after|].
    apply skipn_nth in Htodo. destruct Htodo as (Hlt & Hk).
    match goal with
    | |- runner_inv _ _ (snd (bind ?m _ g)) =>
        apply (runner_inv_view (snd (m g)))
    end.
    { apply bind_snd_true; [|frame].
      repeat (apply bind_ends_true; intros ? ?). exact eq_refl. }
    change (bind (assign ?f) ?k g) with (k tt (f g)). cbv beta.
    change (bind (logging ?l ?m) ?k ?s)
      with (k tt (log_set (log s ++ [(l, m)]) s)). cbv beta.
    match goal with
    | |- runner_inv _ _ (snd (?rest ?s)) =>
        apply (runner_inv_processing n s); [| | | | |apply steps_start_job; reflexivity]
    end; simpl_state.
    + rewrite started_app, Hl. cbn [started app]. rewrite <- firstn_succ by lia.
      now rewrite Hk, app_assoc.
    + lia.
    + exact Hj.
    + now rewrite Hk.
    + exact Hs.
Qed.

Lemma runner_inv_step e g :
  runner_inv jobs0 started0 g -> runner_inv jobs0 started0 (step e g).
Proof.
  intros H. destruct e as [|code]; cbn [step].
  - destruct H as (n & m & Hl & Hn & Hfirst & Hj & Hcases).
    destruct (scheduled g) as [|f rest] eqn:Hs.
    + exists n, m. now rewrite Hs.
    + apply (runner_inv_view (snd (run_callback f (scheduled_set rest g))));
        [apply handle_view|].
      destruct Hcases as [(-> & Hsched & _)|(-> & Hc & Hsched)].
      * destruct Hsched as [Hsched|Hsched]; [discriminate|].
        injection Hsched as -> ->. cbn [run_callback].
        apply (runner_inv_job_processing_loop n); simpl_state;
          first [assumption|reflexivity].
      * assert (Hrest : rest = []) by (destruct Hsched as [?|[?|?]]; congruence).
        subst rest.
        apply (runner_inv_processing m (scheduled_set [] g)); simpl_state;
          try first [assumption|reflexivity].
        destruct f; cbn [run_callback].
        -- now apply steps_frame_generation_loop.
        -- now apply steps_video_generation_loop.
        -- destruct Hsched as [?|[?|?]]; discriminate.
  - apply (runner_inv_view (snd (call_ffmpeg_wait code g))); [apply handle_view|].
    apply (runner_inv_view g); [|exact H].
    assert (Hq : preserves queue_view (call_ffmpeg_wait code)) by frame.
    apply Hq.
Qed.

Lemma runner_inv_run events g :
  runner_inv jobs0 started0 g -> runner_inv jobs0 started0 (run events g).
Proof.
  unfold run. revert g. induction events as [|e events IH]; intros g H; [exact H|].
  cbn [fold_left]. apply IH. now apply runner_inv_step.
Qed.

(** Entries that were done when the batch began stay as they were. *)
Lemma mark_done_keeps_done (n : nat) k j :
  In (k, j) jobs0 -> done j = true ->
  In (k, j) (mark_done (firstn n (pending jobs0)) jobs0).
Proof.
  intros Hin Hd. unfold mark_done. apply in_map_iff. exists (k, j).
  split; [|exact Hin]. cbn [fst snd].
  destruct (existsb _ _); [|reflexivity].
  destruct j as [p d]. cbn in *. now subst.
Qed.

End Runner.


(* ------------------------------------------------------------------ *)
(** * Further properties *)

(** *** Cropping *)

(** One axis of [crop_image] for a rectangle that starts inside the
    image. *)
Lemma crop_axis_extent lo hi n :
  0 <= lo <= hi -> lo <= n ->
  let e := Z.min hi n in
  let e' := if (e - lo) mod 2 =? 1 then e - 1 else e in
  Py.slice_index lo n = lo /\
  Z.max 0 (Py.slice_index e' n - Py.slice_index lo n) = (e - lo) - (e - lo) mod 2.
Proof.
  intros Hlo Hn e e'. subst e e'. unfold Py.slice_index.
  case_tests; zsolve.
Qed.

(** One axis of [crop_image] for a rectangle that starts at or beyond the
    end of the image. *)
Lemma crop_axis_outside lo hi n :
  0 <= n -> 0 <= lo <= hi -> n <= lo ->
  let e := Z.min hi n in
  let e' := if (e - lo) mod 2 =? 1 then e - 1 else e in
  Z.max 0 (Py.slice_index e' n - Py.slice_index lo n) = 0.
Proof.
  intros H0 Hlo Hn e e'. subst e e'. unfold Py.slice_index.
  case_tests; zsolve.
Qed.

(** X1.  [crop_image] with a rectangle whose top-left corner lies in the
    image returns a view of the input, no pixel copied: the pixel at
    (r, c) of the output is the pixel at (top + r, left + c) of the input,
    and each extent is the extent of the rectangle clipped to the image,
    less one when that is odd.  A rectangle that starts at or beyond the
    right (bottom) edge gives an image of width (height) 0. *)
Theorem crop_image_view img top_left botton_right :
  valid_shape img -> valid_rect top_left botton_right ->
  let out := crop_image img top_left botton_right in
  let width := Z.min (fst botton_right) (shape1 img) - fst top_left in
  let height := Z.min (snd botton_right) (shape0 img) - snd top_left in
  (fst top_left <= shape1 img -> snd top_left <= shape0 img ->
   shape1 out = width - width mod 2 /\
   shape0 out = height - height mod 2 /\
   buffer out = buffer img /\
   (forall r c, at_ out r c = at_ img (snd top_left + r) (fst top_left + c))) /\
  (shape1 img <= fst top_left -> shape1 out = 0) /\
  (shape0 img <= snd top_left -> shape0 out = 0).
Proof.
  intros [Hh Hw] [Hx Hy] out width height. subst out width height.
  unfold crop_image, slice2, at_. cbn [shape0 shape1 row0 col0 buffer].
  split; [|split].
  - intros Hxin Hyin.
    destruct (crop_axis_extent (fst top_left) (fst botton_right) (shape1 img) Hx Hxin)
      as [Hcs Hcw].
    destruct (crop_axis_extent (snd top_left) (snd botton_right) (shape0 img) Hy Hyin)
      as [Hrs Hrh].
    cbv zeta in Hcw, Hrh. rewrite Hcw, Hrh, Hcs, Hrs.
    repeat split. intros r c. f_equal; lia.
  - intros Hout. exact (crop_axis_outside _ _ _ Hw Hx Hout).
  - intros Hout. exact (crop_axis_outside _ _ _ Hh Hy Hout).
Qed.

Lemma crop_image_view_witness :
  let out := crop_image (ramp 10 10) (2, 3) (7, 20) in
  valid_shape (ramp 10 10) /\ valid_rect (2, 3) (7, 20) /\
  shape1 out = 4 /\ shape0 out = 6 /\
  at_ out 0 0 = at_ (ramp 10 10) 3 2 /\
  shape1 (crop_image (ramp 10 10) (10, 0) (12, 4)) = 0.
Proof.
  assert (Hs : valid_shape (ramp 10 10)) by (split; cbn; lia).
  assert (Hr : valid_rect (2, 3) (7, 20)) by (split; cbn; lia).
  assert (Hr' : valid_rect (10, 0) (12, 4)) by (split; cbn; lia).
  destruct (crop_image_view (ramp 10 10) (2, 3) (7, 20) Hs Hr) as [Hin _].
  destruct Hin as (Hw & Hh & _ & Hpix); [cbn; lia|cbn; lia|].
  destruct (crop_image_view (ramp 10 10) (10, 0) (12, 4) Hs Hr') as (_ & Hout & _).
  split; [exact Hs|]. split; [exact Hr|].
  split; [exact Hw|]. split; [exact Hh|]. split; [apply Hpix|].
  apply Hout. cbn. lia.
Defined.

(** *** Python arithmetic *)

Lemma round_within_half (x : Q) :
  (inject_Z (Py.round x) - (1 # 2) <= x <= inject_Z (Py.round x) + (1 # 2))%Q.
Proof.
  unfold Py.round.
  pose proof (Qfloor_le x) as Hlo. pose proof (Qlt_floor x) as Hhi.
  rewrite inject_Z_plus in Hhi. change (inject_Z 1) with 1%Q in Hhi.
  destruct (Qcompare (x - inject_Z (Qfloor x)) (1 # 2)) eqn:E.
  - apply Qeq_alt in E.
    destruct (Z.even (Qfloor x)); rewrite ?inject_Z_plus;
      change (inject_Z 1) with 1%Q; lra.
  - apply Qlt_alt in E. lra.
  - apply Qgt_alt in E. rewrite inject_Z_plus. change (inject_Z 1) with 1%Q. lra.
Qed.

(** A fifth of a whole number is never half-way between two integers, so
    [round(width * 0.20)] does not depend on how ties are broken. *)
Lemma round_fifth (w : Z) : Py.round (inject_Z w * (1 # 5)) = (2 * w + 5) / 10.
Proof.
  destruct (round_within_half (inject_Z w * (1 # 5))) as [Hlo Hhi].
  set (r := Py.round (inject_Z w * (1 # 5))) in *. clearbody r.
  assert (Hlo' : 10 * r - 5 <= 2 * w).
  { unfold Qle, Qminus, Qplus, Qmult, Qopp, inject_Z in Hlo. cbn in Hlo. lia. }
  assert (Hhi' : 2 * w <= 10 * r + 5).
  { unfold Qle, Qminus, Qplus, Qmult, Qopp, inject_Z in Hhi. cbn in Hhi. lia. }
  Z.to_euclidean_division_equations. lia.
Qed.

(** *** The search area *)

(** X2.  [set_hole_search_area] makes the search area the left fifth of
    the frame over its whole height: the rectangle from (0, 0) to
    ((2 * width + 5) div 10, height), which lies inside the frame.  The
    stripe that [get_image_left_stripe] then cuts from the frame has that
    very shape and shares the origin of the frame, and
    [validate_template_size] accepts the active template exactly when it is
    strictly narrower than the stripe and strictly lower than the frame. *)
Theorem set_hole_search_area_left_fifth img g :
  valid_shape img ->
  let g' := exec (set_hole_search_area img) g in
  let stripe_width := (2 * shape1 img + 5) / 10 in
  result (set_hole_search_area img) g = Return tt /\
  HoleSearchTopLeft g' = (0, 0) /\
  HoleSearchBottomRight g' = (stripe_width, shape0 img) /\
  0 <= stripe_width <= shape1 img /\
  result (get_image_left_stripe img) g' = Return (left_stripe g' img) /\
  shape1 (left_stripe g' img) = stripe_width /\
  shape0 (left_stripe g' img) = shape0 img /\
  (forall r c, at_ (left_stripe g' img) r c = at_ img r c) /\
  (forall template, film_hole_template g = Some template ->
     result validate_template_size g' =
       Return ((shape1 template <? stripe_width) && (shape0 template <? shape0 img))).
Proof.
  intros [Hh Hw] g' stripe_width. subst g' stripe_width.
  unfold exec, result, set_hole_search_area. run. cbn [fst snd].
  rewrite round_fifth.
  set (g' := HoleSearchBottomRight_set _ _).
  assert (Htl : HoleSearchTopLeft g' = (0, 0)) by reflexivity.
  assert (Hbr : HoleSearchBottomRight g' = ((2 * shape1 img + 5) / 10, shape0 img))
    by reflexivity.
  assert (Hrange : 0 <= (2 * shape1 img + 5) / 10 <= shape1 img)
    by (Z.to_euclidean_division_equations; lia).
  destruct (left_stripe_shape g' img) as [E1 E0];
    rewrite ?Htl, ?Hbr; cbn [fst snd]; try lia.
  rewrite Htl, Hbr in E1, E0. cbn [fst snd] in E1, E0.
  repeat split; try assumption; try lia.
  - intros r c. unfold left_stripe, slice2, at_. rewrite Htl, Hbr.
    cbn [fst snd row0 col0 buffer]. rewrite !slice_index_inside by lia.
    f_equal; lia.
  - intros template Ht.
    rewrite (validate_template_size_run g' template Ht). cbn [fst].
    rewrite Htl, Hbr. cbn [fst snd]. rewrite !Z.sub_0_r. f_equal.
    rewrite negb_orb. f_equal; rewrite Z.geb_leb, <- Z.ltb_antisym; reflexivity.
Qed.

Lemma set_hole_search_area_left_fifth_witness :
  let img := frame_with_hole 20 40 3 5 in
  let g := startup sample_files sample_cv in
  valid_shape img /\
  HoleSearchBottomRight (exec (set_hole_search_area img) g) = (8, 20) /\
  shape1 (left_stripe (exec (set_hole_search_area img) g) img) = 8.
Proof.
  intros img g.
  assert (Hs : valid_shape img) by (split; cbn; lia).
  destruct (set_hole_search_area_left_fifth img g Hs)
    as (_ & _ & Hbr & _ & _ & Hw & _).
  split; [exact Hs|]. split; [exact Hbr|exact Hw].
Defined.

(** *** The hole-height probe and stabilization *)

Lemma stabilization_view_fields g1 g :
  stabilization_view g1 = stabilization_view g ->
  film_hole_height g1 = film_hole_height g /\
  StabilizeAreaDefined g1 = StabilizeAreaDefined g /\
  perform_stabilization g1 = perform_stabilization g /\
  dialogs g1 = dialogs g.
Proof.
  unfold stabilization_view. intros H. injection H. intros. repeat split; assumption.
Qed.

Lemma stabilization_view_resize_image img percent :
  preserves stabilization_view (resize_image img percent).
Proof. unfold resize_image. frame. Qed.
#[local] Hint Resolve stabilization_view_resize_image : frame.

Lemma stabilization_view_adjust_hole_pattern_size :
  preserves stabilization_view adjust_hole_pattern_size.
Proof. unfold adjust_hole_pattern_size. frame. Qed.
#[local] Hint Resolve stabilization_view_adjust_hole_pattern_size : frame.

(** In a batch the probe asks nothing and returns the row of the lower
    pattern minus the row of the upper one. *)
Lemma determine_hole_height_batch img g upper lower :
  BatchJobRunning g = true ->
  probe_templates g = (Some upper, Some lower) ->
  let stripe := left_stripe g img in
  let height := snd (locate g lower stripe) - snd (locate g upper stripe) in
  exists g1,
    determine_hole_height img g = (Return height, g1) /\
    stabilization_view g1 = stabilization_view g.
Proof.
  intros Hbatch Hprobe stripe height. subst stripe height.
  unfold probe_templates in Hprobe. unfold determine_hole_height.
  do 3 step.
  destruct (String.eqb (cfg_FilmType (project_config g)) "R8");
    injection Hprobe as H1 H2; rewrite H1, H2;
    rewrite (bind_returns _ _ _ _ _ (get_image_left_stripe_run img g)).
  all: cbn [not_none]; step;
    rewrite (bind_returns _ _ _ _ _ (match_template_run _ _ _ _)).
  all: cbn [not_none]; step;
    rewrite (bind_returns _ _ _ _ _ (match_template_run _ _ _ _)).
  all: repeat match goal with
       | |- context [locate (log_set ?l ?s0) ?t ?s] =>
           change (locate (log_set l s0) t s) with (locate s0 t s)
       end.
  all: match goal with |- context [bind _ _ ?s] =>
         set (g0 := s);
         assert (Hview : stabilization_view g0 = stabilization_view g) by reflexivity;
         assert (Hb : BatchJobRunning g0 = BatchJobRunning g) by reflexivity;
         clearbody g0
       end.
  all: match goal with |- context [?a >? ?b] => destruct (a >? b) end.
  all: repeat step; rewrite ?Hb, ?Hbatch; cbn [negb]; repeat step.
  all: eexists; split; [reflexivity|exact Hview].
Qed.

(** X3.  In a batch run, [select_hole_height] asks the user nothing.  When
    the pattern expected below is found above the other one (a negative
    hole height), stabilization is switched off for the job:
    [film_hole_height] is 0, [StabilizeAreaDefined] and
    [perform_stabilization] are False.  Otherwise the hole height is the
    distance between the two patterns and [perform_stabilization] is left
    as it was. *)
Theorem select_hole_height_batch img g upper lower :
  BatchJobRunning g = true ->
  probe_templates g = (Some upper, Some lower) ->
  let stripe := left_stripe g img in
  let height := snd (locate g lower stripe) - snd (locate g upper stripe) in
  let g' := exec (select_hole_height img) g in
  dialogs g' = dialogs g /\
  (height < 0 ->
   result (select_hole_height img) g = Return tt /\
   film_hole_height g' = 0 /\ StabilizeAreaDefined g' = false /\
   perform_stabilization g' = false) /\
  (0 <= height ->
   film_hole_height g' = height /\ StabilizeAreaDefined g' = true /\
   perform_stabilization g' = perform_stabilization g).
Proof.
  intros Hbatch Hprobe stripe height g'.
  destruct (determine_hole_height_batch img g upper lower Hbatch Hprobe)
    as (g1 & Hrun & Hview).
  fold stripe in Hrun. fold height in Hrun.
  apply stabilization_view_fields in Hview. destruct Hview as (_ & _ & Hstab & Hd).
  subst g'. unfold exec, result, select_hole_height.
  rewrite (bind_returns _ _ _ _ _ Hrun). clearbody height. step.
  destruct (height <? 0) eqn:Hneg.
  - apply Z.ltb_lt in Hneg. repeat step. simpl_state.
    repeat split; try assumption; try reflexivity; lia.
  - apply Z.ltb_ge in Hneg. step.
    match goal with |- context [adjust_hole_pattern_size ?s] =>
      pose proof (stabilization_view_adjust_hole_pattern_size s) as Hadj;
      apply stabilization_view_fields in Hadj;
      destruct Hadj as (Hh & Ha & Hp & Hd')
    end.
    rewrite Hd', Hh, Ha, Hp. simpl_state.
    repeat split; try assumption; try reflexivity; lia.
Qed.

Lemma select_hole_height_batch_witness :
  let img := frame_with_hole 20 40 3 5 in
  BatchJobRunning batch_probe_state = true /\
  perform_stabilization batch_probe_state = true /\
  snd (locate batch_probe_state (new_array 2 2 (fun _ _ => 4))
         (left_stripe batch_probe_state img)) -
  snd (locate batch_probe_state (new_array 2 2 (fun _ _ => 9))
         (left_stripe batch_probe_state img)) = -5 /\
  dialogs (exec (select_hole_height img) batch_probe_state) = [] /\
  perform_stabilization (exec (select_hole_height img) batch_probe_state) = false /\
  film_hole_height (exec (select_hole_height img) batch_probe_state) = 0.
Proof.
  intros img.
  destruct (select_hole_height_batch img batch_probe_state
              (new_array 2 2 (fun _ _ => 9)) (new_array 2 2 (fun _ _ => 4))
              eq_refl eq_refl) as (Hd & Hneg & _).
  destruct Hneg as (_ & Hh & _ & Hp); [vm_compute; reflexivity|].
  repeat split; assumption.
Defined.

(** X4.  The out-of-bounds alert of [stabilize_image]: the counter goes up
    by one, and the bell rings once if the alert option is set, exactly
    when the frame is out of bounds while the conversion loop runs in
    expert mode; in every other case neither changes.  The frame returned
    has the shape of the frame given. *)
Theorem stabilize_image_bounds_alert img g template :
  film_hole_template g = Some template ->
  let move := expected_minus_matched g img (matched_position g template img) in
  let alarm := ConvertLoopRunning g && out_of_bounds g img (snd move) && ExpertMode g in
  let g' := exec (stabilize_image img) g in
  stabilization_bounds_alert_counter g' =
    stabilization_bounds_alert_counter g + (if alarm then 1 else 0) /\
  bells g' =
    bells g + (if alarm && stabilization_bounds_alert g then 1 else 0) /\
  exists out, result (stabilize_image img) g = Return out /\
              shape0 out = shape0 img /\ shape1 out = shape1 img.
Proof.
  intros Ht move alarm g'. subst alarm g'. unfold exec, result.
  unfold stabilize_image. step. step.
  rewrite (bind_returns _ _ _ _ _ (get_image_left_stripe_run img g)).
  step. rewrite Ht. cbn [not_none]. step. step.
  rewrite (bind_returns _ _ _ _ _ (match_template_run _ _ _ _)).
  generalize (match_template_log template (left_stripe g img)) as pre. intros pre.
  do 4 step.
  change (shift (CustomTemplateDefined (log_set (log g ++ pre) g))
                (expected_pattern_pos (log_set (log g ++ pre) g))
                (shape1 img) (shape0 img)
                (fst (locate g template (left_stripe g img)) +
                   fst (HoleSearchTopLeft (log_set (log g ++ pre) g)),
                 snd (locate g template (left_stripe g img)) +
                   snd (HoleSearchTopLeft (log_set (log g ++ pre) g))))
    with move.
  change (ConvertLoopRunning (log_set (log g ++ pre) g)) with (ConvertLoopRunning g).
  generalize dependent move. intros move.
  unfold out_of_bounds, missing_bottom, missing_top.
  change (CropBottomRight (log_set (log g ++ pre) g)) with (CropBottomRight g).
  change (CropTopLeft (log_set (log g ++ pre) g)) with (CropTopLeft g).
  destruct (ConvertLoopRunning g);
    destruct (ltb (inject_Z (shape0 img) - inject_Z (snd (CropBottomRight g)) + snd move) 0
              || ltb (inject_Z (snd (CropTopLeft g)) - snd move) 0);
    cbn [andb]; repeat step.
  all: try (simpl_state; rewrite !Z.add_0_r; repeat split; eexists; repeat split).
  all: change (ExpertMode (log_set (log g ++ pre) g)) with (ExpertMode g);
    destruct (ExpertMode g); cbn [andb]; repeat step.
  all: try (simpl_state; rewrite !Z.add_0_r; repeat split; eexists; repeat split).
  all: simpl_state; destruct (stabilization_bounds_alert g); repeat step; simpl_state.
  all: rewrite ?Z.add_0_r; repeat split; eexists; repeat split.
Qed.

Lemma stabilize_image_bounds_alert_witness :
  let g := stabilization_bounds_alert_set true (ExpertMode_set true conversion_state) in
  let img := frame_with_hole 20 40 3 5 in
  film_hole_template g = Some (ramp 2 2) /\
  stabilization_bounds_alert_counter (exec (stabilize_image img) g) = 1 /\
  bells (exec (stabilize_image img) g) = 1.
Proof.
  intros g img.
  destruct (stabilize_image_bounds_alert img g (ramp 2 2) eq_refl) as (Hc & Hb & _).
  split; [reflexivity|]. split; [exact Hc|exact Hb].
Defined.

(** *** The per-frame loop: the branches that write no frame *)

Lemma exit_view_files g1 g :
  exit_view g1 = exit_view g -> files g1 = files g /\ tk g1 = tk g.
Proof. unfold exit_view. intros H. injection H. intros. split; assumption. Qed.


(** X5.  A tick of the conversion loop after "Stop" was pressed, frames
    remaining: the status reads "Cancelled by user" in red, no frame is
    read or written, the frame counter stays, the loop is not scheduled
    again and both loop flags are reset.  In a batch the current job is not
    flagged done and the batch ends: [BatchJobRunning] is False and the
    queue runner is not scheduled. *)
Theorem frame_generation_loop_cancelled g :
  CurrentFrame g < StartFrame g + frames_to_encode g ->
  ConvertLoopExitRequested g = true ->
  let g' := exec frame_generation_loop g in
  result frame_generation_loop g = Return tt /\
  app_status_label g' = (CancelledByUser, red) /\
  fs g' = fs g /\ log g' = log g /\
  CurrentFrame g' = CurrentFrame g /\
  scheduled g' = scheduled g /\
  ConvertLoopRunning g' = false /\ ConvertLoopExitRequested g' = false /\
  BatchJobRunning g' = false /\ job_list g' = job_list g.
Proof.
  intros Hlt Hexit g'. subst g'. unfold exec, result, frame_generation_loop.
  do 3 step.
  replace (CurrentFrame g >=? StartFrame g + frames_to_encode g) with false
    by (symmetry; rewrite Z.geb_leb; apply Z.leb_gt; lia).
  step. rewrite Hexit. step. unfold generation_exit. run.
  destruct (BatchJobRunning g) eqn:Hb; run.
  - rewrite Hexit. run. repeat split; reflexivity.
  - repeat split; try reflexivity. simpl_state. exact Hb.
Qed.

Lemma frame_generation_loop_cancelled_witness :
  let g := ConvertLoopExitRequested_set true
             (BatchJobRunning_set true (CurrentJobEntry_set (Some "film1")
                (job_list_set three_jobs conversion_state))) in
  CurrentFrame g < StartFrame g + frames_to_encode g /\
  ConvertLoopExitRequested g = true /\
  BatchJobRunning (exec frame_generation_loop g) = false /\
  done_flags (exec frame_generation_loop g)
    = [("film1", false); ("film2", true); ("film3", false)] /\
  scheduled (exec frame_generation_loop g) = [].
Proof.
  intros g.
  assert (Hlt : CurrentFrame g < StartFrame g + frames_to_encode g) by (cbn; lia).
  destruct (frame_generation_loop_cancelled g Hlt eq_refl)
    as (_ & _ & _ & _ & _ & Hs & _ & _ & Hb & Hj).
  split; [exact Hlt|]. split; [reflexivity|]. split; [exact Hb|].
  split; [unfold done_flags; rewrite Hj; reflexivity|exact Hs].
Defined.

(** X6.  A tick of the conversion loop on a source file that cannot be
    read: the error is logged, no frame is written, the status label is
    left alone, and the loop moves on to the next frame (the counter and
    the project's "CurrentFrame" go up by one, the loop is scheduled
    again).  A frame number beyond the file list raises IndexError and
    changes nothing. *)
Theorem frame_generation_loop_unreadable_frame g :
  CurrentFrame g < StartFrame g + frames_to_encode g ->
  ConvertLoopExitRequested g = false ->
  let g' := exec frame_generation_loop g in
  match py_index (SourceDirFileList g) (CurrentFrame g) with
  | Some file =>
      file_image file = None ->
      result frame_generation_loop g = Return tt /\
      log g' = (log g ++ [(ERROR, ErrorReadingFrame (CurrentFrame g))])%list /\
      fs g' = fs g /\ app_status_label g' = app_status_label g /\
      CurrentFrame g' = CurrentFrame g + 1 /\
      cfg_CurrentFrame (project_config g') = CurrentFrame g + 1 /\
      scheduled g' = (scheduled g ++ [cb_frame_generation_loop])%list
  | None => frame_generation_loop g = (Raise "IndexError", g)
  end.
Proof.
  intros Hlt Hexit g'. subst g'. unfold exec, result, frame_generation_loop.
  do 3 step.
  replace (CurrentFrame g >=? StartFrame g + frames_to_encode g) with false
    by (symmetry; rewrite Z.geb_leb; apply Z.leb_gt; lia).
  step. rewrite Hexit. step. unfold index.
  destruct (py_index (SourceDirFileList g) (CurrentFrame g)) as [file|].
  - intros Himg. step. rewrite Himg. run. repeat split; reflexivity.
  - reflexivity.
Qed.



(** *** End of a run in a batch *)

Lemma generation_exit_batch g key jobs' :
  BatchJobRunning g = true ->
  ConvertLoopExitRequested g = false ->
  CurrentJobEntry g = Some key ->
  flag_done key (job_list g) = Some jobs' ->
  generation_exit g =
  (Return tt,
   ConvertLoopExitRequested_set false
     (scheduled_set (scheduled g ++ [cb_job_processing_loop])
        (job_list_set jobs' (ConvertLoopRunning_set false g)))).
Proof.
  intros Hb Hx Hk Hf. unfold generation_exit. run.
  rewrite Hb. run. rewrite Hx, Hk. run. rewrite Hf. run. reflexivity.
Qed.

(** X8.  A tick of the encoder loop once the encoder has ended
    ([Completed]): the status and the log say whether the exit code was 0
    ("Video generated OK" in green, or "Video generation failed" in red),
    an information dialog is shown unless a batch is running, and the run
    is ended by [generation_exit].  In a batch the current job is flagged
    done and the queue runner is scheduled whether encoding succeeded or
    failed. *)
Theorem video_generation_loop_completed g :
  ffmpeg_encoding_status g = Completed ->
  let g' := exec video_generation_loop g in
  (BatchJobRunning g = false ->
   result video_generation_loop g = Return tt /\
   app_status_label g' =
     (if ffmpeg_success g then (VideoGeneratedOK, green)
      else (VideoGenerationFailed, red)) /\
   log g' = (log g ++ [if ffmpeg_success g then (INFO, VideoGeneratedOKMsg)
                       else (ERROR, VideoGenerationFailedMsg)])%list /\
   dialogs g' =
     (dialogs g ++ [showinfo (if ffmpeg_success g
                              then "Video generation by ffmpeg has ended"
                              else "FFMPEG encoding failed")])%list /\
   ConvertLoopRunning g' = false /\ ConvertLoopExitRequested g' = false /\
   scheduled g' = scheduled g /\ job_list g' = job_list g) /\
  (forall key jobs',
     BatchJobRunning g = true -> ConvertLoopExitRequested g = false ->
     CurrentJobEntry g = Some key ->
     flag_done key (job_list g) = Some jobs' ->
     result video_generation_loop g = Return tt /\
     app_status_label g' =
       (if ffmpeg_success g then (VideoGeneratedOK, green)
        else (VideoGenerationFailed, red)) /\
     log g' = (log g ++ [if ffmpeg_success g then (INFO, VideoGeneratedOKMsg)
                         else (ERROR, VideoGenerationFailedMsg)])%list /\
     dialogs g' = dialogs g /\
     job_list g' = jobs' /\
     scheduled g' = (scheduled g ++ [cb_job_processing_loop])%list /\
     BatchJobRunning g' = true).
Proof.
  intros Hst g'. subst g'. unfold exec, result, video_generation_loop.
  step. rewrite Hst. split.
  - intros Hb. run. rewrite Hb. cbn [negb].
    destruct (ffmpeg_success g); run; unfold generation_exit; run; rewrite Hb; run;
      repeat split; reflexivity.
  - intros key jobs' Hb Hx Hk Hf. run. rewrite Hb. cbn [negb].
    destruct (ffmpeg_success g); run.
    all: match goal with |- context [generation_exit ?s] =>
           rewrite (generation_exit_batch s key jobs' Hb Hx Hk Hf)
         end.
    all: cbn [fst snd]; simpl_state; repeat split; try reflexivity; exact Hb.
Qed.

Lemma video_generation_loop_completed_witness :
  let g' := exec video_generation_loop failed_encoding_state in
  ffmpeg_encoding_status failed_encoding_state = Completed /\
  ffmpeg_success failed_encoding_state = false /\
  app_status_label g' = (VideoGenerationFailed, red) /\
  dialogs g' = [] /\
  done_flags g' = [("film1", true); ("film2", true); ("film3", false)] /\
  scheduled g' = [cb_job_processing_loop].
Proof.
  destruct (video_generation_loop_completed failed_encoding_state eq_refl) as [_ H].
  destruct (H "film1" _ eq_refl eq_refl eq_refl eq_refl)
    as (_ & Hlabel & _ & Hd & Hj & Hs & _).
  split; [reflexivity|]. split; [reflexivity|]. split; [exact Hlabel|].
  split; [exact Hd|]. split; [|exact Hs].
  unfold done_flags. cbv zeta. rewrite Hj. reflexivity.
Defined.

(** *** Start of a run *)

Lemma range_view_fields g1 g :
  range_view g1 = range_view g ->
  StartFrame g1 = StartFrame g /\ frames_to_encode g1 = frames_to_encode g /\
  CurrentFrame g1 = CurrentFrame g.
Proof. unfold range_view. intros H. injection H. intros. repeat split; assumption. Qed.

Lemma range_view_eq g a b c :
  range_view g = (a, b, c) ->
  StartFrame g = a /\ frames_to_encode g = b /\ CurrentFrame g = c.
Proof. unfold range_view. intros H. injection H. intros. repeat split; assumption. Qed.

Lemma range_view_generation_exit : preserves range_view generation_exit.
Proof. unfold generation_exit. frame. Qed.
#[local] Hint Resolve range_view_generation_exit : frame.

Lemma range_view_validate_template_size : preserves range_view validate_template_size.
Proof. unfold validate_template_size. frame. Qed.
#[local] Hint Resolve range_view_validate_template_size : frame.

Lemma range_view_messagebox_askyesno t : preserves range_view (messagebox_askyesno t).
Proof. unfold messagebox_askyesno. frame. Qed.
#[local] Hint Resolve range_view_messagebox_askyesno : frame.

(** X9.  [start_convert] while a conversion is running only raises the
    stop request.  Otherwise it fixes the frame range before anything else:
    all frames of the source list, or the range typed in, cut at the end of
    the list, so that [StartFrame + frames_to_encode] never exceeds the
    number of source frames, with [CurrentFrame] at the start of the range.
    If the range is empty ([frames_to_encode = 0]) a warning is shown and
    nothing is started. *)
Theorem start_convert_frame_range g :
  let count := Z.of_nat (List.length (SourceDirFileList g)) in
  let g' := exec start_convert g in
  (ConvertLoopRunning g = true ->
   start_convert g = (Return tt, ConvertLoopExitRequested_set true g)) /\
  (ConvertLoopRunning g = false ->
   StartFrame g' = (if encode_all_frames g then 0 else frame_from_str g) /\
   frames_to_encode g' =
     (if encode_all_frames g then count
      else Z.min (frame_to_str g - frame_from_str g + 1) (count - frame_from_str g)) /\
   CurrentFrame g' = StartFrame g' /\
   StartFrame g' + frames_to_encode g' <= count /\
   (frames_to_encode g' = 0 ->
    result start_convert g = Return tt /\
    dialogs g' = (dialogs g ++ [showwarning "No frames match range"])%list /\
    scheduled g' = scheduled g /\ log g' = log g /\
    ConvertLoopRunning g' = false)).
Proof.
  intros count g'. subst g'. unfold exec, result, start_convert. step. split.
  - intros Hr. rewrite Hr. reflexivity.
  - intros Hr. rewrite Hr. do 3 step. fold count.
    match goal with |- context [bind (if _ then ?a else ?b) ?k ?s0] =>
      assert (Hprefix : exists s,
        (if encode_all_frames g then a else b) s0 = (Return tt, s) /\
        StartFrame s = (if encode_all_frames g then 0 else frame_from_str g) /\
        frames_to_encode s =
          (if encode_all_frames g then count
           else Z.min (frame_to_str g - frame_from_str g + 1)
                      (count - frame_from_str g)) /\
        dialogs s = dialogs g /\ scheduled s = scheduled g /\ log s = log g /\
        ConvertLoopRunning s = false)
    end.
    { destruct (encode_all_frames g); run.
      - eexists. split; [reflexivity|]. repeat split; assumption.
      - destruct (_ >? _) eqn:Hcut; rewrite Z.gtb_ltb in Hcut;
          [apply Z.ltb_lt in Hcut|apply Z.ltb_ge in Hcut]; run;
          (eexists; split; [reflexivity|]); subst count; simpl_state;
          repeat split; try assumption; lia. }
    destruct Hprefix as (s & Hrun & Hstart & Hcount & Hd & Hs & Hl & Hrunning).
    change (encode_all_frames (stabilization_bounds_alert_counter_set 0 g))
      with (encode_all_frames g).
    rewrite (bind_returns _ _ _ _ _ Hrun). clear Hrun.
    rewrite <- Hstart, <- Hcount.
    assert (Hle : StartFrame s + frames_to_encode s <= count).
    { rewrite Hstart, Hcount. destruct (encode_all_frames g); lia. }
    clear Hstart Hcount. do 3 step.
    set (s1 := CurrentFrame_set (StartFrame s) s).
    assert (H1 : range_view s1 = (StartFrame s, frames_to_encode s, StartFrame s))
      by reflexivity.
    assert (Hd1 : dialogs s1 = dialogs s) by reflexivity.
    assert (Hs1 : scheduled s1 = scheduled s) by reflexivity.
    assert (Hl1 : log s1 = log s) by reflexivity.
    assert (Hr1 : ConvertLoopRunning s1 = ConvertLoopRunning s) by reflexivity.
    change (frames_to_encode s1) with (frames_to_encode s).
    clearbody s1.
    destruct (frames_to_encode s =? 0) eqn:Hzero.
    + run. cbn [fst snd]. simpl_state.
      unfold range_view in H1. injection H1 as E1 E2 E3.
      rewrite E1, E2, E3, Hd1, Hs1, Hl1, Hr1, Hd, Hs, Hl, Hrunning.
      repeat split; try reflexivity; lia.
    + cbv iota.
      match goal with |- context [snd (?m s1)] =>
        assert (Hrest : preserves range_view m) by frame;
        specialize (Hrest s1); rewrite H1 in Hrest;
        apply range_view_eq in Hrest; destruct Hrest as (E1 & E2 & E3)
      end.
      rewrite E1, E2, E3. apply Z.eqb_neq in Hzero.
      repeat split; try reflexivity; lia.
Qed.

Lemma start_convert_frame_range_witness :
  let g := frame_to_str_set 9 (frame_from_str_set 1 (encode_all_frames_set false
             (SourceDirFileList_set
                (numbered 100 [Some (ramp 2 2); Some (ramp 2 2); Some (ramp 2 2)])
                (startup sample_files sample_cv)))) in
  ConvertLoopRunning g = false /\
  StartFrame (exec start_convert g) = 1 /\
  frames_to_encode (exec start_convert g) = 2 /\
  CurrentFrame (exec start_convert g) = 1.
Proof.
  intros g.
  destruct (start_convert_frame_range g) as [_ H].
  destruct (H eq_refl) as (Hs & Hc & Hf & _).
  split; [reflexivity|]. split; [exact Hs|]. split; [exact Hc|].
  rewrite Hf. exact Hs.
Defined.

(** *** Loading a project *)

Lemma In_insert_sorted p x l : In x (insert_sorted p l) -> x = p \/ In x l.
Proof.
  induction l as [|q l IH]; cbn [insert_sorted].
  - intros [<-|[]]. now left.
  - destruct (String.leb (out_path_str p) (out_path_str q)).
    + intros [<-|H]; [now left|now right].
    + intros [<-|H]; [right; now left|].
      destruct (IH H) as [->|H']; [now left|right; now right].
Qed.

Lemma In_sorted x l : In x (sorted l) -> In x l.
Proof.
  unfold sorted. induction l as [|p l IH]; cbn [fold_right]; [tauto|].
  intros H. apply In_insert_sorted in H. destruct H as [->|H]; [now left|].
  right. now apply IH.
Qed.

Lemma out_path_eqb_refl p : out_path_eqb p p = true.
Proof. unfold out_path_eqb. now rewrite String.eqb_refl, Z.eqb_refl. Qed.

Lemma glob_target_find f dir first rest :
  glob_target f dir = first :: rest ->
  exists e, find (fun e => out_path_eqb (fst e) first) (target_frames f) = Some e.
Proof.
  intros H.
  assert (Hin : In first (glob_target f dir)) by (rewrite H; now left).
  unfold glob_target in Hin. apply In_sorted in Hin. apply in_map_iff in Hin.
  destruct Hin as (e & <- & Hin). apply filter_In in Hin. destruct Hin as [Hin _].
  destruct (find (fun e0 => out_path_eqb (fst e0) (fst e)) (target_frames f)) as [e'|] eqn:E.
  - now exists e'.
  - apply (find_none _ _ E) in Hin. now rewrite out_path_eqb_refl in Hin.
Qed.

(** The listing of the target directory is taken from the frames on disk,
    so its first frame can be read. *)
Lemma get_target_dir_file_list_returns g :
  exists g', get_target_dir_file_list g = (Return tt, g').
Proof.
  unfold get_target_dir_file_list. run.
  destruct (isdir (fs g) (TargetDir g)); cbn [negb]; run; [|eexists; reflexivity].
  destruct (glob_target (fs g) (TargetDir g)) as [|first rest] eqn:E; run.
  - eexists; reflexivity.
  - destruct (glob_target_find _ _ _ _ E) as ([p img] & ->). run.
    eexists; reflexivity.
Qed.

Lemma project_view_eq g a b c d e f h :
  project_view g = (a, b, c, d, e, f, h) ->
  SourceDir g = a /\ TargetDir g = b /\ VideoTargetDir g = c /\
  project_name g = d /\ CurrentFrame g = e /\ frames_to_encode g = f /\ fs g = h.
Proof.
  unfold project_view. intros H. injection H. intros. repeat split; assumption.
Qed.

Lemma project_view_get_target_dir_file_list :
  preserves project_view get_target_dir_file_list.
Proof. unfold get_target_dir_file_list. frame. Qed.
#[local] Hint Resolve project_view_get_target_dir_file_list : frame.

Lemma project_view_resize_image img percent :
  preserves project_view (resize_image img percent).
Proof. unfold resize_image. frame. Qed.
#[local] Hint Resolve project_view_resize_image : frame.

Lemma project_view_adjust_hole_pattern_size :
  preserves project_view adjust_hole_pattern_size.
Proof. unfold adjust_hole_pattern_size. frame. Qed.
#[local] Hint Resolve project_view_adjust_hole_pattern_size : frame.

Lemma project_view_set_film_type : preserves project_view set_film_type.
Proof. unfold set_film_type. frame. Qed.
#[local] Hint Resolve project_view_set_film_type : frame.


Lemma decode_project_config_view g :
  let config := project_config g in
  let target :=
    if isdir (fs g) (cfg_TargetDir config) then cfg_TargetDir config else "" in
  project_view (snd (decode_project_config g)) =
  ((if isdir (fs g) (cfg_SourceDir config) then cfg_SourceDir config else ""),
   target,
   (if isdir (fs g) (cfg_VideoTargetDir config) then cfg_VideoTargetDir config
    else target),
   (if isdir (fs g) (cfg_SourceDir config) then project_name g else "No Project"),
   Z.max (cfg_CurrentFrame config) 0,
   cfg_FrameTo config - cfg_FrameFrom config + 1,
   fs g).
Proof.
  intros config target. subst config target. unfold decode_project_config.
  do 3 step. simpl_state.
  destruct (isdir (fs g) (cfg_SourceDir (project_config g))) eqn:Hsrc;
    cbn [negb]; repeat step; simpl_state.
  all: destruct (isdir (fs g) (cfg_TargetDir (project_config g))) eqn:Htgt;
    cbn [negb].
  all: try match goal with |- context [bind get_target_dir_file_list ?k ?s] =>
         let E := fresh "E" in
         let V := fresh "V" in
         destruct (get_target_dir_file_list_returns s) as (s' & E);
         pose proof (project_view_get_target_dir_file_list s) as V;
         rewrite (bind_returns _ _ _ _ _ E); rewrite E in V; cbn [snd] in V;
         clear E;
         assert (Vfs : fs s' = fs g) by (apply (f_equal snd) in V; exact V);
         generalize dependent s'; intros s' V Vfs
       end.
  all: repeat step; simpl_state; rewrite ?Vfs.
  all: destruct (isdir (fs g) (cfg_VideoTargetDir (project_config g))) eqn:Hvid;
    cbn [negb]; repeat step.
  all: match goal with |- project_view (snd (?m ?s)) = _ =>
         let H := fresh "H" in
         assert (H : preserves project_view m) by frame;
         rewrite (H s); clear H
       end.
  all: try (unfold project_view in *; simpl_state; reflexivity).
  all: unfold project_view in *; simpl_state.
  all: injection V as V1 V2 V3 V4 V5 V6 V7.
  all: rewrite V1, V2, V4, V7; reflexivity.
Qed.

(** X10.  [decode_project_config], for a project that has the keys read
    here: a source directory that does not exist becomes the empty string
    and the project is named "No Project"; a target directory that does
    not exist becomes the empty string; a video directory that does not
    exist falls back to the frames target directory just decoded; the
    current frame is never negative; the frame count is
    [FrameTo - FrameFrom + 1]; no file is touched.  This holds even if a
    later step of the decoding raises. *)
Theorem decode_project_config_directories g :
  let config := project_config g in
  let g' := exec decode_project_config g in
  SourceDir g' =
    (if isdir (fs g) (cfg_SourceDir config) then cfg_SourceDir config else "") /\
  project_name g' =
    (if isdir (fs g) (cfg_SourceDir config) then project_name g else "No Project") /\
  TargetDir g' =
    (if isdir (fs g) (cfg_TargetDir config) then cfg_TargetDir config else "") /\
  VideoTargetDir g' =
    (if isdir (fs g) (cfg_VideoTargetDir config) then cfg_VideoTargetDir config
     else TargetDir g') /\
  CurrentFrame g' = Z.max (cfg_CurrentFrame config) 0 /\
  frames_to_encode g' = cfg_FrameTo config - cfg_FrameFrom config + 1 /\
  fs g' = fs g.
Proof.
  intros config g'. subst config g'. unfold exec.
  pose proof (decode_project_config_view g) as H. cbv zeta in H.
  apply project_view_eq in H.
  destruct H as (Hs & Ht & Hv & Hn & Hc & Hf & Hfs).
  rewrite Hs, Ht, Hv, Hn, Hc, Hf, Hfs. repeat split; reflexivity.
Qed.

Lemma frame_generation_loop_unreadable_frame_witness :
  let g := SourceDirFileList_set (numbered 100 [None]) conversion_state in
  CurrentFrame g < StartFrame g + frames_to_encode g /\
  ConvertLoopExitRequested g = false /\
  log (exec frame_generation_loop g) = [(ERROR, ErrorReadingFrame 0)] /\
  fs (exec frame_generation_loop g) = fs g /\
  CurrentFrame (exec frame_generation_loop g) = 1 /\
  scheduled (exec frame_generation_loop g) = [cb_frame_generation_loop].
Proof.
  intros g.
  assert (Hlt : CurrentFrame g < StartFrame g + frames_to_encode g) by (cbn; lia).
  pose proof (frame_generation_loop_unreadable_frame g Hlt eq_refl) as H.
  cbv zeta in H.
  change (py_index (SourceDirFileList g) (CurrentFrame g))
    with (Some {| file_number := 100; file_image := None |}) in H.
  destruct (H eq_refl) as (_ & Hl & Hfs & _ & Hc & _ & Hs).
  split; [exact Hlt|]. split; [reflexivity|]. split; [exact Hl|].
  split; [exact Hfs|]. split; [exact Hc|exact Hs].
Defined.

(** *** The end of the queue *)

(** The command [system_suspend] hands to [sp.Popen]: none when no
    platform flag is set. *)
Lemma system_suspend_run g :
  let cmd_suspend :=
    if IsLinux g then Some ["systemctl"; "suspend"]
    else if IsWindows g then
      Some ["rundll32.exe"; "powrprof.dll,SetSuspendState"; "0,1,0"]
    else if IsMac g then Some ["pmset"; "sleepnow"]
    else None in
  let process_started :=
    match cmd_suspend with
    | Some cmd => popen g cmd
    | None => false
    end in
  system_suspend g =
  (Return tt,
   if process_started then suspends_set (suspends g + 1) g
   else log_set (log g ++ [(ERROR, CannotSuspend)]) g).
Proof.
  unfold system_suspend, sp_Popen, try_except. do 3 step.
  destruct (IsLinux g); [|destruct (IsWindows g); [|destruct (IsMac g)]].
  4: reflexivity.
  all: step; match goal with |- context [popen ?s0 ?cmd] => destruct (popen s0 cmd) end;
    reflexivity.
Qed.

(** X17.  The queue runner on a job list with no job left to do starts
    nothing and ends the batch: the current job entry is cleared,
    [BatchJobRunning] and both loop flags are False, the job list, the
    pending callbacks and the files are left as they are, and the call
    returns.  If "suspend on job list end" is set, the suspend command of
    the platform (Linux, else Windows, else Mac) is started once; when no
    platform flag is set or the command cannot be started the error
    "Cannot suspend." is logged instead and nothing is raised.  Nothing
    else is logged. *)
Theorem job_processing_loop_queue_done g :
  pending (job_list g) = [] ->
  let g' := exec job_processing_loop g in
  let cmd_suspend :=
    if IsLinux g then Some ["systemctl"; "suspend"]
    else if IsWindows g then
      Some ["rundll32.exe"; "powrprof.dll,SetSuspendState"; "0,1,0"]
    else if IsMac g then Some ["pmset"; "sleepnow"]
    else None in
  let process_started :=
    match cmd_suspend with
    | Some cmd => popen g cmd
    | None => false
    end in
  result job_processing_loop g = Return tt /\
  CurrentJobEntry g' = None /\
  BatchJobRunning g' = false /\
  ConvertLoopRunning g' = false /\ ConvertLoopExitRequested g' = false /\
  job_list g' = job_list g /\ scheduled g' = scheduled g /\ fs g' = fs g /\
  suspends g' =
    suspends g + (if suspend_on_joblist_end g && process_started then 1 else 0) /\
  log g' =
    (log g ++ (if suspend_on_joblist_end g && negb process_started
               then [(ERROR, CannotSuspend)] else []))%list.
Proof.
  intros Hnone g' cmd_suspend process_started.
  pose proof (fun s => system_suspend_run s) as Hsuspend. cbv zeta in Hsuspend.
  assert (Hrun : exists s,
            job_processing_loop g =
            (if suspend_on_joblist_end g then system_suspend s else (Return tt, s)) /\
            exit_view s = exit_view (CurrentJobEntry_set None g) /\
            IsLinux s = IsLinux g /\ IsWindows s = IsWindows g /\
            IsMac s = IsMac g /\ popen s = popen g /\ suspends s = suspends g /\
            suspend_on_joblist_end s = suspend_on_joblist_end g /\
            BatchJobRunning s = false /\ ConvertLoopRunning s = false /\
            ConvertLoopExitRequested s = false /\
            job_list s = job_list g /\ scheduled s = scheduled g).
  { unfold job_processing_loop.
    step. rewrite (job_processing_for_none _ Hnone). step. cbn [negb]. step.
    unfold generation_exit. run.
    destruct (BatchJobRunning g) eqn:Hb; run.
    - destruct (ConvertLoopExitRequested g); run;
        destruct (suspend_on_joblist_end g) eqn:Hs; eexists;
        (split; [reflexivity|]); simpl_state; repeat split; try reflexivity;
        assumption.
    - destruct (suspend_on_joblist_end g) eqn:Hs; eexists;
        (split; [reflexivity|]); simpl_state; repeat split; try reflexivity;
        assumption. }
  destruct Hrun as (s & Hrun & Hv & Hl & Hw & Hm & Hp & Hsu & Hso & Hb & Hc & Hx & Hj & Hsc).
  subst g'. unfold exec, result. rewrite Hrun.
  assert (Hlog : log s = log g /\ fs s = fs g /\ CurrentJobEntry s = None).
  { unfold exit_view in Hv. injection Hv. intros. repeat split; assumption. }
  destruct Hlog as (Hlog & Hfs & Hcur).
  destruct (suspend_on_joblist_end g); cbn [andb fst snd].
  - rewrite (Hsuspend s), Hl, Hw, Hm, Hp.
    change (match
              (if IsLinux g then Some ["systemctl"; "suspend"]
               else if IsWindows g then
                 Some ["rundll32.exe"; "powrprof.dll,SetSuspendState"; "0,1,0"]
               else if IsMac g then Some ["pmset"; "sleepnow"]
               else None)
            with
            | Some cmd => popen g cmd
            | None => false
            end) with process_started.
    clearbody process_started. clear cmd_suspend.
    destruct process_started; cbn [negb fst snd]; simpl_state;
      rewrite ?Hlog, ?Hsu, ?app_nil_r; repeat split; try assumption; lia.
  - rewrite app_nil_r. repeat split; try assumption; lia.
Qed.

Lemma job_processing_loop_queue_done_witness :
  let g := BatchJobRunning_set true
             (suspend_on_joblist_end_set true
                (job_list_set [("film2", finished_job "/film2" "/out2")]
                   (startup sample_files sample_cv))) in
  let unable := popen_set (fun _ => false) g in
  pending (job_list g) = [] /\
  log (exec job_processing_loop g) = log g /\
  BatchJobRunning (exec job_processing_loop g) = false /\
  suspends (exec job_processing_loop g) = suspends g + 1 /\
  pending (job_list unable) = [] /\
  result job_processing_loop unable = Return tt /\
  log (exec job_processing_loop unable) = [(ERROR, CannotSuspend)] /\
  suspends (exec job_processing_loop unable) = suspends unable.
Proof.
  intros g unable.
  assert (Hnone : pending (job_list g) = []) by reflexivity.
  assert (Hnone' : pending (job_list unable) = []) by reflexivity.
  destruct (job_processing_loop_queue_done g Hnone)
    as (_ & _ & Hb & _ & _ & _ & _ & _ & Hs & Hl).
  destruct (job_processing_loop_queue_done unable Hnone')
    as (Hr & _ & _ & _ & _ & _ & _ & _ & Hs' & Hl').
  split; [exact Hnone|]. split; [rewrite Hl; apply app_nil_r|].
  split; [exact Hb|]. split; [exact Hs|]. split; [exact Hnone'|].
  split; [exact Hr|]. split; [exact Hl'|]. rewrite Hs'. apply Z.add_0_r.
Defined.


(** *** The template registry *)

Section Dict.
Context {A : Type}.
Implicit Types (d : list (string * A)) (k : string) (v : A).

Lemma dict_get_set_same d k v :
  TemplateList.dict_get (TemplateList.dict_set d k v) k = Some v.
Proof.
  induction d as [|[k0 v0] d IH]; cbn.
  - now rewrite String.eqb_refl.
  - destruct (String.eqb k0 k) eqn:E; cbn; now rewrite E.
Qed.

Lemma dict_get_set_other d k k' v :
  k' <> k ->
  TemplateList.dict_get (TemplateList.dict_set d k v) k' = TemplateList.dict_get d k'.
Proof.
  intros Hne. induction d as [|[k0 v0] d IH]; cbn.
  - destruct (String.eqb k k') eqn:E; [|reflexivity].
    apply String.eqb_eq in E. congruence.
  - destruct (String.eqb k0 k) eqn:E; cbn.
    + apply String.eqb_eq in E. subst k0.
      destruct (String.eqb k k') eqn:E'; [|reflexivity].
      apply String.eqb_eq in E'. congruence.
    + now rewrite IH.
Qed.

Lemma dict_set_present d k v v0 :
  TemplateList.dict_get d k = Some v0 ->
  map fst (TemplateList.dict_set d k v) = map fst d.
Proof.
  induction d as [|[k0 v1] d IH]; cbn; [discriminate|].
  destruct (String.eqb k0 k); cbn; [reflexivity|].
  intros H. now rewrite IH.
Qed.

Lemma dict_set_absent d k v :
  TemplateList.dict_get d k = None ->
  TemplateList.dict_set d k v = (d ++ [(k, v)])%list.
Proof.
  induction d as [|[k0 v1] d IH]; cbn; [reflexivity|].
  destruct (String.eqb k0 k); [discriminate|].
  intros H. now rewrite IH.
Qed.

End Dict.

Lemma refresh_keeps_identity cv files t width :
  let t' := TemplateManager.refresh cv files t width in
  TemplateManager.name t' = TemplateManager.name t /\
  TemplateManager.type t' = TemplateManager.type t /\
  TemplateManager.filename t' = TemplateManager.filename t /\
  TemplateManager.position t' = TemplateManager.position t.
Proof.
  unfold TemplateManager.refresh.
  destruct (TemplateManager.template t) as [img|];
    [|destruct (imread files (TemplateManager.filename t)) as [img|]];
    repeat split.
Qed.


Lemma add_existing_run cv files name_ filename_ type_ position_ self old :
  TemplateList.dict_get (TemplateList.templates self)
    (TemplateList.key_of type_ name_) = Some old ->
  TemplateList.add cv files name_ filename_ type_ position_ self =
  (Return (TemplateList.key_of type_ name_),
   TemplateList.with_active_template (Some (TemplateList.key_of type_ name_))
     (TemplateList.with_templates
        (TemplateList.dict_set (TemplateList.templates self)
           (TemplateList.key_of type_ name_)
           (TemplateManager.refresh cv files
              (TemplateList.with_filename_position filename_ position_ old)
              (TemplateList.img_width self)))
        self)).
Proof. intros H. unfold TemplateList.add. now rewrite H. Qed.


(** Dividing a coordinate by a scale of 1.0 gives the coordinate back, by
    evaluation over the coordinates up to 4096 in absolute value. *)
Lemma int_truediv_one (x : Z) :
  -4096 <= x <= 4096 ->
  Py.int_truediv (Py.Int x) (Py.Float Float64.one) = Return x.
Proof.
  intros Hx.
  assert (Hall : forallb
            (fun x => match Py.int_truediv (Py.Int x) (Py.Float Float64.one) with
                      | Return z => z =? x
                      | Raise _ => false
                      end)
            (map (fun n => Z.of_nat n - 4096) (seq 0 (Z.to_nat 8193))) = true)
    by (vm_compute; reflexivity).
  rewrite forallb_forall in Hall. specialize (Hall x).
  destruct (Py.int_truediv (Py.Int x) (Py.Float Float64.one)) as [z|exn].
  - f_equal. apply Z.eqb_eq. apply Hall. apply in_map_iff.
    exists (Z.to_nat (x + 4096)). split; [lia|]. apply in_seq. lia.
  - enough (false = true) by discriminate. apply Hall. apply in_map_iff.
    exists (Z.to_nat (x + 4096)). split; [lia|]. apply in_seq. lia.
Qed.

(** X13.  [set_active_position] writes through to the registered object:
    with an active template, the object under the active key gets the
    scaled position given, and then the position
    [(int(scaled[0] / scale), int(scaled[1] / scale))], the quotients being
    float quotients; every other key looks up what it did before.  If
    either component raises (ZeroDivisionError for a scale of 0.0) the call
    raises after the scaled position has been stored, the position
    unchanged.  For a scale of 1.0 (a custom template) and coordinates up
    to 4096 the position is the scaled position.  Without an active
    template nothing changes. *)
Theorem set_active_position_writes_through scaled_position_ self :
  match Facade.active_template self, TemplateList.active_template self with
  | Some t, Some key =>
      let self' := snd (Facade.set_active_position scaled_position_ self) in
      let raised := fst (Facade.set_active_position scaled_position_ self) in
      let scale := TemplateManager.scale t in
      let x := Py.int_truediv (Py.Int (fst scaled_position_)) (Py.Float scale) in
      let y := Py.int_truediv (Py.Int (snd scaled_position_)) (Py.Float scale) in
      (forall k', k' <> key ->
         TemplateList.dict_get (TemplateList.templates self') k'
         = TemplateList.dict_get (TemplateList.templates self) k') /\
      Facade.get_active_position self' = Some scaled_position_ /\
      exists t',
        TemplateList.dict_get (TemplateList.templates self') key = Some t' /\
        Facade.active_template self' = Some t' /\
        TemplateManager.scaled_position t' = scaled_position_ /\
        TemplateManager.scale t' = scale /\
        match x, y with
        | Return px, Return py =>
            raised = Return tt /\ TemplateManager.position t' = (px, py)
        | Raise exn, _ | Return _, Raise exn =>
            raised = Raise exn /\
            TemplateManager.position t' = TemplateManager.position t
        end /\
        (Float64.is_zero scale = true ->
         Float64.is_finite (Float64.of_Z (fst scaled_position_)) = true ->
         raised = Raise "ZeroDivisionError") /\
        (scale = Float64.one ->
         -4096 <= fst scaled_position_ <= 4096 ->
         -4096 <= snd scaled_position_ <= 4096 ->
         raised = Return tt /\ TemplateManager.position t' = scaled_position_)
  | _, _ => Facade.set_active_position scaled_position_ self = (Return tt, self)
  end.
Proof.
  unfold Facade.set_active_position, Facade.get_active_position.
  destruct (Facade.active_template self) as [t|] eqn:Hactive.
  2: { destruct (TemplateList.active_template self); reflexivity. }
  destruct (TemplateList.active_template self) as [key|] eqn:Hkey.
  2: { reflexivity. }
  cbn [Facade.with_scaled_position TemplateManager.scale
       TemplateManager.scaled_position].
  cbv zeta.
  assert (Hzero : Float64.is_zero (TemplateManager.scale t) = true ->
                  Float64.is_finite (Float64.of_Z (fst scaled_position_)) = true ->
                  Py.int_truediv (Py.Int (fst scaled_position_))
                    (Py.Float (TemplateManager.scale t)) = Raise "ZeroDivisionError").
  { intros Hz Hf. unfold Py.int_truediv, Py.truediv, Py.to_float.
    now rewrite Hf, Hz. }
  assert (Hone : TemplateManager.scale t = Float64.one ->
                 -4096 <= fst scaled_position_ <= 4096 ->
                 -4096 <= snd scaled_position_ <= 4096 ->
                 Py.int_truediv (Py.Int (fst scaled_position_))
                   (Py.Float (TemplateManager.scale t)) = Return (fst scaled_position_) /\
                 Py.int_truediv (Py.Int (snd scaled_position_))
                   (Py.Float (TemplateManager.scale t)) = Return (snd scaled_position_)).
  { intros -> Hx Hy. split; now apply int_truediv_one. }
  destruct (Py.int_truediv (Py.Int (fst scaled_position_))
              (Py.Float (TemplateManager.scale t))) as [px|exn] eqn:Ex;
    [destruct (Py.int_truediv (Py.Int (snd scaled_position_))
                 (Py.Float (TemplateManager.scale t))) as [py|exn] eqn:Ey|];
    cbn [fst snd].
  all: unfold Facade.active_template;
    cbn [TemplateList.templates TemplateList.with_templates
         TemplateList.active_template]; rewrite Hkey.
  all: rewrite dict_get_set_same; cbn [option_map].
  all: split; [intros k' Hne; now apply dict_get_set_other|].
  all: split; [reflexivity|].
  all: eexists; split; [reflexivity|]; split; [reflexivity|].
  all: split; [reflexivity|]; split; [reflexivity|].
  all: split; [split; reflexivity|].
  all: split.
  all: try (intros Hz Hf; specialize (Hzero Hz Hf); try discriminate;
            injection Hzero as ->; reflexivity).
  all: intros Hs Hx Hy; destruct (Hone Hs Hx Hy) as [H1 H2]; try discriminate.
  injection H1 as ->. injection H2 as ->.
  split; [reflexivity|]. now destruct scaled_position_.
Qed.

(** An S8 template on frames 2592 pixels wide has the scale 2592 / 2028;
    the scaled position (648, 648) gives the position (506, 506): the float
    quotient is 506.99999999999994, the exact one 507. *)
Lemma set_active_position_writes_through_witness :
  let self := Facade.set_scale_and_refresh_all sample_cv sample_files
                (Some (ramp 4 2592)) sample_registry in
  let self' := snd (Facade.set_active_position (648, 648) self) in
  Facade.get_active_scale self = Some (Float64.of_quotient 2592 2028) /\
  Facade.get_active_position self' = Some (648, 648) /\
  option_map TemplateManager.position (Facade.active_template self') = Some (506, 506) /\
  648 * 2028 = 507 * 2592.
Proof.
  intros self self'.
  pose proof (set_active_position_writes_through (648, 648) self) as H.
  assert (Ha : exists t, Facade.active_template self = Some t /\
                         TemplateManager.scale t = Float64.of_quotient 2592 2028)
    by (eexists; split; vm_compute; reflexivity).
  destruct Ha as (t & Ha & Hscale). rewrite Ha in H.
  change (TemplateList.active_template self) with (Some "S8:S8") in H.
  cbv zeta in H. rewrite Hscale in H.
  destruct H as (_ & Hpos & t' & _ & Hactive & _ & _ & Hxy & _).
  change (Py.int_truediv (Py.Int (fst (648, 648)))
            (Py.Float (Float64.of_quotient 2592 2028))) with (@Return Z 506) in Hxy.
  change (Py.int_truediv (Py.Int (snd (648, 648)))
            (Py.Float (Float64.of_quotient 2592 2028))) with (@Return Z 506) in Hxy.
  destruct Hxy as [_ Hp].
  split; [vm_compute; reflexivity|]. split; [exact Hpos|].
  split; [|reflexivity].
  fold self'. fold self' in Hactive. rewrite Hactive. cbn [option_map]. now rewrite Hp.
Defined.

Lemma dict_get_map {A} (f : A -> A) (d : list (string * A)) k :
  TemplateList.dict_get (map (fun kt => (fst kt, f (snd kt))) d) k
  = option_map f (TemplateList.dict_get d k).
Proof.
  induction d as [|[k0 v0] d IH]; cbn; [reflexivity|].
  destruct (String.eqb k0 k); [reflexivity|exact IH].
Qed.


(** *** Templates *)


Lemma countNonZero_bounds a :
  0 <= TemplateManager.countNonZero a <= Z.max 0 (shape0 a) * Z.max 0 (shape1 a).
Proof.
  unfold TemplateManager.countNonZero. split; [lia|].
  set (rows := map Z.of_nat (seq 0 (Z.to_nat (shape0 a)))).
  set (cols := map Z.of_nat (seq 0 (Z.to_nat (shape1 a)))).
  pose proof (filter_length_le
                (fun rc => negb (at_ a (fst rc) (snd rc) =? 0)) (list_prod rows cols)) as H.
  rewrite length_prod in H. subst rows cols.
  rewrite !length_map, !length_seq in H. lia.
Qed.

Lemma white_proportion_bounds (white total : Z) :
  0 <= white -> (0 < total -> white <= total) ->
  (0 <= (if total >? 0 then inject_Z white / inject_Z total else 1 # 2) <= 1)%Q.
Proof.
  intros Hw Hle. destruct (total >? 0) eqn:E.
  - rewrite Z.gtb_ltb in E. apply Z.ltb_lt in E. specialize (Hle E).
    assert (Ht : (0 < inject_Z total)%Q) by (unfold Qlt, inject_Z; cbn; lia).
    assert (Hw' : (0 <= inject_Z white)%Q) by (unfold Qle, inject_Z; cbn; lia).
    assert (Hle' : (inject_Z white <= inject_Z total)%Q)
      by (unfold Qle, inject_Z; cbn; lia).
    split.
    + apply Qle_shift_div_l; [exact Ht|]. lra.
    + apply Qle_shift_div_r; [exact Ht|]. lra.
  - split; [discriminate|]. unfold Qle. cbn. lia.
Qed.

Lemma update_dependent_white cv self new_scale img :
  let t := TemplateManager.update_dependent cv self new_scale img in
  0 <= TemplateManager.white_pixel_count t /\
  (0 <= TemplateManager.wb_proportion t <= 1)%Q.
Proof.
  unfold TemplateManager.update_dependent.
  cbn [TemplateManager.white_pixel_count TemplateManager.wb_proportion].
  set (scaled := TemplateManager._resize_image cv img new_scale).
  pose proof (countNonZero_bounds scaled) as [Hlo Hhi].
  split; [exact Hlo|].
  apply white_proportion_bounds; [exact Hlo|]. intros Hpos. nia.
Qed.





(** *** The per-frame loop: a frame that is written *)

Lemma log_after_stabilize_image template stripe (b1 b2 : bool) r1 r2 lvl l :
  In (lvl, TargetSizeOneOddDimension)
     (l ++ match_template_log template stripe ++
      (if b1 then [r1] else []) ++ (if b2 then [r2] else []))%list ->
  r1 <> (lvl, TargetSizeOneOddDimension) ->
  r2 <> (lvl, TargetSizeOneOddDimension) ->
  In (lvl, TargetSizeOneOddDimension) l.
Proof.
  intros H H1 H2. apply in_app_or in H. destruct H as [H|H]; [exact H|].
  exfalso. apply in_app_or in H. destruct H as [H|H].
  - unfold match_template_log in H. destruct (too_large template stripe); [|contradiction].
    destruct H as [H|[]]. discriminate.
  - apply in_app_or in H. destruct H as [H|H].
    + destruct b1; [|contradiction]. destruct H as [H|[]]. congruence.
    + destruct b2; [|contradiction]. destruct H as [H|[]]. congruence.
Qed.

Lemma frame_generation_loop_tick g file img :
  CurrentFrame g < StartFrame g + frames_to_encode g ->
  ConvertLoopExitRequested g = false ->
  py_index (SourceDirFileList g) (CurrentFrame g) = Some file ->
  file_image file = Some img ->
  (perform_stabilization g = true -> film_hole_template g <> None) ->
  exists stabilized,
    shape0 stabilized = shape0 img /\ shape1 stabilized = shape1 img /\
    (odd_size (normalised g stabilized) = false ->
     result frame_generation_loop g = Return tt /\
     frame_view (exec frame_generation_loop g)
     = frame_view (frame_written (normalised g stabilized) g) /\
     (forall lvl,
        In (lvl, TargetSizeOneOddDimension) (log (exec frame_generation_loop g)) ->
        In (lvl, TargetSizeOneOddDimension) (log g))).
Proof.
  intros Hlt Hexit Hfile Himg Htemplate.
  unfold exec, result, frame_generation_loop. do 3 step.
  replace (CurrentFrame g >=? StartFrame g + frames_to_encode g) with false
    by (symmetry; rewrite Z.geb_leb; apply Z.leb_gt; lia).
  step. rewrite Hexit. step. unfold index. rewrite Hfile. step. rewrite Himg.
  cbv zeta. rewrite bind_assoc. step.
  assert (Hrot : (if perform_rotation g then rotate_image img else ret img) g
                 = (Return (rotated_frame g img), g)).
  { unfold rotated_frame. destruct (perform_rotation g); reflexivity. }
  rewrite bind_assoc, (bind_returns _ _ _ _ _ Hrot).
  assert (Hshape : shape0 (rotated_frame g img) = shape0 img /\
                   shape1 (rotated_frame g img) = shape1 img).
  { unfold rotated_frame. destruct (perform_rotation g); split; reflexivity. }
  destruct Hshape as [Hs0 Hs1]. rewrite <- Hs0, <- Hs1.
  generalize (rotated_frame g img) as frame. intros frame.
  rewrite bind_assoc. step.
  assert (Hstab : exists stabilized g1,
    (if perform_stabilization g then stabilize_image frame else ret frame) g
      = (Return stabilized, g1) /\
    shape0 stabilized = shape0 frame /\ shape1 stabilized = shape1 frame /\
    frame_view g1 = frame_view g /\
    (forall lvl, In (lvl, TargetSizeOneOddDimension) (log g1) ->
                 In (lvl, TargetSizeOneOddDimension) (log g))).
  { destruct (perform_stabilization g) eqn:Hp.
    - destruct (film_hole_template g) as [template|] eqn:Ht;
        [|now contradiction (Htemplate eq_refl)].
      destruct (stabilize_image_run frame g template Ht) as (g1 & Hrun & Hview & Hlog).
      eexists. exists g1. split; [exact Hrun|]. split; [reflexivity|].
      split; [reflexivity|]. split; [exact Hview|].
      intros lvl Hin. rewrite Hlog in Hin.
      apply (log_after_stabilize_image _ _ _ _ _ _ _ _ Hin); intros E; discriminate E.
    - exists frame, g. repeat split. intros lvl Hin. exact Hin. }
  destruct Hstab as (stabilized & g1 & Hrun & Hh & Hw & Hview & Hlog).
  exists stabilized. split; [exact Hh|]. split; [exact Hw|].
  rewrite bind_assoc, (bind_returns _ _ _ _ _ Hrun). clear Hrun.
  apply frame_view_fields in Hview.
  destruct Hview as (Hflow & Hfiles & Hhole & Htk & Hfs & Hcv & Hsch & Hcfg & Hname
                     & Hctl & Hcbr & Hjobs & Hcur).
  do 3 (rewrite bind_assoc; step).
  assert (Hout : (if perform_cropping g1
                  then crop_image stabilized (CropTopLeft g1) (CropBottomRight g1)
                  else even_image stabilized)
                 = normalised g stabilized).
  { unfold normalised. rewrite Hctl, Hcbr. unfold perform_cropping. now rewrite Htk. }
  rewrite Hout. clear Hout.
  generalize (normalised g stabilized) as out. intros out Hodd.
  rewrite bind_assoc, Hodd.
  assert (Hdir : isdir (fs g1) (TargetDir g1) = isdir (fs g) (TargetDir g)).
  { rewrite Hfs. unfold TargetDir. now rewrite Hfiles. }
  repeat (first [rewrite bind_assoc | step]). simpl_state. rewrite Hdir.
  unfold frame_written.
  destruct (isdir (fs g) (TargetDir g)) eqn:Hpresent; unfold cv2_imwrite;
    repeat (first [rewrite bind_assoc | step]); cbn [fst snd].
  all: split; [reflexivity|]; split; [|exact Hlog].
  all: clear Hlt Hexit Hfile Himg Htemplate Hrot Hs0 Hs1 Hh Hw Hlog Hodd Hdir Hpresent.
  all: unfold frame_view.
  all: destruct g1 as [f1 fi1 h1 t1 [] []], g as [f fi h t [] []].
  all: cbn in Hflow, Hfiles, Hhole, Htk, Hfs, Hcv, Hsch, Hcfg, Hname, Hctl, Hcbr,
         Hjobs, Hcur.
  all: subst; reflexivity.
Qed.

Lemma even_not_odd_size out :
  Z.even (shape1 out) = true -> Z.even (shape0 out) = true -> odd_size out = false.
Proof.
  intros H1 H0. apply even_mod2 in H1. apply even_mod2 in H0.
  unfold odd_size. now rewrite H1, H0.
Qed.

Lemma normalised_even g stabilized :
  valid_shape stabilized ->
  1 < shape1 stabilized \/ 1 < shape0 stabilized ->
  (perform_cropping g = true -> valid_rect (CropTopLeft g) (CropBottomRight g)) ->
  Z.even (shape1 (normalised g stabilized)) = true /\
  Z.even (shape0 (normalised g stabilized)) = true.
Proof.
  intros Hshape Hsize Hrect. unfold normalised.
  destruct (perform_cropping g).
  - apply crop_image_even; [exact Hshape|now apply Hrect].
  - now apply even_image_even.
Qed.



(** *** A whole conversion *)

Lemma in_write_frame_other p q img out l :
  out_path_eqb p q = false ->
  In (p, img) l -> In (p, img) (write_frame q out l).
Proof.
  intros Hne. induction l as [|e l IH]; cbn [write_frame]; [intros []|].
  intros [->|Hin].
  - cbn [fst]. rewrite Hne. now left.
  - destruct (out_path_eqb (fst e) q); [now right|right; now apply IH].
Qed.

Section Conversion.
Variable g0 : globals.
Hypothesis no_stop : ConvertLoopExitRequested g0 = false.
Hypothesis at_start : CurrentFrame g0 = StartFrame g0.
Hypothesis pending_loop : scheduled g0 = [cb_frame_generation_loop].
Hypothesis target_exists : isdir (fs g0) (TargetDir g0) = true.
Hypothesis template_loaded :
  perform_stabilization g0 = true -> film_hole_template g0 <> None.
Hypothesis crop_valid :
  perform_cropping g0 = true -> valid_rect (CropTopLeft g0) (CropBottomRight g0).
Hypothesis frames_readable :
  forall i, StartFrame g0 <= i < StartFrame g0 + frames_to_encode g0 ->
    exists file img,
      py_index (SourceDirFileList g0) i = Some file /\
      file_image file = Some img /\
      valid_shape img /\ (1 < shape1 img \/ 1 < shape0 img).

Lemma converting_start : converting g0 0 g0.
Proof.
  unfold converting. rewrite Z.add_0_r.
  repeat split; try assumption; try reflexivity. intros i Hi. lia.
Qed.

Lemma converting_step (k : nat) g :
  converting g0 k g -> Z.of_nat k < frames_to_encode g0 ->
  converting g0 (S k) (step timer g).
Proof.
  intros (Hx & Hc & Hs & Hn & Hf & Hfiles & Hhole & Hstab & Hcrop & Hvid & Hctl & Hcbr
          & Hdir & Hsch & Hdone) Hk.
  cbn [step]. rewrite Hsch. cbn [run_callback].
  set (g_ := scheduled_set [] g).
  destruct (frames_readable (StartFrame g0 + Z.of_nat k)) as (file & img & Hfile & Himg
                                                             & Hshape & Hsize); [lia|].
  assert (Hlt : CurrentFrame g_ < StartFrame g_ + frames_to_encode g_).
  { change (CurrentFrame g < StartFrame g + frames_to_encode g). lia. }
  assert (Hfile_ : py_index (SourceDirFileList g_) (CurrentFrame g_) = Some file).
  { change (py_index (SourceDirFileList g) (CurrentFrame g) = Some file).
    unfold SourceDirFileList. rewrite Hfiles, Hc. exact Hfile. }
  assert (Htemplate_ : perform_stabilization g_ = true -> film_hole_template g_ <> None).
  { change (perform_stabilization g = true -> film_hole_template g <> None).
    unfold film_hole_template. rewrite Hstab, Hhole. exact template_loaded. }
  assert (Hrect_ : perform_cropping g_ = true ->
                   valid_rect (CropTopLeft g_) (CropBottomRight g_)).
  { change (perform_cropping g = true -> valid_rect (CropTopLeft g) (CropBottomRight g)).
    rewrite Hcrop, Hctl, Hcbr. exact crop_valid. }
  destruct (frame_generation_loop_tick g_ file img Hlt Hx Hfile_ Himg Htemplate_)
    as (stabilized & Hs0 & Hs1 & Htick).
  destruct (normalised_even g_ stabilized) as [He1 He0];
    [destruct Hshape; split; lia|lia|exact Hrect_|].
  destruct (Htick (even_not_odd_size _ He1 He0)) as (Hres & Hview & _). clear Htick.
  unfold handle. unfold result in Hres. unfold exec in Hview.
  destruct (frame_generation_loop g_) as [r g']. cbn [fst snd] in *. subst r.
  apply frame_view_fields in Hview.
  destruct Hview as (Vflow & Vfiles & Vhole & Vtk & Vfs & _ & Vsch & _ & _ & Vctl
                     & Vcbr & _).
  assert (Hdir_ : isdir (fs g_) (TargetDir g_) = true).
  { change (isdir (fs g) (TargetDir g) = true). rewrite Hdir. unfold TargetDir.
    rewrite Hfiles. exact target_exists. }
  unfold frame_written in *. rewrite Hdir_ in *.
  set (out := normalised g_ stabilized) in *. clearbody out.
  unfold converting.
  unfold ConvertLoopExitRequested, CurrentFrame, StartFrame, frames_to_encode,
    first_absolute_frame, perform_stabilization, perform_cropping, generate_video.
  rewrite Vflow, Vfiles, Vhole, Vtk, Vfs, Vsch, Vctl, Vcbr. subst g_. simpl_state.
  repeat split; try assumption; try lia.
  intros i Hi. cbn [target_frames with_target_frames].
  destruct (Nat.eq_dec i k) as [->|Hne].
  - exists out. split; [exact He1|]. split; [exact He0|].
    unfold TargetDir. rewrite Hfiles. fold (TargetDir g0).
    replace (first_absolute_frame g0 + StartFrame g0 + Z.of_nat k)
      with (first_absolute_frame g + CurrentFrame g) by lia.
    apply in_write_frame.
  - destruct (Hdone i) as (o & Ho1 & Ho0 & Hin); [lia|].
    exists o. split; [exact Ho1|]. split; [exact Ho0|].
    apply in_write_frame_other; [|exact Hin].
    unfold out_path_eqb. cbn [fst snd]. apply andb_false_iff. right.
    apply Z.eqb_neq. lia.
Qed.

End Conversion.

Lemma In_insert_sorted_iff p x l : In x (insert_sorted p l) <-> x = p \/ In x l.
Proof.
  split; [apply In_insert_sorted|].
  induction l as [|q l IH]; cbn [insert_sorted].
  - intros [->|[]]. now left.
  - destruct (String.leb (out_path_str p) (out_path_str q)).
    + intros [->|H]; [now left|now right].
    + intros [->|[->|H]]; [right; apply IH; now left|now left|right; apply IH; now right].
Qed.

Lemma In_sorted_iff x l : In x (sorted l) <-> In x l.
Proof.
  unfold sorted. induction l as [|p l IH]; cbn [fold_right]; [tauto|].
  rewrite In_insert_sorted_iff, IH. cbn [In]. intuition congruence.
Qed.

Lemma listed_after_refresh f dir number img listing :
  In ((dir, number), img) (target_frames f) ->
  listing = glob_target f dir ->
  existsb (out_path_eqb (dir, number)) listing = true.
Proof.
  intros Hin ->. apply existsb_exists. exists (dir, number).
  split; [|apply out_path_eqb_refl].
  unfold glob_target. apply In_sorted_iff. apply in_map_iff.
  exists ((dir, number), img). split; [reflexivity|].
  apply filter_In. split; [exact Hin|]. cbn [fst]. apply String.eqb_refl.
Qed.

Lemma run_app events1 events2 g : run (events1 ++ events2) g = run events2 (run events1 g).
Proof. unfold run. apply fold_left_app. Qed.

Lemma frame_generation_loop_done_listing g :
  StartFrame g + frames_to_encode g <= CurrentFrame g ->
  let g' := handle frame_generation_loop g in
  app_status_label g' = (FrameGenerationOK, green) /\
  TargetDirFileList g' = glob_target (fs g) (TargetDir g) /\
  TargetDir g' = TargetDir g /\ SourceDirFileList g' = SourceDirFileList g /\
  StartFrame g' = StartFrame g /\ frames_to_encode g' = frames_to_encode g /\
  first_absolute_frame g' = first_absolute_frame g /\
  (generate_video g = true ->
   scheduled g' = (scheduled g ++ [cb_video_generation_loop])%list /\
   ffmpeg_encoding_status g' = Pending /\ spawned g' = spawned g /\
   VideoFps g' = VideoFps g /\ VideoTargetDir g' = VideoTargetDir g /\
   TargetVideoFilename g' = TargetVideoFilename g).
Proof.
  intros Hge g'. subst g'. unfold handle, frame_generation_loop.
  do 3 step.
  replace (CurrentFrame g >=? StartFrame g + frames_to_encode g) with true
    by (symmetry; rewrite Z.geb_leb; apply Z.leb_le; lia).
  run. destruct (generate_video g) eqn:Hv.
  - run. repeat split; reflexivity.
  - match goal with |- context [bind generation_exit ?k ?s] =>
      set (s0 := s);
      assert (Hlabel : app_status_label s0 = (FrameGenerationOK, green)) by reflexivity;
      assert (Hfiles0 : files s0
                        = files (TargetDirFileList_set
                                   (glob_target (fs g) (TargetDir g)) g)) by reflexivity;
      assert (Hrange0 : range_view s0 = range_view g) by reflexivity;
      assert (Hfirst0 : first_absolute_frame s0 = first_absolute_frame g) by reflexivity;
      clearbody s0;
      pose proof (range_view_generation_exit s0) as Hrange;
      destruct (generation_exit s0) as [[u|exn] g1] eqn:E;
      [rewrite (bind_returns _ _ _ _ _ E)|rewrite (bind_raises _ _ _ _ _ E)];
      apply generation_exit_run in E; destruct E as (Hview & _ & _);
      pose proof (exit_view_files _ _ Hview) as (Hfiles & Htk);
      cbn [snd] in Hrange; rewrite Hrange0 in Hrange;
      apply range_view_fields in Hrange; destruct Hrange as (R1 & R2 & _)
    end.
    all: unfold exit_view in Hview;
      assert (Hfirst : first_absolute_frame g1 = first_absolute_frame s0)
        by (injection Hview; intros; congruence).
    all: run.
    all: match goal with |- app_status_label ?s = _ /\ _ =>
           change (app_status_label s) with (tk_app_status_label (tk g1));
           change (TargetDirFileList s) with (files_TargetDirFileList (files g1));
           change (TargetDir s) with (files_TargetDir (files g1));
           change (SourceDirFileList s) with (files_SourceDirFileList (files g1));
           change (StartFrame s) with (StartFrame g1);
           change (frames_to_encode s) with (frames_to_encode g1);
           change (first_absolute_frame s) with (first_absolute_frame g1)
         end.
    all: rewrite Htk, Hfiles, Hfiles0, R1, R2, Hfirst, Hfirst0.
    all: repeat split; try assumption; discriminate.
Qed.

Lemma py_index_nil {A} (i : Z) : py_index (@nil A) i = None.
Proof.
  unfold py_index. cbn [List.length].
  repeat match goal with |- context [if ?b then _ else _] => destruct b end;
    try reflexivity; now destruct (Z.to_nat _).
Qed.

Section ConversionRun.
Variable g0 : globals.
Hypothesis no_stop : ConvertLoopExitRequested g0 = false.
Hypothesis at_start : CurrentFrame g0 = StartFrame g0.
Hypothesis pending_loop : scheduled g0 = [cb_frame_generation_loop].
Hypothesis target_exists : isdir (fs g0) (TargetDir g0) = true.
Hypothesis template_loaded :
  perform_stabilization g0 = true -> film_hole_template g0 <> None.
Hypothesis crop_valid :
  perform_cropping g0 = true -> valid_rect (CropTopLeft g0) (CropBottomRight g0).
Hypothesis frames_readable :
  forall i, StartFrame g0 <= i < StartFrame g0 + frames_to_encode g0 ->
    exists file img,
      py_index (SourceDirFileList g0) i = Some file /\
      file_image file = Some img /\
      valid_shape img /\ (1 < shape1 img \/ 1 < shape0 img).

Lemma converting_run (k : nat) :
  Z.of_nat k <= frames_to_encode g0 ->
  converting g0 k (run (repeat timer k) g0).
Proof.
  induction k as [|k IH]; intros Hk.
  - now apply converting_start.
  - replace (repeat timer (S k)) with (repeat timer k ++ [timer])%list
      by (symmetry; apply (repeat_cons k timer)).
    rewrite run_app. cbn [run fold_left].
    apply converting_step; try assumption; [apply IH|]; lia.
Qed.

End ConversionRun.


(** ** The list of source frames *)


(** *** The source file list *)

Lemma source_view_eq g a b c :
  source_view g = (a, b, c) ->
  SourceDirFileList g = a /\ CurrentFrame g = b /\ first_absolute_frame g = c.
Proof. unfold source_view. intros H. injection H. intros. repeat split; assumption. Qed.

Lemma source_view_resize_image img percent :
  preserves source_view (resize_image img percent).
Proof. unfold resize_image. frame. Qed.
#[local] Hint Resolve source_view_resize_image : frame.

Lemma source_view_adjust_hole_pattern_size :
  preserves source_view adjust_hole_pattern_size.
Proof. unfold adjust_hole_pattern_size. frame. Qed.
#[local] Hint Resolve source_view_adjust_hole_pattern_size : frame.

Lemma source_view_set_film_type : preserves source_view set_film_type.
Proof. unfold set_film_type. frame. Qed.
#[local] Hint Resolve source_view_set_film_type : frame.

Lemma source_view_match_template t img thres :
  preserves source_view (match_template t img thres).
Proof. unfold match_template. frame. Qed.
#[local] Hint Resolve source_view_match_template : frame.

Lemma source_view_get_image_left_stripe img :
  preserves source_view (get_image_left_stripe img).
Proof. unfold get_image_left_stripe. frame. Qed.
#[local] Hint Resolve source_view_get_image_left_stripe : frame.

Lemma source_view_messagebox_askyesno t :
  preserves source_view (messagebox_askyesno t).
Proof. unfold messagebox_askyesno. frame. Qed.
#[local] Hint Resolve source_view_messagebox_askyesno : frame.

Lemma source_view_determine_hole_height img :
  preserves source_view (determine_hole_height img).
Proof. unfold determine_hole_height. frame. Qed.
#[local] Hint Resolve source_view_determine_hole_height : frame.

Lemma source_view_select_hole_height img :
  preserves source_view (select_hole_height img).
Proof. unfold select_hole_height. frame. Qed.
#[local] Hint Resolve source_view_select_hole_height : frame.

Lemma source_view_set_hole_search_area img :
  preserves source_view (set_hole_search_area img).
Proof. unfold set_hole_search_area. frame. Qed.
#[local] Hint Resolve source_view_set_hole_search_area : frame.

Lemma int_tenth (n : Z) : 0 <= n -> Py.int (inject_Z n * (1 # 10)) = n / 10.
Proof.
  intros Hn. unfold Py.int.
  assert (H : Qle_bool 0 (inject_Z n * (1 # 10)) = true).
  { apply Qle_bool_iff. unfold Qle, Qmult, inject_Z. cbn. lia. }
  rewrite H. unfold Qfloor, Qmult, inject_Z. cbn. now rewrite Z.mul_1_r.
Qed.

Lemma py_index_inside {A} (l : list A) (i : Z) :
  0 <= i < Z.of_nat (List.length l) -> exists a, py_index l i = Some a.
Proof.
  intros Hi. unfold py_index.
  replace ((0 <=? i) && (i <? Z.of_nat (List.length l))) with true
    by (symmetry; apply andb_true_iff; split; [apply Z.leb_le|apply Z.ltb_lt]; lia).
  destruct (nth_error l (Z.to_nat i)) as [a|] eqn:E; [now exists a|].
  apply nth_error_None in E. lia.
Qed.

(** The run of [get_source_dir_file_list] on a directory with at least one
    matching file, as one equation on the outcome and the final state. *)
Lemma get_source_dir_file_list_listing g first rest :
  isdir (fs g) (SourceDir g) = true ->
  glob_source (fs g) (SourceDir g)
    (cfg_FrameInputFilenamePattern (project_config g)) = first :: rest ->
  0 <= CurrentFrame g ->
  let listing := first :: rest in
  let count := Z.of_nat (List.length listing) in
  let frame := if CurrentFrame g >=? count then 0 else CurrentFrame g in
  let sample_frame := frame + (count - frame) / 10 in
  exists sample,
    py_index listing sample_frame = Some sample /\
    source_view (exec get_source_dir_file_list g) =
      (listing, frame, file_number first) /\
    (file_image sample = None ->
     result get_source_dir_file_list g = Raise "AttributeError").
Proof.
  intros Hdir Hl Hcur listing count frame sample_frame.
  assert (Hlist : listing = first :: rest) by reflexivity.
  assert (Hc : Z.of_nat (List.length listing) = count) by reflexivity.
  assert (Hf : frame = if CurrentFrame g >=? count then 0 else CurrentFrame g)
    by reflexivity.
  assert (Hsf : sample_frame = frame + (count - frame) / 10) by reflexivity.
  clearbody sample_frame. clearbody frame. clearbody count.
  rewrite <- Hlist in Hl. clearbody listing.
  assert (Hcount : 0 < count)
    by (rewrite <- Hc, Hlist; cbn [List.length]; lia).
  assert (Hframe : 0 <= frame < count).
  { rewrite Hf. destruct (Z.geb_spec (CurrentFrame g) count); lia. }
  assert (Hsample : frame <= sample_frame < count).
  { rewrite Hsf. Z.to_euclidean_division_equations. lia. }
  destruct (py_index_inside listing sample_frame) as (sample & Hs);
    [rewrite Hc; lia|].
  exists sample. split; [exact Hs|].
  enough (Hrun : exists r s, get_source_dir_file_list g = (r, s) /\
                 source_view s = (listing, frame, file_number first) /\
                 (file_image sample = None -> r = Raise "AttributeError")).
  { unfold exec, result. destruct Hrun as (r & s & -> & Hv & Hr).
    split; assumption. }
  unfold get_source_dir_file_list. do 2 step. rewrite Hdir. cbn [negb].
  do 4 step. simpl_state. rewrite Hl, Hc.
  replace (count =? 0) with false by (symmetry; apply Z.eqb_neq; lia).
  step. simpl_state.
  match goal with |- context [bind (if ?b then ?x else ?y) ?k ?s] =>
    assert (Hreset : exists s1, (if b then x else y) s = (Return tt, s1) /\
              source_view s1 = (listing, frame, first_absolute_frame g))
  end.
  { rewrite Hf. change (flow_CurrentFrame (flow g)) with (CurrentFrame g).
    destruct (CurrentFrame g >=? count); eexists; split; reflexivity. }
  destruct Hreset as (s1 & Hrun & Hview).
  rewrite (bind_returns _ _ _ _ _ Hrun). clear Hrun.
  apply source_view_eq in Hview. destruct Hview as (V1 & V2 & V3).
  assert (Hfirst : py_index listing 0 = Some first)
    by (rewrite Hlist; apply py_index_head).
  unfold index. rewrite Hfirst. do 3 step.
  simpl_state. rewrite V2.
  rewrite int_tenth by lia. rewrite <- Hsf, Hs. step.
  set (s2 := first_absolute_frame_set (file_number first) s1).
  assert (W : source_view s2 = (listing, frame, file_number first)).
  { unfold source_view, s2. simpl_state. now rewrite V1, V2. }
  clearbody s2.
  destruct (file_image sample) as [work_image|] eqn:Himg; cbn [not_none].
  - step.
    match goal with |- context [?m s2] =>
      assert (Hrest : preserves source_view m) by frame;
      specialize (Hrest s2); rewrite W in Hrest
    end.
    eexists _, _. split; [apply surjective_pairing|]. split; [exact Hrest|discriminate].
  - eexists _, _. split; [reflexivity|]. split; [exact W|reflexivity].
Qed.

(** X20.  [get_source_dir_file_list]: if the source directory does not
    exist nothing changes; if no file matches the pattern the list is
    emptied and an error dialog is shown, nothing else; otherwise, with a
    current frame that is not negative, the list is the matching files, a
    current frame at or beyond the end of the list is reset to 0, the first
    absolute frame is the number of the first file, and the frame sampled
    for the hole search, a tenth of the way from the current frame to the
    end, is always a frame of the list.  The three values stay even when
    the hole search that follows raises, which it does with AttributeError
    when the sampled file cannot be read. *)
Theorem get_source_dir_file_list_sample_in_range g :
  let listing := glob_source (fs g) (SourceDir g)
                   (cfg_FrameInputFilenamePattern (project_config g)) in
  let count := Z.of_nat (List.length listing) in
  let g' := exec get_source_dir_file_list g in
  (isdir (fs g) (SourceDir g) = false ->
   get_source_dir_file_list g = (Return tt, g)) /\
  (isdir (fs g) (SourceDir g) = true -> listing = [] ->
   get_source_dir_file_list g =
   (Return tt, dialogs_set (dialogs g ++ [showerror "Error!"])
                 (SourceDirFileList_set [] g))) /\
  (isdir (fs g) (SourceDir g) = true -> forall first rest,
   listing = first :: rest -> 0 <= CurrentFrame g ->
   let frame := if CurrentFrame g >=? count then 0 else CurrentFrame g in
   let sample_frame := frame + (count - frame) / 10 in
   SourceDirFileList g' = listing /\
   CurrentFrame g' = frame /\
   first_absolute_frame g' = file_number first /\
   0 <= frame <= sample_frame /\ sample_frame < count /\
   exists sample,
     py_index listing sample_frame = Some sample /\
     (file_image sample = None ->
      result get_source_dir_file_list g = Raise "AttributeError")).
Proof.
  intros listing count g'.
  assert (Hl : glob_source (fs g) (SourceDir g)
                 (cfg_FrameInputFilenamePattern (project_config g)) = listing)
    by reflexivity.
  split; [|split].
  - intros Hdir. unfold get_source_dir_file_list. do 2 step. rewrite Hdir.
    reflexivity.
  - intros Hdir Hnil. unfold get_source_dir_file_list. do 2 step. rewrite Hdir.
    cbn [negb]. do 4 step. simpl_state. rewrite Hl, Hnil. reflexivity.
  - intros Hdir first rest Hlist Hcur frame sample_frame.
    destruct (get_source_dir_file_list_listing g first rest Hdir
                (eq_trans Hl Hlist) Hcur) as (sample & Hs & Hv & Hr).
    apply source_view_eq in Hv. destruct Hv as (V1 & V2 & V3).
    assert (Hcount : count = Z.of_nat (List.length (first :: rest)))
      by (unfold count; now rewrite Hlist).
    rewrite <- Hcount in V2, Hs. fold frame in V2. fold sample_frame in Hs.
    assert (Hpos : 0 < count) by (rewrite Hcount; cbn [List.length]; lia).
    assert (Hframe : 0 <= frame < count).
    { unfold frame. destruct (Z.geb_spec (CurrentFrame g) count); lia. }
    assert (Hsample : frame <= sample_frame < count).
    { unfold sample_frame. Z.to_euclidean_division_equations. lia. }
    fold g' in V1, V2, V3. rewrite Hlist.
    repeat split; try assumption; try lia.
    exists sample. split; assumption.
Qed.

Lemma get_source_dir_file_list_sample_in_range_witness :
  let g := CurrentFrame_set 7
             (SourceDir_set "/film3" (startup sample_files sample_cv)) in
  isdir (fs g) (SourceDir g) = true /\
  0 <= CurrentFrame g /\
  CurrentFrame (exec get_source_dir_file_list g) = 0 /\
  first_absolute_frame (exec get_source_dir_file_list g) = 300.
Proof.
  intros g.
  destruct (get_source_dir_file_list_sample_in_range g) as (_ & _ & H).
  destruct (H eq_refl _ _ eq_refl ltac:(cbn; lia)) as (_ & Hc & Hf & _).
  split; [reflexivity|]. split; [cbn; lia|]. split; [exact Hc|exact Hf].
Defined.

(** ** The list of generated frames *)

(** *** The order of strings *)

Lemma ascii_compare_refl c : Ascii.compare c c = Eq.
Proof. unfold Ascii.compare. apply N.compare_refl. Qed.

Lemma ascii_compare_eq c d : Ascii.compare c d = Eq -> c = d.
Proof.
  unfold Ascii.compare. intros H. apply N.compare_eq in H.
  rewrite <- (ascii_N_embedding c), <- (ascii_N_embedding d). now rewrite H.
Qed.

Lemma ascii_compare_lt_trans c d e :
  Ascii.compare c d = Lt -> Ascii.compare d e = Lt -> Ascii.compare c e = Lt.
Proof.
  unfold Ascii.compare. rewrite !N.compare_lt_iff. apply N.lt_trans.
Qed.

Lemma string_compare_refl s : String.compare s s = Eq.
Proof.
  induction s as [|c s IH]; cbn [String.compare]; [reflexivity|].
  now rewrite ascii_compare_refl.
Qed.

Lemma string_compare_app p s t :
  String.compare (p ++ s) (p ++ t) = String.compare s t.
Proof.
  induction p as [|c p IH]; cbn [append String.compare]; [reflexivity|].
  now rewrite ascii_compare_refl.
Qed.

Lemma string_compare_lt_trans s t u :
  String.compare s t = Lt -> String.compare t u = Lt -> String.compare s u = Lt.
Proof.
  revert t u. induction s as [|c s IH]; intros [|d t] [|e u]; cbn [String.compare];
    try discriminate; try reflexivity.
  destruct (Ascii.compare c d) eqn:Ecd; try discriminate;
    destruct (Ascii.compare d e) eqn:Ede; try discriminate; intros H1 H2.
  - apply ascii_compare_eq in Ecd, Ede. subst. rewrite ascii_compare_refl.
    now apply (IH t u).
  - apply ascii_compare_eq in Ecd. subst. now rewrite Ede.
  - apply ascii_compare_eq in Ede. subst. now rewrite Ecd.
  - now rewrite (ascii_compare_lt_trans c d e).
Qed.

Lemma string_leb_lt s t :
  String.leb s t = true <-> String.compare s t = Lt \/ s = t.
Proof.
  unfold String.leb. destruct (String.compare s t) eqn:E.
  - apply String.compare_eq_iff in E. tauto.
  - tauto.
  - split; [discriminate|]. intros [H| ->]; [discriminate|].
    now rewrite string_compare_refl in E.
Qed.

Lemma string_leb_trans s t u :
  String.leb s t = true -> String.leb t u = true -> String.leb s u = true.
Proof.
  rewrite !string_leb_lt. intros [H1| ->] [H2| ->]; try tauto.
  left. now apply (string_compare_lt_trans s t u).
Qed.

Lemma string_leb_false s t : String.leb s t = false -> String.leb t s = true.
Proof.
  intros H. destruct (String.leb_total s t) as [H'|H']; congruence.
Qed.

(** *** Sorting *)

Lemma insert_sorted_sorted p l :
  StronglySorted path_le l -> StronglySorted path_le (insert_sorted p l).
Proof.
  induction l as [|q l IH]; cbn [insert_sorted]; intros Hs.
  - constructor; constructor.
  - destruct (String.leb (out_path_str p) (out_path_str q)) eqn:Hle.
    + constructor; [exact Hs|].
      apply StronglySorted_inv in Hs. destruct Hs as [_ Hq].
      constructor; [exact Hle|].
      apply Forall_forall. intros x Hx.
      rewrite Forall_forall in Hq. specialize (Hq x Hx).
      exact (string_leb_trans _ _ _ Hle Hq).
    + apply StronglySorted_inv in Hs. destruct Hs as [Hl Hq].
      constructor; [now apply IH|].
      apply Forall_forall. intros x Hx. apply In_insert_sorted in Hx.
      destruct Hx as [->|Hx]; [now apply string_leb_false|].
      rewrite Forall_forall in Hq. now apply Hq.
Qed.

Lemma sorted_sorted l : StronglySorted path_le (sorted l).
Proof.
  unfold sorted. induction l as [|p l IH]; cbn [fold_right].
  - constructor.
  - now apply insert_sorted_sorted.
Qed.

Lemma StronglySorted_weaken {A} (R R' : A -> A -> Prop) l :
  (forall a b, In a l -> In b l -> R a b -> R' a b) ->
  StronglySorted R l -> StronglySorted R' l.
Proof.
  intros Himp Hs. induction Hs as [|a l Hs IH Ha]; constructor.
  - apply IH. intros x y Hx Hy. apply Himp; now right.
  - rewrite Forall_forall in *. intros x Hx. apply Himp; [now left|now right|].
    now apply Ha.
Qed.

(** *** Frame numbers below 100000 *)

Lemma digit_compare x y :
  0 <= x <= 9 -> 0 <= y <= 9 -> Ascii.compare (digit x) (digit y) = Z.compare x y.
Proof.
  intros Hx Hy.
  assert (Ex : x = 0 \/ x = 1 \/ x = 2 \/ x = 3 \/ x = 4 \/ x = 5 \/ x = 6 \/
               x = 7 \/ x = 8 \/ x = 9) by lia.
  assert (Ey : y = 0 \/ y = 1 \/ y = 2 \/ y = 3 \/ y = 4 \/ y = 5 \/ y = 6 \/
               y = 7 \/ y = 8 \/ y = 9) by lia.
  clear Hx Hy.
  repeat (destruct Ex as [->|Ex]); try subst x;
    repeat (destruct Ey as [->|Ey]); try subst y; reflexivity.
Qed.

Lemma lex_compare base x y r s :
  0 <= r < base -> 0 <= s < base ->
  Z.compare (x * base + r) (y * base + s) =
  match Z.compare x y with
  | Eq => Z.compare r s
  | c => c
  end.
Proof.
  intros Hr Hs. destruct (Z.compare_spec x y) as [->|Hlt|Hgt].
  - destruct (Z.compare_spec r s) as [->|H|H].
    + apply Z.compare_refl.
    + apply Z.compare_lt_iff. lia.
    + apply Z.compare_gt_iff. lia.
  - apply Z.compare_lt_iff. nia.
  - apply Z.compare_gt_iff. nia.
Qed.

Lemma decimal_last fuel n acc :
  0 <= n < 10 -> decimal (S fuel) n acc = String (digit n) acc.
Proof.
  intros H. cbn [decimal]. rewrite Z.mod_small by lia.
  replace (n <? 10) with true by (symmetry; apply Z.ltb_lt; lia). reflexivity.
Qed.

Lemma decimal_next fuel n acc :
  10 <= n -> decimal (S fuel) n acc = decimal fuel (n / 10) (String (digit (n mod 10)) acc).
Proof.
  intros H. cbn [decimal].
  replace (n <? 10) with false by (symmetry; apply Z.ltb_ge; lia). reflexivity.
Qed.

Lemma log2_fuel n k : 2 ^ Z.of_nat k <= n -> exists f, Z.to_nat (Z.log2 n) = (k + f)%nat.
Proof.
  intros H. exists (Z.to_nat (Z.log2 n) - k)%nat.
  assert (Hpos : 0 < 2 ^ Z.of_nat k) by (apply Z.pow_pos_nonneg; lia).
  assert (Hk : Z.of_nat k <= Z.log2 n) by (apply Z.log2_le_pow2; lia).
  pose proof (Z.log2_nonneg n). lia.
Qed.

Lemma format_05d_digits n :
  0 <= n <= 99999 ->
  format_05d n =
  String (digit (n / 10000))
    (String (digit (n / 1000 mod 10))
       (String (digit (n / 100 mod 10))
          (String (digit (n / 10 mod 10))
             (String (digit (n mod 10)) "")))).
Proof.
  intros Hn. unfold format_05d, str.
  replace (n <? 0) with false by (symmetry; apply Z.ltb_ge; lia).
  rewrite Z.abs_eq by lia. cbn [append String.length].
  destruct (Z_lt_le_dec n 10) as [H1|H1];
    [|destruct (Z_lt_le_dec n 100) as [H2|H2];
      [|destruct (Z_lt_le_dec n 1000) as [H3|H3];
        [|destruct (Z_lt_le_dec n 10000) as [H4|H4]]]].
  - rewrite decimal_last by lia. cbn [String.length Nat.sub zeros append].
    rewrite (Z.div_small n 10000), (Z.div_small n 1000), (Z.div_small n 100),
      (Z.div_small n 10) by lia.
    rewrite (Z.mod_small n 10) by lia. reflexivity.
  - destruct (log2_fuel n 1) as (f & ->); [cbn; lia|]. cbn [Nat.add].
    rewrite decimal_next by lia. rewrite decimal_last by (Z.to_euclidean_division_equations; lia).
    cbn [String.length Nat.sub zeros append].
    rewrite (Z.div_small n 10000), (Z.div_small n 1000), (Z.div_small n 100) by lia.
    replace (n / 10 mod 10) with (n / 10) by (Z.to_euclidean_division_equations; lia).
    reflexivity.
  - destruct (log2_fuel n 2) as (f & ->); [cbn; lia|]. cbn [Nat.add].
    rewrite decimal_next by lia.
    rewrite decimal_next by (Z.to_euclidean_division_equations; lia).
    rewrite decimal_last by (Z.to_euclidean_division_equations; lia).
    cbn [String.length Nat.sub zeros append].
    rewrite (Z.div_small n 10000), (Z.div_small n 1000) by lia.
    replace (n / 10 / 10) with (n / 100 mod 10) by (Z.to_euclidean_division_equations; lia).
    reflexivity.
  - destruct (log2_fuel n 3) as (f & ->); [cbn; lia|]. cbn [Nat.add].
    rewrite decimal_next by lia.
    do 2 rewrite decimal_next by (Z.to_euclidean_division_equations; lia).
    rewrite decimal_last by (Z.to_euclidean_division_equations; lia).
    cbn [String.length Nat.sub zeros append].
    rewrite (Z.div_small n 10000) by lia.
    replace (n / 10 / 10 / 10) with (n / 1000 mod 10) by (Z.to_euclidean_division_equations; lia).
    replace (n / 10 / 10 mod 10) with (n / 100 mod 10) by (Z.to_euclidean_division_equations; lia).
    reflexivity.
  - destruct (log2_fuel n 4) as (f & ->); [cbn; lia|]. cbn [Nat.add].
    rewrite decimal_next by lia.
    do 3 rewrite decimal_next by (Z.to_euclidean_division_equations; lia).
    rewrite decimal_last by (Z.to_euclidean_division_equations; lia).
    cbn [String.length Nat.sub zeros append].
    replace (n / 10 / 10 / 10 / 10) with (n / 10000) by (Z.to_euclidean_division_equations; lia).
    replace (n / 10 / 10 / 10 mod 10) with (n / 1000 mod 10) by (Z.to_euclidean_division_equations; lia).
    replace (n / 10 / 10 mod 10) with (n / 100 mod 10) by (Z.to_euclidean_division_equations; lia).
    reflexivity.
Qed.

Lemma compare_last_digit a b :
  (a ?= b) =
  match a / 10 ?= b / 10 with
  | Eq => a mod 10 ?= b mod 10
  | c => c
  end.
Proof.
  rewrite <- (lex_compare 10) by (apply Z.mod_pos_bound; lia).
  f_equal; Z.to_euclidean_division_equations; lia.
Qed.

Lemma five_digit_compare a b :
  match a / 10000 ?= b / 10000 with
  | Eq =>
      match a / 1000 mod 10 ?= b / 1000 mod 10 with
      | Eq =>
          match a / 100 mod 10 ?= b / 100 mod 10 with
          | Eq =>
              match a / 10 mod 10 ?= b / 10 mod 10 with
              | Eq =>
                  match a mod 10 ?= b mod 10 with
                  | Eq => Eq
                  | c => c
                  end
              | c => c
              end
          | c => c
          end
      | c => c
      end
  | c => c
  end = (a ?= b).
Proof.
  rewrite (compare_last_digit a b).
  rewrite (compare_last_digit (a / 10) (b / 10)).
  rewrite (compare_last_digit (a / 10 / 10) (b / 10 / 10)).
  rewrite (compare_last_digit (a / 10 / 10 / 10) (b / 10 / 10 / 10)).
  replace (a / 10 / 10 / 10 / 10) with (a / 10000) by (Z.to_euclidean_division_equations; lia).
  replace (b / 10 / 10 / 10 / 10) with (b / 10000) by (Z.to_euclidean_division_equations; lia).
  replace (a / 10 / 10 / 10) with (a / 1000) by (Z.to_euclidean_division_equations; lia).
  replace (b / 10 / 10 / 10) with (b / 1000) by (Z.to_euclidean_division_equations; lia).
  replace (a / 10 / 10) with (a / 100) by (Z.to_euclidean_division_equations; lia).
  replace (b / 10 / 10) with (b / 100) by (Z.to_euclidean_division_equations; lia).
  destruct (a / 10000 ?= b / 10000); try reflexivity.
  destruct (a / 1000 mod 10 ?= b / 1000 mod 10); try reflexivity.
  destruct (a / 100 mod 10 ?= b / 100 mod 10); try reflexivity.
  destruct (a / 10 mod 10 ?= b / 10 mod 10); try reflexivity.
  destruct (a mod 10 ?= b mod 10); reflexivity.
Qed.

(** Below 100000 the path strings of one directory are ordered as the
    frame numbers are. *)
Lemma out_path_str_compare dir a b :
  0 <= a <= 99999 -> 0 <= b <= 99999 ->
  String.compare (out_path_str (dir, a)) (out_path_str (dir, b)) = (a ?= b).
Proof.
  intros Ha Hb. unfold out_path_str, os_path_join, frame_filename. cbn [fst snd].
  assert (Hname : String.compare ("picture_out-" ++ format_05d a ++ ".jpg")
                                 ("picture_out-" ++ format_05d b ++ ".jpg") = (a ?= b)).
  { rewrite string_compare_app, !format_05d_digits by assumption.
    cbn [append String.compare].
    rewrite (digit_compare (a / 10000) (b / 10000)),
      (digit_compare (a / 1000 mod 10) (b / 1000 mod 10)),
      (digit_compare (a / 100 mod 10) (b / 100 mod 10)),
      (digit_compare (a / 10 mod 10) (b / 10 mod 10)),
      (digit_compare (a mod 10) (b mod 10))
      by (Z.to_euclidean_division_equations; lia).
    rewrite ascii_compare_refl.
    change (Ascii.compare "j" "j") with Eq. change (Ascii.compare "p" "p") with Eq.
    change (Ascii.compare "g" "g") with Eq. cbv iota.
    apply five_digit_compare. }
  destruct (String.eqb dir ""); [exact Hname|].
  destruct (String.eqb _ "/"); rewrite !string_compare_app; exact Hname.
Qed.

Lemma path_le_number dir a b :
  0 <= a <= 99999 -> 0 <= b <= 99999 ->
  path_le (dir, a) (dir, b) -> a <= b.
Proof.
  intros Ha Hb H. unfold path_le in H. apply string_leb_lt in H.
  pose proof (out_path_str_compare dir a b Ha Hb) as E.
  destruct H as [H|H].
  - rewrite H in E. symmetry in E. change (a < b) in E. lia.
  - rewrite H, string_compare_refl in E. symmetry in E. apply Z.compare_eq in E. lia.
Qed.

(** *** The listing *)

Lemma In_glob_target f dir p :
  In p (glob_target f dir) <->
  fst p = dir /\ exists img, In (p, img) (target_frames f).
Proof.
  unfold glob_target. rewrite In_sorted_iff, in_map_iff. split.
  - intros ([q img] & <- & Hin). apply filter_In in Hin.
    destruct Hin as [Hin Hdir]. cbn [fst] in *.
    apply String.eqb_eq in Hdir. split; [exact Hdir|]. now exists img.
  - intros [Hdir [img Hin]]. exists (p, img). split; [reflexivity|].
    apply filter_In. split; [exact Hin|]. cbn [fst]. now apply String.eqb_eq.
Qed.

Lemma out_path_eqb_eq p q : out_path_eqb p q = true -> p = q.
Proof.
  destruct p as [d n], q as [d' n']. unfold out_path_eqb. cbn [fst snd].
  intros H. apply andb_true_iff in H. destruct H as [Hd Hn].
  apply String.eqb_eq in Hd. apply Z.eqb_eq in Hn. now subst.
Qed.



(** X22.  [valid_generated_frame_range] only adds one debug line to the
    log.  For a positive number of frames to encode it returns True
    exactly when every frame from [first_absolute_frame + StartFrame] on,
    [frames_to_encode] of them, is in the list of generated frames; for
    zero frames it returns True whatever the list holds, and for a negative
    number False. *)
Theorem valid_generated_frame_range_every_frame g :
  let low := first_absolute_frame g + StartFrame g in
  (exists file_count,
     exec valid_generated_frame_range g =
     log_set (log g ++ [(DEBUG, CheckingFrameRange low (low + frames_to_encode g)
                                  file_count)]) g) /\
  (0 < frames_to_encode g ->
   (result valid_generated_frame_range g = Return true <->
    forall i, low <= i < low + frames_to_encode g ->
              In (TargetDir g, i) (TargetDirFileList g))) /\
  (frames_to_encode g = 0 -> result valid_generated_frame_range g = Return true) /\
  (frames_to_encode g < 0 -> result valid_generated_frame_range g = Return false).
Proof.
  intros low. subst low.
  destruct (valid_generated_frame_range_run g) as (found & n & Hrun & Hiff).
  unfold exec, result. rewrite Hrun. cbn [fst snd]. split; [|split; [|split]].
  - now exists n.
  - intros Hpos. split.
    + intros H. injection H as ->. destruct Hiff as [Hiff _].
      destruct (Hiff eq_refl) as [H0|[_ Hall]]; [lia|].
      intros i Hi. specialize (Hall i Hi). unfold listed in Hall.
      apply existsb_exists in Hall. destruct Hall as (p & Hin & Heq).
      apply out_path_eqb_eq in Heq. now subst p.
    + intros Hall. f_equal. apply Hiff. right. split; [exact Hpos|].
      intros i Hi. unfold listed. apply existsb_exists.
      exists (TargetDir g, i). split; [now apply Hall|apply out_path_eqb_refl].
  - intros H0. f_equal. apply Hiff. now left.
  - intros Hneg. f_equal. destruct found; [|reflexivity].
    destruct Hiff as [Hiff _]. destruct (Hiff eq_refl) as [H0|[Hpos _]]; lia.
Qed.

Lemma valid_generated_frame_range_every_frame_witness :
  0 < frames_to_encode frame_missing /\
  result valid_generated_frame_range frame_missing <> Return true.
Proof.
  destruct (valid_generated_frame_range_every_frame frame_missing) as (_ & H & _).
  assert (Hpos : 0 < frames_to_encode frame_missing) by (cbn; lia).
  split; [exact Hpos|].
  intros Htrue. apply (proj1 (H Hpos)) with (i := 101) in Htrue; [|cbn; lia].
  cbn in Htrue. destruct Htrue as [Heq|[]]. discriminate Heq.
Defined.

(** ** Cancelling the encoder *)

Lemma generation_exit_cancelled g :
  ConvertLoopExitRequested g = true ->
  generation_exit g =
  (Return tt,
   ConvertLoopExitRequested_set false
     (if BatchJobRunning g
      then BatchJobRunning_set false (ConvertLoopRunning_set false g)
      else ConvertLoopRunning_set false g)).
Proof.
  intros Hx. unfold generation_exit. run.
  destruct (BatchJobRunning g); run; [|reflexivity].
  rewrite Hx. run. reflexivity.
Qed.

Lemma video_exists_removed p files q :
  existsb (video_eqb q) (filter (fun r => negb (video_eqb p r)) files) =
  existsb (video_eqb q) files && negb (video_eqb p q).
Proof.
  assert (Hsym : forall a b, video_eqb a b = video_eqb b a).
  { intros a b. unfold video_eqb. now rewrite (String.eqb_sym (fst a)), (String.eqb_sym (snd a)). }
  assert (Htrans : forall a b c, video_eqb a b = true -> video_eqb a c = video_eqb b c).
  { intros [a1 a2] [b1 b2] [c1 c2]. unfold video_eqb. cbn [fst snd].
    intros H. apply andb_true_iff in H. destruct H as [H1 H2].
    apply String.eqb_eq in H1, H2. now subst. }
  induction files as [|r files IH]; cbn [filter existsb]; [reflexivity|].
  destruct (video_eqb p r) eqn:Epr; cbn [negb existsb].
  - rewrite IH. destruct (video_eqb q r) eqn:Eqr; cbn [orb]; [|reflexivity].
    rewrite (Htrans p r q Epr), (Hsym r q), Eqr. cbn [negb].
    now rewrite andb_false_r.
  - rewrite IH. destruct (video_eqb q r) eqn:Eqr; cbn [orb]; [|reflexivity].
    rewrite (Hsym p q), (Htrans q r p Eqr), (Hsym r p), Epr. reflexivity.
Qed.

Lemma video_generation_loop_cancelled_run g :
  ffmpeg_encoding_status g = Running ->
  ConvertLoopExitRequested g = true ->
  let stopped :=
    ConvertLoopRunning_set false
      (dialogs_set (dialogs g ++ [showinfo "FFMPEG encoding interrupted by user"])
         (app_status_label_set (CancelledByUser, red)
            (log_set (log g ++ [(WARNING, VideoGenerationTerminatedByUser)])
               (terminations_set (terminations g + 1) g)))) in
  video_generation_loop g =
  os_remove (VideoTargetDir g, TargetVideoFilename g)
    (ConvertLoopExitRequested_set false
       (if BatchJobRunning g then BatchJobRunning_set false stopped else stopped)).
Proof.
  intros Hstate Hx stopped. subst stopped.
  unfold video_generation_loop. step. rewrite Hstate. step.
  rewrite Hx. do 5 step.
  match goal with |- context [bind generation_exit _ ?s] =>
    assert (Hxs : ConvertLoopExitRequested s = true) by exact Hx;
    rewrite (bind_returns _ _ _ _ _ (generation_exit_cancelled s Hxs))
  end.
  do 2 step. simpl_state.
  destruct (BatchJobRunning g); reflexivity.
Qed.

(** X23.  A tick of the encoder loop while the encoder runs and the user
    has asked to stop: the encoder process is terminated, the status reads
    "Cancelled by user" in red, one information dialog is shown, the run is
    ended by [generation_exit] and the loop is not scheduled again.  A
    batch stops there: no job is flagged done and the queue runner is not
    scheduled.  The video file written so far is then removed, and only
    that file; if it does not exist the callback raises FileNotFoundError
    after all of the above. *)
Theorem video_generation_loop_cancelled g :
  ffmpeg_encoding_status g = Running ->
  ConvertLoopExitRequested g = true ->
  let g' := exec video_generation_loop g in
  let video := (VideoTargetDir g, TargetVideoFilename g) in
  terminations g' = terminations g + 1 /\
  app_status_label g' = (CancelledByUser, red) /\
  dialogs g' = (dialogs g ++ [showinfo "FFMPEG encoding interrupted by user"])%list /\
  ConvertLoopRunning g' = false /\
  ConvertLoopExitRequested g' = false /\
  BatchJobRunning g' = false /\
  job_list g' = job_list g /\
  scheduled g' = scheduled g /\
  (forall other,
     video_exists (fs g') other =
     video_exists (fs g) other && negb (video_eqb video other)) /\
  result video_generation_loop g =
    (if video_exists (fs g) video then Return tt else Raise "FileNotFoundError").
Proof.
  intros Hstate Hx g' video. subst g' video.
  unfold exec, result.
  rewrite (video_generation_loop_cancelled_run g Hstate Hx). cbv zeta.
  unfold os_remove. step.
  match goal with |- context [video_exists (fs ?s) _] =>
    assert (Hfs : fs s = fs g) by (destruct (BatchJobRunning g); reflexivity);
    rewrite Hfs
  end.
  destruct (video_exists (fs g) (VideoTargetDir g, TargetVideoFilename g)) eqn:Ev.
  - unfold assign. cbn [fst snd]. destruct (BatchJobRunning g) eqn:Eb; simpl_state.
    all: repeat split; try reflexivity; try assumption.
    all: intros other; unfold video_exists; simpl_state; apply video_exists_removed.
  - unfold raise. cbn [fst snd]. destruct (BatchJobRunning g) eqn:Eb; simpl_state.
    all: repeat split; try reflexivity; try assumption.
    all: intros other;
      destruct (video_eqb (VideoTargetDir g, TargetVideoFilename g) other) eqn:Eo;
      cbn [negb]; rewrite ?andb_true_r, ?andb_false_r; try reflexivity.
    all: unfold video_exists in *.
    all: destruct (existsb (video_eqb other) (video_files (fs g))) eqn:Ex;
      [|reflexivity].
    all: exfalso; apply existsb_exists in Ex; destruct Ex as (r & Hin & Hr).
    all: assert (Hpr : existsb (video_eqb (VideoTargetDir g, TargetVideoFilename g))
                         (video_files (fs g)) = true);
      [|unfold fs in *; congruence].
    all: apply existsb_exists; exists r; split; [exact Hin|].
    all: destruct other as [o1 o2], r as [r1 r2]; unfold video_eqb in *;
      cbn [fst snd] in *.
    all: apply andb_true_iff in Eo, Hr; destruct Eo as [E1 E2], Hr as [R1 R2].
    all: apply String.eqb_eq in E1, E2, R1, R2; subst.
    all: now rewrite !String.eqb_refl.
Qed.

Lemma video_generation_loop_cancelled_witness :
  let g := ConvertLoopExitRequested_set true
             (ffmpeg_encoding_status_set Running
                (fs_set (with_video_files [("/out1", "film1.mp4"); ("/out1", "film0.mp4")]
                           sample_files) frames_listed)) in
  ffmpeg_encoding_status g = Running /\
  ConvertLoopExitRequested g = true /\
  result video_generation_loop g = Return tt /\
  terminations (exec video_generation_loop g) = 1.
Proof.
  intros g.
  destruct (video_generation_loop_cancelled g eq_refl eq_refl)
    as (Ht & _ & _ & _ & _ & _ & _ & _ & _ & Hr).
  split; [reflexivity|]. split; [reflexivity|]. split; [exact Hr|exact Ht].
Defined.
(** ** The template of the film type *)

Lemma film_view_resize_image img percent : preserves film_view (resize_image img percent).
Proof. unfold resize_image. frame. Qed.
#[local] Hint Resolve film_view_resize_image : frame.

Lemma film_view_adjust_hole_pattern_size : preserves film_view adjust_hole_pattern_size.
Proof. unfold adjust_hole_pattern_size. frame. Qed.
#[local] Hint Resolve film_view_adjust_hole_pattern_size : frame.

Lemma film_view_eq g a b c d :
  film_view g = (a, b, c, d) ->
  CustomTemplateDefined g = a /\ project_config g = b /\
  pattern_filename g = c /\ expected_pattern_pos g = d.
Proof. unfold film_view. intros H. injection H. intros. repeat split; assumption. Qed.

(** [ratio * 100] never raises: 100 is within the range of a float. *)
Lemma mul_100_returns ratio : exists percent, Py.mul ratio (Py.Int 100) = Return percent.
Proof. destruct ratio as [z|x]; eexists; reflexivity. Qed.

Lemma resize_image_run img percent g :
  resize_image img percent g =
  match resized_side (shape1 img) percent, resized_side (shape0 img) percent with
  | Return w, Return h => (Return (new_array h w (resized (cv2 g) img (w, h))), g)
  | Raise exn, _ | Return _, Raise exn => (Raise exn, g)
  end.
Proof.
  unfold resize_image.
  destruct (resized_side (shape1 img) percent) as [w|exn]; [|reflexivity].
  step. destruct (resized_side (shape0 img) percent) as [h|exn]; reflexivity.
Qed.

(** [adjust_hole_pattern_size] when it does rescale. *)
Lemma adjust_hole_pattern_size_run g :
  (film_hole_height g <=? 0) || CustomTemplateDefined g = false ->
  let ratio :=
    if String.eqb (cfg_FilmType (project_config g)) "S8" then
      Py.truediv (Py.Int (film_hole_height g)) (Py.Int default_hole_height_s8)
    else if String.eqb (cfg_FilmType (project_config g)) "R8" then
      Py.truediv (Py.Int (film_hole_height g)) (Py.Int default_interhole_height_r8)
    else Return (Py.Int 1) in
  adjust_hole_pattern_size g =
  match ratio with
  | Raise exn => (Raise exn, g)
  | Return ratio =>
      let logged := log_set (log g ++ [(DEBUG, HolePatternRatio ratio)]) g in
      match Py.mul ratio (Py.Int 100), film_hole_template g with
      | Raise exn, _ => (Raise exn, logged)
      | Return _, None => (Raise "AttributeError", logged)
      | Return percent, Some template =>
          match resize_image template percent logged with
          | (Return resized_, _) =>
              (Return tt, film_hole_template_set (Some resized_) logged)
          | (Raise exn, _) => (Raise exn, logged)
          end
      end
  end.
Proof.
  intros Htest ratio. subst ratio. unfold adjust_hole_pattern_size.
  do 2 step. rewrite Htest. step.
  assert (Hresize : forall template percent s,
            bind (resize_image template percent)
              (fun resized_ => assign (film_hole_template_set (Some resized_))) s =
            match resize_image template percent s with
            | (Return resized_, _) => (Return tt, film_hole_template_set (Some resized_) s)
            | (Raise exn, _) => (Raise exn, s)
            end).
  { intros template percent s. unfold bind. rewrite resize_image_run.
    destruct (resized_side (shape1 template) percent) as [w|exn]; [|reflexivity].
    destruct (resized_side (shape0 template) percent) as [h|exn]; reflexivity. }
  destruct (String.eqb (cfg_FilmType (project_config g)) "S8");
    [|destruct (String.eqb (cfg_FilmType (project_config g)) "R8")].
  1, 2: match goal with |- context [lift ?r] => destruct r as [ratio|exn] end;
    [|reflexivity].
  all: do 3 step; simpl_state.
  all: match goal with |- context [Py.mul ?r ?c] =>
         destruct (Py.mul r c) as [percent|exn]; [|reflexivity] end.
  all: step; destruct (film_hole_template g) as [template|]; [|reflexivity].
  all: cbn [not_none]; step; apply Hresize.
Qed.

(** [set_film_type] up to the adjustment of the template. *)
Lemma set_film_type_prefix g :
  let custom := CustomTemplateDefined g && isfile (fs g) (pattern_filename_custom g) in
  exists s,
    set_film_type g =
    (adjust_hole_pattern_size ;;
     hole_height <- get film_hole_height ;;
     logging DEBUG (FilmType_ (film_type g) hole_height)) s /\
    film_view s =
      (custom, with_FilmType (film_type g) (project_config g),
       fst (if custom then (pattern_filename_custom g, expected_pattern_pos_custom g)
            else if String.eqb (film_type g) "S8"
            then (pattern_filename_s8, expected_pattern_pos_s8)
            else if String.eqb (film_type g) "R8"
            then (pattern_filename_r8, expected_pattern_pos_r8)
            else (pattern_filename g, expected_pattern_pos g)),
       snd (if custom then (pattern_filename_custom g, expected_pattern_pos_custom g)
            else if String.eqb (film_type g) "S8"
            then (pattern_filename_s8, expected_pattern_pos_s8)
            else if String.eqb (film_type g) "R8"
            then (pattern_filename_r8, expected_pattern_pos_r8)
            else (pattern_filename g, expected_pattern_pos g))) /\
    film_hole_template s = imread (fs g) (pattern_filename s) /\
    film_hole_height s = film_hole_height g /\
    log s = log g.
Proof.
  intros custom. subst custom. unfold set_film_type, os_path_isfile.
  destruct (CustomTemplateDefined g) eqn:Ec;
    [destruct (isfile (fs g) (pattern_filename_custom g)) eqn:Ei|]; cbn [andb].
  2, 3: destruct (String.eqb (film_type g) "S8") eqn:E8;
    [|destruct (String.eqb (film_type g) "R8") eqn:ER].
  all: do 6 (run; fold_globals; rewrite ?Ec, ?Ei, ?E8, ?ER; cbn [negb]).
  all: eexists; split; [reflexivity|]; repeat split.
  all: unfold film_view; simpl_state; now rewrite Ec.
Qed.


(** ** A batch run *)

(** *** What leaves the directories and the files alone *)

Lemma dirs_view_resize_image img percent : preserves dirs_view (resize_image img percent).
Proof. unfold resize_image. frame. Qed.
#[local] Hint Resolve dirs_view_resize_image : frame.

Lemma dirs_view_adjust_hole_pattern_size : preserves dirs_view adjust_hole_pattern_size.
Proof. unfold adjust_hole_pattern_size. frame. Qed.
#[local] Hint Resolve dirs_view_adjust_hole_pattern_size : frame.

Lemma dirs_view_set_film_type : preserves dirs_view set_film_type.
Proof. unfold set_film_type. frame. Qed.
#[local] Hint Resolve dirs_view_set_film_type : frame.

Lemma dirs_view_match_template t img thres : preserves dirs_view (match_template t img thres).
Proof. unfold match_template. frame. Qed.
#[local] Hint Resolve dirs_view_match_template : frame.

Lemma dirs_view_get_image_left_stripe img : preserves dirs_view (get_image_left_stripe img).
Proof. unfold get_image_left_stripe. frame. Qed.
#[local] Hint Resolve dirs_view_get_image_left_stripe : frame.

Lemma dirs_view_messagebox_askyesno t : preserves dirs_view (messagebox_askyesno t).
Proof. unfold messagebox_askyesno. frame. Qed.
#[local] Hint Resolve dirs_view_messagebox_askyesno : frame.

Lemma dirs_view_determine_hole_height img : preserves dirs_view (determine_hole_height img).
Proof. unfold determine_hole_height. frame. Qed.
#[local] Hint Resolve dirs_view_determine_hole_height : frame.

Lemma dirs_view_select_hole_height img : preserves dirs_view (select_hole_height img).
Proof. unfold select_hole_height. frame. Qed.
#[local] Hint Resolve dirs_view_select_hole_height : frame.

Lemma dirs_view_set_hole_search_area img : preserves dirs_view (set_hole_search_area img).
Proof. unfold set_hole_search_area. frame. Qed.
#[local] Hint Resolve dirs_view_set_hole_search_area : frame.

Lemma dirs_view_validate_template_size : preserves dirs_view validate_template_size.
Proof. unfold validate_template_size. frame. Qed.
#[local] Hint Resolve dirs_view_validate_template_size : frame.

Lemma dirs_view_generation_exit : preserves dirs_view generation_exit.
Proof. unfold generation_exit. frame. Qed.
#[local] Hint Resolve dirs_view_generation_exit : frame.

Lemma dirs_view_get_source_dir_file_list : preserves dirs_view get_source_dir_file_list.
Proof. unfold get_source_dir_file_list. frame. Qed.
#[local] Hint Resolve dirs_view_get_source_dir_file_list : frame.

Lemma dirs_view_get_target_dir_file_list : preserves dirs_view get_target_dir_file_list.
Proof. unfold get_target_dir_file_list. frame. Qed.
#[local] Hint Resolve dirs_view_get_target_dir_file_list : frame.

Lemma dirs_view_start_convert : preserves dirs_view start_convert.
Proof. unfold start_convert. frame. Qed.
#[local] Hint Resolve dirs_view_start_convert : frame.

Lemma dirs_view_eq g a b c d :
  dirs_view g = (a, b, c, d) ->
  SourceDir g = a /\ TargetDir g = b /\ VideoTargetDir g = c /\ fs g = d.
Proof. unfold dirs_view. intros H. injection H. intros. repeat split; assumption. Qed.

(** *** Starting a job *)

Lemma job_processing_for_first_entry entries k ks :
  pending entries = k :: ks ->
  exists j,
    In (k, j) entries /\ done j = false /\
    job_processing_for entries =
    (assign (CurrentJobEntry_set (Some k)) ;;
     logging INFO (ProcessingJob k (cfg_CurrentFrame (job_project j))
                                 (cfg_FramesToEncode (job_project j))) ;;
     assign (project_config_from_file_set false) ;;
     assign (project_config_set (job_project j)) ;;
     decode_project_config ;;
     get_source_dir_file_list ;;
     get_target_dir_file_list ;;
     start_convert ;;
     ret true).
Proof.
  unfold pending. induction entries as [|[k' j] rest IH]; intros H; [discriminate|].
  cbn [filter snd] in H. cbn [job_processing_for].
  destruct (done j) eqn:Hd; cbn [negb] in *.
  - destruct (IH H) as (j' & Hin & Hd' & Heq). exists j'.
    split; [now right|]. split; assumption.
  - cbn [map fst] in H. injection H as -> _. exists j.
    split; [now left|]. split; [exact Hd|reflexivity].
Qed.

Lemma job_processing_loop_starts g k ks :
  pending (job_list g) = k :: ks ->
  exists j,
    In (k, j) (job_list g) /\ done j = false /\
    job_processing_loop g =
      (decode_project_config ;; get_source_dir_file_list ;;
       get_target_dir_file_list ;; start_convert) (job_loaded k j g).
Proof.
  intros Hp. destruct (job_processing_for_first_entry _ _ _ Hp) as (j & Hin & Hd & E).
  exists j. split; [exact Hin|]. split; [exact Hd|].
  unfold job_processing_loop. step. rewrite E.
  cbv [bind assign ret logging get job_loaded].
  destruct (decode_project_config _) as [[[]|exn] g1]; [|reflexivity].
  destruct (get_source_dir_file_list _) as [[[]|exn] g2]; [|reflexivity].
  destruct (get_target_dir_file_list _) as [[[]|exn] g3]; [|reflexivity].
  destruct (start_convert _) as [[[]|exn] g4]; reflexivity.
Qed.

Lemma job_processing_loop_directories g k j :
  job_processing_loop g =
    (decode_project_config ;; get_source_dir_file_list ;;
     get_target_dir_file_list ;; start_convert) (job_loaded k j g) ->
  let p := job_project j in
  let target := if isdir (fs g) (cfg_TargetDir p) then cfg_TargetDir p else "" in
  dirs_view (exec job_processing_loop g) =
  ((if isdir (fs g) (cfg_SourceDir p) then cfg_SourceDir p else ""),
   target,
   (if isdir (fs g) (cfg_VideoTargetDir p) then cfg_VideoTargetDir p else target),
   fs g).
Proof.
  intros E p target. subst p target. unfold exec. rewrite E.
  pose proof (decode_project_config_view (job_loaded k j g)) as H. cbv zeta in H.
  apply project_view_eq in H. destruct H as (Hs & Ht & Hv & _ & _ & _ & Hfs).
  change (project_config (job_loaded k j g)) with (job_project j) in *.
  change (fs (job_loaded k j g)) with (fs g) in *.
  transitivity (dirs_view (snd (decode_project_config (job_loaded k j g)))).
  - unfold bind at 1.
    destruct (decode_project_config (job_loaded k j g)) as [[[]|exn] g1];
      [|reflexivity].
    cbn [snd].
    assert (Hrest : preserves dirs_view
                      (get_source_dir_file_list ;; get_target_dir_file_list ;;
                       start_convert)) by frame.
    apply Hrest.
  - unfold dirs_view. now rewrite Hs, Ht, Hv, Hfs.
Qed.


